(** * ca821x-posix-thread: the hard-MAC platform radio (src/platform/radio.c)

    A shallow embedding of the OpenThread platform radio that drives the
    Cascoda CA-821x MAC co-processor: the frame codec
    ([otPlatRadioTransmit], [handleDataIndication]), the in-transit table,
    the radio state machine, the scan driver, the device-table synchronizer
    and the promiscuous cache, followed by the properties of the
    specification that were checked against them.

    Conventions.  Every C integer is a [Z]; the wrap-around of a [uint8_t],
    [uint16_t] or [uint32_t] is written out with [u8], [u16], [u32].  A byte
    buffer is a [list Z] indexed from 0.  The process-wide variables of
    radio.c are the fields of the record [radio]; a function of radio.c is a
    function from [radio] to a [run], which is the returned value with the
    new state, or the fact that the call never returns (it waits on a mutex
    nobody will release) or that it dies in [assert].  Calls into the
    co-processor and callbacks into the stack are appended to the field
    [trace] in the order the code issues them; what the co-processor or the
    stack answers is an argument of the function that asks. *)

From Stdlib Require Import ZArith List Bool Lia.
From stdpp Require Import base list relations.
Import ListNotations.

Local Open Scope Z_scope.

(** ** Machine integers and byte buffers *)

Definition u8 (x : Z) : Z := x mod 256.
Definition u16 (x : Z) : Z := x mod 65536.
Definition u32 (x : Z) : Z := x mod 4294967296.

(** [p[i]] for a byte pointer into a buffer.  A read past the end of the
    list, which C leaves undefined, gives 0 here. *)
Definition rd (buf : list Z) (i : Z) : Z := default 0 (buf !! Z.to_nat i).

(** The [n] bytes a [memcpy] reads at [p + off]. *)
Definition bytes_at (buf : list Z) (off n : Z) : list Z :=
  take (Z.to_nat n) (drop (Z.to_nat off) buf).

(** [memcpy(buf + off, src, |src|)] and [buf[off] = v]. *)
Definition memcpy (buf : list Z) (off : Z) (src : list Z) : list Z :=
  list_inserts (Z.to_nat off) src buf.

Definition wr (buf : list Z) (off v : Z) : list Z :=
  <[Z.to_nat off := v]> buf.

Definition is_byte (b : Z) : Prop := 0 <= b < 256.
Definition is_bytes (n : nat) (l : list Z) : Prop :=
  length l = n /\ Forall is_byte l.

#[global] Instance is_byte_dec (b : Z) : Decision (is_byte b).
Proof. unfold is_byte. apply _. Defined.

(** Modelled from the spec: the macros [GETLE16] and [PUTLE16] of the
    Cascoda API headers, which are not part of the sources at hand; the
    specification calls the two-byte fields little-endian. *)
Definition GETLE16 (p : list Z) : Z := rd p 0 + 256 * rd p 1.
Definition PUTLE16 (x : Z) (buf : list Z) : list Z :=
  wr (wr buf 0 (Z.land x 255)) 1 (Z.land (Z.shiftr x 8) 255).
Definition LE16 (x : Z) : list Z := [Z.land x 255; Z.land (Z.shiftr x 8) 255].

(** ** Constants of IEEE 802.15.4 used by radio.c *)

(** Modelled from the spec: the frame-control masks of ieee_802_15_4.h,
    which is not part of the sources at hand.  The values are those of IEEE
    802.15.4-2006 and agree with the frame-control words 0x8861 and 0x8869
    of the specification's scenarios (data frame, acknowledgement request,
    PAN compression, short addresses, security enabled). *)
Definition MAC_FC_FT_MASK : Z := 0x0007.
Definition MAC_FC_FT_DATA : Z := 0x0001.
Definition MAC_FC_FT_COMMAND : Z := 0x0003.
Definition MAC_FC_SEC_ENA : Z := 0x0008.
Definition MAC_FC_ACK_REQ : Z := 0x0020.
Definition MAC_FC_PAN_COMP : Z := 0x0040.
Definition MAC_FC_DAM (fc : Z) : Z := Z.land (Z.shiftr fc 10) 3.
Definition MAC_FC_SAM (fc : Z) : Z := Z.land (Z.shiftr fc 14) 3.
Definition MAC_MODE_SHORT_ADDR : Z := 2.
Definition MAC_MODE_LONG_ADDR : Z := 3.
Definition aMaxPHYPacketSize : Z := 127.
Definition MAC_SUCCESS : Z := 0.
Definition MAC_NO_DATA : Z := 0xEB.
Definition MAC_CHANNEL_ACCESS_FAILURE : Z := 0xE1.
Definition MAC_NO_ACK : Z := 0xE9.
Definition MAC_TRANSACTION_EXPIRED : Z := 0xF0.
Definition MAC_TRANSACTION_OVERFLOW : Z := 0xF1.
Definition MAC_SCAN_IN_PROGRESS : Z := 0xFC.

(** The macros at the head of radio.c. *)
Definition MAC_SC_SECURITYLEVEL (sc : Z) : Z := Z.land sc 7.
Definition MAC_SC_KEYIDMODE (sc : Z) : Z := Z.land (Z.shiftr sc 3) 3.
Definition MAC_KEYIDMODE_SC (keyidmode : Z) : Z := Z.shiftl (Z.land keyidmode 3) 3.
Definition MAC_BASEHEADERLENGTH : Z := 3.
Definition IEEE802154_MAX_LENGTH : nat := 127.
Definition MAX_INTRANSITS : nat := 7.

(** ** Data model *)

(** Modelled from the spec: the enumerations [PhyState] and [ThreadError]
    come from headers that are not part of the sources at hand; radio.c
    uses exactly these enumerators. *)
Inductive PhyState : Type :=
  | kStateDisabled
  | kStateSleep
  | kStateReceive
  | kStateTransmit.

Inductive ThreadError : Type :=
  | kThreadError_None
  | kThreadError_Busy
  | kThreadError_Abort
  | kThreadError_Failed
  | kThreadError_NoAck
  | kThreadError_ChannelAccessFailure.

Inductive tristateCache : Type :=
  | tristate_disabled
  | tristate_enabled
  | tristate_uninit.

#[global] Instance PhyState_eq_dec : EqDecision PhyState.
Proof. solve_decision. Defined.
#[global] Instance ThreadError_eq_dec : EqDecision ThreadError.
Proof. solve_decision. Defined.
#[global] Instance tristateCache_eq_dec : EqDecision tristateCache.
Proof. solve_decision. Defined.

(** [RadioPacket.mPsdu] is a pointer; it only ever points to one of the two
    static buffers, so a packet copied by value shares its bytes with the
    buffer it names. *)
Inductive psdu_ref : Type :=
  | ref_sTransmitPsdu
  | ref_sReceivePsdu.

Record RadioPacket : Type := mkRadioPacket {
  mPsdu : psdu_ref;
  mLength : Z;
  mChannel : Z;
  mPower : Z;
  mLqi : Z;
  mDirectTransmission : bool;
  mTransmitContext : Z
}.

Record FullAddr : Type := mkFullAddr {
  AddressMode : Z;
  PANId : list Z;
  Address : list Z
}.

Record SecSpec : Type := mkSecSpec {
  SecurityLevel : Z;
  KeyIdMode : Z;
  KeySource : list Z;
  KeyIndex : Z
}.

(** [struct SecSpec x = {0}]. *)
Definition SecSpec_zero : SecSpec :=
  mkSecSpec 0 0 (replicate 8 0) 0.

Record MCPS_DATA_request_pset : Type := mkDataRequest {
  SrcAddrMode : Z;
  Dst : FullAddr;
  MsduLength : Z;
  MsduHandle : Z;
  TxOptions : Z;
  Msdu : list Z
}.

Record MCPS_DATA_indication_pset : Type := mkDataIndication {
  ind_Src : FullAddr;
  ind_Dst : FullAddr;
  ind_MsduLength : Z;
  ind_MpduLinkQuality : Z;
  ind_Msdu : list Z;
  ind_Security : SecSpec
}.

Record MCPS_DATA_confirm_pset : Type := mkDataConfirm {
  cnf_MsduHandle : Z;
  cnf_Status : Z
}.

(** The co-processor's device descriptor and the composite key descriptor
    that [keyChangeCallback] declares locally. *)
Record M_DeviceDescriptor : Type := mkDeviceDescriptor {
  dd_PANId : list Z;
  dd_ShortAddress : list Z;
  dd_ExtAddress : list Z;
  dd_FrameCounter : list Z;
  dd_Exempt : Z
}.

Record M_KeyDescriptor_thread : Type := mkKeyDescriptor {
  KeyIdLookupListEntries : Z;
  KeyDeviceListEntries : Z;
  KeyUsageListEntries : Z;
  Key : list Z;
  LookupDataSizeCode : Z;
  LookupData : list Z;
  flags : list Z
}.

(** Modelled from the spec: the Thread stack is an opaque collaborator that
    offers role queries, neighbour enumeration and key derivation; none of
    it is part of the sources at hand.  [otInstance] records what the
    stack's getters answer: [ot_ChildInfoByIndex i] is what
    [otGetChildInfoByIndex] writes for index [i], [ot_NeighborRouters] the
    routers [otGetNeighborRouterInfo] enumerates (it writes at most
    [maxRouters] of them), [ot_ParentInfo] the parent when [otGetParentInfo]
    succeeds, [ot_MacKey] the function [getMacKeyFromSequenceCounter]. *)
Inductive otDeviceRole : Type :=
  | kDeviceRoleDisabled
  | kDeviceRoleDetached
  | kDeviceRoleChild
  | kDeviceRoleRouter
  | kDeviceRoleLeader.

#[global] Instance otDeviceRole_eq_dec : EqDecision otDeviceRole.
Proof. solve_decision. Defined.

Record otChildInfo : Type := mkChildInfo {
  ci_mExtAddress : list Z;
  ci_mRloc16 : Z
}.

Record otRouterInfo : Type := mkRouterInfo {
  ri_mExtAddress : list Z;
  ri_mRloc16 : Z
}.

Record otInstance : Type := mkInstance {
  ot_InterfaceUp : bool;
  ot_DeviceRole : otDeviceRole;
  ot_PanId : Z;
  ot_KeySequenceCounter : Z;
  ot_ChildInfoByIndex : Z -> otChildInfo;
  ot_NeighborRouters : list otRouterInfo;
  ot_ParentInfo : option otRouterInfo;
  ot_MacKey : Z -> list Z
}.

Definition otSetKeySequenceCounter (v : Z) (o : otInstance) : otInstance :=
  mkInstance (ot_InterfaceUp o) (ot_DeviceRole o) (ot_PanId o) v
    (ot_ChildInfoByIndex o) (ot_NeighborRouters o) (ot_ParentInfo o)
    (ot_MacKey o).

Record otEnergyScanResult : Type := mkEnergyScanResult {
  es_mChannel : Z;
  es_mMaxRssi : Z
}.

(** What leaves radio.c: requests to the co-processor and callbacks into
    the stack, in the order they are made.  A callback that receives a
    pointer to a static frame is recorded with the value of the frame and
    of its buffer at the time of the call. *)
Inductive event : Type :=
  | MLME_SET_phyCurrentChannel (channel : Z)
  | MLME_SET_macPromiscuousMode (enable : Z)
  | MLME_GET_macPromiscuousMode
  | MLME_SET_macDeviceTable (index : Z) (d : M_DeviceDescriptor)
  | MLME_SET_macDeviceTableEntries (count : Z)
  | MLME_SET_macKeyTable (index : Z) (len : Z) (k : M_KeyDescriptor_thread)
  | MLME_SET_macKeyTableEntries (count : Z)
  | HWME_SET_POWERCON (value : list Z)
  | MLME_SCAN_request (ScanType ScanChannels ScanDuration : Z)
  | MCPS_DATA_request (req : MCPS_DATA_request_pset) (sec : SecSpec)
  | MLME_POLL_request_sync (coord : FullAddr) (sec : SecSpec)
  | otPlatRadioTransmitDone (aFramePending : bool) (err : ThreadError)
      (context : Z)
  | otPlatRadioReceiveDone (frame : RadioPacket) (psdu : list Z)
      (err : ThreadError)
  | ActiveScanCallback_NULL (callback context : Z)
  | EnergyScanCallback (callback context : Z)
      (result : option otEnergyScanResult)
  | otPlatLog_Warn
  | otPlatLog_Debg.

(** ** The process-wide state of radio.c

    [handle] is the function-local [static uint8_t handle] of
    [otPlatRadioTransmit].  A mutex is [true] while it is locked.
    [IntransitHandles] and [IntransitPackets] are arrays of
    [MAX_INTRANSITS] elements, the two PSDU buffers arrays of
    [IEEE802154_MAX_LENGTH] bytes. *)
Record radio : Type := mkRadio {
  sState : PhyState;
  handle : Z;
  IntransitHandles : list Z;
  IntransitPackets : list RadioPacket;
  intransit_mutex : bool;
  sTransmitFrame : RadioPacket;
  sReceiveFrame : RadioPacket;
  sTransmitPsdu : list Z;
  sReceivePsdu : list Z;
  receiveFrame_mutex : bool;
  sTransmitError : ThreadError;
  sReceiveError : ThreadError;
  sChannel : Z;
  sPromiscuousCache : tristateCache;
  sActiveScanCallback : Z;
  sActiveScanContext : Z;
  sActiveScanInProgress : Z;
  sEnergyScanCallback : Z;
  sEnergyScanContext : Z;
  sEnergyScanInProgress : Z;
  sEnergyScanMask : Z;
  sCurDeviceTableSize : Z;
  noiseFloor : Z;
  ot : otInstance;
  trace : list event
}.

(** The assignments [field = v], one per variable. *)
Definition set_sState (v : PhyState) (s : radio) : radio :=
  mkRadio v (handle s) (IntransitHandles s) (IntransitPackets s)
    (intransit_mutex s) (sTransmitFrame s) (sReceiveFrame s)
    (sTransmitPsdu s) (sReceivePsdu s) (receiveFrame_mutex s)
    (sTransmitError s) (sReceiveError s) (sChannel s) (sPromiscuousCache s)
    (sActiveScanCallback s) (sActiveScanContext s) (sActiveScanInProgress s)
    (sEnergyScanCallback s) (sEnergyScanContext s) (sEnergyScanInProgress s)
    (sEnergyScanMask s) (sCurDeviceTableSize s) (noiseFloor s) (ot s)
    (trace s).
Definition set_handle (v : Z) (s : radio) : radio :=
  mkRadio (sState s) v (IntransitHandles s) (IntransitPackets s)
    (intransit_mutex s) (sTransmitFrame s) (sReceiveFrame s)
    (sTransmitPsdu s) (sReceivePsdu s) (receiveFrame_mutex s)
    (sTransmitError s) (sReceiveError s) (sChannel s) (sPromiscuousCache s)
    (sActiveScanCallback s) (sActiveScanContext s) (sActiveScanInProgress s)
    (sEnergyScanCallback s) (sEnergyScanContext s) (sEnergyScanInProgress s)
    (sEnergyScanMask s) (sCurDeviceTableSize s) (noiseFloor s) (ot s)
    (trace s).
Definition set_IntransitHandles (v : list Z) (s : radio) : radio :=
  mkRadio (sState s) (handle s) v (IntransitPackets s) (intransit_mutex s)
    (sTransmitFrame s) (sReceiveFrame s) (sTransmitPsdu s) (sReceivePsdu s)
    (receiveFrame_mutex s) (sTransmitError s) (sReceiveError s) (sChannel s)
    (sPromiscuousCache s) (sActiveScanCallback s) (sActiveScanContext s)
    (sActiveScanInProgress s) (sEnergyScanCallback s) (sEnergyScanContext s)
    (sEnergyScanInProgress s) (sEnergyScanMask s) (sCurDeviceTableSize s)
    (noiseFloor s) (ot s) (trace s).
Definition set_IntransitPackets (v : list RadioPacket) (s : radio) : radio :=
  mkRadio (sState s) (handle s) (IntransitHandles s) v (intransit_mutex s)
    (sTransmitFrame s) (sReceiveFrame s) (sTransmitPsdu s) (sReceivePsdu s)
    (receiveFrame_mutex s) (sTransmitError s) (sReceiveError s) (sChannel s)
    (sPromiscuousCache s) (sActiveScanCallback s) (sActiveScanContext s)
    (sActiveScanInProgress s) (sEnergyScanCallback s) (sEnergyScanContext s)
    (sEnergyScanInProgress s) (sEnergyScanMask s) (sCurDeviceTableSize s)
    (noiseFloor s) (ot s) (trace s).
Definition set_intransit_mutex (v : bool) (s : radio) : radio :=
  mkRadio (sState s) (handle s) (IntransitHandles s) (IntransitPackets s) v
    (sTransmitFrame s) (sReceiveFrame s) (sTransmitPsdu s) (sReceivePsdu s)
    (receiveFrame_mutex s) (sTransmitError s) (sReceiveError s) (sChannel s)
    (sPromiscuousCache s) (sActiveScanCallback s) (sActiveScanContext s)
    (sActiveScanInProgress s) (sEnergyScanCallback s) (sEnergyScanContext s)
    (sEnergyScanInProgress s) (sEnergyScanMask s) (sCurDeviceTableSize s)
    (noiseFloor s) (ot s) (trace s).
Definition set_sTransmitFrame (v : RadioPacket) (s : radio) : radio :=
  mkRadio (sState s) (handle s) (IntransitHandles s) (IntransitPackets s)
    (intransit_mutex s) v (sReceiveFrame s) (sTransmitPsdu s)
    (sReceivePsdu s) (receiveFrame_mutex s) (sTransmitError s)
    (sReceiveError s) (sChannel s) (sPromiscuousCache s)
    (sActiveScanCallback s) (sActiveScanContext s) (sActiveScanInProgress s)
    (sEnergyScanCallback s) (sEnergyScanContext s) (sEnergyScanInProgress s)
    (sEnergyScanMask s) (sCurDeviceTableSize s) (noiseFloor s) (ot s)
    (trace s).
Definition set_sReceiveFrame (v : RadioPacket) (s : radio) : radio :=
  mkRadio (sState s) (handle s) (IntransitHandles s) (IntransitPackets s)
    (intransit_mutex s) (sTransmitFrame s) v (sTransmitPsdu s)
    (sReceivePsdu s) (receiveFrame_mutex s) (sTransmitError s)
    (sReceiveError s) (sChannel s) (sPromiscuousCache s)
    (sActiveScanCallback s) (sActiveScanContext s) (sActiveScanInProgress s)
    (sEnergyScanCallback s) (sEnergyScanContext s) (sEnergyScanInProgress s)
    (sEnergyScanMask s) (sCurDeviceTableSize s) (noiseFloor s) (ot s)
    (trace s).
Definition set_sTransmitPsdu (v : list Z) (s : radio) : radio :=
  mkRadio (sState s) (handle s) (IntransitHandles s) (IntransitPackets s)
    (intransit_mutex s) (sTransmitFrame s) (sReceiveFrame s) v
    (sReceivePsdu s) (receiveFrame_mutex s) (sTransmitError s)
    (sReceiveError s) (sChannel s) (sPromiscuousCache s)
    (sActiveScanCallback s) (sActiveScanContext s) (sActiveScanInProgress s)
    (sEnergyScanCallback s) (sEnergyScanContext s) (sEnergyScanInProgress s)
    (sEnergyScanMask s) (sCurDeviceTableSize s) (noiseFloor s) (ot s)
    (trace s).
Definition set_sReceivePsdu (v : list Z) (s : radio) : radio :=
  mkRadio (sState s) (handle s) (IntransitHandles s) (IntransitPackets s)
    (intransit_mutex s) (sTransmitFrame s) (sReceiveFrame s)
    (sTransmitPsdu s) v (receiveFrame_mutex s) (sTransmitError s)
    (sReceiveError s) (sChannel s) (sPromiscuousCache s)
    (sActiveScanCallback s) (sActiveScanContext s) (sActiveScanInProgress s)
    (sEnergyScanCallback s) (sEnergyScanContext s) (sEnergyScanInProgress s)
    (sEnergyScanMask s) (sCurDeviceTableSize s) (noiseFloor s) (ot s)
    (trace s).
Definition set_receiveFrame_mutex (v : bool) (s : radio) : radio :=
  mkRadio (sState s) (handle s) (IntransitHandles s) (IntransitPackets s)
    (intransit_mutex s) (sTransmitFrame s) (sReceiveFrame s)
    (sTransmitPsdu s) (sReceivePsdu s) v (sTransmitError s)
    (sReceiveError s) (sChannel s) (sPromiscuousCache s)
    (sActiveScanCallback s) (sActiveScanContext s) (sActiveScanInProgress s)
    (sEnergyScanCallback s) (sEnergyScanContext s) (sEnergyScanInProgress s)
    (sEnergyScanMask s) (sCurDeviceTableSize s) (noiseFloor s) (ot s)
    (trace s).
Definition set_sTransmitError (v : ThreadError) (s : radio) : radio :=
  mkRadio (sState s) (handle s) (IntransitHandles s) (IntransitPackets s)
    (intransit_mutex s) (sTransmitFrame s) (sReceiveFrame s)
    (sTransmitPsdu s) (sReceivePsdu s) (receiveFrame_mutex s) v
    (sReceiveError s) (sChannel s) (sPromiscuousCache s)
    (sActiveScanCallback s) (sActiveScanContext s) (sActiveScanInProgress s)
    (sEnergyScanCallback s) (sEnergyScanContext s) (sEnergyScanInProgress s)
    (sEnergyScanMask s) (sCurDeviceTableSize s) (noiseFloor s) (ot s)
    (trace s).
Definition set_sReceiveError (v : ThreadError) (s : radio) : radio :=
  mkRadio (sState s) (handle s) (IntransitHandles s) (IntransitPackets s)
    (intransit_mutex s) (sTransmitFrame s) (sReceiveFrame s)
    (sTransmitPsdu s) (sReceivePsdu s) (receiveFrame_mutex s)
    (sTransmitError s) v (sChannel s) (sPromiscuousCache s)
    (sActiveScanCallback s) (sActiveScanContext s) (sActiveScanInProgress s)
    (sEnergyScanCallback s) (sEnergyScanContext s) (sEnergyScanInProgress s)
    (sEnergyScanMask s) (sCurDeviceTableSize s) (noiseFloor s) (ot s)
    (trace s).
Definition set_sChannel (v : Z) (s : radio) : radio :=
  mkRadio (sState s) (handle s) (IntransitHandles s) (IntransitPackets s)
    (intransit_mutex s) (sTransmitFrame s) (sReceiveFrame s)
    (sTransmitPsdu s) (sReceivePsdu s) (receiveFrame_mutex s)
    (sTransmitError s) (sReceiveError s) v (sPromiscuousCache s)
    (sActiveScanCallback s) (sActiveScanContext s) (sActiveScanInProgress s)
    (sEnergyScanCallback s) (sEnergyScanContext s) (sEnergyScanInProgress s)
    (sEnergyScanMask s) (sCurDeviceTableSize s) (noiseFloor s) (ot s)
    (trace s).
Definition set_sPromiscuousCache (v : tristateCache) (s : radio) : radio :=
  mkRadio (sState s) (handle s) (IntransitHandles s) (IntransitPackets s)
    (intransit_mutex s) (sTransmitFrame s) (sReceiveFrame s)
    (sTransmitPsdu s) (sReceivePsdu s) (receiveFrame_mutex s)
    (sTransmitError s) (sReceiveError s) (sChannel s) v
    (sActiveScanCallback s) (sActiveScanContext s) (sActiveScanInProgress s)
    (sEnergyScanCallback s) (sEnergyScanContext s) (sEnergyScanInProgress s)
    (sEnergyScanMask s) (sCurDeviceTableSize s) (noiseFloor s) (ot s)
    (trace s).
Definition set_sActiveScanCallback (v : Z) (s : radio) : radio :=
  mkRadio (sState s) (handle s) (IntransitHandles s) (IntransitPackets s)
    (intransit_mutex s) (sTransmitFrame s) (sReceiveFrame s)
    (sTransmitPsdu s) (sReceivePsdu s) (receiveFrame_mutex s)
    (sTransmitError s) (sReceiveError s) (sChannel s) (sPromiscuousCache s)
    v (sActiveScanContext s) (sActiveScanInProgress s)
    (sEnergyScanCallback s) (sEnergyScanContext s) (sEnergyScanInProgress s)
    (sEnergyScanMask s) (sCurDeviceTableSize s) (noiseFloor s) (ot s)
    (trace s).
Definition set_sActiveScanContext (v : Z) (s : radio) : radio :=
  mkRadio (sState s) (handle s) (IntransitHandles s) (IntransitPackets s)
    (intransit_mutex s) (sTransmitFrame s) (sReceiveFrame s)
    (sTransmitPsdu s) (sReceivePsdu s) (receiveFrame_mutex s)
    (sTransmitError s) (sReceiveError s) (sChannel s) (sPromiscuousCache s)
    (sActiveScanCallback s) v (sActiveScanInProgress s)
    (sEnergyScanCallback s) (sEnergyScanContext s) (sEnergyScanInProgress s)
    (sEnergyScanMask s) (sCurDeviceTableSize s) (noiseFloor s) (ot s)
    (trace s).
Definition set_sActiveScanInProgress (v : Z) (s : radio) : radio :=
  mkRadio (sState s) (handle s) (IntransitHandles s) (IntransitPackets s)
    (intransit_mutex s) (sTransmitFrame s) (sReceiveFrame s)
    (sTransmitPsdu s) (sReceivePsdu s) (receiveFrame_mutex s)
    (sTransmitError s) (sReceiveError s) (sChannel s) (sPromiscuousCache s)
    (sActiveScanCallback s) (sActiveScanContext s) v (sEnergyScanCallback s)
    (sEnergyScanContext s) (sEnergyScanInProgress s) (sEnergyScanMask s)
    (sCurDeviceTableSize s) (noiseFloor s) (ot s) (trace s).
Definition set_sEnergyScanCallback (v : Z) (s : radio) : radio :=
  mkRadio (sState s) (handle s) (IntransitHandles s) (IntransitPackets s)
    (intransit_mutex s) (sTransmitFrame s) (sReceiveFrame s)
    (sTransmitPsdu s) (sReceivePsdu s) (receiveFrame_mutex s)
    (sTransmitError s) (sReceiveError s) (sChannel s) (sPromiscuousCache s)
    (sActiveScanCallback s) (sActiveScanContext s) (sActiveScanInProgress s)
    v (sEnergyScanContext s) (sEnergyScanInProgress s) (sEnergyScanMask s)
    (sCurDeviceTableSize s) (noiseFloor s) (ot s) (trace s).
Definition set_sEnergyScanContext (v : Z) (s : radio) : radio :=
  mkRadio (sState s) (handle s) (IntransitHandles s) (IntransitPackets s)
    (intransit_mutex s) (sTransmitFrame s) (sReceiveFrame s)
    (sTransmitPsdu s) (sReceivePsdu s) (receiveFrame_mutex s)
    (sTransmitError s) (sReceiveError s) (sChannel s) (sPromiscuousCache s)
    (sActiveScanCallback s) (sActiveScanContext s) (sActiveScanInProgress s)
    (sEnergyScanCallback s) v (sEnergyScanInProgress s) (sEnergyScanMask s)
    (sCurDeviceTableSize s) (noiseFloor s) (ot s) (trace s).
Definition set_sEnergyScanInProgress (v : Z) (s : radio) : radio :=
  mkRadio (sState s) (handle s) (IntransitHandles s) (IntransitPackets s)
    (intransit_mutex s) (sTransmitFrame s) (sReceiveFrame s)
    (sTransmitPsdu s) (sReceivePsdu s) (receiveFrame_mutex s)
    (sTransmitError s) (sReceiveError s) (sChannel s) (sPromiscuousCache s)
    (sActiveScanCallback s) (sActiveScanContext s) (sActiveScanInProgress s)
    (sEnergyScanCallback s) (sEnergyScanContext s) v (sEnergyScanMask s)
    (sCurDeviceTableSize s) (noiseFloor s) (ot s) (trace s).
Definition set_sEnergyScanMask (v : Z) (s : radio) : radio :=
  mkRadio (sState s) (handle s) (IntransitHandles s) (IntransitPackets s)
    (intransit_mutex s) (sTransmitFrame s) (sReceiveFrame s)
    (sTransmitPsdu s) (sReceivePsdu s) (receiveFrame_mutex s)
    (sTransmitError s) (sReceiveError s) (sChannel s) (sPromiscuousCache s)
    (sActiveScanCallback s) (sActiveScanContext s) (sActiveScanInProgress s)
    (sEnergyScanCallback s) (sEnergyScanContext s) (sEnergyScanInProgress s)
    v (sCurDeviceTableSize s) (noiseFloor s) (ot s) (trace s).
Definition set_sCurDeviceTableSize (v : Z) (s : radio) : radio :=
  mkRadio (sState s) (handle s) (IntransitHandles s) (IntransitPackets s)
    (intransit_mutex s) (sTransmitFrame s) (sReceiveFrame s)
    (sTransmitPsdu s) (sReceivePsdu s) (receiveFrame_mutex s)
    (sTransmitError s) (sReceiveError s) (sChannel s) (sPromiscuousCache s)
    (sActiveScanCallback s) (sActiveScanContext s) (sActiveScanInProgress s)
    (sEnergyScanCallback s) (sEnergyScanContext s) (sEnergyScanInProgress s)
    (sEnergyScanMask s) v (noiseFloor s) (ot s) (trace s).
Definition set_noiseFloor (v : Z) (s : radio) : radio :=
  mkRadio (sState s) (handle s) (IntransitHandles s) (IntransitPackets s)
    (intransit_mutex s) (sTransmitFrame s) (sReceiveFrame s)
    (sTransmitPsdu s) (sReceivePsdu s) (receiveFrame_mutex s)
    (sTransmitError s) (sReceiveError s) (sChannel s) (sPromiscuousCache s)
    (sActiveScanCallback s) (sActiveScanContext s) (sActiveScanInProgress s)
    (sEnergyScanCallback s) (sEnergyScanContext s) (sEnergyScanInProgress s)
    (sEnergyScanMask s) (sCurDeviceTableSize s) v (ot s) (trace s).
Definition set_ot (v : otInstance) (s : radio) : radio :=
  mkRadio (sState s) (handle s) (IntransitHandles s) (IntransitPackets s)
    (intransit_mutex s) (sTransmitFrame s) (sReceiveFrame s)
    (sTransmitPsdu s) (sReceivePsdu s) (receiveFrame_mutex s)
    (sTransmitError s) (sReceiveError s) (sChannel s) (sPromiscuousCache s)
    (sActiveScanCallback s) (sActiveScanContext s) (sActiveScanInProgress s)
    (sEnergyScanCallback s) (sEnergyScanContext s) (sEnergyScanInProgress s)
    (sEnergyScanMask s) (sCurDeviceTableSize s) (noiseFloor s) v (trace s).
Definition set_trace (v : list event) (s : radio) : radio :=
  mkRadio (sState s) (handle s) (IntransitHandles s) (IntransitPackets s)
    (intransit_mutex s) (sTransmitFrame s) (sReceiveFrame s)
    (sTransmitPsdu s) (sReceivePsdu s) (receiveFrame_mutex s)
    (sTransmitError s) (sReceiveError s) (sChannel s) (sPromiscuousCache s)
    (sActiveScanCallback s) (sActiveScanContext s) (sActiveScanInProgress s)
    (sEnergyScanCallback s) (sEnergyScanContext s) (sEnergyScanInProgress s)
    (sEnergyScanMask s) (sCurDeviceTableSize s) (noiseFloor s) (ot s) v.

Definition emit (e : event) (s : radio) : radio :=
  set_trace (trace s ++ [e]) s.

(** [if (b) e;] for a call [e] that leaves a trace and nothing else. *)
Definition emit_if (b : bool) (e : event) (s : radio) : radio :=
  set_trace (trace s ++ (if b then [e] else [])) s.

(** The buffer a packet's [mPsdu] points to. *)
Definition psdu_of (s : radio) (p : RadioPacket) : list Z :=
  match mPsdu p with
  | ref_sTransmitPsdu => sTransmitPsdu s
  | ref_sReceivePsdu => sReceivePsdu s
  end.

(** How a call ends: it returns [v] in state [s]; or it never returns,
    because it waits for a mutex that is never released or loops for ever;
    or the process dies in [assert]; or it runs into an operation that C
    leaves undefined. *)
Inductive run (A : Type) : Type :=
  | Returns (v : A) (s : radio)
  | NeverReturns
  | AssertFails
  | Undefined.
Arguments Returns {A} v s.
Arguments NeverReturns {A}.
Arguments AssertFails {A}.
Arguments Undefined {A}.

Definition bind {A B : Type} (m : run A) (k : A -> radio -> run B) : run B :=
  match m with
  | Returns v s => k v s
  | NeverReturns => NeverReturns
  | AssertFails => AssertFails
  | Undefined => Undefined
  end.

Notation "'call' x , s <- m 'in' k" := (bind m (fun x s => k))
  (at level 10, x name, s name, m at level 100, k at level 200,
   format "'[v' 'call'  x ,  s  <-  m  'in'  '/' k ']'").

(** The state after [PlatformRadioInit], before the stack has used the
    radio: statics are zero, the two frames point to their buffers. *)
Definition RadioPacket_init (r : psdu_ref) : RadioPacket :=
  mkRadioPacket r 0 0 0 0 false 0.

Definition radio_init (o : otInstance) : radio :=
  mkRadio kStateDisabled 0 (replicate MAX_INTRANSITS 0)
    (replicate MAX_INTRANSITS (RadioPacket_init ref_sTransmitPsdu)) false
    (RadioPacket_init ref_sTransmitPsdu) (RadioPacket_init ref_sReceivePsdu)
    (replicate IEEE802154_MAX_LENGTH 0) (replicate IEEE802154_MAX_LENGTH 0)
    false kThreadError_None kThreadError_None 0 tristate_uninit 0 0 0 0 0 0
    0 0 127 o [].

(** ** The in-transit table (radio.c, lines 1391-1455) *)

(** The loop [for (i = 0; i < MAX_INTRANSITS; i++) if (a[i] == h) ...]:
    the first index, from [i] on, that holds [h]. *)
Fixpoint find_slot (h : Z) (handles : list Z) (i : nat) : option nat :=
  match handles with
  | [] => None
  | x :: rest => if x =? h then Some i else find_slot h rest (S i)
  end.

(** The loop of [intransit_rmFrame]: every slot that holds [h] is set to 0;
    [None] when [assert(found == 0)] fails at a second slot that holds it. *)
Fixpoint rm_slots (h : Z) (handles : list Z) (found : bool)
  : option (bool * list Z) :=
  match handles with
  | [] => Some (found, [])
  | x :: rest =>
      if x =? h then
        if found then None
        else match rm_slots h rest true with
             | Some (f, rest') => Some (f, 0 :: rest')
             | None => None
             end
      else match rm_slots h rest found with
           | Some (f, rest') => Some (f, x :: rest')
           | None => None
           end
  end.

(** [pthread_mutex_lock(&intransit_mutex)]: a caller that finds the mutex
    locked waits for ever, since no running call holds it. *)
Definition intransit_isHandleInUse (h : Z) (s : radio) : run bool :=
  if intransit_mutex s then NeverReturns
  else match find_slot h (IntransitHandles s) 0 with
       | Some _ => Returns true s
       | None => Returns false s
       end.

(** [return -1] leaves without [pthread_mutex_unlock]. *)
Definition intransit_putFrame (h : Z) (frame : RadioPacket) (s : radio)
  : run Z :=
  if intransit_mutex s then NeverReturns
  else match find_slot 0 (IntransitHandles s) 0 with
       | None => Returns (-1) (set_intransit_mutex true s)
       | Some i =>
           Returns 0
             (set_IntransitPackets (<[i := frame]> (IntransitPackets s))
                (set_IntransitHandles (<[i := h]> (IntransitHandles s)) s))
       end.

Definition intransit_rmFrame (h : Z) (s : radio) : run Z :=
  if intransit_mutex s then NeverReturns
  else match rm_slots h (IntransitHandles s) false with
       | None => AssertFails
       | Some (found, handles') =>
           Returns (if found then 0 else 1) (set_IntransitHandles handles' s)
       end.

(** The packet behind the pointer that [intransit_getFrame] returns, or
    [None] for [NULL]. *)
Definition intransit_getFrame (h : Z) (s : radio) : run (option RadioPacket) :=
  if intransit_mutex s then NeverReturns
  else match find_slot h (IntransitHandles s) 0 with
       | Some i => Returns (IntransitPackets s !! i) s
       | None => Returns None s
       end.

(** ** Channel and radio state (radio.c, lines 193-204 and 749-836) *)

Definition setChannel (channel : Z) (s : radio) : radio :=
  if sChannel s =? channel then s
  else set_sChannel channel (emit (MLME_SET_phyCurrentChannel channel) s).

Definition HWME_SUCCESS : Z := 0.

(** [hwme] is [None] when the build does not define [USE_LOWPOWER_MODES],
    and the status that [HWME_SET_request_sync] answers when it does. *)
Definition otPlatRadioEnable (hwme : option Z) (s : radio) : run ThreadError :=
  if bool_decide (sState s = kStateSleep \/ sState s = kStateDisabled) then
    let s := set_sState kStateSleep s in
    match hwme with
    | Some status =>
        let s := emit (HWME_SET_POWERCON [0; 0; 0; 0; 0]) s in
        if status =? HWME_SUCCESS then Returns kThreadError_None s
        else Returns kThreadError_Failed s
    | None => Returns kThreadError_None s
    end
  else Returns kThreadError_Busy s.

Definition otPlatRadioDisable (hwme : option Z) (s : radio) : run ThreadError :=
  if bool_decide (sState s = kStateDisabled \/ sState s = kStateSleep) then
    let s := set_sState kStateDisabled s in
    match hwme with
    | Some status =>
        let s := emit (HWME_SET_POWERCON [0x0A; 0; 0; 0; 0]) s in
        if status =? HWME_SUCCESS then Returns kThreadError_None s
        else Returns kThreadError_Failed s
    | None => Returns kThreadError_None s
    end
  else Returns kThreadError_Busy s.

Definition otPlatRadioSleep (s : radio) : run ThreadError :=
  Returns kThreadError_None s.

Definition otPlatRadioReceive (aChannel : Z) (s : radio) : run ThreadError :=
  if bool_decide (sState s = kStateDisabled) then Returns kThreadError_Busy s
  else Returns kThreadError_None (setChannel aChannel (set_sState kStateReceive s)).

(** ** The frame codec: stack PDU to MCPS-DATA request (lines 843-979) *)

Definition with_mLength (v : Z) (p : RadioPacket) : RadioPacket :=
  mkRadioPacket (mPsdu p) v (mChannel p) (mPower p) (mLqi p)
    (mDirectTransmission p) (mTransmitContext p).

Definition with_mTransmitContext (v : Z) (p : RadioPacket) : RadioPacket :=
  mkRadioPacket (mPsdu p) (mLength p) (mChannel p) (mPower p) (mLqi p)
    (mDirectTransmission p) v.

Definition with_reception (lqi channel power : Z) (p : RadioPacket)
  : RadioPacket :=
  mkRadioPacket (mPsdu p) (mLength p) channel power lqi
    (mDirectTransmission p) (mTransmitContext p).

Definition set_psdu_of (p : RadioPacket) (buf : list Z) (s : radio) : radio :=
  match mPsdu p with
  | ref_sTransmitPsdu => set_sTransmitPsdu buf s
  | ref_sReceivePsdu => set_sReceivePsdu buf s
  end.

(** [while (intransit_isHandleInUse(handle)) handle++;] on the static
    [handle].  The table does not change while the loop runs, so after 256
    rounds that all found the handle in use the loop has tried every value
    a [uint8_t] has and goes on for ever. *)
Fixpoint skip_used_handles (rounds : nat) (s : radio) : run unit :=
  match rounds with
  | O => NeverReturns
  | S rounds' =>
      call inuse, s <- intransit_isHandleInUse (handle s) s in
      if (inuse : bool) then
        skip_used_handles rounds' (set_handle (u8 (handle s + 1)) s)
      else Returns tt s
  end.

(** Lines 876-893: the destination of the request.  [Dst0] is the
    indeterminate value the automatic variable [curPacket] starts with. *)
Definition tx_Dst (frameControl : Z) (psdu : list Z) (Dst0 : FullAddr)
  : FullAddr :=
  let dam := MAC_FC_DAM frameControl in
  if dam =? MAC_MODE_SHORT_ADDR then
    mkFullAddr dam (memcpy (PANId Dst0) 0 (bytes_at psdu 3 2))
      (memcpy (Address Dst0) 0 (bytes_at psdu 5 2))
  else if dam =? MAC_MODE_LONG_ADDR then
    mkFullAddr dam (memcpy (PANId Dst0) 0 (bytes_at psdu 3 2))
      (memcpy (Address Dst0) 0 (bytes_at psdu 5 8))
  else mkFullAddr dam (PANId Dst0) (Address Dst0).

(** Lines 882-898: [addressFieldLength]. *)
Definition tx_addressFieldLength (frameControl : Z) : Z :=
  let dam := MAC_FC_DAM frameControl in
  let sam := MAC_FC_SAM frameControl in
  let isPanCompressed := u8 (Z.land frameControl MAC_FC_PAN_COMP) in
  let a := 0 in
  let a := if dam =? MAC_MODE_SHORT_ADDR then u8 (a + 4)
           else if dam =? MAC_MODE_LONG_ADDR then u8 (a + 10) else a in
  let a := if sam =? MAC_MODE_SHORT_ADDR then u8 (a + 4)
           else if sam =? MAC_MODE_LONG_ADDR then u8 (a + 10) else a in
  if negb (sam =? 0) && negb (isPanCompressed =? 0) then u8 (a - 2) else a.

(** Lines 871 and 905-922: the security spec read from the auxiliary
    security header, and [headerLength]. *)
Definition tx_security (frameControl : Z) (psdu : list Z)
    (addressFieldLength : Z) : SecSpec * Z :=
  if negb (Z.land frameControl MAC_FC_SEC_ENA =? 0) then
    let ASHloc := u8 (MAC_BASEHEADERLENGTH + addressFieldLength) in
    let securityControl := rd psdu ASHloc in
    let level := MAC_SC_SECURITYLEVEL securityControl in
    let mode := MAC_SC_KEYIDMODE securityControl in
    let ASHloc := u8 (ASHloc + 5) in
    let '(source, ASHloc) :=
      if mode =? 2 then
        (memcpy (KeySource SecSpec_zero) 0 (bytes_at psdu ASHloc 4),
         u8 (ASHloc + 4))
      else if mode =? 3 then
        (memcpy (KeySource SecSpec_zero) 0 (bytes_at psdu ASHloc 8),
         u8 (ASHloc + 8))
      else (KeySource SecSpec_zero, ASHloc) in
    (mkSecSpec level mode source (rd psdu ASHloc), u8 (ASHloc + 1))
  else (SecSpec_zero, u8 (addressFieldLength + MAC_BASEHEADERLENGTH)).

(** Lines 925-929 and 1112-1116: the authentication tag of table 95 and the
    two bytes of the FCS. *)
Definition footerLength_of (securityLevel : Z) : Z :=
  let footerLength := u8 (Z.shiftl 2 (securityLevel mod 4)) in
  let footerLength := if footerLength =? 2 then 0 else footerLength in
  u8 (footerLength + 2).

(** Lines 954-960: [do { ret = MLME_POLL_request_sync(...); ... } while
    (ret == 0xFF && (count++ < 10));] where [reply count] is the status
    the co-processor answers to the attempt made with that [count]. *)
Fixpoint poll_loop (attempts : nat) (count : Z) (reply : Z -> Z)
    (coord : FullAddr) (sec : SecSpec) (s : radio) : Z * radio :=
  let ret := reply count in
  let s := emit (MLME_POLL_request_sync coord sec) s in
  let s := emit_if (0 <? count) otPlatLog_Warn s in
  match attempts with
  | S attempts' =>
      if (ret =? 0xFF) && (count <? 10) then
        poll_loop attempts' (u8 (count + 1)) reply coord sec s
      else (ret, s)
  | O => (ret, s)
  end.

(** The locals of [otPlatRadioTransmit] once the frame has been parsed. *)
Record tx_locals : Type := mkTxLocals {
  tx_curPacket : MCPS_DATA_request_pset;
  tx_curSecSpec : SecSpec;
  tx_headerLength : Z;
  tx_footerLength : Z
}.

(** Lines 870-934 for a data frame: the request built from the transmit
    frame [frame] with bytes [psdu], for the handle [h].  [MsduLength] is
    the [uint8_t] difference of line 931, which wraps when the frame is
    shorter than its header and footer; [Msdu] is what the [memcpy] of line
    932 reads when these bytes lie inside the buffer, see
    [tx_msdu_inside]. *)
Definition tx_parse (frame : RadioPacket) (psdu : list Z) (h : Z)
    (curPacket0 : MCPS_DATA_request_pset) : tx_locals :=
  let frameControl := GETLE16 psdu in
  let TxOptions :=
    if negb (Z.land frameControl MAC_FC_ACK_REQ =? 0) then 0x01 else 0x00 in
  let TxOptions :=
    Z.lor TxOptions (if mDirectTransmission frame then 0x00 else Z.shiftl 1 2) in
  let addressFieldLength := tx_addressFieldLength frameControl in
  let '(curSecSpec, headerLength) :=
    tx_security frameControl psdu addressFieldLength in
  let footerLength := footerLength_of (SecurityLevel curSecSpec) in
  let msduLength := u8 (mLength frame - footerLength - headerLength) in
  mkTxLocals
    (mkDataRequest (MAC_FC_SAM frameControl)
       (tx_Dst frameControl psdu (Dst curPacket0)) msduLength h TxOptions
       (bytes_at psdu headerLength msduLength))
    curSecSpec headerLength footerLength.

(** The [memcpy] of line 932 reads [MsduLength] bytes from
    [sTransmitFrame.mPsdu + headerLength], out of a buffer of
    [IEEE802154_MAX_LENGTH] bytes (lines 151, 152): the read stays inside
    the buffer.  The array [Msdu] of the request, a type of the Cascoda
    API headers, is taken to hold what the buffer holds. *)
Definition tx_msdu_inside (l : tx_locals) : bool :=
  tx_headerLength l + MsduLength (tx_curPacket l) <=?
    Z.of_nat IEEE802154_MAX_LENGTH.

(** Lines 843-979.  A data frame whose payload, as line 931 computes its
    length, does not lie inside the buffer makes the [memcpy] of line 932
    read past the end of the buffer: the call is undefined. *)
Definition otPlatRadioTransmit (transmitContext : Z)
    (curPacket0 : MCPS_DATA_request_pset) (reply : Z -> Z) (s : radio)
  : run ThreadError :=
  let s := set_handle (u8 (handle s + 1)) s in
  call _u, s <- skip_used_handles 256 s in
  if bool_decide (sState s = kStateDisabled) then Returns kThreadError_Busy s
  else
    let psdu := psdu_of s (sTransmitFrame s) in
    let frameControl := GETLE16 psdu in
    let frameType := Z.land frameControl MAC_FC_FT_MASK in
    if negb ((frameType =? MAC_FC_FT_DATA) || (frameType =? MAC_FC_FT_COMMAND))
    then Returns kThreadError_Abort (emit otPlatLog_Warn s)
    else
      let s := set_sState kStateTransmit s in
      let s := set_sTransmitError kThreadError_None s in
      let s := setChannel (mChannel (sTransmitFrame s)) s in
      if frameType =? MAC_FC_FT_DATA then
        let s :=
          set_sTransmitFrame
            (with_mTransmitContext transmitContext (sTransmitFrame s)) s in
        (* the value that intransit_putFrame returns is not looked at *)
        call _r, s <- intransit_putFrame (handle s) (sTransmitFrame s) s in
        let l := tx_parse (sTransmitFrame s) psdu (handle s) curPacket0 in
        if tx_msdu_inside l then
          Returns kThreadError_None
            (emit (MCPS_DATA_request (tx_curPacket l) (tx_curSecSpec l)) s)
        else Undefined
      else
        let l := tx_parse (sTransmitFrame s) psdu (handle s) curPacket0 in
        if rd psdu (tx_headerLength l) =? 0x04 then
          let '(ret, s) :=
            poll_loop 11 0 reply (Dst (tx_curPacket l)) (tx_curSecSpec l) s in
          if ret =? MAC_SUCCESS then
            Returns kThreadError_None
              (emit (otPlatRadioTransmitDone true kThreadError_None
                       transmitContext) s)
          else if ret =? MAC_NO_DATA then
            Returns kThreadError_None
              (emit (otPlatRadioTransmitDone false kThreadError_None
                       transmitContext) s)
          else
            Returns kThreadError_None
              (emit (otPlatRadioTransmitDone false kThreadError_NoAck
                       transmitContext) s)
        else AssertFails.

(** ** The frame codec: MCPS-DATA indication to stack PDU (lines 1022-1141) *)

(** Lines 1293-1301. *)
Definition PlatformRadioSignal (s : radio) : run Z :=
  if receiveFrame_mutex s then NeverReturns
  else Returns 0 (set_sReceiveFrame (with_mLength 0 (sReceiveFrame s)) s).

(** Lines 1049-1084: the addressing fields written to the receive buffer;
    the result is the buffer, [addressFieldLength] and the PAN-compression
    bit to be set in the frame control. *)
Definition rx_addressing (params : MCPS_DATA_indication_pset) (psdu : list Z)
  : list Z * Z * Z :=
  let Src := ind_Src params in
  let Dst := ind_Dst params in
  let addressFieldLength := 0 in
  let '(psdu, addressFieldLength) :=
    if AddressMode Dst =? MAC_MODE_SHORT_ADDR then
      let psdu := memcpy psdu 5 (take 2 (Address Dst)) in
      let psdu := memcpy psdu 3 (take 2 (PANId Dst)) in
      (psdu, u8 (addressFieldLength + 4))
    else if AddressMode Dst =? MAC_MODE_LONG_ADDR then
      let psdu := memcpy psdu 5 (take 8 (Address Dst)) in
      let psdu := memcpy psdu 3 (take 2 (PANId Dst)) in
      (psdu, u8 (addressFieldLength + 10))
    else (psdu, addressFieldLength) in
  if negb (bool_decide (take 2 (PANId Src) = take 2 (PANId Dst))) then
    if AddressMode Src =? MAC_MODE_SHORT_ADDR then
      let psdu := memcpy psdu (addressFieldLength + 5) (take 2 (Address Src)) in
      let psdu := memcpy psdu (addressFieldLength + 3) (take 2 (PANId Src)) in
      (psdu, u8 (addressFieldLength + 4), 0)
    else if AddressMode Src =? MAC_MODE_LONG_ADDR then
      let psdu := memcpy psdu (addressFieldLength + 5) (take 8 (Address Src)) in
      let psdu := memcpy psdu (addressFieldLength + 3) (take 2 (PANId Src)) in
      (psdu, u8 (addressFieldLength + 10), 0)
    else (psdu, addressFieldLength, 0)
  else
    if AddressMode Src =? MAC_MODE_SHORT_ADDR then
      let psdu := memcpy psdu (addressFieldLength + 3) (take 2 (Address Src)) in
      (psdu, u8 (addressFieldLength + 2), MAC_FC_PAN_COMP)
    else if AddressMode Src =? MAC_MODE_LONG_ADDR then
      let psdu := memcpy psdu (addressFieldLength + 3) (take 8 (Address Src)) in
      (psdu, u8 (addressFieldLength + 8), MAC_FC_PAN_COMP)
    else (psdu, addressFieldLength, MAC_FC_PAN_COMP).

(** Lines 1044-1047 and 1083: the frame control made up from the
    indication. *)
Definition rx_frameControl_of (params : MCPS_DATA_indication_pset)
    (pan_comp : Z) : Z :=
  let frameControl := 0 in
  let frameControl :=
    Z.lor frameControl
      (u16 (Z.shiftl (Z.land (AddressMode (ind_Src params)) 3) 14)) in
  let frameControl :=
    Z.lor frameControl
      (u16 (Z.shiftl (Z.land (AddressMode (ind_Dst params)) 3) 10)) in
  let frameControl :=
    Z.lor frameControl
      (if negb (SecurityLevel (ind_Security params) =? 0)
       then MAC_FC_SEC_ENA else 0) in
  let frameControl := Z.lor frameControl MAC_FC_FT_DATA in
  Z.lor frameControl pan_comp.

(** Lines 1088-1110: the auxiliary security header written to the buffer,
    and [headerLength]. *)
Definition rx_security (frameControl : Z) (curSecSpec : SecSpec)
    (psdu : list Z) (addressFieldLength : Z) : list Z * Z :=
  if negb (Z.land frameControl MAC_FC_SEC_ENA =? 0) then
    let ASHloc := u8 (MAC_BASEHEADERLENGTH + addressFieldLength) in
    let securityControl := 0 in
    let securityControl :=
      Z.lor securityControl
        (MAC_SC_SECURITYLEVEL (SecurityLevel curSecSpec)) in
    let securityControl :=
      Z.lor securityControl (MAC_KEYIDMODE_SC (KeyIdMode curSecSpec)) in
    let psdu := wr psdu ASHloc securityControl in
    let ASHloc := u8 (ASHloc + 5) in
    let '(psdu, ASHloc) :=
      if KeyIdMode curSecSpec =? 2 then
        (memcpy psdu ASHloc (take 4 (KeySource curSecSpec)), u8 (ASHloc + 4))
      else if KeyIdMode curSecSpec =? 3 then
        (memcpy psdu ASHloc (take 8 (KeySource curSecSpec)), u8 (ASHloc + 8))
      else (psdu, ASHloc) in
    let psdu := wr psdu ASHloc (KeyIndex curSecSpec) in
    (psdu, u8 (ASHloc + 1))
  else (psdu, u8 (addressFieldLength + MAC_BASEHEADERLENGTH)).

(** The truncation of [(MpduLinkQuality - 256) / 2] to [int8_t]. *)
Definition i8 (x : Z) : Z := (x + 128) mod 256 - 128.

(** The locals of [handleDataIndication] once the header has been written
    and the length stored (lines 1038-1118): the buffer, [frameControl],
    [headerLength], [footerLength] and the new [sReceiveFrame.mLength]. *)
Record rx_locals : Type := mkRxLocals {
  rx_psdu : list Z;
  rx_frameControl : Z;
  rx_headerLength : Z;
  rx_footerLength : Z;
  rx_mLength : Z
}.

Definition rx_build (params : MCPS_DATA_indication_pset) (psdu : list Z)
  : rx_locals :=
  let curSecSpec := ind_Security params in
  let '(psdu, addressFieldLength, pan_comp) := rx_addressing params psdu in
  let frameControl := rx_frameControl_of params pan_comp in
  let psdu := PUTLE16 frameControl psdu in
  let '(psdu, headerLength) :=
    rx_security frameControl curSecSpec psdu addressFieldLength in
  let footerLength := footerLength_of (SecurityLevel curSecSpec) in
  mkRxLocals psdu frameControl headerLength footerLength
    (u8 (ind_MsduLength params + footerLength + headerLength)).

(** The worker waits on [receiveFrame_cond] while the slot is full.  Within
    one call nothing else runs, so a call that finds the slot full, like a
    call that finds the mutex locked, does not return.  The early
    [return 1] of line 1122 leaves with the mutex locked and the length it
    has just stored.  The test of line 1120 looks at the length as the
    [uint8_t] holds it; the [memcpy] of line 1125 writes [MsduLength] bytes
    from [headerLength] on into the buffer of [IEEE802154_MAX_LENGTH]
    bytes, and is undefined when they do not fit. *)
Definition handleDataIndication (params : MCPS_DATA_indication_pset)
    (s : radio) : run Z :=
  if negb (ot_InterfaceUp (ot s)) then Returns 1 s
  else if receiveFrame_mutex s then NeverReturns
  else if negb (mLength (sReceiveFrame s) =? 0) then NeverReturns
  else
    let s := set_receiveFrame_mutex true s in
    let l := rx_build params (psdu_of s (sReceiveFrame s)) in
    let s := set_psdu_of (sReceiveFrame s) (rx_psdu l) s in
    let s :=
      set_sReceiveFrame (with_mLength (rx_mLength l) (sReceiveFrame s)) s in
    if aMaxPHYPacketSize <? mLength (sReceiveFrame s) then
      Returns 1 (emit otPlatLog_Warn s)
    else if Z.of_nat IEEE802154_MAX_LENGTH <?
            rx_headerLength l + ind_MsduLength params then Undefined
    else
      let psdu :=
        memcpy (rx_psdu l) (rx_headerLength l)
          (take (Z.to_nat (ind_MsduLength params)) (ind_Msdu params)) in
      let s := set_psdu_of (sReceiveFrame s) psdu s in
      let power := i8 (Z.quot (ind_MpduLinkQuality params - 256) 2) in
      let s :=
        set_sReceiveFrame
          (with_reception (ind_MpduLinkQuality params) (sChannel s) power
             (sReceiveFrame s)) s in
      let s := set_noiseFloor power s in
      let s := set_receiveFrame_mutex false s in
      let s := set_sState kStateReceive s in
      let s :=
        emit (otPlatRadioReceiveDone (sReceiveFrame s)
                (psdu_of s (sReceiveFrame s)) (sReceiveError s)) s in
      call _r, s <- PlatformRadioSignal s in
      Returns 0 s.

(** Lines 1176-1182: the end of [handleDataConfirm], common to both
    outcomes. *)
Definition handleDataConfirm_end (params : MCPS_DATA_confirm_pset)
    (s : radio) : run Z :=
  call _r, s <- intransit_rmFrame (cnf_MsduHandle params) s in
  call _r, s <- PlatformRadioSignal s in
  Returns 0 s.

(** Lines 1164-1169: the error a failed confirm is translated to. *)
Definition confirm_error (status : Z) : ThreadError :=
  if status =? MAC_CHANNEL_ACCESS_FAILURE
  then kThreadError_ChannelAccessFailure
  else if (status =? MAC_NO_ACK) || (status =? MAC_TRANSACTION_OVERFLOW)
  then kThreadError_NoAck
  else if status =? MAC_TRANSACTION_EXPIRED then kThreadError_NoAck
  else kThreadError_Abort.

(** Lines 1143-1183. *)
Definition handleDataConfirm (params : MCPS_DATA_confirm_pset) (s : radio)
  : run Z :=
  if negb (ot_InterfaceUp (ot s)) then Returns 1 s
  else
    call sentFrame, s <- intransit_getFrame (cnf_MsduHandle params) s in
    match sentFrame with
    | None => AssertFails
    | Some sentFrame =>
        if cnf_Status params =? MAC_SUCCESS then
          let s :=
            emit (otPlatRadioTransmitDone false (sTransmitError s)
                    (mTransmitContext sentFrame)) s in
          let s := set_sState kStateReceive s in
          let s := set_sTransmitError kThreadError_None s in
          handleDataConfirm_end params s
        else
          let s := set_sTransmitError (confirm_error (cnf_Status params)) s in
          let s := emit otPlatLog_Warn s in
          let s :=
            emit (otPlatRadioTransmitDone false (sTransmitError s)
                    (mTransmitContext sentFrame)) s in
          let s := set_sState kStateReceive s in
          let s := set_sTransmitError kThreadError_None s in
          handleDataConfirm_end params s
    end.

(** ** The scan driver (lines 228-325 and 1230-1277) *)

Definition tab32 : list Z :=
  [ 0;  9;  1; 10; 13; 21;  2; 29;
   11; 14; 16; 18; 22; 25;  3; 30;
    8; 12; 20; 28; 15; 17; 24;  7;
   19; 27; 23;  6; 26;  5;  4; 31].

Definition log2_32 (value : Z) : Z :=
  let value := Z.lor value (Z.shiftr value 1) in
  let value := Z.lor value (Z.shiftr value 2) in
  let value := Z.lor value (Z.shiftr value 4) in
  let value := Z.lor value (Z.shiftr value 8) in
  let value := Z.lor value (Z.shiftr value 16) in
  rd tab32 (Z.shiftr (u32 (value * 0x07C4ACDD)) 27).

(** Lines 253-262 and 293-303: the exponent handed to the co-processor;
    [dflt] is 5 in the active scan and 6 in the energy scan. *)
Definition ScanDuration_of (aScanDuration dflt : Z) : Z :=
  if 50 <=? aScanDuration then
    let ScanDuration := u8 (log2_32 (aScanDuration / 15)) in
    if 14 <? ScanDuration then 14 else ScanDuration
  else dflt.

(** [scanRequest] is the status that [MLME_SCAN_request] answers. *)
Definition otPlatRadioActiveScan (aScanChannels aScanDuration : Z)
    (aCallback aCallbackContext : Z) (scanRequest : Z) (s : radio)
  : run ThreadError :=
  if negb (sActiveScanInProgress s =? 0) || negb (sEnergyScanInProgress s =? 0)
  then Returns kThreadError_Busy s
  else
    let ScanDuration := ScanDuration_of aScanDuration 5 in
    let s := emit otPlatLog_Debg s in
    let aScanChannels :=
      if aScanChannels =? 0 then 0x07fff800 else aScanChannels in
    let s := set_sActiveScanCallback aCallback s in
    let s := set_sActiveScanContext aCallbackContext s in
    let s := emit (MLME_SCAN_request 1 aScanChannels ScanDuration) s in
    if scanRequest =? MAC_SUCCESS then
      Returns kThreadError_None (set_sActiveScanInProgress 1 s)
    else Returns kThreadError_Busy s.

Definition otPlatRadioEnergyScan (aScanChannels aScanDuration : Z)
    (aCallback aCallbackContext : Z) (scanRequest : Z) (s : radio)
  : run ThreadError :=
  if negb (sActiveScanInProgress s =? 0) || negb (sEnergyScanInProgress s =? 0)
  then Returns kThreadError_Busy s
  else
    let s := set_sEnergyScanMask aScanChannels s in
    let ScanDuration := ScanDuration_of aScanDuration 6 in
    let s := emit otPlatLog_Debg s in
    let aScanChannels :=
      if aScanChannels =? 0 then 0x07fff800 else aScanChannels in
    let s := set_sEnergyScanCallback aCallback s in
    let s := set_sEnergyScanContext aCallbackContext s in
    let s := emit (MLME_SCAN_request 0 aScanChannels ScanDuration) s in
    if scanRequest =? MAC_SUCCESS then
      Returns kThreadError_None (set_sEnergyScanInProgress 1 s)
    else Returns kThreadError_Busy s.

Record MLME_SCAN_confirm_pset : Type := mkScanConfirm {
  scn_Status : Z;
  scn_ResultListSize : Z;
  scn_ResultList : list Z
}.

(** Lines 1256-1261: [while (!(sEnergyScanMask & 1 << curMinChannel))
    { result.mChannel = curMinChannel++; sEnergyScanMask &=
    sEnergyScanMask - 1; }].  The state of the loop is the mask, the
    channel counter and [result.mChannel] ([None] while nothing has been
    assigned to it).  [1 << curMinChannel] is an [int]: from 31 on the
    shift overflows and C leaves it undefined, and the result is [None].
    The counter only goes up, so 33 rounds are more than the loop can take
    before it has ended in one of the two ways. *)
Fixpoint energy_skip (rounds : nat) (mask cur : Z) (chan : option Z)
  : option (Z * Z * option Z) :=
  if 31 <=? cur then None
  else if negb (Z.land mask (Z.shiftl 1 cur) =? 0) then Some (mask, cur, chan)
  else match rounds with
       | O => None
       | S rounds' =>
           energy_skip rounds' (Z.land mask (u32 (mask - 1))) (u8 (cur + 1))
             (Some cur)
       end.

(** Lines 1252-1262: the loop over the result list.  No call of the result
    callback occurs in it: [result] is a local that is written and then
    dropped, so the loop only changes the mask. *)
Fixpoint energy_results (results : list Z) (mask cur : Z)
  : option (Z * Z) :=
  match results with
  | [] => Some (mask, cur)
  | rssi :: rest =>
      match energy_skip 33 mask cur None with
      | None => None
      | Some (mask, cur, _) => energy_results rest mask cur
      end
  end.

Definition handleScanConfirm (params : MLME_SCAN_confirm_pset) (s : radio)
  : run Z :=
  if negb (ot_InterfaceUp (ot s)) then Returns 1 s
  else if negb (scn_Status params =? MAC_SCAN_IN_PROGRESS) then
    if negb (sActiveScanInProgress s =? 0) then
      let s :=
        emit (ActiveScanCallback_NULL (sActiveScanCallback s)
                (sActiveScanContext s)) s in
      let s := set_sActiveScanInProgress 0 s in
      Returns 0 (emit (MLME_SET_phyCurrentChannel (sChannel s)) s)
    else if negb (sEnergyScanInProgress s =? 0) then
      let curMinChannel := 11 in
      match
        energy_results
          (take (Z.to_nat (scn_ResultListSize params)) (scn_ResultList params))
          (sEnergyScanMask s) curMinChannel
      with
      | None => Undefined
      | Some (mask, _) =>
          let s := set_sEnergyScanMask mask s in
          let s :=
            emit (EnergyScanCallback (sEnergyScanCallback s)
                    (sActiveScanContext s) None) s in
          let s := set_sEnergyScanInProgress 0 s in
          Returns 0 (emit (MLME_SET_phyCurrentChannel (sChannel s)) s)
      end
    else Returns 0 s
  else Returns 0 s.

(** ** The promiscuous cache (lines 991-1020) *)

Definition bool_of_tristate (c : tristateCache) : bool :=
  match c with
  | tristate_disabled => false
  | _ => true
  end.

(** [result] is the byte that [MLME_GET_request_sync] stores. *)
Definition otPlatRadioGetPromiscuous (result : Z) (s : radio) : run bool :=
  if negb (bool_decide (sPromiscuousCache s = tristate_uninit)) then
    Returns (bool_of_tristate (sPromiscuousCache s)) s
  else
    let s := emit MLME_GET_macPromiscuousMode s in
    let result :=
      if negb (result =? 0) then tristate_enabled else tristate_disabled in
    let s := set_sPromiscuousCache result s in
    Returns (bool_of_tristate result) s.

Definition otPlatRadioSetPromiscuous (aEnable : bool) (s : radio) : run unit :=
  let enable := if aEnable then 1 else 0 in
  let s := emit (MLME_SET_macPromiscuousMode enable) s in
  Returns tt
    (set_sPromiscuousCache
       (if aEnable then tristate_enabled else tristate_disabled) s).

(** ** The key and device table synchronizer (lines 574-747) *)

(** Lines 606-613, the same in the three places: PAN id and short address
    little-endian, the extended address with its bytes in reverse order,
    frame counter zero, not exempt. *)
Definition flip_endian (m8 : list Z) : list Z :=
  map (fun j => rd m8 (7 - j)) [0; 1; 2; 3; 4; 5; 6; 7].

Definition device_descriptor (panid rloc16 : Z) (m8 : list Z)
  : M_DeviceDescriptor :=
  mkDeviceDescriptor (LE16 panid) (LE16 rloc16) (flip_endian m8)
    [0; 0; 0; 0] 0.

(** Lines 595-602: [isValid]. *)
Definition isValid (m8 : list Z) : bool :=
  existsb (fun j => negb (rd m8 j =? 0)) [0; 1; 2; 3; 4; 5; 6; 7].

(** Lines 590-624: the loop over the child indices [i, i+1, ..]; the state
    of the loop is [count] and the radio. *)
Fixpoint sync_children (indices : list Z) (count : Z) (s : radio)
  : Z * radio :=
  match indices with
  | [] => (count, s)
  | i :: rest =>
      let tChildInfo := ot_ChildInfoByIndex (ot s) i in
      if negb (isValid (ci_mExtAddress tChildInfo)) then
        sync_children rest count s
      else
        let d :=
          device_descriptor (ot_PanId (ot s)) (ci_mRloc16 tChildInfo)
            (ci_mExtAddress tChildInfo) in
        sync_children rest (u8 (count + 1))
          (emit (MLME_SET_macDeviceTable count d) s)
  end.

(** Lines 631-650: the loop over the routers that
    [otGetNeighborRouterInfo] has written. *)
Fixpoint sync_routers (routers : list otRouterInfo) (count : Z) (s : radio)
  : Z * radio :=
  match routers with
  | [] => (count, s)
  | r :: rest =>
      let d :=
        device_descriptor (ot_PanId (ot s)) (ri_mRloc16 r)
          (ri_mExtAddress r) in
      sync_routers rest (u8 (count + 1))
        (emit (MLME_SET_macDeviceTable count d) s)
  end.

(** Lines 588-686: the device list, up to and including the write of
    [macDeviceTableEntries]. *)
Definition sync_device_table (s : radio) : Z * radio :=
  let count := 0 in
  let '(count, s) :=
    if negb (bool_decide (ot_DeviceRole (ot s) = kDeviceRoleChild)) then
      let '(count, s) := sync_children [0; 1; 2; 3; 4] count s in
      let maxRouters := u8 (5 - count) in
      let routers :=
        take (Z.to_nat maxRouters) (ot_NeighborRouters (ot s)) in
      sync_routers routers count s
    else
      match ot_ParentInfo (ot s) with
      | Some tParentInfo =>
          let d :=
            device_descriptor (ot_PanId (ot s)) (ri_mRloc16 tParentInfo)
              (ri_mExtAddress tParentInfo) in
          (u8 (count + 1), emit (MLME_SET_macDeviceTable count d) s)
      | None => (count, emit otPlatLog_Warn s)
      end in
  (count, emit (MLME_SET_macDeviceTableEntries count) s).

Section KeyTable.

(** The state-change flags of openthread-types.h, the key-usage flags of
    the Cascoda API and the size of the local [struct
    M_KeyDescriptor_thread] are fixed by headers that are not part of the
    sources at hand. *)
Variables OT_NET_KEY_SEQUENCE OT_THREAD_CHILD_ADDED OT_THREAD_CHILD_REMOVED
  OT_NET_ROLE OT_THREAD_LINK_ACCEPT : Z.
Variables usage_data usage_data_request : Z.
Variable sizeof_tKeyDescriptor : Z.

(** Lines 717-720. *)
Fixpoint device_flags (idx : list Z) (fl : list Z) : list Z :=
  match idx with
  | [] => fl
  | i :: rest => device_flags rest (wr fl i i)
  end.

(** Lines 724-737: the loop over the three key generations. *)
Fixpoint sync_keys (idx : list Z) (tKeySeq count storeCount : Z)
    (k : M_KeyDescriptor_thread) (s : radio) : Z * radio :=
  match idx with
  | [] => (storeCount, s)
  | i :: rest =>
      if 0 <? u32 (tKeySeq + i) then
        let k :=
          mkKeyDescriptor (KeyIdLookupListEntries k)
            (KeyDeviceListEntries k) (KeyUsageListEntries k)
            (take 16 (ot_MacKey (ot s) (u32 (tKeySeq + i))))
            (LookupDataSizeCode k)
            (wr (LookupData k) 0 (u8 (Z.land (u32 (tKeySeq + i)) 0x7F + 1)))
            (flags k) in
        sync_keys rest tKeySeq count (u8 (storeCount + 1)) k
          (emit (MLME_SET_macKeyTable storeCount
                   (u8 (sizeof_tKeyDescriptor - (5 - count))) k) s)
      else sync_keys rest tKeySeq count storeCount k s
  end.

(** [k0] is the indeterminate value the automatic variable
    [tKeyDescriptor] starts with. *)
Definition keyChangeCallback (aFlags : Z) (k0 : M_KeyDescriptor_thread)
    (s : radio) : run unit :=
  let mask :=
    Z.lor (Z.lor (Z.lor (Z.lor OT_NET_KEY_SEQUENCE OT_THREAD_CHILD_ADDED)
                    OT_THREAD_CHILD_REMOVED) OT_NET_ROLE)
      OT_THREAD_LINK_ACCEPT in
  if negb (Z.land aFlags mask =? 0) then
    let s := emit otPlatLog_Debg s in
    let s :=
      set_ot (if ot_KeySequenceCounter (ot s) =? 0
              then otSetKeySequenceCounter 2 (ot s) else ot s) s in
    let tKeySeq := u32 (ot_KeySequenceCounter (ot s) - 1) in
    let '(count, s) := sync_device_table s in
    let s := set_sCurDeviceTableSize count s in
    let fl := wr (flags k0) (count + 0) usage_data in
    let fl := wr fl (count + 1) usage_data_request in
    let lookup := wr (replicate 9 0) 8 0xFF in
    let fl := device_flags (map Z.of_nat (seq 0 (Z.to_nat count))) fl in
    let k := mkKeyDescriptor 1 count 2 (Key k0) 1 lookup fl in
    let '(storeCount, s) := sync_keys [0; 1; 2] tKeySeq count 0 k s in
    Returns tt (emit (MLME_SET_macKeyTableEntries storeCount) s)
  else Returns tt s.

End KeyTable.

(** * Notions of the specification *)

(** ** Footer (section 4.1) *)

(** "MIC sizes are 0, 4, 8, 16 bytes": the mapping [2 << (level mod 4)]
    with a resulting 2 replaced by 0. *)
Definition mic_length (level : Z) : Z :=
  let m := Z.shiftl 2 (level mod 4) in if m =? 2 then 0 else m.

(** ** Scan duration (section 4.7) *)

Definition clamp (lo hi x : Z) : Z := Z.max lo (Z.min hi x).

(** "clamp(log2(ms / 15), 0, 14)" in integer arithmetic. *)
Definition scan_exponent (ms : Z) : Z := clamp 0 14 (Z.log2 (ms / 15)).

(** ** The frames of the specification's scenarios (section 8) *)

Definition pad_psdu (l : list Z) : list Z :=
  l ++ replicate (IEEE802154_MAX_LENGTH - length l) 0.

(** Scenario 1: frame control 0x8861, sequence number 7, destination PAN
    0xFACE, destination 0x0001, source 0x0002, payload AA BB CC. *)
Definition scenario1_psdu : list Z :=
  pad_psdu [0x61; 0x88; 7; 0xCE; 0xFA; 0x01; 0x00; 0x02; 0x00;
            0xAA; 0xBB; 0xCC].
Definition scenario1_frame : RadioPacket :=
  mkRadioPacket ref_sTransmitPsdu 14 11 0 0 true 0.

(** Scenario 2: frame control 0x8869, security control 0x05 (level 5, key
    id mode 1), frame counter 01 00 00 00, key index 3, payload DE AD. *)
Definition scenario2_psdu : list Z :=
  pad_psdu [0x69; 0x88; 7; 0xCE; 0xFA; 0x01; 0x00; 0x02; 0x00;
            0x05; 0x01; 0x00; 0x00; 0x00; 0x03; 0xDE; 0xAD].
Definition scenario2_frame : RadioPacket :=
  mkRadioPacket ref_sTransmitPsdu 23 11 0 0 true 0.

(** Some value for what an automatic variable holds before it is
    assigned. *)
Definition curPacket_zero : MCPS_DATA_request_pset :=
  mkDataRequest 0 (mkFullAddr 0 [0; 0] (replicate 8 0)) 0 0 0 [].

(** A stack that is up, as a router with no neighbours. *)
Definition ot_example : otInstance :=
  mkInstance true kDeviceRoleRouter 0xFACE 1
    (fun _ => mkChildInfo (replicate 8 0) 0) [] None
    (fun _ => replicate 16 0).

(** The check, value by value from [n] down to 1, that [log2_32] is the
    integer logarithm. *)
Fixpoint log2_32_ok_below (n : nat) : bool :=
  match n with
  | O => true
  | S k =>
      (log2_32 (Z.of_nat n) =? Z.log2 (Z.of_nat n)) && log2_32_ok_below k
  end.

(** ** Well-formed states *)

(** What C's types and [PlatformRadioInit] fix for good: the sizes of the
    arrays, the range of the static [handle], and the buffers the two
    frames point to. *)
Record wf_radio (s : radio) : Prop := mkWfRadio {
  wf_handles : length (IntransitHandles s) = MAX_INTRANSITS;
  wf_packets : length (IntransitPackets s) = MAX_INTRANSITS;
  wf_handle : is_byte (handle s);
  wf_handles_bytes : Forall is_byte (IntransitHandles s);
  wf_tx_psdu : length (sTransmitPsdu s) = IEEE802154_MAX_LENGTH;
  wf_rx_psdu : length (sReceivePsdu s) = IEEE802154_MAX_LENGTH;
  wf_tx_ref : mPsdu (sTransmitFrame s) = ref_sTransmitPsdu;
  wf_rx_ref : mPsdu (sReceiveFrame s) = ref_sReceivePsdu
}.

(** The frame type of the frame that waits in the transmit buffer. *)
Definition tx_frameType (s : radio) : Z :=
  Z.land (GETLE16 (psdu_of s (sTransmitFrame s))) MAC_FC_FT_MASK.

(** The frame that waits in the transmit buffer has a length that a PSDU
    can have and that covers its header and footer, as lines 870-929 work
    them out: then line 931 does not wrap and the payload lies inside the
    buffer. *)
Definition tx_length_ok (s : radio) : Prop :=
  let l :=
    tx_parse (sTransmitFrame s) (psdu_of s (sTransmitFrame s)) 0
      curPacket_zero in
  tx_headerLength l + tx_footerLength l <= mLength (sTransmitFrame s) <=
    aMaxPHYPacketSize.

(** The payload of the frame that waits in the transmit buffer lies inside
    the buffer, as [otPlatRadioTransmit] will find it. *)
Definition tx_inside (s : radio) : bool :=
  tx_msdu_inside
    (tx_parse (sTransmitFrame s) (psdu_of s (sTransmitFrame s)) 0
       curPacket_zero).

(** The state in which [otPlatRadioTransmit] reaches [intransit_putFrame]
    for a data frame, once the loop has settled on the handle [h]. *)
Definition tx_state (h transmitContext : Z) (s : radio) : radio :=
  let s := set_handle h s in
  let s := set_sState kStateTransmit s in
  let s := set_sTransmitError kThreadError_None s in
  let s := setChannel (mChannel (sTransmitFrame s)) s in
  set_sTransmitFrame
    (with_mTransmitContext transmitContext (sTransmitFrame s)) s.

(** The radio in state [st] with the frame of scenario 1 in its transmit
    buffer. *)
Definition scenario1_radio (st : PhyState) : radio :=
  set_sState st
    (set_sTransmitPsdu scenario1_psdu
       (set_sTransmitFrame scenario1_frame (radio_init ot_example))).

(** ** In-transit table (sections 3 and 4.2) *)

(** A handle is live while it sits in the table; 0 marks a free slot. *)
Definition live_handles (s : radio) : list Z :=
  filter (fun h => h <> 0) (IntransitHandles s).

(** No handle other than 0 sits in two slots. *)
Definition unique_handles (handles : list Z) : Prop :=
  forall (i j : nat) (h : Z),
    handles !! i = Some h -> handles !! j = Some h -> h <> 0 -> i = j.

Record intransit_inv (s : radio) : Prop := mkIntransitInv {
  inv_handles : length (IntransitHandles s) = MAX_INTRANSITS;
  inv_packets : length (IntransitPackets s) = MAX_INTRANSITS;
  inv_unique : unique_handles (IntransitHandles s)
}.


(** What the co-processor and the stack get to see: the handles of the
    MCPS-DATA requests and the contexts of the transmit-done callbacks, in
    the order of the trace. *)
Definition data_request_handles (tr : list event) : list Z :=
  omap (fun e => match e with
                 | MCPS_DATA_request req _ => Some (MsduHandle req)
                 | _ => None
                 end) tr.

Definition transmit_done_contexts (tr : list event) : list Z :=
  omap (fun e => match e with
                 | otPlatRadioTransmitDone _ _ context => Some context
                 | _ => None
                 end) tr.

(** The state a call leaves behind; the state it started in if it does
    not return. *)
Definition after {A : Type} (r : run A) (s0 : radio) : radio :=
  match r with
  | Returns _ s => s
  | _ => s0
  end.

(** The stack fills the transmit buffer it got from
    [otPlatRadioGetTransmitBuffer]: the bytes, the length, the channel and
    the transmission hint. *)
Definition stack_fills_transmit_buffer (psdu : list Z)
    (len channel : Z) (direct : bool) (s : radio) : radio :=
  set_sTransmitPsdu psdu
    (set_sTransmitFrame
       (mkRadioPacket (mPsdu (sTransmitFrame s)) len channel
          (mPower (sTransmitFrame s)) (mLqi (sTransmitFrame s)) direct
          (mTransmitContext (sTransmitFrame s))) s).

(** The calls that can follow one another on a radio: the stack fills the
    transmit buffer, or one of the operations returns. *)
Inductive radio_step : radio -> radio -> Prop :=
  | step_fill psdu len channel direct s :
      radio_step s (stack_fills_transmit_buffer psdu len channel direct s)
  | step_Enable hwme s e s' :
      otPlatRadioEnable hwme s = Returns e s' -> radio_step s s'
  | step_Disable hwme s e s' :
      otPlatRadioDisable hwme s = Returns e s' -> radio_step s s'
  | step_Receive aChannel s e s' :
      otPlatRadioReceive aChannel s = Returns e s' -> radio_step s s'
  | step_Transmit transmitContext curPacket0 reply s e s' :
      otPlatRadioTransmit transmitContext curPacket0 reply s = Returns e s' ->
      radio_step s s'
  | step_DataConfirm params s r s' :
      handleDataConfirm params s = Returns r s' -> radio_step s s'
  | step_DataIndication params s r s' :
      handleDataIndication params s = Returns r s' -> radio_step s s'.

(** The stack hands the frame of scenario 1 over once for each of
    [contexts], one call after the other with no confirm in between, as
    long as the calls return without error. *)
Fixpoint transmit_scenario1 (contexts : list Z) (s : radio)
  : run ThreadError :=
  match contexts with
  | [] => Returns kThreadError_None s
  | context :: rest =>
      call e, s <-
        otPlatRadioTransmit context curPacket_zero (fun _ => 0)
          (stack_fills_transmit_buffer scenario1_psdu 14 11 true s) in
      match e with
      | kThreadError_None => transmit_scenario1 rest s
      | _ => Returns e s
      end
  end.

(** ** Concrete inputs of the receive path and of the energy scan *)

(** The indication of scenario 3: destination 0xBEEF/0x0001, source
    0xBEEF/0x0002, payload 11 22, no security. *)
Definition scenario3_indication : MCPS_DATA_indication_pset :=
  mkDataIndication (mkFullAddr 2 [0xEF; 0xBE] [2; 0; 0; 0; 0; 0; 0; 0])
    (mkFullAddr 2 [0xEF; 0xBE] [1; 0; 0; 0; 0; 0; 0; 0]) 2 200 [0x11; 0x22]
    SecSpec_zero.

(** The same addresses with an MSDU of 120 bytes: with the 9 bytes of the
    header and the 2 of the footer the PDU would have 131 bytes. *)
Definition overlong_indication : MCPS_DATA_indication_pset :=
  mkDataIndication (mkFullAddr 2 [0xEF; 0xBE] [2; 0; 0; 0; 0; 0; 0; 0])
    (mkFullAddr 2 [0xEF; 0xBE] [1; 0; 0; 0; 0; 0; 0; 0]) 120 200
    (replicate 120 0xAA) SecSpec_zero.

(** A radio that listens, with an empty receive slot. *)
Definition receiving_radio : radio :=
  set_sState kStateReceive (radio_init ot_example).

(** A radio on which an energy scan of the channels in [mask] has been
    started, with callback 1 and context 2. *)
Definition energy_scanning_radio (mask : Z) : radio :=
  after (otPlatRadioEnergyScan mask 200 1 2 MAC_SUCCESS receiving_radio)
    receiving_radio.

(** The results that [handleScanConfirm] hands to the energy-scan
    callback. *)
Definition energy_scan_results (tr : list event)
  : list (option otEnergyScanResult) :=
  omap (fun e => match e with
                 | EnergyScanCallback _ _ result => Some result
                 | _ => None
                 end) tr.

(** The frames handed to the stack's receive callback: the length stored
    in each and its bytes. *)
Definition received_frames (tr : list event) : list (Z * list Z) :=
  omap (fun e => match e with
                 | otPlatRadioReceiveDone frame psdu _ =>
                     Some (mLength frame, take (Z.to_nat (mLength frame)) psdu)
                 | _ => None
                 end) tr.

(** ** Device-table synchronization (section 4.6) *)

(** The children among the indices 0..4 whose extended address is not all
    zero, in the order of their index. *)
Definition valid_children (o : otInstance) : list otChildInfo :=
  filter (fun c => isValid (ci_mExtAddress c) = true)
    (map (ot_ChildInfoByIndex o) [0; 1; 2; 3; 4]).

(** "PAN, short address, extended address with byte order reversed to MAC
    convention, frame counter = 0, non-exempt". *)
Definition spec_descriptor (panid rloc16 : Z) (ext : list Z)
  : M_DeviceDescriptor :=
  mkDeviceDescriptor (LE16 panid) (LE16 rloc16) (reverse ext) [0; 0; 0; 0] 0.

Definition spec_descriptors (o : otInstance) : list M_DeviceDescriptor :=
  map (fun c => spec_descriptor (ot_PanId o) (ci_mRloc16 c)
                  (ci_mExtAddress c)) (valid_children o) ++
  map (fun r => spec_descriptor (ot_PanId o) (ri_mRloc16 r)
                  (ri_mExtAddress r)) (ot_NeighborRouters o).

(** The writes of the descriptors [ds] to the slots [count], [count + 1],
    and so on. *)
Definition device_table_writes (count : Z) (ds : list M_DeviceDescriptor)
  : list event :=
  imap (fun i d => MLME_SET_macDeviceTable (count + Z.of_nat i) d) ds.

Definition is_key_table_write (e : event) : Prop :=
  match e with
  | MLME_SET_macKeyTable _ _ _ | MLME_SET_macKeyTableEntries _ => True
  | _ => False
  end.

(** Extended addresses have 8 bytes. *)
Definition wf_otInstance (o : otInstance) : Prop :=
  (forall i, length (ci_mExtAddress (ot_ChildInfoByIndex o i)) = 8%nat) /\
  Forall (fun r => length (ri_mExtAddress r) = 8%nat) (ot_NeighborRouters o).

(** A router with the children 0 and 3 and one neighbouring router. *)
Definition ot_router_example : otInstance :=
  mkInstance true kDeviceRoleRouter 0xFACE 5
    (fun i =>
       if i =? 0 then mkChildInfo [1; 2; 3; 4; 5; 6; 7; 8] 0x0401
       else if i =? 3 then mkChildInfo [0; 0; 0; 0; 0; 0; 0; 9] 0x0402
       else mkChildInfo [0; 0; 0; 0; 0; 0; 0; 0] 0)
    [mkRouterInfo [8; 7; 6; 5; 4; 3; 2; 1] 0x0800] None
    (fun _ => replicate 16 0).

Definition tKeyDescriptor_zero : M_KeyDescriptor_thread :=
  mkKeyDescriptor 0 0 0 (replicate 16 0) 0 (replicate 9 0) (replicate 7 0).

(** ** The frame codec (sections 4.1 and 6) *)

(** Modelled from the spec: the co-processors and the air between two
    radios are collaborators outside the sources at hand.  The sender's
    co-processor completes a request with its own PAN id and address
    ([macPANId], [macShortAddress], [nsIEEEAddress], as set through
    [otPlatRadioSetPanId] and the like); the receiver's co-processor raises
    the indication with that source, and with the destination, the payload
    and the security spec of the request. *)
Record mac_pib : Type := mkPib {
  macPANId : list Z;
  macShortAddress : list Z;
  nsIEEEAddress : list Z
}.

Definition indication_of_request (pib : mac_pib) (lqi : Z)
    (req : MCPS_DATA_request_pset) (sec : SecSpec)
  : MCPS_DATA_indication_pset :=
  mkDataIndication
    (mkFullAddr (SrcAddrMode req) (macPANId pib)
       (if SrcAddrMode req =? MAC_MODE_SHORT_ADDR
        then macShortAddress pib else nsIEEEAddress pib))
    (Dst req) (MsduLength req) lqi (Msdu req) sec.

(** The layout of the addressing fields of a frame whose two addresses are
    short or extended: the destination PAN at 3, the destination address
    at 5, then the source PAN unless it is compressed away, then the source
    address, then the auxiliary security header or the payload. *)
Definition frame_dst_length (fc : Z) : Z :=
  if MAC_FC_DAM fc =? MAC_MODE_SHORT_ADDR then 2 else 8.

Definition frame_src_length (fc : Z) : Z :=
  if MAC_FC_SAM fc =? MAC_MODE_SHORT_ADDR then 2 else 8.

Definition frame_pan_compressed (fc : Z) : bool :=
  negb (Z.land fc MAC_FC_PAN_COMP =? 0).

Definition frame_src_pan_offset (fc : Z) : Z := 5 + frame_dst_length fc.

Definition frame_src_offset (fc : Z) : Z :=
  if frame_pan_compressed fc then 5 + frame_dst_length fc
  else 7 + frame_dst_length fc.

Definition frame_ash_offset (fc : Z) : Z :=
  frame_src_offset fc + frame_src_length fc.

(** The end of the header and the length of the footer, as the encoder
    finds them. *)
Definition frame_header_length (psdu : list Z) : Z :=
  (tx_security (GETLE16 psdu) psdu
     (tx_addressFieldLength (GETLE16 psdu))).2.

Definition frame_footer_length (psdu : list Z) : Z :=
  footerLength_of
    (SecurityLevel
       (tx_security (GETLE16 psdu) psdu
          (tx_addressFieldLength (GETLE16 psdu))).1).

(** A well-formed data frame of [len] bytes in the buffer [psdu], sent by
    the node whose co-processor holds [pib]: the frame type is data; both
    addresses are present; the security-enabled bit is set only with a
    security level other than 0; the PAN-compression bit is set exactly
    when the source PAN, which is the sender's, is the destination PAN;
    the source address is the sender's; header, payload and footer fit the
    length. *)
Record wf_data_frame (pib : mac_pib) (psdu : list Z) (len : Z) : Prop :=
  mkWfDataFrame {
  wfd_bytes : is_bytes IEEE802154_MAX_LENGTH psdu;
  wfd_type : Z.land (GETLE16 psdu) MAC_FC_FT_MASK = MAC_FC_FT_DATA;
  wfd_dam :
    MAC_FC_DAM (GETLE16 psdu) = MAC_MODE_SHORT_ADDR \/
    MAC_FC_DAM (GETLE16 psdu) = MAC_MODE_LONG_ADDR;
  wfd_sam :
    MAC_FC_SAM (GETLE16 psdu) = MAC_MODE_SHORT_ADDR \/
    MAC_FC_SAM (GETLE16 psdu) = MAC_MODE_LONG_ADDR;
  wfd_sec :
    Z.land (GETLE16 psdu) MAC_FC_SEC_ENA <> 0 ->
    MAC_SC_SECURITYLEVEL (rd psdu (frame_ash_offset (GETLE16 psdu))) <> 0;
  wfd_len :
    frame_header_length psdu + frame_footer_length psdu <= len /\
    len <= aMaxPHYPacketSize;
  wfd_pib :
    length (macPANId pib) = 2%nat /\
    length (macShortAddress pib) = 2%nat /\
    length (nsIEEEAddress pib) = 8%nat;
  wfd_src_pan :
    macPANId pib =
      bytes_at psdu
        (if frame_pan_compressed (GETLE16 psdu) then 3
         else frame_src_pan_offset (GETLE16 psdu)) 2;
  wfd_pan_comp :
    frame_pan_compressed (GETLE16 psdu) = false ->
    bytes_at psdu (frame_src_pan_offset (GETLE16 psdu)) 2 <>
      bytes_at psdu 3 2;
  wfd_src_addr :
    (if MAC_FC_SAM (GETLE16 psdu) =? MAC_MODE_SHORT_ADDR
     then macShortAddress pib else nsIEEEAddress pib) =
      bytes_at psdu (frame_src_offset (GETLE16 psdu))
        (frame_src_length (GETLE16 psdu))
}.

(** The bits of the frame control that an indication carries: frame type,
    security enabled, PAN compression and the two addressing modes. *)
Definition FC_CARRIED : Z := 0xCC4F.

(** The frame control the decoder makes up for the modes, the security bit
    and the PAN-compression bit of [fc] (lines 1044-1047 and 1083). *)
Definition fc_synth (fc : Z) : Z :=
  Z.lor
    (Z.lor
       (Z.lor
          (Z.lor
             (Z.lor 0 (u16 (Z.shiftl (Z.land (MAC_FC_SAM fc) 3) 14)))
             (u16 (Z.shiftl (Z.land (MAC_FC_DAM fc) 3) 10)))
          (if Z.land fc MAC_FC_SEC_ENA =? 0 then 0 else MAC_FC_SEC_ENA))
       MAC_FC_FT_DATA)
    (if Z.land fc MAC_FC_PAN_COMP =? 0 then 0 else MAC_FC_PAN_COMP).

(** A check of [f] on [x], [x + 1], ..., [x + n - 1]. *)
Fixpoint all_from (f : Z -> bool) (x : Z) (n : nat) : bool :=
  match n with
  | O => true
  | S k => f x && all_from f (x + 1) k
  end.

(** The state of a radio whose stack has put the frame [psdu] of [len]
    bytes into the transmit buffer. *)
Definition sending_radio (psdu : list Z) (len : Z) : radio :=
  stack_fills_transmit_buffer psdu len 11 true receiving_radio.

(** The node that sends the frames of the scenarios: PAN 0xFACE, short
    address 0x0002. *)
Definition pib_example : mac_pib :=
  mkPib [0xCE; 0xFA] [0x02; 0x00] [1; 2; 3; 4; 5; 6; 7; 8].

(** What the codec needs of a frame control [fc]: the byte kept of the
    PAN-compression bit is 0 only when the bit is, and for a data frame
    the decoder's frame control is [fc] on the carried bits. *)
Definition fc_ok (fc : Z) : bool :=
  Bool.eqb (u8 (Z.land fc MAC_FC_PAN_COMP) =? 0)
    (Z.land fc MAC_FC_PAN_COMP =? 0) &&
  implb (Z.land fc MAC_FC_FT_MASK =? MAC_FC_FT_DATA)
    (fc_synth fc =? Z.land fc FC_CARRIED).

(** The bits of the security control that a security spec carries:
    security level and key-id mode. *)
Definition SC_CARRIED : Z := 0x1F.

(** What the codec needs of a security control [sc]: the decoder's
    security control is [sc] on the carried bits, and the key-id mode has
    two bits. *)
Definition sc_ok (sc : Z) : bool :=
  (Z.lor (Z.lor 0 (MAC_SC_SECURITYLEVEL (MAC_SC_SECURITYLEVEL sc)))
     (MAC_KEYIDMODE_SC (MAC_SC_KEYIDMODE sc)) =? Z.land sc SC_CARRIED) &&
  (0 <=? MAC_SC_KEYIDMODE sc) && (MAC_SC_KEYIDMODE sc <=? 3).

(** What a round trip through the codec restores of the frame [psdu] of
    [len] bytes in the frame [psdu'] that the receiving stack is handed: the
    carried bits of the frame control; the PANs and the addresses; with
    security, the carried bits of the security control and the key
    identifier (key source and key index); the payload.  The sequence
    number, the frame counter and the footer are not among them. *)
Definition round_trip_restores (psdu : list Z) (len : Z) (psdu' : list Z)
  : Prop :=
  let fc := GETLE16 psdu in
  let ash := frame_ash_offset fc in
  GETLE16 psdu' = Z.land fc FC_CARRIED /\
  (forall i, 3 <= i < ash -> rd psdu' i = rd psdu i) /\
  (Z.land fc MAC_FC_SEC_ENA <> 0 ->
   rd psdu' ash = Z.land (rd psdu ash) SC_CARRIED /\
   forall i, ash + 5 <= i < frame_header_length psdu ->
     rd psdu' i = rd psdu i) /\
  (forall i, frame_header_length psdu <= i < len - frame_footer_length psdu ->
     rd psdu' i = rd psdu i).

(** A radio whose stack has put the [len] bytes of [psdu] into the
    transmit buffer and may call [otPlatRadioTransmit]. *)
Definition ready_to_send (psdu : list Z) (len : Z) (s : radio) : Prop :=
  wf_radio s /\ sState s <> kStateDisabled /\ intransit_mutex s = false /\
  sTransmitPsdu s = psdu /\ mLength (sTransmitFrame s) = len.

(** A radio whose stack is up and has taken the last frame out of the
    receive slot. *)
Definition ready_to_receive (r : radio) : Prop :=
  wf_radio r /\ ot_InterfaceUp (ot r) = true /\
  receiveFrame_mutex r = false /\ mLength (sReceiveFrame r) = 0.

(** The arrays of the automatic variable [curPacket] have their sizes,
    whatever they hold. *)
Definition wf_curPacket (curPacket0 : MCPS_DATA_request_pset) : Prop :=
  length (PANId (Dst curPacket0)) = 2%nat /\
  length (Address (Dst curPacket0)) = 8%nat.

(** * Notions for the further properties *)

(** ** The integer logarithm (lines 228-244) *)

(** [smeared k m x]: the highest bit of [x] is bit [k], and the [m] bits
    from [k] downwards are all set; what [value |= value >> m] has made of
    [value] after the shifts by 1, 2, ..., [m / 2]. *)
Definition smeared (k m x : Z) : Prop :=
  0 < x /\ Z.log2 x = k /\
  forall i, 0 <= i -> k - m < i <= k -> Z.testbit x i = true.

(** The table look-up on the value with the bits 0 to [k] set. *)
Definition tab32_ok (k : Z) : bool :=
  rd tab32 (Z.shiftr (u32 (Z.ones (k + 1) * 0x07C4ACDD)) 27) =? k.

(** ** The poll of a data request (lines 947-975) *)

(** The calls and log lines of the poll loop for the attempts [count],
    [count + 1], ..., [count + more]: each attempt is a poll, and each but
    the one with [count] 0 is followed by a warning. *)
Fixpoint poll_events (coord : FullAddr) (sec : SecSpec) (count : Z)
    (more : nat) : list event :=
  (MLME_POLL_request_sync coord sec ::
     (if 0 <? count then [otPlatLog_Warn] else [])) ++
  match more with
  | O => []
  | S more' => poll_events coord sec (count + 1) more'
  end.

(** The error that the transmit-done of a poll carries. *)
Definition poll_error (ret : Z) : ThreadError :=
  if (ret =? MAC_SUCCESS) || (ret =? MAC_NO_DATA) then kThreadError_None
  else kThreadError_NoAck.

(** A data-request command frame: frame control 0x8863, command
    identifier 4; and a frame with frame type 0 (beacon). *)
Definition poll_psdu : list Z :=
  pad_psdu [0x63; 0x88; 7; 0xCE; 0xFA; 0x01; 0x00; 0x02; 0x00; 0x04].

Definition beacon_psdu : list Z :=
  pad_psdu [0x60; 0x88; 7; 0xCE; 0xFA; 0x01; 0x00; 0x02; 0x00; 0x04].

(** ** Confirms and the in-transit table (lines 1143-1183, 1391-1455) *)

(** What the stack is told by the transmit-done callbacks, in the order of
    the trace: frame pending, error, context. *)
Definition transmit_done_reports (tr : list event)
  : list (bool * ThreadError * Z) :=
  omap (fun e => match e with
                 | otPlatRadioTransmitDone pending error context =>
                     Some (pending, error, context)
                 | _ => None
                 end) tr.

(** The error that the stack is told for the status of a confirm: 0 is
    success, 0xE1 channel access failure, 0xE9 no ack, 0xF0 transaction
    expired, 0xF1 transaction overflow. *)
Definition confirm_report (status : Z) : ThreadError :=
  match status with
  | 0 => kThreadError_None
  | 0xE1 => kThreadError_ChannelAccessFailure
  | 0xE9 | 0xF0 | 0xF1 => kThreadError_NoAck
  | _ => kThreadError_Abort
  end.

(** The value a call returns, if it returns. *)
Definition value_of {A : Type} (r : run A) : option A :=
  match r with
  | Returns v _ => Some v
  | _ => None
  end.

(** A table with the handles 5 and 9 in transit, for the contexts 50 and
    90, on a radio that listens. *)
Definition radio_two_in_transit : radio :=
  set_IntransitPackets
    (<[1%nat := mkRadioPacket ref_sTransmitPsdu 14 11 0 0 true 90]>
       (<[0%nat := mkRadioPacket ref_sTransmitPsdu 14 11 0 0 true 50]>
          (IntransitPackets receiving_radio)))
    (set_IntransitHandles [5; 9; 0; 0; 0; 0; 0] receiving_radio).

(** The same with the handles 5, 9, 1, 2, 3 and 4: one slot is free, and
    the record of an earlier transmission with context 66 lies in it. *)
Definition radio_one_slot_free : radio :=
  set_IntransitPackets
    (<[6%nat := mkRadioPacket ref_sTransmitPsdu 14 11 0 0 true 66]>
       (IntransitPackets receiving_radio))
    (set_IntransitHandles [5; 9; 1; 2; 3; 4; 0] receiving_radio).

(** ** The scans (lines 246-334 and 1230-1277) *)

(** The start of a scan of either kind; [scanRequest] is the status that
    [MLME_SCAN_request] answers. *)
Definition start_scan (energy : bool) (aScanChannels aScanDuration : Z)
    (aCallback aCallbackContext : Z) (scanRequest : Z) (s : radio)
  : run ThreadError :=
  if energy then
    otPlatRadioEnergyScan aScanChannels aScanDuration aCallback
      aCallbackContext scanRequest s
  else
    otPlatRadioActiveScan aScanChannels aScanDuration aCallback
      aCallbackContext scanRequest s.

(** Lines 327-334. *)
Definition otPlatRadioIsEnergyScanInProgress (s : radio) : bool :=
  negb (sEnergyScanInProgress s =? 0).

Definition otPlatRadioIsActiveScanInProgress (s : radio) : bool :=
  negb (sActiveScanInProgress s =? 0).

(** ** The receive path (lines 981-984 and 1022-1141) *)

Definition otPlatRadioGetNoiseFloor (s : radio) : Z := noiseFloor s.

(** The power estimate of a link quality fits [int8_t] and is not
    positive. *)
Definition rssi_ok (lqi : Z) : bool :=
  (i8 (Z.quot (lqi - 256) 2) =? Z.quot (lqi - 256) 2) &&
  (-128 <=? Z.quot (lqi - 256) 2) && (Z.quot (lqi - 256) 2 <=? 0).

(** ** The key table (lines 688-744) *)

(** The key sequence numbers whose keys go to the co-processor when the
    key sequence counter is [c]: the previous, the current and the next
    one, in 32-bit arithmetic, without 0. *)
Definition key_generations (c : Z) : list Z :=
  filter (fun q => 0 < q) (map (fun i => u32 (u32 (c - 1) + i)) [0; 1; 2]).

(** The look-up data of the key with sequence number [q]: the key index
    [(q mod 128) + 1], right-concatenated with the default key source. *)
Definition key_lookup_data (q : Z) : list Z :=
  [Z.land q 0x7F + 1; 0; 0; 0; 0; 0; 0; 0; 0xFF].

(** The writes to the key table in a trace: slot, key and look-up data of
    each. *)
Definition key_table_writes (tr : list event)
  : list (Z * list Z * list Z) :=
  omap (fun e => match e with
                 | MLME_SET_macKeyTable i _ k =>
                     Some (i, Key k, LookupData k)
                 | _ => None
                 end) tr.

(** The neighbouring routers for which the device table has room after
    the valid children. *)
Definition registered_routers (o : otInstance) : list otRouterInfo :=
  take (5 - length (valid_children o)) (ot_NeighborRouters o).

(** A stack whose key sequence counter is 0, and a router with two valid
    children and six neighbouring routers. *)
Definition ot_fresh_example : otInstance :=
  mkInstance true kDeviceRoleRouter 0xFACE 0
    (fun _ => mkChildInfo (replicate 8 0) 0) [] None
    (fun q => replicate 16 q).

Definition ot_crowded_example : otInstance :=
  mkInstance true kDeviceRoleRouter 0xFACE 5
    (fun i =>
       if i =? 0 then mkChildInfo [1; 2; 3; 4; 5; 6; 7; 8] 0x0401
       else if i =? 3 then mkChildInfo [0; 0; 0; 0; 0; 0; 0; 9] 0x0402
       else mkChildInfo [0; 0; 0; 0; 0; 0; 0; 0] 0)
    (map (fun i => mkRouterInfo [8; 7; 6; 5; 4; 3; 2; i] (0x0800 + i))
       [1; 2; 3; 4; 5; 6])
    None (fun _ => replicate 16 0).

(** A child with a parent. *)
Definition ot_child_example : otInstance :=
  mkInstance true kDeviceRoleChild 0xFACE 5
    (fun _ => mkChildInfo (replicate 8 0) 0) []
    (Some (mkRouterInfo [8; 7; 6; 5; 4; 3; 2; 1] 0x0800))
    (fun _ => replicate 16 0).

(** * The rest of radio.c

    The statics and functions of radio.c that the sections above do not
    need: the coordinator flag, the beacon payload, the cache of the
    devices' frame counters, and the calls that only these functions
    make. *)

Record otActiveScanResult : Type := mkActiveScanResult {
  as_mExtAddress : list Z;
  as_mNetworkName : list Z;
  as_mExtendedPanId : list Z;
  as_mPanId : Z;
  as_mChannel : Z;
  as_mRssi : Z;
  as_mLqi : Z
}.

(** Requests to the co-processor and callbacks into the stack that are
    not among the [event]s, in the order they are made. *)
Inductive outcall : Type :=
  | MLME_START_request_sync (PANId LogicalChannel BeaconOrder
      SuperframeOrder PANCoordinator BatteryLifeExtension
      CoordRealignment : Z)
  | MLME_RESET_request_sync (SetDefaultPIB : Z)
  | MLME_SET_macBeaconPayload (payload : list Z)
  | MLME_SET_macBeaconPayloadLength (len : Z)
  | MLME_GET_macDeviceTable (index : Z)
  | ActiveScanCallback (callback context : Z) (result : otActiveScanResult).

(** Lines 97-104. *)
Record DeviceCache : Type := mkDeviceCache {
  isActive : Z;
  mExtAddr : list Z;
  mFrameCounter : list Z;
  mTimeoutFrameCounter : list Z
}.

(** [memset(&x, 0, sizeof(x))] on a [struct DeviceCache]. *)
Definition DeviceCache_zero : DeviceCache :=
  mkDeviceCache 0 (replicate 8 0) (replicate 4 0) (replicate 4 0).

(** [sDeviceCache] is an array of [DEVICE_TABLE_SIZE] elements, a constant
    of the Cascoda API headers, which are not part of the sources at hand:
    the array is a list and its size the length of the list.
    [mBeaconPayload] has [BEACON_PAYLOAD_LENGTH] bytes. *)
Record platform : Type := mkPlatform {
  radio_of : radio;
  sIsCoordinator : Z;
  mBeaconPayload : list Z;
  sDeviceCache : list DeviceCache;
  calls : list outcall
}.

Definition set_radio_of (v : radio) (p : platform) : platform :=
  mkPlatform v (sIsCoordinator p) (mBeaconPayload p) (sDeviceCache p)
    (calls p).
Definition set_sIsCoordinator (v : Z) (p : platform) : platform :=
  mkPlatform (radio_of p) v (mBeaconPayload p) (sDeviceCache p) (calls p).
Definition set_mBeaconPayload (v : list Z) (p : platform) : platform :=
  mkPlatform (radio_of p) (sIsCoordinator p) v (sDeviceCache p) (calls p).
Definition set_sDeviceCache (v : list DeviceCache) (p : platform)
  : platform :=
  mkPlatform (radio_of p) (sIsCoordinator p) (mBeaconPayload p) v (calls p).
Definition set_calls (v : list outcall) (p : platform) : platform :=
  mkPlatform (radio_of p) (sIsCoordinator p) (mBeaconPayload p)
    (sDeviceCache p) v.

Definition make (c : outcall) (p : platform) : platform :=
  set_calls (calls p ++ [c]) p.

Definition BEACON_PAYLOAD_LENGTH : Z := 32.
Definition kBeaconPayloadLength : Z := BEACON_PAYLOAD_LENGTH.

(** The statics as they are initialized (lines 104, 181 and 186). *)
Definition platform_init (DEVICE_TABLE_SIZE : nat) (s : radio) : platform :=
  mkPlatform s 0 ([3; 0x91] ++ replicate 30 0)
    (replicate DEVICE_TABLE_SIZE DeviceCache_zero) [].

(** ** The beacon payload (lines 336-375)

    [aNetworkName] and [aExtPanId] stand for the memory at the pointers,
    of which 16 and 8 bytes are copied; [status1] and [status2] are the
    answers of the co-processor to the two requests, of which the second
    is made only after the first has succeeded. *)
Definition otPlatRadioSetNetworkName (aNetworkName : list Z)
    (status1 status2 : Z) (p : platform) : ThreadError * platform :=
  let p :=
    set_mBeaconPayload (memcpy (mBeaconPayload p) 2 (take 16 aNetworkName))
      p in
  let p := make (MLME_SET_macBeaconPayload (mBeaconPayload p)) p in
  if status1 =? MAC_SUCCESS then
    let p := make (MLME_SET_macBeaconPayloadLength kBeaconPayloadLength) p in
    if status2 =? MAC_SUCCESS then (kThreadError_None, p)
    else (kThreadError_Failed, p)
  else (kThreadError_Failed, p).

Definition otPlatRadioSetExtendedPanId (aExtPanId : list Z)
    (status1 status2 : Z) (p : platform) : ThreadError * platform :=
  let p :=
    set_mBeaconPayload (memcpy (mBeaconPayload p) 18 (take 8 aExtPanId)) p in
  let p := make (MLME_SET_macBeaconPayload (mBeaconPayload p)) p in
  if status1 =? MAC_SUCCESS then
    let p := make (MLME_SET_macBeaconPayloadLength kBeaconPayloadLength) p in
    if status2 =? MAC_SUCCESS then (kThreadError_None, p)
    else (kThreadError_Failed, p)
  else (kThreadError_Failed, p).

(** ** The EUI-64 (lines 393-401)

    [otPlatRandomGet i] is what the [i]-th call of [otPlatRandomGet]
    returns; the value is cut to the [uint16_t] it is stored in. *)
Fixpoint eui64_loop (idx : list Z) (otPlatRandomGet : Z -> Z)
    (aIeeeEui64 : list Z) : list Z :=
  match idx with
  | [] => aIeeeEui64
  | i :: rest =>
      let random := u16 (otPlatRandomGet i) in
      let aIeeeEui64 := wr aIeeeEui64 (2 * i) (Z.land random 0xFF) in
      let aIeeeEui64 :=
        wr aIeeeEui64 (2 * i + 1) (Z.land (Z.shiftr random 4) 0xFF) in
      eui64_loop rest otPlatRandomGet aIeeeEui64
  end.

Definition otPlatRadioGetIeeeEui64 (otPlatRandomGet : Z -> Z)
    (aIeeeEui64 : list Z) : list Z :=
  eui64_loop [0; 1; 2; 3] otPlatRandomGet aIeeeEui64.

(** ** The coordinator flag (lines 533-572) *)

Definition coordChangeCallback (OT_NET_ROLE aFlags : Z) (p : platform)
  : platform :=
  if negb (Z.land aFlags OT_NET_ROLE =? 0) then
    let role := ot_DeviceRole (ot (radio_of p)) in
    if bool_decide (role = kDeviceRoleRouter \/ role = kDeviceRoleLeader) then
      if sIsCoordinator p =? 0 then
        let p :=
          make (MLME_START_request_sync (ot_PanId (ot (radio_of p)))
                  (sChannel (radio_of p)) 15 15 1 0 0) p in
        set_sIsCoordinator 1 p
      else p
    else if negb (sIsCoordinator p =? 0) then
      let p := make (MLME_RESET_request_sync 0) p in
      set_sIsCoordinator 0 p
    else p
  else p.

(** [keyChangeCallback] first, then [coordChangeCallback]; [None] if the
    first does not return. *)
Definition otHardMacStateChangeCallback
    (OT_NET_KEY_SEQUENCE OT_THREAD_CHILD_ADDED OT_THREAD_CHILD_REMOVED
       OT_NET_ROLE OT_THREAD_LINK_ACCEPT usage_data usage_data_request
       sizeof_tKeyDescriptor aFlags : Z)
    (k0 : M_KeyDescriptor_thread) (p : platform) : option platform :=
  match
    keyChangeCallback OT_NET_KEY_SEQUENCE OT_THREAD_CHILD_ADDED
      OT_THREAD_CHILD_REMOVED OT_NET_ROLE OT_THREAD_LINK_ACCEPT usage_data
      usage_data_request sizeof_tKeyDescriptor aFlags k0 (radio_of p)
  with
  | Returns _ s => Some (coordChangeCallback OT_NET_ROLE aFlags
                           (set_radio_of s p))
  | _ => None
  end.

(** ** Beacons (lines 1185-1228)

    The fields of the indication that the function names, and the bytes of
    the indication, which it reads at offsets of its own from byte 23
    on. *)
Record PanDescriptor_t : Type := mkPanDescriptor {
  pd_Coord : FullAddr;
  pd_LogicalChannel : Z;
  pd_LinkQuality : Z;
  pd_Security : SecSpec
}.

Record MLME_BEACON_NOTIFY_indication_pset : Type := mkBeaconNotify {
  PanDescriptor : PanDescriptor_t;
  bn_bytes : list Z
}.

Section Beacon.

(** The sizes of the two arrays of [otActiveScanResult], a type of
    openthread-types.h, which is not part of the sources at hand. *)
Variables sizeof_mNetworkName sizeof_mExtendedPanId : Z.

Definition handleBeaconNotify (params : MLME_BEACON_NOTIFY_indication_pset)
    (p : platform) : Z * platform :=
  let s := radio_of p in
  if negb (ot_InterfaceUp (ot s)) then (1, p)
  else
    let bytes := bn_bytes params in
    let pd := PanDescriptor params in
    let shortaddrs := u8 (Z.land (rd bytes 23) 7) in
    let extaddrs := u8 (Z.shiftr (Z.land (rd bytes 23) 112) 4) in
    if AddressMode (pd_Coord pd) =? 3 then
      let mExtAddress := take 8 (Address (pd_Coord pd)) in
      let mPanId := GETLE16 (PANId (pd_Coord pd)) in
      let mChannel := pd_LogicalChannel pd in
      let mRssi := i8 (Z.quot (pd_LinkQuality pd - 256) 2) in
      let p := set_radio_of (set_noiseFloor mRssi s) p in
      let mLqi := pd_LinkQuality pd in
      if negb (SecurityLevel (pd_Security pd) =? 0) then (0, p)
      else
        let sduLength := rd bytes (24 + 2 * shortaddrs + 8 * extaddrs) in
        if 0 <? sduLength then
          let Sdu := 25 + 2 * shortaddrs + 8 * extaddrs in
          let version := u8 (Z.land (rd bytes (Sdu + 1)) 15) in
          if (rd bytes Sdu =? 3) && (version =? 1) then
            let resultStruct :=
              mkActiveScanResult mExtAddress
                (bytes_at bytes (Sdu + 2) sizeof_mNetworkName)
                (bytes_at bytes (Sdu + 18) sizeof_mExtendedPanId)
                mPanId mChannel mRssi mLqi in
            (0, make (ActiveScanCallback (sActiveScanCallback s)
                        (sActiveScanContext s) resultStruct) p)
          else (0, p)
        else (0, p)
    else (1, set_radio_of (emit otPlatLog_Warn s) p).

End Beacon.

(** ** The cache of frame counters (lines 1308-1389) *)

(** The loop of [deviceCache_getCachedDevice]: the index of the active
    entry with the address, or else [foundEmpty] as the loop leaves it. *)
Fixpoint getCachedDevice_loop (addr : list Z) (cache : list DeviceCache)
    (i : Z) (foundEmpty : Z) : option Z * Z :=
  match cache with
  | [] => (None, foundEmpty)
  | d :: rest =>
      if negb (isActive d =? 0) then
        if bool_decide (take 8 addr = take 8 (mExtAddr d)) then
          (Some i, foundEmpty)
        else getCachedDevice_loop addr rest (i + 1) foundEmpty
      else if foundEmpty =? 0xFF then
        getCachedDevice_loop addr rest (i + 1) (u8 i)
      else getCachedDevice_loop addr rest (i + 1) foundEmpty
  end.

(** The index of the element that the returned pointer points to, and the
    cache; [None] when the pointer is [&sDeviceCache[foundEmpty]] with
    [foundEmpty] outside the array. *)
Definition deviceCache_getCachedDevice (addr : list Z)
    (cache : list DeviceCache) : option (Z * list DeviceCache) :=
  match getCachedDevice_loop addr cache 0 0xFF with
  | (Some i, _) => Some (i, cache)
  | (None, foundEmpty) =>
      if foundEmpty <? Z.of_nat (length cache) then
        Some (foundEmpty,
              <[Z.to_nat foundEmpty :=
                  mkDeviceCache 1 (take 8 addr)
                    (mFrameCounter DeviceCache_zero)
                    (mTimeoutFrameCounter DeviceCache_zero)]> cache)
      else None
  end.

(** Lines 1334-1350; [table i] is the descriptor that the co-processor
    answers for the index [i]. *)
Fixpoint cacheDevices_loop (idx : list Z) (table : Z -> M_DeviceDescriptor)
    (p : platform) : option platform :=
  match idx with
  | [] => Some p
  | i :: rest =>
      let p := make (MLME_GET_macDeviceTable i) p in
      let tDeviceDescriptor := table i in
      let cur := take 8 (dd_ExtAddress tDeviceDescriptor) in
      match deviceCache_getCachedDevice cur (sDeviceCache p) with
      | None => None
      | Some (curCache, cache) =>
          let cache :=
            alter (fun d =>
                     mkDeviceCache 2 (mExtAddr d)
                       (memcpy (mFrameCounter d) 0
                          (take 4 (dd_FrameCounter tDeviceDescriptor)))
                       (mTimeoutFrameCounter d))
              (Z.to_nat curCache) cache in
          cacheDevices_loop rest table (set_sDeviceCache cache p)
      end
  end.

(** Lines 1352-1360, for one element. *)
Definition cacheDevices_sweep (d : DeviceCache) : DeviceCache :=
  if isActive d =? 1 then DeviceCache_zero
  else if isActive d =? 2 then
    mkDeviceCache 1 (mExtAddr d) (mFrameCounter d) (mTimeoutFrameCounter d)
  else d.

(** The counter of the second loop is a [uint8_t]: it only gets to the
    end of an array of at most 255 elements.  [None] stands for a call
    that leaves the array or does not end. *)
Definition deviceCache_cacheDevices (table : Z -> M_DeviceDescriptor)
    (p : platform) : option platform :=
  let n := Z.to_nat (sCurDeviceTableSize (radio_of p)) in
  match cacheDevices_loop (map Z.of_nat (seq 0 n)) table p with
  | None => None
  | Some p =>
      if 255 <? Z.of_nat (length (sDeviceCache p)) then None
      else
        Some (set_sDeviceCache (map cacheDevices_sweep (sDeviceCache p)) p)
  end.

(** The loop of lines 1373-1387: the result and the cache. *)
Fixpoint isDeviceActive_loop (macAddr : list Z) (cache : list DeviceCache)
  : Z * list DeviceCache :=
  match cache with
  | [] => (0, [])
  | d :: rest =>
      if negb (isActive d =? 0) &&
         bool_decide (take 8 macAddr = take 8 (mExtAddr d)) then
        if bool_decide (take 4 (mFrameCounter d) =
                        take 4 (mTimeoutFrameCounter d)) then
          (0, d :: rest)
        else
          (1, mkDeviceCache (isActive d) (mExtAddr d) (mFrameCounter d)
                (memcpy (mTimeoutFrameCounter d) 0
                   (take 4 (mFrameCounter d))) :: rest)
      else
        let '(r, rest') := isDeviceActive_loop macAddr rest in
        (r, d :: rest')
  end.

Definition otPlatRadioIsDeviceActive (table : Z -> M_DeviceDescriptor)
    (addr : list Z) (p : platform) : option (Z * platform) :=
  match deviceCache_cacheDevices table p with
  | None => None
  | Some p =>
      let macAddr := flip_endian addr in
      let '(r, cache) := isDeviceActive_loop macAddr (sDeviceCache p) in
      Some (r, set_sDeviceCache cache p)
  end.

(** What the two bytes made of one random number have in common. *)
Definition eui64_ok (random : Z) : bool :=
  (Z.land (Z.land (Z.shiftr random 4) 0xFF) 0x0F =?
     Z.shiftr (Z.land random 0xFF) 4) &&
  (Z.land random 0xFF =? Z.land (Z.land random 0xFFF) 0xFF) &&
  (Z.land (Z.shiftr random 4) 0xFF =?
     Z.land (Z.shiftr (Z.land random 0xFFF) 4) 0xFF).

(** A platform on the radio [receiving_radio], with a cache of ten
    elements. *)
Definition platform_example : platform := platform_init 10 receiving_radio.

(** The offset at which [handleBeaconNotify] looks for the beacon payload:
    25 bytes, and the pending addresses that byte 23 announces. *)
Definition beacon_sdu_offset (bytes : list Z) : Z :=
  25 + 2 * Z.land (rd bytes 23) 7 + 8 * Z.shiftr (Z.land (rd bytes 23) 112) 4.

(** The address counts of the pending-address byte fit their bytes. *)
Definition pend_ok (b : Z) : bool :=
  (u8 (Z.land b 7) =? Z.land b 7) &&
  (u8 (Z.shiftr (Z.land b 112) 4) =? Z.shiftr (Z.land b 112) 4) &&
  (Z.land b 7 <=? 7) && (0 <=? Z.land b 7) &&
  (Z.shiftr (Z.land b 112) 4 <=? 7) && (0 <=? Z.shiftr (Z.land b 112) 4).

(** An indication of a beacon from the coordinator 0xFACE /
    01:02:..:08 on channel 15, with no pending addresses and the bytes
    [sdu] as beacon payload. *)
Definition beacon_example (sdu : list Z) : MLME_BEACON_NOTIFY_indication_pset :=
  mkBeaconNotify
    (mkPanDescriptor (mkFullAddr 3 [0xCE; 0xFA] [1; 2; 3; 4; 5; 6; 7; 8])
       15 200 SecSpec_zero)
    (replicate 23 0 ++ [0; Z.of_nat (length sdu)] ++ sdu).

(** ** Notions for the cache of frame counters *)

(** The test of the two search loops: an entry in use with the address. *)
Definition cache_match (a : list Z) (d : DeviceCache) : Prop :=
  isActive d <> 0 /\ take 8 a = take 8 (mExtAddr d).

#[global] Instance cache_match_dec a d : Decision (cache_match a d).
Proof. unfold cache_match. apply _. Defined.

(** The first entry in use with the address, and the first free entry. *)
Definition cached (a : list Z) (cache : list DeviceCache)
  : option (nat * DeviceCache) :=
  list_find (cache_match a) cache.

Definition first_free (cache : list DeviceCache)
  : option (nat * DeviceCache) :=
  list_find (fun d => isActive d = 0) cache.

(** The frame counter of the device as the last query has seen it: zero
    for a device that is not in the cache. *)
Definition seen_counter (a : list Z) (cache : list DeviceCache) : list Z :=
  match cached a cache with
  | Some (_, e) => mTimeoutFrameCounter e
  | None => replicate 4 0
  end.

(** The descriptors that a query reads from the co-processor, in order. *)
Definition polled_devices (table : Z -> M_DeviceDescriptor) (p : platform)
  : list M_DeviceDescriptor :=
  map (fun i => table (Z.of_nat i))
    (seq 0 (Z.to_nat (sCurDeviceTableSize (radio_of p)))).

(** The frame counter of the device in the descriptors: that of the last
    descriptor with its address. *)
Definition table_counter (a : list Z) (ds : list M_DeviceDescriptor)
  : option (list Z) :=
  fold_left
    (fun acc d =>
       if bool_decide (take 8 (dd_ExtAddress d) = take 8 a)
       then Some (take 4 (dd_FrameCounter d)) else acc)
    ds None.

Definition descriptor_wf (d : M_DeviceDescriptor) : Prop :=
  length (dd_ExtAddress d) = 8%nat /\ length (dd_FrameCounter d) = 4%nat.

(** Between two queries an entry is free or in use, and its arrays have
    their sizes. *)
Definition entry_sized (d : DeviceCache) : Prop :=
  length (mExtAddr d) = 8%nat /\ length (mFrameCounter d) = 4%nat /\
  length (mTimeoutFrameCounter d) = 4%nat.

Definition cache_wf (cache : list DeviceCache) : Prop :=
  Forall (fun d => (isActive d = 0 \/ isActive d = 1) /\ entry_sized d)
    cache.

Definition active_entries (cache : list DeviceCache) : nat :=
  length (filter (fun d => isActive d <> 0) cache).

(** What one round of the first loop of [deviceCache_cacheDevices] does to
    the cache, and the loop. *)
Definition mark_device (dd : M_DeviceDescriptor) (d : DeviceCache)
  : DeviceCache :=
  mkDeviceCache 2 (mExtAddr d)
    (memcpy (mFrameCounter d) 0 (take 4 (dd_FrameCounter dd)))
    (mTimeoutFrameCounter d).

Definition cache_device (dd : M_DeviceDescriptor)
    (cache : list DeviceCache) : option (list DeviceCache) :=
  match
    deviceCache_getCachedDevice (take 8 (dd_ExtAddress dd)) cache
  with
  | None => None
  | Some (curCache, cache) =>
      Some (alter (mark_device dd) (Z.to_nat curCache) cache)
  end.

Fixpoint cache_devices (ds : list M_DeviceDescriptor)
    (cache : list DeviceCache) : option (list DeviceCache) :=
  match ds with
  | [] => Some cache
  | dd :: rest =>
      match cache_device dd cache with
      | None => None
      | Some cache => cache_devices rest cache
      end
  end.

(** An entry while the first loop runs over the descriptors [ds]: free, in
    use, or marked 2 for one of the descriptors. *)
Definition entry_marked (ds : list M_DeviceDescriptor) (d : DeviceCache)
  : Prop :=
  entry_sized d /\
  (isActive d = 0 \/ isActive d = 1 \/
   (isActive d = 2 /\
    Exists (fun dd => take 8 (dd_ExtAddress dd) = take 8 (mExtAddr d)) ds)).

Definition marked_entries (cache : list DeviceCache) : nat :=
  length (filter (fun d => isActive d = 2) cache).

(** A MAC table of two devices with frame counter 5, a platform with a
    cache of four free entries that polls it, a query for the second
    device, and a platform whose cache of two entries is full. *)
Definition table_example (i : Z) : M_DeviceDescriptor :=
  mkDeviceDescriptor [0x34; 0x12] [i; 0x04] [i; 2; 3; 4; 5; 6; 7; 8]
    [5; 0; 0; 0] 0.

Definition polling_example : platform :=
  platform_init 4 (set_sCurDeviceTableSize 2 receiving_radio).

Definition addr_example : list Z := [8; 7; 6; 5; 4; 3; 2; 1].

Definition polled_example : Z * platform :=
  default (0, polling_example)
    (otPlatRadioIsDeviceActive table_example addr_example polling_example).

Definition full_example : platform :=
  set_sDeviceCache
    [mkDeviceCache 1 [0x10; 2; 3; 4; 5; 6; 7; 8] [1; 0; 0; 0] [1; 0; 0; 0];
     mkDeviceCache 1 [0x11; 2; 3; 4; 5; 6; 7; 8] [7; 0; 0; 0] [6; 0; 0; 0]]
    polling_example.

(** * The barrier (lines 118-120 and 1458-1483)

    The main thread calls [barrier_main_letWorkerWork] from
    [PlatformRadioProcess]; a worker thread brackets each call into the
    stack with [barrier_worker_waitForMain] and [barrier_worker_endWork].
    The three functions are run as interleaved threads, one step for each
    statement, over the POSIX mutex and condition variable: a thread that
    locks a held mutex waits; [pthread_cond_wait] releases the mutex,
    blocks until a broadcast or a spurious wake-up, and takes the mutex
    again before it returns; to unlock or to wait with a mutex that the
    thread does not hold is undefined. *)

Inductive barrier_waiting : Type :=
  | NOT_WAITING | WAITING | GREENLIGHT | DONE.

Inductive thread : Type :=
  | Main
  | Worker (i : nat).

#[global] Instance barrier_waiting_eq_dec : EqDecision barrier_waiting.
Proof. solve_decision. Defined.

#[global] Instance thread_eq_dec : EqDecision thread.
Proof. solve_decision. Defined.

(** Where the main thread is: outside the barrier, or before one of the
    statements of [barrier_main_letWorkerWork]; the test of a loop and the
    call of [pthread_cond_wait] are two steps, and inside the call the
    thread is blocked, or woken and taking the mutex. *)
Inductive main_pc : Type :=
  | M_running
  | M_lock
  | M_if
  | M_greenlight
  | M_broadcast1
  | M_while
  | M_wait
  | M_blocked
  | M_relock
  | M_reset
  | M_broadcast2
  | M_unlock.

(** Where a worker is: outside the barrier, before one of the statements of
    [barrier_worker_waitForMain], in its work between the two calls (up to
    the first statement of [barrier_worker_endWork]), or before one of the
    other two statements of [barrier_worker_endWork]. *)
Inductive worker_pc : Type :=
  | W_idle
  | W_lock
  | W_while1
  | W_wait1
  | W_blocked1
  | W_relock1
  | W_push
  | W_waiting
  | W_broadcast1
  | W_while2
  | W_wait2
  | W_blocked2
  | W_relock2
  | W_work
  | W_broadcast2
  | W_unlock.

Record barrier : Type := mkBarrier {
  mbarrier_waiting : barrier_waiting;
  barrier_mutex : option thread;
  main_at : main_pc;
  workers_at : list worker_pc;
  selfpipe_pushes : nat
}.

Definition set_mbarrier_waiting (v : barrier_waiting) (s : barrier)
  : barrier :=
  mkBarrier v (barrier_mutex s) (main_at s) (workers_at s)
    (selfpipe_pushes s).
Definition set_barrier_mutex (v : option thread) (s : barrier) : barrier :=
  mkBarrier (mbarrier_waiting s) v (main_at s) (workers_at s)
    (selfpipe_pushes s).
Definition set_main_at (v : main_pc) (s : barrier) : barrier :=
  mkBarrier (mbarrier_waiting s) (barrier_mutex s) v (workers_at s)
    (selfpipe_pushes s).
Definition set_workers_at (v : list worker_pc) (s : barrier) : barrier :=
  mkBarrier (mbarrier_waiting s) (barrier_mutex s) (main_at s) v
    (selfpipe_pushes s).
Definition set_worker_at (i : nat) (v : worker_pc) (s : barrier)
  : barrier :=
  set_workers_at (<[i := v]> (workers_at s)) s.
Definition selfpipe_push (s : barrier) : barrier :=
  mkBarrier (mbarrier_waiting s) (barrier_mutex s) (main_at s)
    (workers_at s) (S (selfpipe_pushes s)).

(** The statics as they are initialized, with [n] worker threads. *)
Definition barrier_init (n : nat) : barrier :=
  mkBarrier NOT_WAITING None M_running (replicate n W_idle) 0.

Inductive outcome : Type :=
  | Next (s : barrier)
  | Blocked
  | UndefinedBehaviour.

(** The POSIX calls of a thread [t]; [k] moves the thread on. *)
Definition pthread_mutex_lock (t : thread) (k : barrier -> barrier)
    (s : barrier) : outcome :=
  match barrier_mutex s with
  | None => Next (k (set_barrier_mutex (Some t) s))
  | Some _ => Blocked
  end.

Definition pthread_mutex_unlock (t : thread) (k : barrier -> barrier)
    (s : barrier) : outcome :=
  if bool_decide (barrier_mutex s = Some t)
  then Next (k (set_barrier_mutex None s))
  else UndefinedBehaviour.

Definition pthread_cond_wait (t : thread) (k : barrier -> barrier)
    (s : barrier) : outcome :=
  if bool_decide (barrier_mutex s = Some t)
  then Next (k (set_barrier_mutex None s))
  else UndefinedBehaviour.

Definition wake_main (pc : main_pc) : main_pc :=
  match pc with
  | M_blocked => M_relock
  | _ => pc
  end.

Definition wake_worker (pc : worker_pc) : worker_pc :=
  match pc with
  | W_blocked1 => W_relock1
  | W_blocked2 => W_relock2
  | _ => pc
  end.

Definition pthread_cond_broadcast (s : barrier) : barrier :=
  set_workers_at (wake_worker <$> workers_at s)
    (set_main_at (wake_main (main_at s)) s).

(** One step of the main thread (lines 1458-1468). *)
Definition main_step (s : barrier) : outcome :=
  match main_at s with
  | M_running => Next (set_main_at M_lock s)
  | M_lock => pthread_mutex_lock Main (set_main_at M_if) s
  | M_if =>
      if bool_decide (mbarrier_waiting s = WAITING)
      then Next (set_main_at M_greenlight s)
      else Next (set_main_at M_reset s)
  | M_greenlight =>
      Next (set_main_at M_broadcast1 (set_mbarrier_waiting GREENLIGHT s))
  | M_broadcast1 => Next (set_main_at M_while (pthread_cond_broadcast s))
  | M_while =>
      if bool_decide (mbarrier_waiting s <> DONE)
      then Next (set_main_at M_wait s)
      else Next (set_main_at M_reset s)
  | M_wait => pthread_cond_wait Main (set_main_at M_blocked) s
  | M_blocked => Blocked
  | M_relock => pthread_mutex_lock Main (set_main_at M_while) s
  | M_reset =>
      Next (set_main_at M_broadcast2 (set_mbarrier_waiting NOT_WAITING s))
  | M_broadcast2 => Next (set_main_at M_unlock (pthread_cond_broadcast s))
  | M_unlock => pthread_mutex_unlock Main (set_main_at M_running) s
  end.

(** One step of the worker [i] (lines 1470-1483). *)
Definition worker_step (i : nat) (s : barrier) : outcome :=
  match workers_at s !! i with
  | None => Blocked
  | Some W_idle => Next (set_worker_at i W_lock s)
  | Some W_lock => pthread_mutex_lock (Worker i) (set_worker_at i W_while1) s
  | Some W_while1 =>
      if bool_decide (mbarrier_waiting s <> NOT_WAITING)
      then Next (set_worker_at i W_wait1 s)
      else Next (set_worker_at i W_push s)
  | Some W_wait1 =>
      pthread_cond_wait (Worker i) (set_worker_at i W_blocked1) s
  | Some W_blocked1 => Blocked
  | Some W_relock1 =>
      pthread_mutex_lock (Worker i) (set_worker_at i W_while1) s
  | Some W_push => Next (set_worker_at i W_waiting (selfpipe_push s))
  | Some W_waiting =>
      Next (set_worker_at i W_broadcast1 (set_mbarrier_waiting WAITING s))
  | Some W_broadcast1 =>
      Next (set_worker_at i W_while2 (pthread_cond_broadcast s))
  | Some W_while2 =>
      if bool_decide (mbarrier_waiting s <> GREENLIGHT)
      then Next (set_worker_at i W_wait2 s)
      else Next (set_worker_at i W_work s)
  | Some W_wait2 =>
      pthread_cond_wait (Worker i) (set_worker_at i W_blocked2) s
  | Some W_blocked2 => Blocked
  | Some W_relock2 =>
      pthread_mutex_lock (Worker i) (set_worker_at i W_while2) s
  | Some W_work =>
      Next (set_worker_at i W_broadcast2 (set_mbarrier_waiting DONE s))
  | Some W_broadcast2 =>
      Next (set_worker_at i W_unlock (pthread_cond_broadcast s))
  | Some W_unlock =>
      pthread_mutex_unlock (Worker i) (set_worker_at i W_idle) s
  end.

(** A spurious wake-up of a thread that is blocked in
    [pthread_cond_wait]. *)
Definition spurious_wakeup (t : thread) (s : barrier) : outcome :=
  match t with
  | Main =>
      match main_at s with
      | M_blocked => Next (set_main_at M_relock s)
      | _ => Blocked
      end
  | Worker i =>
      match workers_at s !! i with
      | Some W_blocked1 => Next (set_worker_at i W_relock1 s)
      | Some W_blocked2 => Next (set_worker_at i W_relock2 s)
      | _ => Blocked
      end
  end.

Inductive action : Type :=
  | Step (t : thread)
  | Wake (t : thread).

Definition barrier_step (a : action) (s : barrier) : outcome :=
  match a with
  | Step Main => main_step s
  | Step (Worker i) => worker_step i s
  | Wake t => spurious_wakeup t s
  end.

(** The threads run as the schedule says; a schedule that asks a thread
    to step that cannot is [Blocked]. *)
Fixpoint barrier_run (schedule : list action) (s : barrier) : outcome :=
  match schedule with
  | [] => Next s
  | a :: rest =>
      match barrier_step a s with
      | Next s' => barrier_run rest s'
      | o => o
      end
  end.

(** ** Notions for the barrier *)

(** What holds for the main thread and for a worker at a value of
    [mbarrier_waiting], by whether the thread holds the mutex. *)
Definition main_ok (v : barrier_waiting) (owns : bool) (pc : main_pc)
  : bool :=
  match pc, owns, v with
  | M_running, false, (NOT_WAITING | WAITING)
  | M_lock, false, (NOT_WAITING | WAITING)
  | M_if, true, (NOT_WAITING | WAITING)
  | M_greenlight, true, WAITING
  | M_broadcast1, true, GREENLIGHT
  | M_while, true, (GREENLIGHT | DONE)
  | M_wait, true, GREENLIGHT
  | M_blocked, false, (GREENLIGHT | DONE)
  | M_relock, false, (GREENLIGHT | DONE)
  | M_reset, true, (NOT_WAITING | DONE)
  | M_broadcast2, true, NOT_WAITING
  | M_unlock, true, NOT_WAITING => true
  | _, _, _ => false
  end.

Definition worker_ok (v : barrier_waiting) (owns : bool) (pc : worker_pc)
  : bool :=
  match pc, owns, v with
  | W_idle, false, _
  | W_lock, false, _
  | W_while1, true, _
  | W_wait1, true, (WAITING | GREENLIGHT | DONE)
  | W_blocked1, false, _
  | W_relock1, false, _
  | W_push, true, NOT_WAITING
  | W_waiting, true, NOT_WAITING
  | W_broadcast1, true, WAITING
  | W_while2, true, (WAITING | GREENLIGHT)
  | W_wait2, true, WAITING
  | W_blocked2, false, (WAITING | GREENLIGHT)
  | W_relock2, false, (WAITING | GREENLIGHT)
  | W_work, true, GREENLIGHT
  | W_broadcast2, true, DONE
  | W_unlock, true, DONE => true
  | _, _, _ => false
  end.

(** The worker has set [WAITING] and has not left the barrier. *)
Definition engaged (pc : worker_pc) : bool :=
  match pc with
  | W_broadcast1 | W_while2 | W_wait2 | W_blocked2 | W_relock2 | W_work
  | W_broadcast2 | W_unlock => true
  | _ => false
  end.

Definition barrier_inv (s : barrier) : Prop :=
  main_ok (mbarrier_waiting s) (bool_decide (barrier_mutex s = Some Main))
    (main_at s) = true /\
  (forall j w,
     workers_at s !! j = Some w ->
     worker_ok (mbarrier_waiting s)
       (bool_decide (barrier_mutex s = Some (Worker j))) w = true) /\
  (forall i j wi wj,
     workers_at s !! i = Some wi -> workers_at s !! j = Some wj ->
     engaged wi = true -> engaged wj = true -> i = j).

(** A schedule that brings the first of two workers into its work. *)
Definition schedule_example : list action :=
  replicate 8 (Step (Worker 0)) ++ replicate 7 (Step Main) ++
  replicate 2 (Step (Worker 0)).

(** No wake-up is lost: a thread that is blocked in [pthread_cond_wait]
    although the value it waits for is there has a broadcast coming, from
    the thread that has set the value. *)
Definition wakeups_ok (v : barrier_waiting) (pc : main_pc)
    (ws : list worker_pc) : Prop :=
  (pc = M_blocked -> v = DONE -> exists i, ws !! i = Some W_broadcast2) /\
  (forall j, ws !! j = Some W_blocked1 -> v = NOT_WAITING ->
             pc = M_broadcast2) /\
  (forall j, ws !! j = Some W_blocked2 -> v = GREENLIGHT ->
             pc = M_broadcast1).

Definition barrier_wakeups (s : barrier) : Prop :=
  wakeups_ok (mbarrier_waiting s) (main_at s) (workers_at s).

(** * Properties *)

(** ** Reading a field of an updated state

    [radio_simpl] reduces the projections of [set_...] and [emit] and the
    [bind] of a finished call, and nothing else, so that a state stays the
    chain of assignments that led to it. *)
Ltac radio_simpl :=
  cbn [sState handle IntransitHandles IntransitPackets intransit_mutex
       sTransmitFrame sReceiveFrame sTransmitPsdu sReceivePsdu
       receiveFrame_mutex sTransmitError sReceiveError sChannel
       sPromiscuousCache sActiveScanCallback sActiveScanContext
       sActiveScanInProgress sEnergyScanCallback sEnergyScanContext
       sEnergyScanInProgress sEnergyScanMask sCurDeviceTableSize noiseFloor
       ot trace set_sState set_handle set_IntransitHandles
       set_IntransitPackets set_intransit_mutex set_sTransmitFrame
       set_sReceiveFrame set_sTransmitPsdu set_sReceivePsdu
       set_receiveFrame_mutex set_sTransmitError set_sReceiveError
       set_sChannel set_sPromiscuousCache set_sActiveScanCallback
       set_sActiveScanContext set_sActiveScanInProgress
       set_sEnergyScanCallback set_sEnergyScanContext
       set_sEnergyScanInProgress set_sEnergyScanMask set_sCurDeviceTableSize
       set_noiseFloor set_ot set_trace emit emit_if bind].

Tactic Notation "radio_simpl" "in" hyp(H) :=
  cbn [sState handle IntransitHandles IntransitPackets intransit_mutex
       sTransmitFrame sReceiveFrame sTransmitPsdu sReceivePsdu
       receiveFrame_mutex sTransmitError sReceiveError sChannel
       sPromiscuousCache sActiveScanCallback sActiveScanContext
       sActiveScanInProgress sEnergyScanCallback sEnergyScanContext
       sEnergyScanInProgress sEnergyScanMask sCurDeviceTableSize noiseFloor
       ot trace set_sState set_handle set_IntransitHandles
       set_IntransitPackets set_intransit_mutex set_sTransmitFrame
       set_sReceiveFrame set_sTransmitPsdu set_sReceivePsdu
       set_receiveFrame_mutex set_sTransmitError set_sReceiveError
       set_sChannel set_sPromiscuousCache set_sActiveScanCallback
       set_sActiveScanContext set_sActiveScanInProgress
       set_sEnergyScanCallback set_sEnergyScanContext
       set_sEnergyScanInProgress set_sEnergyScanMask set_sCurDeviceTableSize
       set_noiseFloor set_ot set_trace emit emit_if bind] in H.

(** ** Basic facts on buffers *)

Lemma u8_small x : 0 <= x < 256 -> u8 x = x.
Proof. intros H. unfold u8. apply Z.mod_small. exact H. Qed.

(** ** C2: footer length *)

Lemma mic_length_table level :
  mic_length level =
    match level mod 4 with
    | 0 => 0
    | 1 => 4
    | 2 => 8
    | _ => 16
    end.
Proof.
  unfold mic_length.
  assert (H : 0 <= level mod 4 < 4) by (apply Z.mod_pos_bound; lia).
  assert (C : level mod 4 = 0 \/ level mod 4 = 1 \/ level mod 4 = 2
              \/ level mod 4 = 3) by lia.
  destruct C as [-> | [-> | [-> | ->]]]; reflexivity.
Qed.

Lemma footerLength_of_mic level :
  footerLength_of level = mic_length level + 2.
Proof.
  rewrite mic_length_table. unfold footerLength_of.
  assert (H : 0 <= level mod 4 < 4) by (apply Z.mod_pos_bound; lia).
  assert (C : level mod 4 = 0 \/ level mod 4 = 1 \/ level mod 4 = 2
              \/ level mod 4 = 3) by lia.
  destruct C as [-> | [-> | [-> | ->]]]; reflexivity.
Qed.

(** C2, as amended.  On the encode path and on the decode path the footer
    is the MIC length [2 << (level mod 4)], with 2 replaced by 0, plus the
    two bytes of the FCS: the MIC is 0, 4, 8 or 16 bytes; the request's
    [MsduLength] is the frame length less footer and header, the decoded
    length is the [MsduLength] plus footer and header.  Security level 5
    gives a footer of 6 bytes (a MIC of 4), level 6 gives 10 and level 0
    gives 2. *)
Theorem footer_is_mic_plus_fcs :
  (forall level,
     footerLength_of level = mic_length level + 2 /\
     (mic_length level = 0 \/ mic_length level = 4 \/
      mic_length level = 8 \/ mic_length level = 16)) /\
  (forall frame psdu h curPacket0,
     let l := tx_parse frame psdu h curPacket0 in
     tx_footerLength l = mic_length (SecurityLevel (tx_curSecSpec l)) + 2 /\
     MsduLength (tx_curPacket l) =
       u8 (mLength frame - tx_footerLength l - tx_headerLength l)) /\
  (forall params psdu,
     let l := rx_build params psdu in
     rx_footerLength l =
       mic_length (SecurityLevel (ind_Security params)) + 2 /\
     rx_mLength l =
       u8 (ind_MsduLength params + rx_footerLength l + rx_headerLength l)) /\
  footerLength_of 5 = 6 /\ footerLength_of 6 = 10 /\ footerLength_of 0 = 2.
Proof.
  split; [| split; [| split; [| repeat split; vm_compute; reflexivity]]].
  - intros level. split; [apply footerLength_of_mic |].
    rewrite mic_length_table.
    assert (H : 0 <= level mod 4 < 4) by (apply Z.mod_pos_bound; lia).
    destruct (level mod 4) as [| [p | p |] |]; try lia; auto.
    all: destruct p; auto.
  - intros frame psdu h c0 l. subst l. unfold tx_parse.
    destruct (tx_security _ _ _) as [sec hl]. cbn.
    split; [apply footerLength_of_mic | reflexivity].
  - intros params psdu l. subst l. unfold rx_build.
    destruct (rx_addressing _ _) as [[p afl] pc].
    destruct (rx_security _ _ _ _) as [p' hl]. cbn.
    split; [apply footerLength_of_mic | reflexivity].
Qed.

(** C2, the claim as stated fails: the frame of scenario 2 has security
    level 5 and its footer is 6 bytes, not 10, on both paths. *)
Lemma footer_level5_not_10 :
  SecurityLevel
    (tx_curSecSpec (tx_parse scenario2_frame scenario2_psdu 1 curPacket_zero))
    = 5 /\
  tx_footerLength (tx_parse scenario2_frame scenario2_psdu 1 curPacket_zero)
    <> 10 /\
  footerLength_of 5 <> 10.
Proof. vm_compute. repeat split; discriminate. Qed.

(** ** C10: the promiscuous cache *)

(** C10.  After [otPlatRadioSetPromiscuous v], [otPlatRadioGetPromiscuous]
    returns [v] and leaves the state, hence the trace, as it is: no
    MLME-GET is issued.  In any state the getter issues an MLME-GET exactly
    when the cache is uninitialized, and nothing else. *)
Theorem promiscuous_get_after_set :
  (forall (v : bool) (result : Z) (s : radio),
     exists s1,
       otPlatRadioSetPromiscuous v s = Returns tt s1 /\
       otPlatRadioGetPromiscuous result s1 = Returns v s1) /\
  (forall (result : Z) (s : radio),
     exists b s',
       otPlatRadioGetPromiscuous result s = Returns b s' /\
       trace s' =
         trace s ++
           (if bool_decide (sPromiscuousCache s = tristate_uninit)
            then [MLME_GET_macPromiscuousMode] else [])).
Proof.
  split.
  - intros v result s. eexists. split; [reflexivity |].
    unfold otPlatRadioGetPromiscuous. destruct v; reflexivity.
  - intros result s. unfold otPlatRadioGetPromiscuous.
    destruct (bool_decide (sPromiscuousCache s = tristate_uninit)); cbn.
    + eexists _, _. split; reflexivity.
    + eexists _, _. split; [reflexivity |]. symmetry. apply app_nil_r.
Qed.

(** ** C6: the scan-duration exponent *)

Lemma log2_32_ok_below_sound n :
  log2_32_ok_below n = true ->
  forall k, (0 < k <= n)%nat -> log2_32 (Z.of_nat k) = Z.log2 (Z.of_nat k).
Proof.
  induction n as [| n IH]; intros H k Hk; [lia |].
  cbn [log2_32_ok_below] in H. apply andb_true_iff in H as [H1 H2].
  destruct (decide (k = S n)) as [-> | Hne].
  - apply Z.eqb_eq, H1.
  - apply IH; [exact H2 | lia].
Qed.

(** The table look-up of [log2_32] is the integer logarithm on every value
    that a [uint16_t] duration divided by 15 can give; checked value by
    value. *)
Lemma log2_32_is_log2 v : 0 < v < 8192 -> log2_32 v = Z.log2 v.
Proof.
  intros Hv.
  assert (H : log2_32_ok_below (Z.to_nat 8191) = true)
    by (vm_compute; reflexivity).
  rewrite <- (Z2Nat.id v) by lia.
  apply (log2_32_ok_below_sound _ H). lia.
Qed.

Lemma ScanDuration_of_exponent ms dflt :
  50 <= ms < 65536 -> ScanDuration_of ms dflt = scan_exponent ms.
Proof.
  intros Hms. unfold ScanDuration_of, scan_exponent, clamp.
  assert (Hq : 3 <= ms / 15 < 4370).
  { split.
    - apply Z.div_le_lower_bound; lia.
    - apply Z.div_lt_upper_bound; lia. }
  destruct (Z.leb_spec 50 ms); [| lia].
  rewrite log2_32_is_log2 by lia.
  assert (Hl : 1 <= Z.log2 (ms / 15) < 13).
  { split.
    - apply Z.log2_le_pow2; [lia | simpl; lia].
    - apply Z.log2_lt_pow2; [lia | simpl; lia]. }
  rewrite u8_small by lia.
  destruct (Z.ltb_spec 14 (Z.log2 (ms / 15))); lia.
Qed.

(** C6.  With no scan in progress and a duration [ms] that fits the
    [uint16_t] parameter, the one MLME-SCAN request that
    [otPlatRadioActiveScan] and [otPlatRadioEnergyScan] issue carries the
    exponent [clamp (log2 (ms / 15)) 0 14] when [ms >= 50], and 5 for the
    active scan, 6 for the energy scan, when [ms < 50]. *)
Theorem scan_duration_exponent
    (aScanChannels ms aCallback aCallbackContext scanRequest : Z) (s : radio) :
  0 <= ms < 65536 ->
  sActiveScanInProgress s = 0 ->
  sEnergyScanInProgress s = 0 ->
  let channels := if aScanChannels =? 0 then 0x07fff800 else aScanChannels in
  (exists e s',
     otPlatRadioActiveScan aScanChannels ms aCallback aCallbackContext
       scanRequest s = Returns e s' /\
     trace s' =
       trace s ++
         [otPlatLog_Debg;
          MLME_SCAN_request 1 channels
            (if 50 <=? ms then scan_exponent ms else 5)]) /\
  (exists e s',
     otPlatRadioEnergyScan aScanChannels ms aCallback aCallbackContext
       scanRequest s = Returns e s' /\
     trace s' =
       trace s ++
         [otPlatLog_Debg;
          MLME_SCAN_request 0 channels
            (if 50 <=? ms then scan_exponent ms else 6)]).
Proof.
  intros Hms Ha He channels.
  assert (Hd : forall dflt,
             ScanDuration_of ms dflt =
               if 50 <=? ms then scan_exponent ms else dflt).
  { intros dflt. destruct (Z.leb_spec 50 ms) as [H | H].
    - apply ScanDuration_of_exponent. lia.
    - unfold ScanDuration_of. destruct (Z.leb_spec 50 ms); [lia | reflexivity]. }
  split.
  - unfold otPlatRadioActiveScan. rewrite Ha, He. cbn [Z.eqb negb orb].
    rewrite Hd. fold channels.
    destruct (scanRequest =? MAC_SUCCESS); eexists _, _;
      (split; [reflexivity |]); cbn; rewrite <- app_assoc; reflexivity.
  - unfold otPlatRadioEnergyScan. rewrite Ha, He. cbn [Z.eqb negb orb].
    rewrite Hd. fold channels.
    destruct (scanRequest =? MAC_SUCCESS); eexists _, _;
      (split; [reflexivity |]); cbn; rewrite <- app_assoc; reflexivity.
Qed.

(** The scan of scenario 5: 200 ms give the exponent 3. *)
Lemma scan_duration_exponent_witness :
  let s := radio_init ot_example in
  (exists e s',
     otPlatRadioActiveScan 0x108000 200 1 2 MAC_SUCCESS s = Returns e s' /\
     trace s' = trace s ++ [otPlatLog_Debg; MLME_SCAN_request 1 0x108000 3]) /\
  (exists e s',
     otPlatRadioEnergyScan 0x108000 200 1 2 MAC_SUCCESS s = Returns e s' /\
     trace s' = trace s ++ [otPlatLog_Debg; MLME_SCAN_request 0 0x108000 3]).
Proof.
  intros s.
  apply (scan_duration_exponent 0x108000 200 1 2 MAC_SUCCESS s);
    [lia | reflexivity | reflexivity].
Defined.

(** ** The in-transit table and the transmit path *)

Lemma find_slot_None h l i : find_slot h l i = None <-> h ∉ l.
Proof.
  revert i. induction l as [| x l IH]; intros i; cbn.
  - split; [intros _; apply not_elem_of_nil | reflexivity].
  - rewrite not_elem_of_cons. destruct (Z.eqb_spec x h) as [-> | Hne].
    + split; [discriminate | intros [H _]; congruence].
    + rewrite IH. split; [intros H; split; congruence | intros [_ H]; exact H].
Qed.

Lemma find_slot_Some h l i j :
  find_slot h l i = Some j ->
  exists k : nat, j = (i + k)%nat /\ l !! k = Some h /\
                  forall k' : nat, (k' < k)%nat -> l !! k' <> Some h.
Proof.
  revert i. induction l as [| x l IH]; intros i; cbn; [discriminate |].
  destruct (Z.eqb_spec x h) as [-> | Hne].
  - intros [= <-]. exists 0%nat. split; [lia |]. split; [reflexivity |].
    intros k' Hk'. lia.
  - intros H. apply IH in H as (k & -> & Hk & Hlt).
    exists (S k). split; [lia |]. split; [exact Hk |].
    intros [| k'] Hk'; cbn; [congruence | apply Hlt; lia].
Qed.

Lemma find_slot_is_Some h l i : h ∈ l -> exists j, find_slot h l i = Some j.
Proof.
  intros H. destruct (find_slot h l i) eqn:E; [eauto |].
  apply find_slot_None in E. contradiction.
Qed.

Lemma set_handle_same s : set_handle (handle s) s = s.
Proof. destruct s; reflexivity. Qed.

Lemma u8_u8_add a b : u8 (u8 a + b) = u8 (a + b).
Proof. unfold u8. apply Zplus_mod_idemp_l. Qed.

Lemma skip_used_handles_spec n s :
  intransit_mutex s = false ->
  is_byte (handle s) ->
  (exists k : nat,
     (k < n)%nat /\
     skip_used_handles n s =
       Returns tt (set_handle (u8 (handle s + Z.of_nat k)) s) /\
     (u8 (handle s + Z.of_nat k) ∉ IntransitHandles s) /\
     forall j : nat, (j < k)%nat ->
       u8 (handle s + Z.of_nat j) ∈ IntransitHandles s) \/
  (skip_used_handles n s = NeverReturns /\
   forall j : nat, (j < n)%nat ->
     u8 (handle s + Z.of_nat j) ∈ IntransitHandles s).
Proof.
  revert s. induction n as [| n IH]; intros s Hm Hb.
  - right. split; [reflexivity | intros j Hj; lia].
  - cbn [skip_used_handles]. unfold intransit_isHandleInUse. rewrite Hm.
    destruct (find_slot (handle s) (IntransitHandles s) 0) eqn:E; cbn [bind].
    + assert (Hin : handle s ∈ IntransitHandles s).
      { destruct (decide (handle s ∈ IntransitHandles s)) as [H | H];
          [exact H |].
        apply (find_slot_None _ _ 0%nat) in H. congruence. }
      destruct (IH (set_handle (u8 (handle s + 1)) s)) as
        [(k & Hk & Hr & Hfree & Hused) | (Hr & Hused)].
      * exact Hm.
      * unfold is_byte, u8. cbn. apply Z.mod_pos_bound. lia.
      * left. exists (S k). cbn [handle set_handle] in *.
        rewrite u8_u8_add in Hr, Hfree.
        replace (handle s + Z.of_nat (S k)) with (handle s + 1 + Z.of_nat k)
          by lia.
        split; [lia |]. split; [exact Hr |]. split; [exact Hfree |].
        intros [| j] Hj.
        -- rewrite Z.add_0_r, u8_small by exact Hb. exact Hin.
        -- specialize (Hused j ltac:(lia)). rewrite u8_u8_add in Hused.
           replace (handle s + Z.of_nat (S j)) with (handle s + 1 + Z.of_nat j)
             by lia.
           exact Hused.
      * right. split; [exact Hr |]. cbn [handle set_handle] in *.
        intros [| j] Hj.
        -- rewrite Z.add_0_r, u8_small by exact Hb. exact Hin.
        -- specialize (Hused j ltac:(lia)). rewrite u8_u8_add in Hused.
           replace (handle s + Z.of_nat (S j)) with (handle s + 1 + Z.of_nat j)
             by lia.
           exact Hused.
    + left. exists 0%nat. split; [lia |].
      rewrite Z.add_0_r, u8_small by exact Hb.
      rewrite set_handle_same. split; [reflexivity |].
      split; [apply (find_slot_None _ _ 0%nat); exact E | intros j Hj; lia].
Qed.

Lemma handles_pigeonhole (h : Z) (l : list Z) :
  (length l < 256)%nat ->
  ~ (forall j : nat, (j < 256)%nat -> u8 (h + Z.of_nat j) ∈ l).
Proof.
  intros Hlen Hall.
  set (vals := (fun j : nat => u8 (h + Z.of_nat j)) <$> seq 0 256).
  assert (Hnd : NoDup vals).
  { apply NoDup_fmap_2_strong; [| apply NoDup_seq].
    intros x y Hx%elem_of_seq Hy%elem_of_seq Heq. unfold u8 in Heq.
    assert (E : (Z.of_nat x - Z.of_nat y) mod 256 = 0).
    { rewrite Zminus_mod.
      replace (Z.of_nat x mod 256) with ((h + Z.of_nat x - h) mod 256)
        by (f_equal; lia).
      replace (Z.of_nat y mod 256) with ((h + Z.of_nat y - h) mod 256)
        by (f_equal; lia).
      rewrite (Zminus_mod (h + Z.of_nat x)), (Zminus_mod (h + Z.of_nat y)).
      rewrite Heq. rewrite <- Zminus_mod. rewrite Z.sub_diag. reflexivity. }
    apply Z.mod_divide in E; [| lia]. destruct E as [q Hq]. lia. }
  assert (Hsub : vals ⊆+ l).
  { apply NoDup_submseteq; [exact Hnd |].
    intros x (j & -> & Hj%elem_of_seq)%list_elem_of_fmap. apply Hall. lia. }
  apply submseteq_length in Hsub. unfold vals in Hsub.
  rewrite length_fmap, length_seq in Hsub. lia.
Qed.

Lemma skip_used_handles_returns s :
  intransit_mutex s = false ->
  is_byte (handle s) ->
  (length (IntransitHandles s) < 256)%nat ->
  exists k : nat,
    (k < 256)%nat /\
    skip_used_handles 256 s =
      Returns tt (set_handle (u8 (handle s + Z.of_nat k)) s) /\
    (u8 (handle s + Z.of_nat k) ∉ IntransitHandles s) /\
    (forall j : nat, (j < k)%nat ->
       u8 (handle s + Z.of_nat j) ∈ IntransitHandles s).
Proof.
  intros Hm Hb Hlen.
  destruct (skip_used_handles_spec 256 s Hm Hb) as [H | [_ H]]; [exact H |].
  exfalso. exact (handles_pigeonhole _ _ Hlen H).
Qed.

Lemma u8_is_byte x : is_byte (u8 x).
Proof. unfold is_byte, u8. apply Z.mod_pos_bound. lia. Qed.

(** What [otPlatRadioTransmit] does up to the state check. *)
Lemma otPlatRadioTransmit_pick s :
  intransit_mutex s = false ->
  (length (IntransitHandles s) < 256)%nat ->
  exists k : nat,
    (k < 256)%nat /\
    skip_used_handles 256 (set_handle (u8 (handle s + 1)) s) =
      Returns tt (set_handle (u8 (handle s + 1 + Z.of_nat k)) s) /\
    (u8 (handle s + 1 + Z.of_nat k) ∉ IntransitHandles s) /\
    (forall j : nat, (j < k)%nat ->
       u8 (handle s + 1 + Z.of_nat j) ∈ IntransitHandles s).
Proof.
  intros Hm Hlen.
  destruct (skip_used_handles_returns (set_handle (u8 (handle s + 1)) s))
    as (k & Hk & Hr & Hfree & Hused); [exact Hm | apply u8_is_byte | exact Hlen |].
  cbn [handle set_handle IntransitHandles] in *.
  exists k. rewrite u8_u8_add in Hr, Hfree.
  split; [exact Hk |]. split; [exact Hr |]. split; [exact Hfree |].
  intros j Hj. specialize (Hused j Hj). rewrite u8_u8_add in Hused.
  exact Hused.
Qed.

Lemma intransit_putFrame_returns h f s :
  intransit_mutex s = false ->
  exists r s', intransit_putFrame h f s = Returns r s' /\
               sState s' = sState s /\ trace s' = trace s /\
               handle s' = handle s /\
               sTransmitFrame s' = sTransmitFrame s.
Proof.
  intros Hm. unfold intransit_putFrame. rewrite Hm.
  destruct (find_slot 0 (IntransitHandles s) 0); eexists _, _;
    (split; [reflexivity |]); repeat split; reflexivity.
Qed.

Lemma setChannel_sState c s : sState (setChannel c s) = sState s.
Proof. unfold setChannel. destruct (sChannel s =? c); reflexivity. Qed.

Lemma setChannel_intransit_mutex c s :
  intransit_mutex (setChannel c s) = intransit_mutex s.
Proof. unfold setChannel. destruct (sChannel s =? c); reflexivity. Qed.

Lemma setChannel_handle c s : handle (setChannel c s) = handle s.
Proof. unfold setChannel. destruct (sChannel s =? c); reflexivity. Qed.

Lemma setChannel_IntransitHandles c s :
  IntransitHandles (setChannel c s) = IntransitHandles s.
Proof. unfold setChannel. destruct (sChannel s =? c); reflexivity. Qed.

Lemma setChannel_IntransitPackets c s :
  IntransitPackets (setChannel c s) = IntransitPackets s.
Proof. unfold setChannel. destruct (sChannel s =? c); reflexivity. Qed.

Lemma setChannel_sTransmitFrame c s :
  sTransmitFrame (setChannel c s) = sTransmitFrame s.
Proof. unfold setChannel. destruct (sChannel s =? c); reflexivity. Qed.

Lemma tx_state_handle h c s : handle (tx_state h c s) = h.
Proof. unfold tx_state. cbn. apply setChannel_handle. Qed.

Lemma tx_security_header_byte frameControl psdu a :
  is_byte (tx_security frameControl psdu a).2.
Proof.
  unfold tx_security.
  destruct (negb (Z.land frameControl MAC_FC_SEC_ENA =? 0));
    [| apply u8_is_byte].
  destruct (_ =? 2); [apply u8_is_byte |].
  destruct (_ =? 3); apply u8_is_byte.
Qed.

(** Where the payload lies does not depend on the handle, on the context
    or on what the request held before. *)
Lemma tx_msdu_inside_indep frame frame' psdu h h' c c' :
  mLength frame = mLength frame' ->
  tx_msdu_inside (tx_parse frame psdu h c) =
    tx_msdu_inside (tx_parse frame' psdu h' c').
Proof.
  intros Hlen. unfold tx_msdu_inside, tx_parse. cbv zeta.
  destruct (tx_security _ _ _) as [sec hl].
  cbn [tx_headerLength tx_curPacket MsduLength]. rewrite Hlen. reflexivity.
Qed.

(** A frame of a sound length has its payload inside the buffer. *)
Lemma tx_length_ok_inside s : tx_length_ok s -> tx_inside s = true.
Proof.
  unfold tx_length_ok, tx_inside, tx_msdu_inside, tx_parse. cbv zeta.
  intros Hok.
  pose proof (tx_security_header_byte
                (GETLE16 (psdu_of s (sTransmitFrame s)))
                (psdu_of s (sTransmitFrame s))
                (tx_addressFieldLength
                   (GETLE16 (psdu_of s (sTransmitFrame s))))) as Hh.
  destruct (tx_security _ _ _) as [sec hl].
  cbn [tx_headerLength tx_footerLength tx_curPacket MsduLength snd] in *.
  assert (Hf : is_byte (footerLength_of (SecurityLevel sec)))
    by (unfold footerLength_of; apply u8_is_byte).
  unfold is_byte, aMaxPHYPacketSize, IEEE802154_MAX_LENGTH in *.
  rewrite u8_small by lia. apply Z.leb_le. lia.
Qed.

(** A data frame handed over in a state other than Disabled: the request
    goes out when the payload lies inside the buffer, and the call is
    undefined when it does not. *)
Lemma otPlatRadioTransmit_data transmitContext curPacket0 reply s :
  intransit_mutex s = false ->
  (length (IntransitHandles s) < 256)%nat ->
  sState s <> kStateDisabled ->
  tx_frameType s = MAC_FC_FT_DATA ->
  exists (k : nat) (r : Z) (s' : radio),
    let h := u8 (handle s + 1 + Z.of_nat k) in
    let st := tx_state h transmitContext s in
    let l :=
      tx_parse (sTransmitFrame st) (psdu_of s (sTransmitFrame s)) h
        curPacket0 in
    (k < 256)%nat /\
    (h ∉ IntransitHandles s) /\
    (forall j : nat, (j < k)%nat ->
       u8 (handle s + 1 + Z.of_nat j) ∈ IntransitHandles s) /\
    intransit_putFrame h (sTransmitFrame st) st = Returns r s' /\
    otPlatRadioTransmit transmitContext curPacket0 reply s =
      if tx_inside s then
        Returns kThreadError_None
          (emit (MCPS_DATA_request (tx_curPacket l) (tx_curSecSpec l)) s')
      else Undefined.
Proof.
  intros Hm Hlen Hst Hft.
  destruct (otPlatRadioTransmit_pick s Hm Hlen) as (k & Hk & Hr & Hfree & Hused).
  set (h := u8 (handle s + 1 + Z.of_nat k)) in *.
  destruct (intransit_putFrame_returns h
              (sTransmitFrame (tx_state h transmitContext s))
              (tx_state h transmitContext s))
    as (r & s' & Hp & _ & _ & Hh & Hf).
  { unfold tx_state. cbn. rewrite setChannel_intransit_mutex. exact Hm. }
  exists k, r, s'. cbn zeta. fold h.
  split; [exact Hk |]. split; [exact Hfree |]. split; [exact Hused |].
  split; [exact Hp |].
  unfold otPlatRadioTransmit. rewrite Hr. cbn [bind].
  rewrite bool_decide_eq_false_2 by exact Hst.
  unfold tx_frameType in Hft.
  change (psdu_of (set_handle h s) (sTransmitFrame (set_handle h s)))
    with (psdu_of s (sTransmitFrame s)).
  rewrite Hft. cbn [Z.eqb MAC_FC_FT_DATA Pos.eqb orb negb].
  fold (tx_state h transmitContext s).
  rewrite tx_state_handle, Hp. cbn [bind].
  rewrite Hh, Hf, tx_state_handle.
  unfold tx_inside.
  rewrite (tx_msdu_inside_indep
             (sTransmitFrame (tx_state h transmitContext s))
             (sTransmitFrame s) _ h 0 curPacket0 curPacket_zero);
    [reflexivity |].
  unfold tx_state. cbn [sTransmitFrame set_sTransmitFrame mLength
    with_mTransmitContext].
  rewrite setChannel_sTransmitFrame. reflexivity.
Qed.

Lemma otPlatRadioTransmit_disabled transmitContext curPacket0 reply s :
  intransit_mutex s = false ->
  (length (IntransitHandles s) < 256)%nat ->
  sState s = kStateDisabled ->
  exists h,
    otPlatRadioTransmit transmitContext curPacket0 reply s =
      Returns kThreadError_Busy (set_handle h s).
Proof.
  intros Hm Hlen Hst.
  destruct (otPlatRadioTransmit_pick s Hm Hlen) as (k & Hk & Hr & _).
  eexists. unfold otPlatRadioTransmit. rewrite Hr. cbn [bind].
  rewrite bool_decide_eq_true_2 by exact Hst. reflexivity.
Qed.

Lemma rm_slots_absent h l f : h ∉ l -> rm_slots h l f = Some (f, l).
Proof.
  induction l as [| x l IH]; intros Hin; cbn; [reflexivity |].
  apply not_elem_of_cons in Hin as [Hne Hin].
  destruct (Z.eqb_spec x h); [congruence |].
  rewrite IH by exact Hin. reflexivity.
Qed.

Lemma rm_slots_once h l (i : nat) :
  l !! i = Some h ->
  (forall j : nat, l !! j = Some h -> j = i) ->
  rm_slots h l false = Some (true, <[i := 0]> l).
Proof.
  revert i. induction l as [| x l IH]; intros i Hi Hu; [discriminate |].
  cbn [rm_slots]. destruct i as [| i].
  - cbn in Hi. injection Hi as ->. rewrite Z.eqb_refl.
    rewrite rm_slots_absent; [reflexivity |].
    intros (j & Hj)%list_elem_of_lookup. specialize (Hu (S j) Hj). lia.
  - destruct (Z.eqb_spec x h) as [-> | Hne].
    + specialize (Hu 0%nat eq_refl). lia.
    + rewrite (IH i); [reflexivity | exact Hi |].
      intros j Hj. specialize (Hu (S j) Hj). lia.
Qed.

Lemma find_slot_unique h l (i : nat) :
  l !! i = Some h ->
  (forall j : nat, l !! j = Some h -> j = i) ->
  find_slot h l 0 = Some i.
Proof.
  intros Hi Hu.
  destruct (find_slot_is_Some h l 0%nat) as [j Hj].
  { apply list_elem_of_lookup. eauto. }
  rewrite Hj. apply find_slot_Some in Hj as (k & -> & Hk & _).
  f_equal. cbn. apply Hu, Hk.
Qed.

Lemma handleDataConfirm_found params s (i : nat) p :
  ot_InterfaceUp (ot s) = true ->
  intransit_mutex s = false ->
  receiveFrame_mutex s = false ->
  IntransitHandles s !! i = Some (cnf_MsduHandle params) ->
  (forall j : nat,
     IntransitHandles s !! j = Some (cnf_MsduHandle params) -> j = i) ->
  IntransitPackets s !! i = Some p ->
  exists s',
    handleDataConfirm params s = Returns 0 s' /\
    sState s' = kStateReceive /\
    trace s' =
      trace s ++
        (if cnf_Status params =? MAC_SUCCESS then [] else [otPlatLog_Warn]) ++
        [otPlatRadioTransmitDone false
           (if cnf_Status params =? MAC_SUCCESS then sTransmitError s
            else confirm_error (cnf_Status params))
           (mTransmitContext p)] /\
    IntransitHandles s' = <[i := 0]> (IntransitHandles s) /\
    IntransitPackets s' = IntransitPackets s /\
    intransit_mutex s' = false /\
    receiveFrame_mutex s' = false /\
    handle s' = handle s /\
    ot s' = ot s.
Proof.
  intros Hup Hm Hrm Hi Hu Hp.
  unfold handleDataConfirm, intransit_getFrame. rewrite Hup, Hm. cbn [negb].
  rewrite (find_slot_unique _ _ i Hi Hu). cbn [bind]. rewrite Hp.
  destruct (cnf_Status params =? MAC_SUCCESS);
    unfold handleDataConfirm_end, intransit_rmFrame; radio_simpl;
    rewrite Hm, (rm_slots_once _ _ i Hi Hu); radio_simpl;
    unfold PlatformRadioSignal; radio_simpl; rewrite Hrm; radio_simpl;
    (eexists; split; [reflexivity |]); radio_simpl;
    rewrite <- ?app_assoc; repeat split; assumption.
Qed.

(** ** C3: the radio state machine *)

(** C3, the claim as stated fails: with the data frame of scenario 1 in
    the transmit buffer, [otPlatRadioTransmit] called in state Sleep does
    not return busy; it returns none and the state becomes Transmit.  And a
    transition that section 4.5 lists is not accepted: in state Receive,
    with nothing in transit, [otPlatRadioDisable] returns busy and leaves
    the state as it is. *)
Lemma transmit_from_sleep_not_busy :
  (forall s',
     otPlatRadioTransmit 7 curPacket_zero (fun _ => 0)
       (scenario1_radio kStateSleep) <> Returns kThreadError_Busy s') /\
  (exists s',
     otPlatRadioTransmit 7 curPacket_zero (fun _ => 0)
       (scenario1_radio kStateSleep) = Returns kThreadError_None s' /\
     sState s' = kStateTransmit) /\
  live_handles (scenario1_radio kStateReceive) = [] /\
  otPlatRadioDisable None (scenario1_radio kStateReceive) =
    Returns kThreadError_Busy (scenario1_radio kStateReceive).
Proof.
  split; [| split; [| split]].
  - intros s'. vm_compute. discriminate.
  - eexists. split; vm_compute; reflexivity.
  - vm_compute. reflexivity.
  - vm_compute. reflexivity.
Qed.

(** C3, as amended.  Each operation returns busy exactly in the states its
    own guard rejects, and then leaves the radio state as it is (the
    transmit path has by then advanced its handle counter, nothing else):
    enable and disable are rejected in Receive and Transmit and accepted in
    Disabled and Sleep, where they lead to Sleep and to Disabled; receive
    and transmit are rejected in Disabled only; receive otherwise leads to
    Receive, and the transmission of a data frame whose length covers its
    header and footer and is at most 127 otherwise leads to Transmit, from
    Sleep and from Transmit as well as from Receive; the confirm of a
    transmission in transit leads to Receive; sleep returns none in every
    state and changes nothing.  So the first six transitions of section
    4.5 are accepted, and the last one, from a live state to Sleep or
    Disabled when idle, is not: in Receive and in Transmit disable and
    enable return busy whatever is in transit, and sleep leaves the state
    as it is. *)
Theorem radio_state_guards (s : radio) (hwme : option Z)
    (aChannel transmitContext : Z) (curPacket0 : MCPS_DATA_request_pset)
    (reply : Z -> Z) :
  intransit_mutex s = false ->
  length (IntransitHandles s) = MAX_INTRANSITS ->
  (sState s = kStateReceive \/ sState s = kStateTransmit ->
     otPlatRadioEnable hwme s = Returns kThreadError_Busy s /\
     otPlatRadioDisable hwme s = Returns kThreadError_Busy s) /\
  (sState s = kStateDisabled \/ sState s = kStateSleep ->
     (exists e s',
        otPlatRadioEnable hwme s = Returns e s' /\
        e <> kThreadError_Busy /\ sState s' = kStateSleep) /\
     (exists e s',
        otPlatRadioDisable hwme s = Returns e s' /\
        e <> kThreadError_Busy /\ sState s' = kStateDisabled)) /\
  (sState s = kStateDisabled ->
     otPlatRadioReceive aChannel s = Returns kThreadError_Busy s /\
     (exists h,
        otPlatRadioTransmit transmitContext curPacket0 reply s =
          Returns kThreadError_Busy (set_handle h s))) /\
  (sState s <> kStateDisabled ->
     (exists s',
        otPlatRadioReceive aChannel s = Returns kThreadError_None s' /\
        sState s' = kStateReceive) /\
     (tx_frameType s = MAC_FC_FT_DATA -> tx_length_ok s ->
      exists s',
        otPlatRadioTransmit transmitContext curPacket0 reply s =
          Returns kThreadError_None s' /\
        sState s' = kStateTransmit)) /\
  (forall params (i : nat) p,
     ot_InterfaceUp (ot s) = true ->
     receiveFrame_mutex s = false ->
     IntransitHandles s !! i = Some (cnf_MsduHandle params) ->
     (forall j : nat,
        IntransitHandles s !! j = Some (cnf_MsduHandle params) -> j = i) ->
     IntransitPackets s !! i = Some p ->
     exists s',
       handleDataConfirm params s = Returns 0 s' /\
       sState s' = kStateReceive) /\
  otPlatRadioSleep s = Returns kThreadError_None s.
Proof.
  intros Hm Hlen.
  assert (Hlt : (length (IntransitHandles s) < 256)%nat)
    by (rewrite Hlen; unfold MAX_INTRANSITS; lia).
  split; [| split; [| split; [| split; [| split; [| reflexivity]]]]].
  - intros H. unfold otPlatRadioEnable, otPlatRadioDisable.
    rewrite !bool_decide_eq_false_2; [split; reflexivity | |];
      destruct H as [H | H]; rewrite H; intros [? | ?]; discriminate.
  - intros H. unfold otPlatRadioEnable, otPlatRadioDisable.
    rewrite !bool_decide_eq_true_2; [| tauto | tauto].
    split; destruct hwme as [status |];
      [destruct (status =? HWME_SUCCESS) | | destruct (status =? HWME_SUCCESS) |];
      eexists _, _; (split; [reflexivity |]); split;
      first [discriminate | reflexivity].
  - intros H. split.
    + unfold otPlatRadioReceive. rewrite bool_decide_eq_true_2 by exact H.
      reflexivity.
    + apply otPlatRadioTransmit_disabled; assumption.
  - intros H. split.
    + unfold otPlatRadioReceive. rewrite bool_decide_eq_false_2 by exact H.
      eexists. split; [reflexivity |]. apply setChannel_sState.
    + intros Hft Hok.
      destruct (otPlatRadioTransmit_data transmitContext curPacket0 reply s
                  Hm Hlt H Hft) as (k & r & s' & _ & _ & _ & Hp & Ht).
      rewrite (tx_length_ok_inside s Hok) in Ht.
      eexists. split; [exact Ht |]. cbn [sState emit set_trace].
      set (h := u8 (handle s + 1 + Z.of_nat k)) in *.
      destruct (intransit_putFrame_returns h
                  (sTransmitFrame (tx_state h transmitContext s))
                  (tx_state h transmitContext s))
        as (r' & s'' & Hp' & Hs & _).
      { unfold tx_state. cbn. rewrite setChannel_intransit_mutex. exact Hm. }
      rewrite Hp in Hp'. injection Hp' as _ <-. rewrite Hs.
      unfold tx_state. cbn. apply setChannel_sState.
  - intros params i p Hup Hrm Hi Hu Hp.
    destruct (handleDataConfirm_found params s i p Hup Hm Hrm Hi Hu Hp)
      as (s' & Hc & Hs & _).
    eauto.
Qed.

(** The frame of scenario 1 handed over in state Receive is accepted. *)
Lemma radio_state_guards_witness :
  intransit_mutex (scenario1_radio kStateReceive) = false /\
  length (IntransitHandles (scenario1_radio kStateReceive)) = MAX_INTRANSITS /\
  tx_length_ok (scenario1_radio kStateReceive) /\
  exists s',
    otPlatRadioTransmit 7 curPacket_zero (fun _ => 0)
      (scenario1_radio kStateReceive) = Returns kThreadError_None s' /\
    sState s' = kStateTransmit.
Proof.
  assert (Hok : tx_length_ok (scenario1_radio kStateReceive))
    by (unfold tx_length_ok; vm_compute; split; discriminate).
  split; [reflexivity |]. split; [reflexivity |]. split; [exact Hok |].
  destruct (radio_state_guards (scenario1_radio kStateReceive) None 11 7
              curPacket_zero (fun _ => 0) eq_refl eq_refl)
    as (_ & _ & _ & H & _).
  apply H; [discriminate | reflexivity | exact Hok].
Defined.

(** ** C5: handle allocation *)

Lemma setChannel_trace_requests c s :
  data_request_handles (trace (setChannel c s)) =
    data_request_handles (trace s) /\
  transmit_done_contexts (trace (setChannel c s)) =
    transmit_done_contexts (trace s).
Proof.
  unfold setChannel. destruct (sChannel s =? c); [split; reflexivity |].
  radio_simpl. unfold data_request_handles, transmit_done_contexts.
  rewrite !omap_app. cbn. rewrite !app_nil_r. split; reflexivity.
Qed.

Lemma setChannel_other c s :
  receiveFrame_mutex (setChannel c s) = receiveFrame_mutex s /\
  ot (setChannel c s) = ot s /\
  sTransmitPsdu (setChannel c s) = sTransmitPsdu s /\
  sReceiveFrame (setChannel c s) = sReceiveFrame s /\
  sReceivePsdu (setChannel c s) = sReceivePsdu s.
Proof. unfold setChannel. destruct (sChannel s =? c); repeat split. Qed.

(** A data frame handed over while a slot is free: the handle is the first
    one, counting cyclically from the static counter plus one, that is not
    in the table; it is not 0; it goes, with a copy of the transmit frame
    that carries the context, into the first free slot. *)
Lemma otPlatRadioTransmit_data_stores transmitContext curPacket0 reply s :
  intransit_mutex s = false ->
  (length (IntransitHandles s) < 256)%nat ->
  sState s <> kStateDisabled ->
  tx_frameType s = MAC_FC_FT_DATA ->
  tx_inside s = true ->
  0 ∈ IntransitHandles s ->
  exists (k i : nat) (s' : radio),
    let h := u8 (handle s + 1 + Z.of_nat k) in
    otPlatRadioTransmit transmitContext curPacket0 reply s =
      Returns kThreadError_None s' /\
    (k < 256)%nat /\
    (h ∉ IntransitHandles s) /\
    (forall j : nat, (j < k)%nat ->
       u8 (handle s + 1 + Z.of_nat j) ∈ IntransitHandles s) /\
    h <> 0 /\
    IntransitHandles s !! i = Some 0 /\
    (forall j : nat, (j < i)%nat -> IntransitHandles s !! j <> Some 0) /\
    IntransitHandles s' = <[i := h]> (IntransitHandles s) /\
    IntransitPackets s' =
      <[i := with_mTransmitContext transmitContext (sTransmitFrame s)]>
        (IntransitPackets s) /\
    handle s' = h /\
    sState s' = kStateTransmit /\
    intransit_mutex s' = false /\
    receiveFrame_mutex s' = receiveFrame_mutex s /\
    ot s' = ot s /\
    data_request_handles (trace s') = data_request_handles (trace s) ++ [h] /\
    transmit_done_contexts (trace s') = transmit_done_contexts (trace s) /\
    sTransmitFrame s' =
      with_mTransmitContext transmitContext (sTransmitFrame s) /\
    sTransmitPsdu s' = sTransmitPsdu s.
Proof.
  intros Hm Hlen Hst Hft Hok H0.
  destruct (otPlatRadioTransmit_data transmitContext curPacket0 reply s
              Hm Hlen Hst Hft)
    as (k & r & s' & Hk & Hfree & Hused & Hp & Ht).
  rewrite Hok in Ht.
  set (h := u8 (handle s + 1 + Z.of_nat k)) in *.
  destruct (find_slot_is_Some 0 (IntransitHandles s) 0%nat H0) as [i Hi].
  unfold intransit_putFrame, tx_state in Hp. radio_simpl in Hp.
  rewrite setChannel_intransit_mutex, setChannel_IntransitHandles,
    setChannel_IntransitPackets, setChannel_sTransmitFrame in Hp.
  radio_simpl in Hp. rewrite Hm, Hi in Hp. injection Hp as _ <-.
  apply find_slot_Some in Hi as (i' & -> & Hi & Hlt).
  cbn [Nat.add] in Ht.
  eexists k, i', _. cbn zeta. fold h. split; [exact Ht |].
  radio_simpl.
  rewrite setChannel_sState, setChannel_intransit_mutex, setChannel_handle.
  destruct (setChannel_other (mChannel (sTransmitFrame s))
              (set_sTransmitError kThreadError_None
                 (set_sState kStateTransmit (set_handle h s))))
    as (-> & -> & -> & _).
  destruct (setChannel_trace_requests (mChannel (sTransmitFrame s))
              (set_sTransmitError kThreadError_None
                 (set_sState kStateTransmit (set_handle h s))))
    as (Hreq & Hdone).
  unfold data_request_handles, transmit_done_contexts in *.
  rewrite !omap_app, Hreq, Hdone. radio_simpl. cbn [omap].
  unfold tx_parse. destruct (tx_security _ _ _). cbn [tx_curPacket MsduHandle].
  rewrite app_nil_r.
  repeat split; try assumption; try reflexivity.
  intros ->. contradiction.
Qed.

Lemma tx_state_sTransmitFrame h c s :
  sTransmitFrame (tx_state h c s) = with_mTransmitContext c (sTransmitFrame s).
Proof.
  unfold tx_state. radio_simpl. rewrite setChannel_sTransmitFrame.
  reflexivity.
Qed.

Lemma otPlatRadioTransmit_data_full transmitContext curPacket0 reply s :
  intransit_mutex s = false ->
  (length (IntransitHandles s) < 256)%nat ->
  sState s <> kStateDisabled ->
  tx_frameType s = MAC_FC_FT_DATA ->
  tx_inside s = true ->
  0 ∉ IntransitHandles s ->
  exists (k : nat) (s' st' : radio),
    let h := u8 (handle s + 1 + Z.of_nat k) in
    let st := tx_state h transmitContext s in
    otPlatRadioTransmit transmitContext curPacket0 reply s =
      Returns kThreadError_None s' /\
    (k < 256)%nat /\
    (h ∉ IntransitHandles s) /\
    (forall j : nat, (j < k)%nat ->
       u8 (handle s + 1 + Z.of_nat j) ∈ IntransitHandles s) /\
    intransit_putFrame h (sTransmitFrame st) st = Returns (-1) st' /\
    IntransitHandles s' = IntransitHandles s /\
    IntransitPackets s' = IntransitPackets s /\
    data_request_handles (trace s') = data_request_handles (trace s) ++ [h] /\
    intransit_mutex s' = true /\
    ot s' = ot s.
Proof.
  intros Hm Hlen Hst Hft Hok H0.
  destruct (otPlatRadioTransmit_data transmitContext curPacket0 reply s
              Hm Hlen Hst Hft)
    as (k & r & s' & Hk & Hfree & Hused & Hp & Ht).
  rewrite Hok in Ht.
  set (h := u8 (handle s + 1 + Z.of_nat k)) in *.
  apply (find_slot_None 0 (IntransitHandles s) 0%nat) in H0.
  assert (Hp' := Hp).
  unfold intransit_putFrame, tx_state in Hp. radio_simpl in Hp.
  rewrite setChannel_intransit_mutex, setChannel_IntransitHandles in Hp.
  radio_simpl in Hp. rewrite Hm, H0 in Hp. injection Hp as <- <-.
  eexists k, _, _. cbn zeta. fold h. split; [exact Ht |].
  split; [exact Hk |]. split; [exact Hfree |]. split; [exact Hused |].
  split; [exact Hp' |].
  radio_simpl.
  rewrite setChannel_IntransitHandles, setChannel_IntransitPackets.
  destruct (setChannel_trace_requests (mChannel (sTransmitFrame s))
              (set_sTransmitError kThreadError_None
                 (set_sState kStateTransmit (set_handle h s))))
    as (Hreq & _).
  destruct (setChannel_other (mChannel (sTransmitFrame s))
              (set_sTransmitError kThreadError_None
                 (set_sState kStateTransmit (set_handle h s))))
    as (_ & -> & _).
  unfold data_request_handles in *.
  rewrite !omap_app, Hreq. radio_simpl. cbn [omap].
  unfold tx_parse. destruct (tx_security _ _ _). cbn [tx_curPacket MsduHandle].
  repeat split.
Qed.




(** ** The in-transit table along sequences of calls *)

(** *** Uniqueness of the live handles *)

Lemma unique_handles_replicate n : unique_handles (replicate n 0).
Proof.
  intros i j h Hi _ Hne. apply lookup_replicate in Hi as [-> _]. congruence.
Qed.

Lemma unique_handles_insert_fresh l (i : nat) h :
  unique_handles l -> h ∉ l -> unique_handles (<[i := h]> l).
Proof.
  intros Hu Hfresh a b v Ha Hb Hv.
  destruct (decide (a = i)) as [-> | Hai], (decide (b = i)) as [-> | Hbi];
    [reflexivity | | |].
  - rewrite list_lookup_insert_ne in Hb by congruence.
    apply list_lookup_insert_Some in Ha as [(_ & -> & _) | (? & _)];
      [| congruence].
    exfalso. apply Hfresh, list_elem_of_lookup. eauto.
  - rewrite list_lookup_insert_ne in Ha by congruence.
    apply list_lookup_insert_Some in Hb as [(_ & -> & _) | (? & _)];
      [| congruence].
    exfalso. apply Hfresh, list_elem_of_lookup. eauto.
  - rewrite list_lookup_insert_ne in Ha, Hb by congruence. eauto.
Qed.

(** What [rm_slots] leaves: every slot that held [h] holds 0. *)
Lemma rm_slots_Some h l f f' l' :
  rm_slots h l f = Some (f', l') ->
  l' = (fun x => if x =? h then 0 else x) <$> l.
Proof.
  revert f f' l'. induction l as [| x l IH]; intros f f' l'; cbn.
  - intros [= _ <-]. reflexivity.
  - destruct (x =? h).
    + destruct f; [discriminate |].
      destruct (rm_slots h l true) as [[g r] |] eqn:E; [| discriminate].
      intros [= _ <-]. f_equal. eapply IH, E.
    + destruct (rm_slots h l f) as [[g r] |] eqn:E; [| discriminate].
      intros [= _ <-]. f_equal. eapply IH, E.
Qed.

Lemma unique_handles_cleared l h :
  unique_handles l ->
  unique_handles ((fun x => if x =? h then 0 else x) <$> l).
Proof.
  intros Hu a b v Ha Hb Hv.
  rewrite list_lookup_fmap in Ha, Hb.
  destruct (l !! a) as [x |] eqn:Ea; [| discriminate].
  destruct (l !! b) as [y |] eqn:Eb; [| discriminate].
  cbn in Ha, Hb.
  destruct (x =? h); [congruence |]. destruct (y =? h); [congruence |].
  injection Ha as ->. injection Hb as ->. eauto.
Qed.

Lemma unique_handles_NoDup l :
  unique_handles l -> NoDup (filter (fun h => h <> 0) l).
Proof.
  induction l as [| x l IH]; intros Hu; [constructor |].
  assert (Hu' : unique_handles l).
  { intros i j h Hi Hj Hh. specialize (Hu (S i) (S j) h Hi Hj Hh). lia. }
  rewrite filter_cons. destruct (decide (x <> 0)) as [Hx | Hx]; [| auto].
  constructor; [| auto].
  intros [_ Hin]%list_elem_of_filter.
  apply list_elem_of_lookup in Hin as [j Hj].
  specialize (Hu 0%nat (S j) x eq_refl Hj Hx). lia.
Qed.

Lemma live_handles_bound s :
  intransit_inv s ->
  (length (live_handles s) <= 7)%nat /\ NoDup (live_handles s).
Proof.
  intros [Hl _ Hu]. split; [| apply unique_handles_NoDup, Hu].
  unfold live_handles.
  etransitivity; [apply length_filter |]. rewrite Hl. reflexivity.
Qed.

Lemma live_handles_elem h s :
  h ∈ live_handles s <-> h ∈ IntransitHandles s /\ h <> 0.
Proof. unfold live_handles. rewrite list_elem_of_filter. tauto. Qed.

(** *** What the calls do to the table *)

Lemma data_request_handles_app a b :
  data_request_handles (a ++ b) =
    data_request_handles a ++ data_request_handles b.
Proof. apply omap_app. Qed.

Lemma transmit_done_contexts_app a b :
  transmit_done_contexts (a ++ b) =
    transmit_done_contexts a ++ transmit_done_contexts b.
Proof. apply omap_app. Qed.

Lemma skip_used_handles_locked n s :
  intransit_mutex s = true -> skip_used_handles n s = NeverReturns.
Proof.
  intros Hm. destruct n; [reflexivity |].
  cbn [skip_used_handles]. unfold intransit_isHandleInUse. rewrite Hm.
  reflexivity.
Qed.

Lemma otPlatRadioTransmit_locked transmitContext curPacket0 reply s :
  intransit_mutex s = true ->
  otPlatRadioTransmit transmitContext curPacket0 reply s = NeverReturns.
Proof.
  intros Hm. unfold otPlatRadioTransmit.
  rewrite skip_used_handles_locked by exact Hm. reflexivity.
Qed.

Lemma poll_loop_fields n c reply coord sec s :
  IntransitHandles (poll_loop n c reply coord sec s).2 = IntransitHandles s /\
  IntransitPackets (poll_loop n c reply coord sec s).2 = IntransitPackets s /\
  data_request_handles (trace (poll_loop n c reply coord sec s).2) =
    data_request_handles (trace s).
Proof.
  revert c s. induction n as [| n IH]; intros c s; cbn [poll_loop].
  - radio_simpl. cbn [snd]. radio_simpl. unfold data_request_handles.
    rewrite !omap_app. destruct (0 <? c); cbn; rewrite ?app_nil_r;
      repeat split.
  - destruct ((reply c =? 255) && (c <? 10)).
    + destruct (IH (u8 (c + 1))
                  (emit_if (0 <? c) otPlatLog_Warn
                     (emit (MLME_POLL_request_sync coord sec) s)))
        as (-> & -> & ->).
      radio_simpl. unfold data_request_handles.
      rewrite !omap_app. destruct (0 <? c); cbn; rewrite ?app_nil_r;
        repeat split.
    + cbn [snd]. radio_simpl. unfold data_request_handles.
      rewrite !omap_app. destruct (0 <? c); cbn; rewrite ?app_nil_r;
        repeat split.
Qed.

(** Every call of [otPlatRadioTransmit] that returns found the table mutex
    free and settled on a handle that is not in the table; it then either
    leaves the table as it is, or stores the handle in a slot that was
    free.  A request goes out with that handle, if one goes out. *)
Lemma otPlatRadioTransmit_table transmitContext curPacket0 reply s e s' :
  (length (IntransitHandles s) < 256)%nat ->
  otPlatRadioTransmit transmitContext curPacket0 reply s = Returns e s' ->
  intransit_mutex s = false /\
  exists k : nat,
    let h := u8 (handle s + 1 + Z.of_nat k) in
    (h ∉ IntransitHandles s) /\
    (data_request_handles (trace s') = data_request_handles (trace s) \/
     data_request_handles (trace s') =
       data_request_handles (trace s) ++ [h]) /\
    ((IntransitHandles s' = IntransitHandles s /\
      IntransitPackets s' = IntransitPackets s /\
      (data_request_handles (trace s') = data_request_handles (trace s) \/
       (0 ∉ IntransitHandles s) /\ intransit_mutex s' = true)) \/
     (exists i : nat,
        IntransitHandles s !! i = Some 0 /\
        IntransitHandles s' = <[i := h]> (IntransitHandles s) /\
        IntransitPackets s' =
          <[i := with_mTransmitContext transmitContext (sTransmitFrame s)]>
            (IntransitPackets s) /\
        data_request_handles (trace s') =
          data_request_handles (trace s) ++ [h])).
Proof.
  intros Hlen Ht.
  destruct (intransit_mutex s) eqn:Hm.
  { rewrite otPlatRadioTransmit_locked in Ht by exact Hm. discriminate. }
  split; [reflexivity |].
  destruct (decide (sState s = kStateDisabled)) as [Hst | Hst].
  { destruct (otPlatRadioTransmit_pick s Hm Hlen) as (k & _ & Hr & Hfree & _).
    exists k. cbn zeta. split; [exact Hfree |].
    unfold otPlatRadioTransmit in Ht. rewrite Hr in Ht. cbn [bind] in Ht.
    rewrite bool_decide_eq_true_2 in Ht by exact Hst.
    injection Ht as _ <-. radio_simpl. split; [left; reflexivity |].
    left. repeat split. left. reflexivity. }
  destruct (decide (tx_frameType s = MAC_FC_FT_DATA)) as [Hft | Hft].
  { destruct (tx_inside s) eqn:Hin.
    2: { destruct (otPlatRadioTransmit_data transmitContext curPacket0 reply
                     s Hm Hlen Hst Hft) as (k & r & s1 & _ & _ & _ & _ & Ht').
         rewrite Hin in Ht'. rewrite Ht' in Ht. discriminate. }
    destruct (decide (0 ∈ IntransitHandles s)) as [H0 | H0].
    - destruct (otPlatRadioTransmit_data_stores transmitContext curPacket0
                  reply s Hm Hlen Hst Hft Hin H0)
        as (k & i & s'' & Ht' & _ & Hfree & _ & _ & Hi & _ & Hh & Hp
            & _ & _ & _ & _ & _ & Hreq & _).
      rewrite Ht' in Ht. injection Ht as _ <-.
      exists k. cbn zeta. split; [exact Hfree |]. split; [right; exact Hreq |].
      right. exists i. auto.
    - destruct (otPlatRadioTransmit_data_full transmitContext curPacket0
                  reply s Hm Hlen Hst Hft Hin H0)
        as (k & s'' & st' & Ht' & _ & Hfree & _ & Hp & Hh & Hpk & Hreq & Hmx
            & _).
      rewrite Ht' in Ht. injection Ht as _ <-.
      exists k. cbn zeta. split; [exact Hfree |]. split; [right; exact Hreq |].
      left. split; [exact Hh |]. split; [exact Hpk |]. right.
      split; [exact H0 | exact Hmx]. }
  destruct (otPlatRadioTransmit_pick s Hm Hlen) as (k & _ & Hr & Hfree & _).
  exists k. cbn zeta. split; [exact Hfree |].
  unfold otPlatRadioTransmit in Ht. rewrite Hr in Ht. cbn [bind] in Ht.
  rewrite bool_decide_eq_false_2 in Ht by exact Hst.
  unfold tx_frameType in Hft.
  change (psdu_of (set_handle (u8 (handle s + 1 + Z.of_nat k)) s)
            (sTransmitFrame (set_handle (u8 (handle s + 1 + Z.of_nat k)) s)))
    with (psdu_of s (sTransmitFrame s)) in Ht.
  destruct (Z.eqb_spec (Z.land (GETLE16 (psdu_of s (sTransmitFrame s)))
                          MAC_FC_FT_MASK) MAC_FC_FT_DATA) as [E | _];
    [contradiction |].
  cbn [orb] in Ht.
  destruct (Z.land (GETLE16 (psdu_of s (sTransmitFrame s))) MAC_FC_FT_MASK
            =? MAC_FC_FT_COMMAND); cbn [negb] in Ht.
  - match type of Ht with
    | context [rd ?p ?i =? 4] => destruct (rd p i =? 4)
    end; [| discriminate].
    match type of Ht with
    | context [poll_loop ?n ?c ?r ?co ?se ?st] =>
        destruct (poll_loop_fields n c r co se st) as (Hh & Hp & Hq);
        destruct (poll_loop n c r co se st) as [ret sp]
    end.
    cbn [snd] in Hh, Hp, Hq.
    assert (Hs' : exists ev, s' = emit (otPlatRadioTransmitDone ev.1 ev.2
                                          transmitContext) sp).
    { destruct (ret =? MAC_SUCCESS); [| destruct (ret =? MAC_NO_DATA)];
        injection Ht as _ <-;
        [exists (true, kThreadError_None) | exists (false, kThreadError_None)
        | exists (false, kThreadError_NoAck)]; reflexivity. }
    destruct Hs' as [ev ->]. radio_simpl.
    rewrite Hh, Hp. radio_simpl in Hh. radio_simpl in Hp.
    rewrite setChannel_IntransitHandles, setChannel_IntransitPackets.
    radio_simpl.
    assert (Hq' : data_request_handles
                    (trace (emit (otPlatRadioTransmitDone ev.1 ev.2
                                    transmitContext) sp)) =
                  data_request_handles (trace s)).
    { radio_simpl. rewrite data_request_handles_app, Hq.
      cbn [data_request_handles omap]. rewrite app_nil_r.
      rewrite (proj1 (setChannel_trace_requests _ _)). reflexivity. }
    radio_simpl in Hq'. rewrite Hq'.
    split; [left; reflexivity |]. left. repeat split. left. reflexivity.
  - injection Ht as _ <-. radio_simpl.
    rewrite data_request_handles_app. cbn [data_request_handles omap].
    rewrite app_nil_r.
    split; [left; reflexivity |]. left. repeat split. left. reflexivity.
Qed.

Lemma handleDataConfirm_table params s r s' :
  handleDataConfirm params s = Returns r s' ->
  IntransitPackets s' = IntransitPackets s /\
  (IntransitHandles s' = IntransitHandles s \/
   IntransitHandles s' =
     (fun x => if x =? cnf_MsduHandle params then 0 else x)
       <$> IntransitHandles s).
Proof.
  unfold handleDataConfirm, intransit_getFrame.
  destruct (ot_InterfaceUp (ot s)); cbn [negb];
    [| intros [= _ <-]; split; [reflexivity | left; reflexivity]].
  destruct (intransit_mutex s) eqn:Hm; [discriminate |].
  destruct (find_slot (cnf_MsduHandle params) (IntransitHandles s) 0);
    cbn [bind]; [| discriminate].
  destruct (IntransitPackets s !! n) as [p |]; [| discriminate].
  destruct (cnf_Status params =? MAC_SUCCESS);
    unfold handleDataConfirm_end, intransit_rmFrame; radio_simpl;
    rewrite Hm;
    (destruct (rm_slots (cnf_MsduHandle params) (IntransitHandles s) false)
       as [[found handles'] |] eqn:E; [| discriminate]);
    apply rm_slots_Some in E; radio_simpl;
    unfold PlatformRadioSignal; radio_simpl;
    (destruct (receiveFrame_mutex s); [discriminate |]); radio_simpl;
    intros [= _ <-]; radio_simpl; (split; [reflexivity | right; exact E]).
Qed.

Lemma set_psdu_of_IntransitHandles p buf s :
  IntransitHandles (set_psdu_of p buf s) = IntransitHandles s.
Proof. unfold set_psdu_of. destruct (mPsdu p); reflexivity. Qed.

Lemma set_psdu_of_IntransitPackets p buf s :
  IntransitPackets (set_psdu_of p buf s) = IntransitPackets s.
Proof. unfold set_psdu_of. destruct (mPsdu p); reflexivity. Qed.

Lemma handleDataIndication_table params s r s' :
  handleDataIndication params s = Returns r s' ->
  IntransitHandles s' = IntransitHandles s /\
  IntransitPackets s' = IntransitPackets s.
Proof.
  unfold handleDataIndication.
  destruct (ot_InterfaceUp (ot s)); cbn [negb];
    [| intros [= _ <-]; split; reflexivity].
  destruct (receiveFrame_mutex s); [discriminate |].
  destruct (mLength (sReceiveFrame s) =? 0); cbn [negb]; [| discriminate].
  cbn zeta.
  match goal with
  | |- context [aMaxPHYPacketSize <? ?x] => destruct (aMaxPHYPacketSize <? x)
  end.
  - intros [= _ <-]. radio_simpl.
    rewrite set_psdu_of_IntransitHandles, set_psdu_of_IntransitPackets.
    split; reflexivity.
  - match goal with
    | |- context [Z.of_nat IEEE802154_MAX_LENGTH <? ?x] =>
        destruct (Z.of_nat IEEE802154_MAX_LENGTH <? x); [discriminate |]
    end.
    unfold PlatformRadioSignal. radio_simpl. intros [= _ <-]. radio_simpl.
    rewrite !set_psdu_of_IntransitHandles, !set_psdu_of_IntransitPackets.
    radio_simpl.
    rewrite !set_psdu_of_IntransitHandles, !set_psdu_of_IntransitPackets.
    split; reflexivity.
Qed.

(** *** The invariant along every sequence of calls *)

Lemma intransit_inv_same s s' :
  IntransitHandles s' = IntransitHandles s ->
  IntransitPackets s' = IntransitPackets s ->
  intransit_inv s -> intransit_inv s'.
Proof. intros Hh Hp [H1 H2 H3]. split; rewrite ?Hh, ?Hp; assumption. Qed.

Lemma intransit_inv_init o : intransit_inv (radio_init o).
Proof.
  split; [reflexivity | reflexivity |]. apply unique_handles_replicate.
Qed.

Lemma radio_step_inv s s' :
  intransit_inv s -> radio_step s s' -> intransit_inv s'.
Proof.
  intros Hinv Hstep. destruct Hstep as
    [psdu len channel direct s | hwme s e s' H | hwme s e s' H
    | aChannel s e s' H | transmitContext curPacket0 reply s e s' H
    | params s r s' H | params s r s' H].
  - revert Hinv. apply intransit_inv_same; reflexivity.
  - revert Hinv. unfold otPlatRadioEnable in H.
    destruct (bool_decide _); [destruct hwme as [status |];
      [destruct (status =? HWME_SUCCESS) |] |];
      injection H as _ <-; apply intransit_inv_same; reflexivity.
  - revert Hinv. unfold otPlatRadioDisable in H.
    destruct (bool_decide _); [destruct hwme as [status |];
      [destruct (status =? HWME_SUCCESS) |] |];
      injection H as _ <-; apply intransit_inv_same; reflexivity.
  - revert Hinv. unfold otPlatRadioReceive in H.
    destruct (bool_decide _); injection H as _ <-;
      apply intransit_inv_same;
      rewrite ?setChannel_IntransitHandles, ?setChannel_IntransitPackets;
      reflexivity.
  - assert (Hlen : (length (IntransitHandles s) < 256)%nat).
    { rewrite (inv_handles _ Hinv). unfold MAX_INTRANSITS. lia. }
    destruct (otPlatRadioTransmit_table _ _ _ _ _ _ Hlen H)
      as (_ & k & Hfree & _ & [(Hh & Hp & _) | (i & Hi & Hh & Hp & _)]).
    + revert Hinv. apply intransit_inv_same; assumption.
    + destruct Hinv as [H1 H2 H3].
      split; rewrite ?Hh, ?Hp, ?length_insert; try assumption.
      apply unique_handles_insert_fresh; assumption.
  - destruct (handleDataConfirm_table _ _ _ _ H) as (Hp & [Hh | Hh]).
    + revert Hinv. apply intransit_inv_same; assumption.
    + destruct Hinv as [H1 H2 H3].
      split; rewrite ?Hh, ?Hp, ?length_fmap; try assumption.
      apply unique_handles_cleared; assumption.
  - destruct (handleDataIndication_table _ _ _ _ H) as (Hh & Hp).
    revert Hinv. apply intransit_inv_same; assumption.
Qed.

Lemma radio_steps_inv s s' :
  intransit_inv s -> rtc radio_step s s' -> intransit_inv s'.
Proof.
  intros Hinv Hsteps. induction Hsteps as [| s s1 s2 Hstep _ IH];
    [exact Hinv |].
  apply IH. eapply radio_step_inv; eassumption.
Qed.

(** A confirm for a handle in transit reaches the context stored with it,
    and frees the slot. *)
Lemma handleDataConfirm_routes h status s (i : nat) p :
  intransit_inv s ->
  ot_InterfaceUp (ot s) = true ->
  intransit_mutex s = false ->
  receiveFrame_mutex s = false ->
  IntransitHandles s !! i = Some h ->
  h <> 0 ->
  IntransitPackets s !! i = Some p ->
  exists s',
    handleDataConfirm (mkDataConfirm h status) s = Returns 0 s' /\
    transmit_done_contexts (trace s') =
      transmit_done_contexts (trace s) ++ [mTransmitContext p] /\
    IntransitHandles s' = <[i := 0]> (IntransitHandles s) /\
    IntransitPackets s' = IntransitPackets s /\
    intransit_mutex s' = false /\
    receiveFrame_mutex s' = false /\
    ot s' = ot s /\
    intransit_inv s'.
Proof.
  intros Hinv Hup Hm Hrm Hi Hne Hp.
  destruct (handleDataConfirm_found (mkDataConfirm h status) s i p Hup Hm Hrm
              Hi) as (s' & Hc & _ & Htr & Hh & Hpk & Hm' & Hrm' & _ & Hot).
  { intros j Hj. cbn in Hj. symmetry.
    exact (inv_unique _ Hinv i j h Hi Hj Hne). }
  { exact Hp. }
  exists s'. split; [exact Hc |].
  split.
  { rewrite Htr, !transmit_done_contexts_app.
    cbn [cnf_Status]. destruct (status =? MAC_SUCCESS); cbn;
      rewrite ?app_nil_r; reflexivity. }
  repeat (split; [assumption |]).
  eapply radio_step_inv; [exact Hinv |]. eapply step_DataConfirm, Hc.
Qed.

Lemma app_one_inv {A} (l : list A) (x y : A) :
  (l = l ++ [x] -> False) /\ (l ++ [y] = l ++ [x] -> y = x).
Proof.
  split.
  - intros H. apply (f_equal length) in H. rewrite length_app in H.
    cbn in H. lia.
  - intros H. apply app_inv_head in H. congruence.
Qed.

(** ** Live handles are distinct, and route the confirms *)

(** X25.  Along every sequence of calls that return, the 7 slots of the
    table hold pairwise distinct live handles.  A handle that goes out in a
    request is not live when it is chosen; it is live afterwards while a
    slot was free, and when no slot was free no later transmission returns.
    Two data frames of sound lengths handed over one after the other, while
    two slots are free, get different handles, and the confirms, in either
    order, reach the context of their own transmission. *)
Theorem intransit_handles_unique_and_routed :
  (forall o, intransit_inv (radio_init o)) /\
  (forall s s',
     intransit_inv s -> rtc radio_step s s' ->
     intransit_inv s' /\
     (length (live_handles s') <= 7)%nat /\ NoDup (live_handles s')) /\
  (forall transmitContext curPacket0 reply s e s' h,
     intransit_inv s ->
     otPlatRadioTransmit transmitContext curPacket0 reply s = Returns e s' ->
     data_request_handles (trace s') =
       data_request_handles (trace s) ++ [h] ->
     (h ∉ live_handles s) /\
     (0 ∈ IntransitHandles s -> h ∈ live_handles s') /\
     (0 ∉ IntransitHandles s ->
      forall transmitContext' curPacket0' reply',
        otPlatRadioTransmit transmitContext' curPacket0' reply' s' =
          NeverReturns)) /\
  (forall s ctx1 ctx2 c1 c2 reply1 reply2 psdu2 len2 ch2 direct2
          status1 status2 (i j : nat),
     intransit_inv s ->
     intransit_mutex s = false ->
     receiveFrame_mutex s = false ->
     ot_InterfaceUp (ot s) = true ->
     sState s <> kStateDisabled ->
     mPsdu (sTransmitFrame s) = ref_sTransmitPsdu ->
     tx_frameType s = MAC_FC_FT_DATA ->
     tx_length_ok s ->
     Z.land (GETLE16 psdu2) MAC_FC_FT_MASK = MAC_FC_FT_DATA ->
     tx_length_ok (stack_fills_transmit_buffer psdu2 len2 ch2 direct2 s) ->
     i <> j ->
     IntransitHandles s !! i = Some 0 ->
     IntransitHandles s !! j = Some 0 ->
     exists s1 s2 h1 h2,
       otPlatRadioTransmit ctx1 c1 reply1 s = Returns kThreadError_None s1 /\
       data_request_handles (trace s1) =
         data_request_handles (trace s) ++ [h1] /\
       otPlatRadioTransmit ctx2 c2 reply2
         (stack_fills_transmit_buffer psdu2 len2 ch2 direct2 s1) =
         Returns kThreadError_None s2 /\
       data_request_handles (trace s2) =
         data_request_handles (trace s1) ++ [h2] /\
       h1 <> h2 /\
       (exists s3 s4,
          handleDataConfirm (mkDataConfirm h1 status1) s2 = Returns 0 s3 /\
          handleDataConfirm (mkDataConfirm h2 status2) s3 = Returns 0 s4 /\
          transmit_done_contexts (trace s4) =
            transmit_done_contexts (trace s2) ++ [ctx1; ctx2]) /\
       (exists s3 s4,
          handleDataConfirm (mkDataConfirm h2 status2) s2 = Returns 0 s3 /\
          handleDataConfirm (mkDataConfirm h1 status1) s3 = Returns 0 s4 /\
          transmit_done_contexts (trace s4) =
            transmit_done_contexts (trace s2) ++ [ctx2; ctx1])).
Proof.
  split; [exact intransit_inv_init |]. split; [| split].
  - intros s s' Hinv Hsteps.
    assert (Hinv' := radio_steps_inv s s' Hinv Hsteps).
    split; [exact Hinv' | apply live_handles_bound, Hinv'].
  - intros transmitContext curPacket0 reply s e s' h Hinv Ht Hreq.
    assert (Hlen : (length (IntransitHandles s) < 256)%nat).
    { rewrite (inv_handles _ Hinv). unfold MAX_INTRANSITS. lia. }
    destruct (otPlatRadioTransmit_table _ _ _ _ _ _ Hlen Ht)
      as (_ & k & Hfree & Hout & Htab).
    cbn zeta in *. rewrite Hreq in Hout, Htab.
    assert (Hh : u8 (handle s + 1 + Z.of_nat k) = h).
    { destruct Hout as [H | H].
      - symmetry in H. destruct (proj1 (app_one_inv _ h h) H).
      - symmetry. exact (proj2 (app_one_inv _ _ _) H). }
    rewrite Hh in *. split; [| split].
    + rewrite live_handles_elem. tauto.
    + intros H0. rewrite live_handles_elem.
      destruct Htab as [(_ & _ & [H | [H _]]) | (i & Hi & Hins & _)].
      * symmetry in H. destruct (proj1 (app_one_inv _ h h) H).
      * contradiction.
      * split; [| intros ->; contradiction].
        rewrite Hins. apply list_elem_of_lookup. exists i.
        apply list_lookup_insert_eq. eapply lookup_lt_Some, Hi.
    + intros H0 ctx' c0' reply'.
      destruct Htab as [(_ & _ & [H | [_ H]]) | (i & Hi & _)].
      * symmetry in H. destruct (proj1 (app_one_inv _ h h) H).
      * apply otPlatRadioTransmit_locked, H.
      * exfalso. apply H0, list_elem_of_lookup. eauto.
  - intros s ctx1 ctx2 c1 c2 reply1 reply2 psdu2 len2 ch2 direct2
      status1 status2 i j Hinv Hm Hrm Hup Hst Href Hft Hok Hft2 Hok2 Hij
      Hi Hj.
    assert (Hlen : (length (IntransitHandles s) < 256)%nat).
    { rewrite (inv_handles _ Hinv). unfold MAX_INTRANSITS. lia. }
    (* the first transmission *)
    destruct (otPlatRadioTransmit_data_stores ctx1 c1 reply1 s Hm Hlen Hst Hft
                (tx_length_ok_inside s Hok))
      as (k1 & i1 & s1 & Ht1 & _ & Hfree1 & _ & Hne1 & Hi1 & _ & Hh1 & Hp1
          & _ & Hst1 & Hm1 & Hrm1 & Hot1 & Hreq1 & Hdone1 & Hf1 & Hb1).
    { apply list_elem_of_lookup. eauto. }
    set (h1 := u8 (handle s + 1 + Z.of_nat k1)) in *.
    assert (Hinv1 : intransit_inv s1).
    { eapply radio_step_inv; [exact Hinv |]. eapply step_Transmit, Ht1. }
    (* the second one, after the stack has filled the buffer again *)
    set (sf := stack_fills_transmit_buffer psdu2 len2 ch2 direct2 s1).
    assert (Hinvf : intransit_inv sf).
    { eapply radio_step_inv; [exact Hinv1 | apply step_fill]. }
    assert (H0f : 0 ∈ IntransitHandles sf).
    { change (IntransitHandles sf) with (IntransitHandles s1). rewrite Hh1.
      apply list_elem_of_lookup.
      destruct (decide (i = i1)) as [-> | Hne].
      - exists j. rewrite list_lookup_insert_ne by congruence. exact Hj.
      - exists i. rewrite list_lookup_insert_ne by congruence. exact Hi. }
    destruct (otPlatRadioTransmit_data_stores ctx2 c2 reply2 sf)
      as (k2 & i2 & s2 & Ht2 & _ & Hfree2 & _ & Hne2 & Hi2 & _ & Hh2 & Hp2
          & _ & Hst2 & Hm2 & Hrm2 & Hot2 & Hreq2 & Hdone2 & _).
    { exact Hm1. }
    { change (IntransitHandles sf) with (IntransitHandles s1).
      rewrite (inv_handles _ Hinv1). unfold MAX_INTRANSITS. lia. }
    { change (sState sf) with (sState s1). rewrite Hst1. discriminate. }
    { unfold tx_frameType, psdu_of, sf, stack_fills_transmit_buffer.
      radio_simpl. cbn [mPsdu]. rewrite Hf1. cbn [mPsdu with_mTransmitContext].
      rewrite Href. exact Hft2. }
    { apply tx_length_ok_inside in Hok2. rewrite <- Hok2.
      unfold tx_inside, psdu_of, sf, stack_fills_transmit_buffer.
      radio_simpl. cbn [mPsdu]. rewrite Hf1. cbn [mPsdu with_mTransmitContext].
      rewrite Href. apply tx_msdu_inside_indep. reflexivity. }
    { exact H0f. }
    set (h2 := u8 (handle sf + 1 + Z.of_nat k2)) in *.
    change (IntransitHandles sf) with (IntransitHandles s1) in *.
    change (IntransitPackets sf) with (IntransitPackets s1) in *.
    change (trace sf) with (trace s1) in *.
    change (receiveFrame_mutex sf) with (receiveFrame_mutex s1) in *.
    change (ot sf) with (ot s1) in *.
    assert (Hinv2 : intransit_inv s2).
    { eapply radio_step_inv; [exact Hinvf |]. eapply step_Transmit, Ht2. }
    assert (Hi1' : (i1 < length (IntransitHandles s))%nat)
      by (eapply lookup_lt_Some, Hi1).
    assert (Hs1i1 : IntransitHandles s1 !! i1 = Some h1)
      by (rewrite Hh1; apply list_lookup_insert_eq; exact Hi1').
    assert (Hi12 : i2 <> i1).
    { intros ->. rewrite Hs1i1 in Hi2. congruence. }
    assert (Hh12 : h1 <> h2).
    { intros E. apply Hfree2. rewrite <- E.
      apply list_elem_of_lookup. eauto. }
    assert (Hl1 : IntransitHandles s2 !! i1 = Some h1).
    { rewrite Hh2, list_lookup_insert_ne by congruence. exact Hs1i1. }
    assert (Hl2 : IntransitHandles s2 !! i2 = Some h2).
    { rewrite Hh2. apply list_lookup_insert_eq. eapply lookup_lt_Some, Hi2. }
    assert (Hpl : (length (IntransitPackets s) = 7)%nat)
      by (apply (inv_packets _ Hinv)).
    assert (Hil : (length (IntransitHandles s) = 7)%nat)
      by (apply (inv_handles _ Hinv)).
    assert (Hq1 : exists p1, IntransitPackets s2 !! i1 = Some p1 /\
                             mTransmitContext p1 = ctx1).
    { eexists. split.
      - rewrite Hp2, list_lookup_insert_ne by congruence.
        rewrite Hp1. apply list_lookup_insert_eq. lia.
      - reflexivity. }
    assert (Hq2 : exists p2, IntransitPackets s2 !! i2 = Some p2 /\
                             mTransmitContext p2 = ctx2).
    { eexists. split.
      - rewrite Hp2. apply list_lookup_insert_eq.
        rewrite Hp1, length_insert.
        apply lookup_lt_Some in Hi2. rewrite Hh1, length_insert in Hi2. lia.
      - reflexivity. }
    destruct Hq1 as (p1 & Hq1 & Hc1). destruct Hq2 as (p2 & Hq2 & Hc2).
    assert (Hup2 : ot_InterfaceUp (ot s2) = true)
      by (rewrite Hot2, Hot1; exact Hup).
    assert (Hrm2' : receiveFrame_mutex s2 = false)
      by (rewrite Hrm2, Hrm1; exact Hrm).
    exists s1, s2, h1, h2.
    split; [exact Ht1 |]. split; [exact Hreq1 |]. split; [exact Ht2 |].
    split; [exact Hreq2 |]. split; [exact Hh12 |]. split.
    + destruct (handleDataConfirm_routes h1 status1 s2 i1 p1 Hinv2 Hup2 Hm2
                  Hrm2' Hl1 Hne1 Hq1)
        as (s3 & Hc3 & Hd3 & Hh3 & Hp3 & Hm3 & Hrm3 & Hot3 & Hinv3).
      destruct (handleDataConfirm_routes h2 status2 s3 i2 p2 Hinv3)
        as (s4 & Hc4 & Hd4 & _); try assumption.
      { rewrite Hot3. exact Hup2. }
      { rewrite Hh3, list_lookup_insert_ne by congruence. exact Hl2. }
      { rewrite Hp3. exact Hq2. }
      exists s3, s4. split; [exact Hc3 |]. split; [exact Hc4 |].
      rewrite Hd4, Hd3, Hc1, Hc2, <- app_assoc. reflexivity.
    + destruct (handleDataConfirm_routes h2 status2 s2 i2 p2 Hinv2 Hup2 Hm2
                  Hrm2' Hl2 Hne2 Hq2)
        as (s3 & Hc3 & Hd3 & Hh3 & Hp3 & Hm3 & Hrm3 & Hot3 & Hinv3).
      destruct (handleDataConfirm_routes h1 status1 s3 i1 p1 Hinv3)
        as (s4 & Hc4 & Hd4 & _); try assumption.
      { rewrite Hot3. exact Hup2. }
      { rewrite Hh3, list_lookup_insert_ne by congruence. exact Hl1. }
      { rewrite Hp3. exact Hq1. }
      exists s3, s4. split; [exact Hc3 |]. split; [exact Hc4 |].
      rewrite Hd4, Hd3, Hc1, Hc2, <- app_assoc. reflexivity.
Qed.

(** Two transmissions of the frame of scenario 1, with contexts 7 and 8,
    in a fresh table, and their confirms in the order of the requests. *)
Lemma intransit_handles_unique_and_routed_witness :
  let s := scenario1_radio kStateReceive in
  intransit_inv s /\
  intransit_mutex s = false /\
  receiveFrame_mutex s = false /\
  ot_InterfaceUp (ot s) = true /\
  sState s <> kStateDisabled /\
  tx_frameType s = MAC_FC_FT_DATA /\
  tx_length_ok s /\
  tx_length_ok (stack_fills_transmit_buffer scenario1_psdu 14 11 true s) /\
  IntransitHandles s !! 0%nat = Some 0 /\
  IntransitHandles s !! 1%nat = Some 0 /\
  exists s1 s2 h1 h2,
    otPlatRadioTransmit 7 curPacket_zero (fun _ => 0) s =
      Returns kThreadError_None s1 /\
    data_request_handles (trace s1) =
      data_request_handles (trace s) ++ [h1] /\
    otPlatRadioTransmit 8 curPacket_zero (fun _ => 0)
      (stack_fills_transmit_buffer scenario1_psdu 14 11 true s1) =
      Returns kThreadError_None s2 /\
    data_request_handles (trace s2) =
      data_request_handles (trace s1) ++ [h2] /\
    h1 <> h2 /\
    exists s3 s4,
      handleDataConfirm (mkDataConfirm h1 MAC_SUCCESS) s2 = Returns 0 s3 /\
      handleDataConfirm (mkDataConfirm h2 MAC_SUCCESS) s3 = Returns 0 s4 /\
      transmit_done_contexts (trace s4) =
        transmit_done_contexts (trace s2) ++ [7; 8].
Proof.
  intros s.
  assert (Hinv : intransit_inv s).
  { split; [reflexivity | reflexivity |]. apply unique_handles_replicate. }
  assert (Hok : tx_length_ok s)
    by (unfold tx_length_ok; vm_compute; split; discriminate).
  assert (Hok2 : tx_length_ok
                   (stack_fills_transmit_buffer scenario1_psdu 14 11 true s))
    by (unfold tx_length_ok; vm_compute; split; discriminate).
  split; [exact Hinv |].
  split; [reflexivity |]. split; [reflexivity |]. split; [reflexivity |].
  split; [discriminate |]. split; [reflexivity |].
  split; [exact Hok |]. split; [exact Hok2 |].
  split; [reflexivity |]. split; [reflexivity |].
  destruct intransit_handles_unique_and_routed as (_ & _ & _ & H).
  destruct (H s 7 8 curPacket_zero curPacket_zero (fun _ => 0) (fun _ => 0)
              scenario1_psdu 14 11 true MAC_SUCCESS MAC_SUCCESS 0%nat 1%nat
              Hinv eq_refl eq_refl eq_refl ltac:(discriminate) eq_refl
              eq_refl Hok eq_refl Hok2 ltac:(discriminate) eq_refl eq_refl)
    as (s1 & s2 & h1 & h2 & H1 & H2 & H3 & H4 & H5 & H6 & _).
  exists s1, s2, h1, h2. auto 10.
Defined.

(** ** C4: a transmission that finds the table full *)

(** C4, the code at the failing input: the frame of scenario 1 is handed
    over eight times, with the contexts 1 to 8, and no confirm arrives in
    between.  The first six calls leave one slot free.  The seventh and the
    eighth are two transmissions submitted before either is confirmed: both
    return without error and their requests go out with the handles 7 and
    8.  The eighth finds no free slot: [intransit_putFrame] leaves through
    [return -1] with the mutex locked, its result is not looked at, and
    handle 8 with context 8 is in no slot although its request has gone
    out.  From then on no confirm returns, whatever its handle and status,
    so that neither context 7 nor context 8 is ever reported, and no
    further transmission returns.  Even with the mutex released the confirm
    of handle 8 would find no record and stop in the assertion of
    [handleDataConfirm]. *)
Theorem full_table_transmit_loses_confirms :
  let fill := stack_fills_transmit_buffer scenario1_psdu 14 11 true in
  exists s6 s7 s8,
    transmit_scenario1 [1; 2; 3; 4; 5; 6] (scenario1_radio kStateReceive) =
      Returns kThreadError_None s6 /\
    IntransitHandles s6 = [1; 2; 3; 4; 5; 6; 0] /\
    data_request_handles (trace s6) = [1; 2; 3; 4; 5; 6] /\
    otPlatRadioTransmit 7 curPacket_zero (fun _ => 0) (fill s6) =
      Returns kThreadError_None s7 /\
    data_request_handles (trace s7) = data_request_handles (trace s6) ++ [7] /\
    IntransitHandles s7 = [1; 2; 3; 4; 5; 6; 7] /\
    intransit_mutex s7 = false /\
    otPlatRadioTransmit 8 curPacket_zero (fun _ => 0) (fill s7) =
      Returns kThreadError_None s8 /\
    data_request_handles (trace s8) = data_request_handles (trace s7) ++ [8] /\
    IntransitHandles s8 = [1; 2; 3; 4; 5; 6; 7] /\
    map mTransmitContext (IntransitPackets s8) = [1; 2; 3; 4; 5; 6; 7] /\
    intransit_mutex s8 = true /\
    transmit_done_contexts (trace s8) = [] /\
    (forall params, handleDataConfirm params s8 = NeverReturns) /\
    (forall transmitContext curPacket0 reply,
       otPlatRadioTransmit transmitContext curPacket0 reply s8 =
         NeverReturns) /\
    (forall status,
       handleDataConfirm (mkDataConfirm 8 status)
         (set_intransit_mutex false s8) = AssertFails).
Proof.
  intros fill.
  set (s0 := scenario1_radio kStateReceive).
  set (s6 := after (transmit_scenario1 [1; 2; 3; 4; 5; 6] s0) s0).
  set (s7 := after (otPlatRadioTransmit 7 curPacket_zero (fun _ => 0)
                      (fill s6)) s6).
  set (s8 := after (otPlatRadioTransmit 8 curPacket_zero (fun _ => 0)
                      (fill s7)) s7).
  exists s6, s7, s8.
  do 13 (split; [vm_compute; reflexivity |]).
  split; [| split].
  - intros params. unfold handleDataConfirm, intransit_getFrame.
    replace (ot_InterfaceUp (ot s8)) with true by (vm_compute; reflexivity).
    replace (intransit_mutex s8) with true by (vm_compute; reflexivity).
    reflexivity.
  - intros transmitContext curPacket0 reply.
    apply otPlatRadioTransmit_locked. vm_compute. reflexivity.
  - intros status. unfold handleDataConfirm, intransit_getFrame.
    replace (ot_InterfaceUp (ot (set_intransit_mutex false s8))) with true
      by (vm_compute; reflexivity).
    replace (intransit_mutex (set_intransit_mutex false s8)) with false
      by (vm_compute; reflexivity).
    replace (find_slot (cnf_MsduHandle (mkDataConfirm 8 status))
               (IntransitHandles (set_intransit_mutex false s8)) 0)
      with (@None nat) by (vm_compute; reflexivity).
    reflexivity.
Qed.

(** ** C7: the energy scan reports no channel *)

Lemma energy_scan_results_app a b :
  energy_scan_results (a ++ b) =
    energy_scan_results a ++ energy_scan_results b.
Proof. apply omap_app. Qed.

(** Whatever the state and the confirm, a call of [handleScanConfirm] that
    returns has handed no result to the energy-scan callback: all it makes
    is the call with a null result that ends the scan. *)
Lemma handleScanConfirm_reports_nothing params s r s' :
  handleScanConfirm params s = Returns r s' ->
  energy_scan_results (trace s') = energy_scan_results (trace s) \/
  energy_scan_results (trace s') = energy_scan_results (trace s) ++ [None].
Proof.
  unfold handleScanConfirm.
  destruct (ot_InterfaceUp (ot s)); cbn [negb];
    [| intros [= _ <-]; left; reflexivity].
  destruct (scn_Status params =? MAC_SCAN_IN_PROGRESS); cbn [negb];
    [intros [= _ <-]; left; reflexivity |].
  destruct (sActiveScanInProgress s =? 0); cbn [negb].
  - destruct (sEnergyScanInProgress s =? 0); cbn [negb];
      [intros [= _ <-]; left; reflexivity |].
    destruct (energy_results _ _ _) as [[mask cur] |]; [| discriminate].
    intros [= _ <-]. right. radio_simpl.
    rewrite !energy_scan_results_app. cbn. rewrite app_nil_r. reflexivity.
  - intros [= _ <-]. left. radio_simpl.
    rewrite !energy_scan_results_app. cbn. rewrite !app_nil_r. reflexivity.
Qed.

(** C7, the code at the failing input: an energy scan of channel 11 alone
    is confirmed with one result.  The callback is called once, with the
    null result, and with the context of the active scan (0 here) instead
    of the context 2 given for the energy scan; channel 11 and its RSSI
    are never reported.  With channel 15 alone in the mask, or with the
    mask 0 that stands for all channels, the loop runs off the end of the
    mask and the call does not come back in a defined way. *)
Theorem energy_scan_confirm_reports_no_channel :
  (exists s',
     handleScanConfirm (mkScanConfirm MAC_SUCCESS 1 [0x55])
       (energy_scanning_radio 0x800) = Returns 0 s' /\
     trace s' =
       trace (energy_scanning_radio 0x800) ++
         [EnergyScanCallback 1 0 None; MLME_SET_phyCurrentChannel 0] /\
     energy_scan_results (trace s') = [None] /\
     sEnergyScanMask s' = 0x800) /\
  handleScanConfirm (mkScanConfirm MAC_SUCCESS 1 [0x55])
    (energy_scanning_radio 0x8000) = Undefined /\
  handleScanConfirm (mkScanConfirm MAC_SUCCESS 16 (replicate 16 0x55))
    (energy_scanning_radio 0) = Undefined.
Proof.
  split; [| split; vm_compute; reflexivity].
  eexists. split; [vm_compute; reflexivity |].
  repeat split; vm_compute; reflexivity.
Qed.

(** ** C9: an indication that is too long *)

(** An indication whose PDU would be longer than 127 bytes is dropped with
    a warning, but the call leaves with the receive mutex locked and the
    length in the slot: from then on neither an indication nor
    [PlatformRadioSignal] returns. *)
Lemma psdu_of_set_receiveFrame_mutex b s p :
  psdu_of (set_receiveFrame_mutex b s) p = psdu_of s p.
Proof. unfold psdu_of. destruct (mPsdu p); reflexivity. Qed.

Lemma handleDataIndication_overlong params s :
  ot_InterfaceUp (ot s) = true ->
  receiveFrame_mutex s = false ->
  mLength (sReceiveFrame s) = 0 ->
  aMaxPHYPacketSize <
    rx_mLength (rx_build params (psdu_of s (sReceiveFrame s))) ->
  exists s',
    handleDataIndication params s = Returns 1 s' /\
    trace s' = trace s ++ [otPlatLog_Warn] /\
    mLength (sReceiveFrame s') =
      rx_mLength (rx_build params (psdu_of s (sReceiveFrame s))) /\
    receiveFrame_mutex s' = true /\
    ot s' = ot s /\
    (ot_InterfaceUp (ot s) = true ->
     forall params', handleDataIndication params' s' = NeverReturns) /\
    PlatformRadioSignal s' = NeverReturns.
Proof.
  intros Hup Hm Hl Hlong.
  assert (Hf : forall b (x : radio),
             sReceiveFrame (set_psdu_of (sReceiveFrame s) b x) =
               sReceiveFrame x).
  { intros b x. unfold set_psdu_of. destruct (mPsdu (sReceiveFrame s));
      reflexivity. }
  assert (Hg : forall b (x : radio),
             receiveFrame_mutex (set_psdu_of (sReceiveFrame s) b x) =
               receiveFrame_mutex x /\
             ot (set_psdu_of (sReceiveFrame s) b x) = ot x /\
             trace (set_psdu_of (sReceiveFrame s) b x) = trace x).
  { intros b x. unfold set_psdu_of. destruct (mPsdu (sReceiveFrame s));
      repeat split. }
  set (l := rx_build params (psdu_of s (sReceiveFrame s))) in *.
  set (s' := emit otPlatLog_Warn
               (set_sReceiveFrame
                  (with_mLength (rx_mLength l) (sReceiveFrame s))
                  (set_psdu_of (sReceiveFrame s) (rx_psdu l)
                     (set_receiveFrame_mutex true s)))).
  assert (Hmx : receiveFrame_mutex s' = true).
  { unfold s'. radio_simpl. rewrite (proj1 (Hg _ _)). reflexivity. }
  assert (Hot : ot s' = ot s).
  { unfold s'. radio_simpl. rewrite (proj1 (proj2 (Hg _ _))). reflexivity. }
  exists s'. split.
  { unfold handleDataIndication. rewrite Hup, Hm, Hl. cbn [negb Z.eqb].
    cbn zeta. radio_simpl. rewrite psdu_of_set_receiveFrame_mutex.
    fold l. rewrite Hf. radio_simpl. cbn [mLength with_mLength].
    destruct (Z.ltb_spec aMaxPHYPacketSize (rx_mLength l)) as [_ | H];
      [reflexivity | lia]. }
  split.
  { unfold s'. radio_simpl. rewrite (proj2 (proj2 (Hg _ _))). reflexivity. }
  split.
  { unfold s'. radio_simpl. reflexivity. }
  split; [exact Hmx |]. split; [exact Hot |]. split.
  - intros _ params'. unfold handleDataIndication.
    rewrite Hot, Hup, Hmx. reflexivity.
  - unfold PlatformRadioSignal. rewrite Hmx. reflexivity.
Qed.

(** C9, the code at the failing input: an indication with short addresses
    in one PAN, no security and an MSDU of 120 bytes would give a PDU of
    131 bytes.  It is dropped with a warning and nothing is delivered, but
    the slot is left with length 131 and its mutex locked; the indication
    of scenario 3, which a fresh radio delivers as a frame of 13 bytes,
    then never returns, and neither does [PlatformRadioSignal]. *)
Theorem overlong_indication_poisons_slot :
  (exists s',
     handleDataIndication overlong_indication receiving_radio =
       Returns 1 s' /\
     trace s' = [otPlatLog_Warn] /\
     received_frames (trace s') = [] /\
     mLength (sReceiveFrame s') = 131 /\
     receiveFrame_mutex s' = true /\
     handleDataIndication scenario3_indication s' = NeverReturns /\
     PlatformRadioSignal s' = NeverReturns) /\
  (exists s',
     handleDataIndication scenario3_indication receiving_radio =
       Returns 0 s' /\
     received_frames (trace s') =
       [(13, [0x41; 0x88; 0; 0xEF; 0xBE; 1; 0; 2; 0; 0x11; 0x22; 0; 0])]).
Proof.
  split.
  - eexists. split; [vm_compute; reflexivity |].
    repeat split; vm_compute; reflexivity.
  - eexists. split; [vm_compute; reflexivity |]. vm_compute. reflexivity.
Qed.

(** ** C8: the device table written by the synchronizer *)

Lemma flip_endian_reverse m8 :
  length m8 = 8%nat -> flip_endian m8 = reverse m8.
Proof.
  intros H.
  destruct m8 as [| a [| b [| c [| d [| e [| f [| g [| h [| ? ?]]]]]]]]];
    try discriminate.
  reflexivity.
Qed.

Lemma device_descriptor_spec panid rloc16 m8 :
  length m8 = 8%nat ->
  device_descriptor panid rloc16 m8 = spec_descriptor panid rloc16 m8.
Proof.
  intros H. unfold device_descriptor, spec_descriptor.
  rewrite flip_endian_reverse by exact H. reflexivity.
Qed.

Lemma device_table_writes_cons count d ds :
  device_table_writes count (d :: ds) =
    MLME_SET_macDeviceTable count d :: device_table_writes (count + 1) ds.
Proof.
  unfold device_table_writes. cbn [imap]. rewrite Z.add_0_r. f_equal.
  apply imap_ext. intros i x _. cbn. f_equal. lia.
Qed.

Lemma device_table_writes_app count ds1 ds2 :
  device_table_writes count (ds1 ++ ds2) =
    device_table_writes count ds1 ++
    device_table_writes (count + Z.of_nat (length ds1)) ds2.
Proof.
  unfold device_table_writes. rewrite imap_app. f_equal.
  apply imap_ext. intros i x _. cbn. f_equal. lia.
Qed.

(** The loop over the children: the descriptors of the valid ones go to
    consecutive slots from [count] on. *)
Lemma sync_children_spec idx count s :
  0 <= count ->
  count + Z.of_nat (length idx) < 256 ->
  (forall i, length (ci_mExtAddress (ot_ChildInfoByIndex (ot s) i)) = 8%nat) ->
  let cs :=
    filter (fun c => isValid (ci_mExtAddress c) = true)
      (map (ot_ChildInfoByIndex (ot s)) idx) in
  let ds :=
    map (fun c => spec_descriptor (ot_PanId (ot s)) (ci_mRloc16 c)
                    (ci_mExtAddress c)) cs in
  (sync_children idx count s).1 = count + Z.of_nat (length cs) /\
  trace (sync_children idx count s).2 =
    trace s ++ device_table_writes count ds /\
  ot (sync_children idx count s).2 = ot s.
Proof.
  revert count s. induction idx as [| i idx IH]; intros count s H0 Hlt Hwf.
  - cbn. rewrite Z.add_0_r, app_nil_r. repeat split.
  - cbn [sync_children map length] in *. rewrite filter_cons.
    destruct (isValid (ci_mExtAddress (ot_ChildInfoByIndex (ot s) i)))
      eqn:Ev; cbn [negb].
    + rewrite decide_True by reflexivity.
      set (d := device_descriptor (ot_PanId (ot s))
                  (ci_mRloc16 (ot_ChildInfoByIndex (ot s) i))
                  (ci_mExtAddress (ot_ChildInfoByIndex (ot s) i))).
      destruct (IH (u8 (count + 1)) (emit (MLME_SET_macDeviceTable count d) s))
        as (H1 & H2 & H3).
      { apply u8_is_byte. }
      { rewrite u8_small by lia. lia. }
      { exact Hwf. }
      radio_simpl in H1. radio_simpl in H2. radio_simpl in H3.
      rewrite (u8_small (count + 1)) in * by lia.
      cbn zeta. cbn [map length]. rewrite device_table_writes_cons.
      rewrite H1, H2, H3, <- app_assoc. unfold d.
      rewrite device_descriptor_spec by apply Hwf.
      repeat split. lia.
    + rewrite decide_False by discriminate.
      apply IH; [lia | lia | exact Hwf].
Qed.

Lemma sync_routers_spec routers count s :
  0 <= count ->
  count + Z.of_nat (length routers) < 256 ->
  Forall (fun r => length (ri_mExtAddress r) = 8%nat) routers ->
  let ds :=
    map (fun r => spec_descriptor (ot_PanId (ot s)) (ri_mRloc16 r)
                    (ri_mExtAddress r)) routers in
  (sync_routers routers count s).1 = count + Z.of_nat (length routers) /\
  trace (sync_routers routers count s).2 =
    trace s ++ device_table_writes count ds /\
  ot (sync_routers routers count s).2 = ot s.
Proof.
  revert count s. induction routers as [| r routers IH];
    intros count s H0 Hlt Hwf.
  - cbn. rewrite Z.add_0_r, app_nil_r. repeat split.
  - cbn [sync_routers map length] in *.
    apply Forall_cons in Hwf as [Hr Hwf].
    set (d := device_descriptor (ot_PanId (ot s)) (ri_mRloc16 r)
                (ri_mExtAddress r)).
    destruct (IH (u8 (count + 1)) (emit (MLME_SET_macDeviceTable count d) s))
      as (H1 & H2 & H3).
    { apply u8_is_byte. }
    { rewrite u8_small by lia. lia. }
    { exact Hwf. }
    radio_simpl in H1. radio_simpl in H2. radio_simpl in H3.
    rewrite (u8_small (count + 1)) in * by lia.
    cbn zeta. rewrite device_table_writes_cons.
    rewrite H1, H2, H3, <- app_assoc. unfold d.
    rewrite device_descriptor_spec by exact Hr.
    repeat split. lia.
Qed.

Lemma length_valid_children o : (length (valid_children o) <= 5)%nat.
Proof.
  unfold valid_children. etransitivity; [apply length_filter |].
  reflexivity.
Qed.

(** The device list of a node that is not a child. *)
Lemma sync_device_table_spec s :
  ot_DeviceRole (ot s) <> kDeviceRoleChild ->
  wf_otInstance (ot s) ->
  (length (valid_children (ot s)) + length (ot_NeighborRouters (ot s)) <= 5)%nat ->
  let n :=
    Z.of_nat (length (valid_children (ot s)) +
              length (ot_NeighborRouters (ot s))) in
  (sync_device_table s).1 = n /\
  trace (sync_device_table s).2 =
    trace s ++ device_table_writes 0 (spec_descriptors (ot s)) ++
      [MLME_SET_macDeviceTableEntries n] /\
  ot (sync_device_table s).2 = ot s.
Proof.
  intros Hrole [Hwc Hwr] Hle. cbn zeta. unfold sync_device_table.
  rewrite bool_decide_eq_false_2 by exact Hrole. cbn [negb].
  destruct (sync_children_spec [0; 1; 2; 3; 4] 0 s) as (H1 & H2 & H3);
    [lia | cbn; lia | exact Hwc |].
  fold (valid_children (ot s)) in H1, H2.
  destruct (sync_children [0; 1; 2; 3; 4] 0 s) as [count s1].
  cbn [fst snd] in H1, H2, H3. rewrite H3, H1.
  rewrite Z.add_0_l in *.
  rewrite u8_small by lia.
  assert (Htk : (length (ot_NeighborRouters (ot s)) <=
                 Z.to_nat (5 - Z.of_nat (length (valid_children (ot s)))))%nat).
  { clear -Hle. lia. }
  rewrite take_ge by exact Htk.
  destruct (sync_routers_spec (ot_NeighborRouters (ot s))
              (Z.of_nat (length (valid_children (ot s)))) s1)
    as (H4 & H5 & H6); [clear -Hle; lia | clear -Hle; lia | exact Hwr |].
  destruct (sync_routers _ _ s1) as [count2 s2].
  cbn [fst snd] in H4, H5, H6. radio_simpl. cbn [fst snd]. radio_simpl.
  rewrite H4, H5, H6, H2, H3.
  unfold spec_descriptors. rewrite device_table_writes_app, length_map.
  rewrite Z.add_0_l, <- !app_assoc.
  rewrite Nat2Z.inj_add. repeat split.
Qed.

Lemma sync_keys_spec sz idx tKeySeq count storeCount k s :
  exists keys,
    trace (sync_keys sz idx tKeySeq count storeCount k s).2 =
      trace s ++ keys /\
    Forall is_key_table_write keys.
Proof.
  revert storeCount k s. induction idx as [| i idx IH];
    intros storeCount k s.
  - exists []. cbn. rewrite app_nil_r. split; [reflexivity | constructor].
  - cbn [sync_keys]. destruct (0 <? u32 (tKeySeq + i)).
    + match goal with
      | |- context [sync_keys sz idx tKeySeq count ?sc ?k' ?s'] =>
          destruct (IH sc k' s') as (keys & Hk & Hf)
      end.
      radio_simpl in Hk. eexists (_ :: keys). split.
      * rewrite Hk, <- app_assoc. reflexivity.
      * constructor; [exact I | exact Hf].
    + apply IH.
Qed.

(** C8.  A trigger in a role other than child, with N valid children
    among the indices 0..4 and M router neighbours, N + M <= 5: after the
    debug log the co-processor receives the N + M device descriptors, in
    the slots 0 to N + M - 1 of macDeviceTable, children first, each with
    the PAN id and the short address little-endian, the extended address
    byte-reversed, frame counter 0 and not exempt; then one write of
    macDeviceTableEntries with the value N + M; then only writes to the
    key table. *)
Theorem device_table_sync
    (OT_NET_KEY_SEQUENCE OT_THREAD_CHILD_ADDED OT_THREAD_CHILD_REMOVED
       OT_NET_ROLE OT_THREAD_LINK_ACCEPT usage_data usage_data_request
       sizeof_tKeyDescriptor aFlags : Z)
    (k0 : M_KeyDescriptor_thread) (s : radio) (N M : nat) :
  Z.land aFlags
    (Z.lor (Z.lor (Z.lor (Z.lor OT_NET_KEY_SEQUENCE OT_THREAD_CHILD_ADDED)
                     OT_THREAD_CHILD_REMOVED) OT_NET_ROLE)
       OT_THREAD_LINK_ACCEPT) <> 0 ->
  ot_DeviceRole (ot s) <> kDeviceRoleChild ->
  wf_otInstance (ot s) ->
  N = length (valid_children (ot s)) ->
  M = length (ot_NeighborRouters (ot s)) ->
  (N + M <= 5)%nat ->
  exists s' keys,
    keyChangeCallback OT_NET_KEY_SEQUENCE OT_THREAD_CHILD_ADDED
      OT_THREAD_CHILD_REMOVED OT_NET_ROLE OT_THREAD_LINK_ACCEPT usage_data
      usage_data_request sizeof_tKeyDescriptor aFlags k0 s = Returns tt s' /\
    trace s' =
      trace s ++ [otPlatLog_Debg] ++
        device_table_writes 0 (spec_descriptors (ot s)) ++
        [MLME_SET_macDeviceTableEntries (Z.of_nat (N + M))] ++ keys /\
    length (spec_descriptors (ot s)) = (N + M)%nat /\
    Forall is_key_table_write keys.
Proof.
  intros Hflags Hrole Hwf -> -> Hle.
  unfold keyChangeCallback.
  destruct (Z.eqb_spec (Z.land aFlags
              (Z.lor (Z.lor (Z.lor (Z.lor OT_NET_KEY_SEQUENCE
                                      OT_THREAD_CHILD_ADDED)
                               OT_THREAD_CHILD_REMOVED) OT_NET_ROLE)
                 OT_THREAD_LINK_ACCEPT)) 0) as [E | _]; [contradiction |].
  cbn [negb]. cbn zeta.
  set (o' := if ot_KeySequenceCounter (ot (emit otPlatLog_Debg s)) =? 0
             then otSetKeySequenceCounter 2 (ot (emit otPlatLog_Debg s))
             else ot (emit otPlatLog_Debg s)).
  assert (Ho : ot_DeviceRole o' = ot_DeviceRole (ot s) /\
               ot_PanId o' = ot_PanId (ot s) /\
               ot_ChildInfoByIndex o' = ot_ChildInfoByIndex (ot s) /\
               ot_NeighborRouters o' = ot_NeighborRouters (ot s)).
  { unfold o'. radio_simpl.
    destruct (ot_KeySequenceCounter (ot s) =? 0); repeat split. }
  destruct Ho as (Ho1 & Ho2 & Ho3 & Ho4).
  assert (Hsd : spec_descriptors o' = spec_descriptors (ot s)).
  { unfold spec_descriptors, valid_children. rewrite Ho2, Ho3, Ho4.
    reflexivity. }
  assert (Hvc : valid_children o' = valid_children (ot s)).
  { unfold valid_children. rewrite Ho3. reflexivity. }
  destruct (sync_device_table_spec (set_ot o' (emit otPlatLog_Debg s)))
    as (H1 & H2 & H3).
  { radio_simpl. rewrite Ho1. exact Hrole. }
  { radio_simpl. destruct Hwf as [Hwc Hwr]. split.
    - rewrite Ho3. exact Hwc.
    - rewrite Ho4. exact Hwr. }
  { radio_simpl. rewrite Hvc, Ho4. exact Hle. }
  radio_simpl in H1. radio_simpl in H2. radio_simpl in H3.
  rewrite Hvc, Ho4 in H1. rewrite Hvc, Ho4, Hsd in H2.
  destruct (sync_device_table (set_ot o' (emit otPlatLog_Debg s)))
    as [count s1].
  cbn [fst snd] in H1, H2, H3.
  match goal with
  | |- context [sync_keys ?sz ?idx ?t ?c ?sc ?k ?st] =>
      destruct (sync_keys_spec sz idx t c sc k st) as (keys & Hk & Hf);
      destruct (sync_keys sz idx t c sc k st) as [storeCount s2]
  end.
  cbn [snd] in Hk. radio_simpl in Hk.
  eexists _, (keys ++ [MLME_SET_macKeyTableEntries storeCount]).
  split; [reflexivity |]. radio_simpl.
  split; [| split].
  - rewrite Hk, H2, <- !app_assoc. reflexivity.
  - unfold spec_descriptors. rewrite length_app, !length_map. reflexivity.
  - apply Forall_app. split; [exact Hf |]. repeat constructor.
Qed.

(** A router with two valid children (indices 0 and 3) and one router
    neighbour: three descriptors and the count 3. *)
Lemma device_table_sync_witness :
  let s := radio_init ot_router_example in
  ot_DeviceRole (ot s) <> kDeviceRoleChild /\
  wf_otInstance (ot s) /\
  length (valid_children (ot s)) = 2%nat /\
  length (ot_NeighborRouters (ot s)) = 1%nat /\
  exists s' keys,
    keyChangeCallback 1 2 4 8 16 100 101 36 8 tKeyDescriptor_zero s =
      Returns tt s' /\
    trace s' =
      trace s ++ [otPlatLog_Debg] ++
        device_table_writes 0 (spec_descriptors (ot s)) ++
        [MLME_SET_macDeviceTableEntries 3] ++ keys /\
    length (spec_descriptors (ot s)) = 3%nat /\
    Forall is_key_table_write keys.
Proof.
  intros s.
  assert (Hwf : wf_otInstance (ot s)).
  { split.
    - intros i. cbn. destruct (i =? 0); [reflexivity |].
      destruct (i =? 3); reflexivity.
    - repeat constructor. }
  split; [discriminate |]. split; [exact Hwf |].
  split; [reflexivity |]. split; [reflexivity |].
  apply (device_table_sync 1 2 4 8 16 100 101 36 8 tKeyDescriptor_zero s
           2 1); [discriminate | discriminate | exact Hwf | reflexivity
                 | reflexivity | lia].
Defined.


(** ** Reading bytes back *)

Lemma rd_ge buf i : Z.of_nat (length buf) <= i -> rd buf i = 0.
Proof.
  intros H. unfold rd. rewrite lookup_ge_None_2 by lia. reflexivity.
Qed.

Lemma length_memcpy buf off src : length (memcpy buf off src) = length buf.
Proof. apply length_inserts. Qed.

Lemma length_wr buf off v : length (wr buf off v) = length buf.
Proof. apply length_insert. Qed.

Lemma rd_memcpy buf off src i :
  0 <= off -> 0 <= i ->
  off + Z.of_nat (length src) <= Z.of_nat (length buf) ->
  rd (memcpy buf off src) i =
    if decide (off <= i < off + Z.of_nat (length src))
    then rd src (i - off) else rd buf i.
Proof.
  intros Hoff Hi Hfit. unfold rd, memcpy. case_decide as H.
  - rewrite list_lookup_inserts by lia. do 2 f_equal. lia.
  - destruct (decide (i < off)).
    + rewrite list_lookup_inserts_lt by lia. reflexivity.
    + rewrite list_lookup_inserts_ge by lia. reflexivity.
Qed.

Lemma rd_wr buf off v i :
  0 <= off -> 0 <= i -> off < Z.of_nat (length buf) ->
  rd (wr buf off v) i = if decide (i = off) then v else rd buf i.
Proof.
  intros Hoff Hi Hfit. unfold rd, wr. case_decide as H.
  - subst. rewrite list_lookup_insert_eq by lia. reflexivity.
  - rewrite list_lookup_insert_ne by lia. reflexivity.
Qed.

Lemma rd_take n l i :
  0 <= i -> rd (take n l) i = if decide (i < Z.of_nat n) then rd l i else 0.
Proof.
  intros Hi. unfold rd. case_decide as H.
  - rewrite lookup_take_lt by lia. reflexivity.
  - rewrite lookup_take_ge by lia. reflexivity.
Qed.

Lemma rd_bytes_at buf off n j :
  0 <= off -> 0 <= j ->
  rd (bytes_at buf off n) j = if decide (j < n) then rd buf (off + j) else 0.
Proof.
  intros Hoff Hj. unfold bytes_at. rewrite rd_take by lia.
  destruct (decide (j < n)) as [H | H].
  - rewrite decide_True by lia. unfold rd.
    rewrite lookup_drop. do 2 f_equal. lia.
  - rewrite decide_False by lia. reflexivity.
Qed.

Lemma length_bytes_at buf off n :
  0 <= off -> 0 <= n -> off + n <= Z.of_nat (length buf) ->
  length (bytes_at buf off n) = Z.to_nat n.
Proof.
  intros Hoff Hn Hfit. unfold bytes_at. rewrite length_take, length_drop.
  lia.
Qed.

(** Two lists of bytes of the same length are equal when they read the
    same. *)
Lemma rd_ext (a b : list Z) :
  length a = length b ->
  (forall i, 0 <= i < Z.of_nat (length a) -> rd a i = rd b i) ->
  a = b.
Proof.
  intros Hlen H. apply list_eq_same_length with (length a); [congruence | congruence |].
  intros i x y Hi Hx Hy.
  apply lookup_lt_Some in Hx as Hlt.
  specialize (H (Z.of_nat i) ltac:(lia)). unfold rd in H.
  rewrite Nat2Z.id, Hx, Hy in H. exact H.
Qed.

Lemma GETLE16_PUTLE16 x buf :
  0 <= x < 65536 -> (2 <= length buf)%nat -> GETLE16 (PUTLE16 x buf) = x.
Proof.
  intros Hx Hlen. unfold GETLE16, PUTLE16.
  rewrite !rd_wr by (rewrite ?length_wr; lia).
  rewrite decide_False by lia. rewrite decide_True by reflexivity.
  rewrite decide_True by reflexivity.
  change 255 with (Z.ones 8). rewrite !Z.land_ones by lia.
  rewrite Z.shiftr_div_pow2 by lia.
  change (2 ^ 8) with 256.
  rewrite (Z.mod_small (x / 256)).
  - pose proof (Z.div_mod x 256 ltac:(lia)). lia.
  - split; [apply Z.div_pos; lia | apply Z.div_lt_upper_bound; lia].
Qed.

(** ** C1: the round trip through the frame codec *)

(** *** Checks over all frame controls and security controls *)

Lemma all_from_sound f n x y :
  all_from f x n = true -> x <= y < x + Z.of_nat n -> f y = true.
Proof.
  revert x. induction n as [| n IH]; cbn [all_from]; intros x H Hy; [lia |].
  apply andb_true_iff in H as [H Hn].
  destruct (decide (y = x)) as [-> | Hne]; [exact H |].
  apply (IH (x + 1)); [exact Hn | lia].
Qed.

Lemma fc_ok_all : all_from fc_ok 0 (Z.to_nat 65536) = true.
Proof. vm_compute. reflexivity. Qed.

Lemma sc_ok_all : all_from sc_ok 0 (Z.to_nat 256) = true.
Proof. vm_compute. reflexivity. Qed.

Lemma rd_is_byte n l i : is_bytes n l -> 0 <= rd l i < 256.
Proof.
  intros [_ H]. unfold rd. destruct (l !! Z.to_nat i) as [b |] eqn:E.
  - cbn. rewrite Forall_forall in H. apply (H b).
    eapply list_elem_of_lookup_2. exact E.
  - cbn. lia.
Qed.

Lemma GETLE16_range n l : is_bytes n l -> 0 <= GETLE16 l < 65536.
Proof.
  intros H. unfold GETLE16.
  pose proof (rd_is_byte n l 0 H). pose proof (rd_is_byte n l 1 H). lia.
Qed.

(** *** The layers of the decoder on the request of a well-formed frame *)

Section Codec.

Variables (pib : mac_pib) (psdu : list Z) (len : Z).
Hypothesis Hwf : wf_data_frame pib psdu len.

Lemma wfd_length : length psdu = 127%nat.
Proof. destruct Hwf as [[H _]]. exact H. Qed.

Lemma wfd_fc_ok : fc_ok (GETLE16 psdu) = true.
Proof.
  apply (all_from_sound fc_ok (Z.to_nat 65536) 0); [exact fc_ok_all |].
  pose proof (GETLE16_range _ _ (wfd_bytes _ _ _ Hwf)). lia.
Qed.

Lemma wfd_pan_comp_byte :
  (u8 (Z.land (GETLE16 psdu) MAC_FC_PAN_COMP) =? 0) =
    negb (frame_pan_compressed (GETLE16 psdu)).
Proof.
  pose proof wfd_fc_ok as H. unfold fc_ok in H.
  apply andb_true_iff in H as [H _]. apply eqb_prop in H.
  unfold frame_pan_compressed. rewrite negb_involutive. exact H.
Qed.

Lemma wfd_fc_synth : fc_synth (GETLE16 psdu) = Z.land (GETLE16 psdu) FC_CARRIED.
Proof.
  pose proof wfd_fc_ok as H. unfold fc_ok in H.
  apply andb_true_iff in H as [_ H].
  rewrite (wfd_type _ _ _ Hwf) in H. apply Z.eqb_eq. exact H.
Qed.

Lemma wfd_addressFieldLength :
  tx_addressFieldLength (GETLE16 psdu) = frame_ash_offset (GETLE16 psdu) - 3.
Proof.
  unfold tx_addressFieldLength, frame_ash_offset, frame_src_offset,
    frame_src_length, frame_dst_length.
  cbv zeta. rewrite wfd_pan_comp_byte, negb_involutive.
  destruct (wfd_dam _ _ _ Hwf) as [-> | ->],
    (wfd_sam _ _ _ Hwf) as [-> | ->],
    (frame_pan_compressed (GETLE16 psdu)); reflexivity.
Qed.

Lemma wfd_ash_offset :
  7 <= frame_ash_offset (GETLE16 psdu) <= 23.
Proof.
  unfold frame_ash_offset, frame_src_offset, frame_src_length,
    frame_dst_length.
  destruct (wfd_dam _ _ _ Hwf) as [-> | ->],
    (wfd_sam _ _ _ Hwf) as [-> | ->],
    (frame_pan_compressed (GETLE16 psdu)); cbn; lia.
Qed.


Lemma take_memcpy_bytes_at (n : nat) (m : Z) d buf off :
  m = Z.of_nat n -> (n <= length d)%nat -> 0 <= off ->
  off + m <= Z.of_nat (length buf) ->
  take n (memcpy d 0 (bytes_at buf off m)) = bytes_at buf off m.
Proof.
  intros -> Hd Hoff Hfit.
  assert (Hl : length (bytes_at buf off (Z.of_nat n)) = n).
  { rewrite length_bytes_at by lia. lia. }
  apply rd_ext.
  - rewrite length_take, length_memcpy, Hl. lia.
  - intros i Hi. rewrite length_take, length_memcpy in Hi.
    rewrite rd_take by lia. rewrite decide_True by lia.
    rewrite rd_memcpy by lia. rewrite decide_True by lia.
    f_equal. lia.
Qed.

Lemma take_bytes_at (n : nat) (m : Z) buf off :
  m = Z.of_nat n -> take n (bytes_at buf off m) = bytes_at buf off m.
Proof.
  intros ->. unfold bytes_at. rewrite take_take. f_equal. lia.
Qed.

Ltac u8_eval :=
  repeat match goal with
         | |- context [u8 ?e] =>
             let v := eval vm_compute in (u8 e) in
             progress change (u8 e) with v
         end.

Ltac len_solve :=
  rewrite ?length_memcpy, ?length_wr, ?length_take, ?length_bytes_at
    by (rewrite ?length_memcpy, ?length_wr; lia);
  rewrite ?length_memcpy, ?length_wr; lia.

Ltac rd_step :=
  first
    [ rewrite rd_memcpy by len_solve;
      rewrite ?length_take, ?length_bytes_at by len_solve
    | rewrite rd_wr by len_solve
    | rewrite rd_take by lia
    | rewrite rd_bytes_at by lia ];
  case_decide.

Lemma rx_addressing_spec params d0 buf :
  length (PANId d0) = 2%nat -> length (Address d0) = 8%nat ->
  length buf = 127%nat ->
  ind_Src params =
    mkFullAddr (MAC_FC_SAM (GETLE16 psdu)) (macPANId pib)
      (if MAC_FC_SAM (GETLE16 psdu) =? MAC_MODE_SHORT_ADDR
       then macShortAddress pib else nsIEEEAddress pib) ->
  ind_Dst params = tx_Dst (GETLE16 psdu) psdu d0 ->
  exists bufA,
    rx_addressing params buf =
      (bufA, frame_ash_offset (GETLE16 psdu) - 3,
       if frame_pan_compressed (GETLE16 psdu) then MAC_FC_PAN_COMP else 0) /\
    length bufA = 127%nat /\
    forall i, 3 <= i < frame_ash_offset (GETLE16 psdu) ->
      rd bufA i = rd psdu i.
Proof.
  intros HP HA Hbuf HSrc HDst.
  pose proof wfd_length as Hlen.
  pose proof (wfd_src_pan _ _ _ Hwf) as Hpan.
  pose proof (wfd_pan_comp _ _ _ Hwf) as Hdiff.
  pose proof (wfd_src_addr _ _ _ Hwf) as Haddr.
  unfold rx_addressing. rewrite HSrc, HDst. unfold tx_Dst.
  cbn [AddressMode PANId Address]. cbv zeta.
  rewrite Haddr, Hpan.
  unfold frame_ash_offset, frame_src_offset, frame_src_pan_offset,
    frame_src_length, frame_dst_length in *.
  destruct (wfd_dam _ _ _ Hwf) as [Hd | Hd],
    (wfd_sam _ _ _ Hwf) as [Hs | Hs]; rewrite Hd, Hs in *;
    destruct (frame_pan_compressed (GETLE16 psdu)) eqn:Hpc.
  all: cbn [Z.eqb Pos.eqb MAC_MODE_SHORT_ADDR MAC_MODE_LONG_ADDR
            AddressMode PANId Address] in *.
  all: rewrite ?(take_memcpy_bytes_at 2 2), ?(take_memcpy_bytes_at 8 8)
         by (rewrite ?Hlen; lia).
  all: rewrite ?(take_bytes_at 2 2), ?(take_bytes_at 8 8) by reflexivity.
  all: first [ rewrite bool_decide_eq_true_2 by reflexivity
             | rewrite bool_decide_eq_false_2 by (apply Hdiff; reflexivity) ].
  all: cbn [negb]; u8_eval.
  all: eexists; split; [reflexivity |]; split; [len_solve |].
  all: intros i Hi; repeat rd_step; try lia; try (f_equal; lia).
Qed.


Ltac u8_drop :=
  repeat match goal with
         | |- context [u8 ?e] => rewrite (u8_small e) by lia
         | H : context [u8 ?e] |- _ => rewrite (u8_small e) in H by lia
         end.

Lemma wfd_keyIdMode sc :
  0 <= sc < 256 ->
  Z.lor (Z.lor 0 (MAC_SC_SECURITYLEVEL (MAC_SC_SECURITYLEVEL sc)))
    (MAC_KEYIDMODE_SC (MAC_SC_KEYIDMODE sc)) = Z.land sc SC_CARRIED /\
  0 <= MAC_SC_KEYIDMODE sc <= 3.
Proof.
  intros Hsc.
  pose proof (all_from_sound sc_ok (Z.to_nat 256) 0 sc sc_ok_all
                ltac:(lia)) as H.
  unfold sc_ok in H. apply andb_true_iff in H as [H H3].
  apply andb_true_iff in H as [H H0]. lia.
Qed.

Lemma footerLength_of_nonneg l : 0 <= footerLength_of l < 256.
Proof. unfold footerLength_of, u8. cbv zeta. apply Z.mod_pos_bound. lia. Qed.

Lemma rx_security_spec fc' bufB :
  length bufB = 127%nat ->
  Z.land fc' MAC_FC_SEC_ENA = Z.land (GETLE16 psdu) MAC_FC_SEC_ENA ->
  let ash := frame_ash_offset (GETLE16 psdu) in
  exists bufC,
    rx_security fc'
      (tx_security (GETLE16 psdu) psdu (tx_addressFieldLength (GETLE16 psdu))).1
      bufB (ash - 3) = (bufC, frame_header_length psdu) /\
    length bufC = 127%nat /\
    ash <= frame_header_length psdu <= 127 /\
    (forall i, 0 <= i < ash -> rd bufC i = rd bufB i) /\
    (Z.land (GETLE16 psdu) MAC_FC_SEC_ENA <> 0 ->
     ash + 6 <= frame_header_length psdu /\
     rd bufC ash = Z.land (rd psdu ash) SC_CARRIED /\
     forall i, ash + 5 <= i < frame_header_length psdu ->
       rd bufC i = rd psdu i).
Proof.
  intros Hbuf Hsec ash.
  pose proof wfd_length as Hlen.
  pose proof wfd_ash_offset as Hash. fold ash in Hash.
  assert (Hhl : frame_header_length psdu <= 127).
  { pose proof (wfd_len _ _ _ Hwf) as [Hfit Hmax].
    pose proof (footerLength_of_nonneg
                  (SecurityLevel (tx_security (GETLE16 psdu) psdu
                     (tx_addressFieldLength (GETLE16 psdu))).1)) as Hfoot.
    fold (frame_footer_length psdu) in Hfoot.
    unfold aMaxPHYPacketSize in Hmax. lia. }
  unfold frame_header_length in *. rewrite wfd_addressFieldLength in *.
  fold ash in Hhl |- *.
  unfold rx_security, tx_security in *. rewrite Hsec.
  destruct (Z.land (GETLE16 psdu) MAC_FC_SEC_ENA =? 0) eqn:Hs;
    cbn [negb fst snd] in *.
  - unfold MAC_BASEHEADERLENGTH in *. u8_drop.
    exists bufB. split; [f_equal; lia |]. split; [exact Hbuf |].
    split; [lia |]. split; [reflexivity |].
    intros Hne. apply Z.eqb_eq in Hs. contradiction.
  - unfold MAC_BASEHEADERLENGTH in *.
    replace (3 + (ash - 3)) with ash in * by lia. u8_drop.
    pose proof (rd_is_byte _ _ ash (wfd_bytes _ _ _ Hwf)) as Hb.
    destruct (wfd_keyIdMode _ Hb) as [Hsc Hmode].
    set (sc := rd psdu ash) in *.
    assert (Hm : MAC_SC_KEYIDMODE sc = 0 \/ MAC_SC_KEYIDMODE sc = 1 \/
                 MAC_SC_KEYIDMODE sc = 2 \/ MAC_SC_KEYIDMODE sc = 3) by lia.
    clear Hmode.
    destruct Hm as [Hm | [Hm | [Hm | Hm]]]; rewrite Hm in *;
      cbn [Z.eqb Pos.eqb fst snd SecurityLevel KeyIdMode KeySource KeyIndex]
        in *;
      u8_drop; rewrite Hsc;
      rewrite ?(take_memcpy_bytes_at 4 4), ?(take_memcpy_bytes_at 8 8)
        by (rewrite ?Hlen; cbn [SecSpec_zero KeySource length replicate];
            lia).
    all: eexists; split; [reflexivity |]; split; [len_solve |].
    all: split; [lia |]; split; [intros i Hi; repeat rd_step; lia |].
    all: intros _; split; [lia |]; split; [| intros i Hi];
      repeat rd_step; try lia; try reflexivity; try (f_equal; lia).
Qed.

Lemma tx_parse_eq frame p h c0 :
  tx_parse frame p h c0 =
    let msduLength :=
      u8 (mLength frame - frame_footer_length p
          - frame_header_length p) in
    mkTxLocals
      (mkDataRequest (MAC_FC_SAM (GETLE16 p))
         (tx_Dst (GETLE16 p) p (Dst c0)) msduLength h
         (Z.lor
            (if negb (Z.land (GETLE16 p) MAC_FC_ACK_REQ =? 0)
             then 0x01 else 0x00)
            (if mDirectTransmission frame then 0x00 else Z.shiftl 1 2))
         (bytes_at p (frame_header_length p) msduLength))
      (tx_security (GETLE16 p) p
         (tx_addressFieldLength (GETLE16 p))).1
      (frame_header_length p) (frame_footer_length p).
Proof.
  unfold tx_parse, frame_header_length, frame_footer_length. cbv zeta.
  destruct (tx_security (GETLE16 p) p
              (tx_addressFieldLength (GETLE16 p))) as [sec hl].
  reflexivity.
Qed.

Lemma tx_Dst_AddressMode fc p d0 :
  AddressMode (tx_Dst fc p d0) = MAC_FC_DAM fc.
Proof.
  unfold tx_Dst. cbv zeta.
  destruct (MAC_FC_DAM fc =? MAC_MODE_SHORT_ADDR);
    [| destruct (MAC_FC_DAM fc =? MAC_MODE_LONG_ADDR)]; reflexivity.
Qed.

Lemma wfd_security_level :
  (SecurityLevel
     (tx_security (GETLE16 psdu) psdu
        (tx_addressFieldLength (GETLE16 psdu))).1 =? 0) =
  (Z.land (GETLE16 psdu) MAC_FC_SEC_ENA =? 0).
Proof.
  pose proof (wfd_sec _ _ _ Hwf) as Hsec.
  pose proof wfd_ash_offset as Hash.
  rewrite wfd_addressFieldLength. unfold tx_security.
  destruct (Z.land (GETLE16 psdu) MAC_FC_SEC_ENA =? 0) eqn:Hs;
    cbn [negb]; [reflexivity |].
  apply Z.eqb_neq in Hs. specialize (Hsec Hs).
  unfold MAC_BASEHEADERLENGTH.
  replace (3 + (frame_ash_offset (GETLE16 psdu) - 3))
    with (frame_ash_offset (GETLE16 psdu)) by lia.
  rewrite (u8_small (frame_ash_offset (GETLE16 psdu))) by lia.
  cbv zeta.
  destruct (MAC_SC_KEYIDMODE _ =? 2);
    [| destruct (MAC_SC_KEYIDMODE _ =? 3)];
    cbn [fst SecurityLevel]; apply Z.eqb_neq; exact Hsec.
Qed.

Lemma rx_frameControl_of_spec params :
  AddressMode (ind_Src params) = MAC_FC_SAM (GETLE16 psdu) ->
  AddressMode (ind_Dst params) = MAC_FC_DAM (GETLE16 psdu) ->
  ind_Security params =
    (tx_security (GETLE16 psdu) psdu
       (tx_addressFieldLength (GETLE16 psdu))).1 ->
  rx_frameControl_of params
    (if frame_pan_compressed (GETLE16 psdu) then MAC_FC_PAN_COMP else 0) =
    Z.land (GETLE16 psdu) FC_CARRIED.
Proof.
  intros HS HD Hsec. rewrite <- wfd_fc_synth.
  unfold rx_frameControl_of, fc_synth, frame_pan_compressed. cbv zeta.
  rewrite HS, HD, Hsec, wfd_security_level.
  destruct (Z.land (GETLE16 psdu) MAC_FC_SEC_ENA =? 0),
    (Z.land (GETLE16 psdu) MAC_FC_PAN_COMP =? 0); reflexivity.
Qed.

Lemma codec_restores frame h c0 lqi buf :
  mLength frame = len -> wf_curPacket c0 -> length buf = 127%nat ->
  let l := tx_parse frame psdu h c0 in
  let params :=
    indication_of_request pib lqi (tx_curPacket l) (tx_curSecSpec l) in
  let rl := rx_build params buf in
  rx_mLength rl = len /\
  rx_headerLength rl + ind_MsduLength params <=
    Z.of_nat IEEE802154_MAX_LENGTH /\
  round_trip_restores psdu len
    (memcpy (rx_psdu rl) (rx_headerLength rl)
       (take (Z.to_nat (ind_MsduLength params)) (ind_Msdu params))).
Proof.
  intros Hml [HP HA] Hbuf. cbv zeta. rewrite tx_parse_eq. cbv zeta.
  cbn [tx_curPacket tx_curSecSpec]. rewrite Hml.
  set (sec := (tx_security (GETLE16 psdu) psdu
                 (tx_addressFieldLength (GETLE16 psdu))).1).
  set (req := mkDataRequest _ _ _ _ _ _).
  set (params := indication_of_request pib lqi req sec).
  pose proof wfd_length as Hlen.
  pose proof wfd_ash_offset as Hash.
  pose proof (wfd_len _ _ _ Hwf) as [Hfit Hmax].
  unfold aMaxPHYPacketSize in Hmax.
  assert (Hfoot : 0 <= frame_footer_length psdu < 256)
    by apply footerLength_of_nonneg.
  destruct (rx_addressing_spec params (Dst c0) buf HP HA Hbuf
              eq_refl eq_refl) as (bufA & EA & LA & RA).
  pose proof (rx_frameControl_of_spec params eq_refl
                (tx_Dst_AddressMode _ _ _) eq_refl) as Hfc.
  set (fc' := Z.land (GETLE16 psdu) FC_CARRIED) in *.
  assert (Hfc' : 0 <= fc' < 65536).
  { unfold fc', FC_CARRIED.
    pose proof (GETLE16_range _ _ (wfd_bytes _ _ _ Hwf)) as Hr.
    assert (H0 : 0 <= Z.land (GETLE16 psdu) 52303)
      by (apply Z.land_nonneg; lia).
    split; [exact H0 |].
    destruct (Z.eq_dec (Z.land (GETLE16 psdu) 52303) 0) as [-> | Hne];
      [lia |].
    change 65536 with (2 ^ 16). apply Z.log2_lt_pow2; [lia |].
    pose proof (Z.log2_land (GETLE16 psdu) 52303 ltac:(lia) ltac:(lia)) as Hl.
    change (Z.log2 52303) with 15 in Hl. lia. }
  assert (Hsec : Z.land fc' MAC_FC_SEC_ENA =
                 Z.land (GETLE16 psdu) MAC_FC_SEC_ENA).
  { unfold fc'. rewrite <- Z.land_assoc. reflexivity. }
  destruct (rx_security_spec fc' (PUTLE16 fc' bufA)
              ltac:(unfold PUTLE16; len_solve) Hsec)
    as (bufC & EC & LC & Hhl & RC & RS).
  fold sec in EC.
  assert (Hrl : rx_build params buf =
                mkRxLocals bufC fc' (frame_header_length psdu)
                  (frame_footer_length psdu) len).
  { unfold rx_build. rewrite EA, Hfc.
    change (ind_Security params) with sec. rewrite EC.
    change (footerLength_of (SecurityLevel sec))
      with (frame_footer_length psdu).
    change (ind_MsduLength params)
      with (u8 (len - frame_footer_length psdu - frame_header_length psdu)).
    rewrite (u8_small (len - _ - _)) by lia.
    f_equal. rewrite u8_small by lia. lia. }
  rewrite Hrl. cbn [rx_mLength rx_psdu rx_headerLength].
  split; [reflexivity |].
  change (ind_MsduLength params)
    with (u8 (len - frame_footer_length psdu - frame_header_length psdu)).
  split.
  { rewrite (u8_small (len - _ - _)) by lia.
    unfold IEEE802154_MAX_LENGTH. lia. }
  change (ind_Msdu params)
    with (bytes_at psdu (frame_header_length psdu)
            (u8 (len - frame_footer_length psdu - frame_header_length psdu))).
  rewrite (u8_small (len - _ - _)) by lia.
  set (hl := frame_header_length psdu) in *.
  set (n := len - frame_footer_length psdu - hl).
  assert (Hn : 0 <= n /\ hl + n <= 127) by (unfold n; lia).
  assert (Hlow : forall i, 0 <= i < hl ->
            rd (memcpy bufC hl (take (Z.to_nat n) (bytes_at psdu hl n))) i =
              rd bufC i).
  { intros i Hi. repeat rd_step; try lia; reflexivity. }
  unfold round_trip_restores. cbv zeta. fold hl.
  split; [| split; [| split]].
  - unfold GETLE16. rewrite !Hlow, !RC by lia.
    exact (GETLE16_PUTLE16 fc' bufA Hfc' ltac:(lia)).
  - intros i Hi. rewrite Hlow, RC by lia. rewrite <- RA by lia.
    unfold PUTLE16. repeat rd_step; try lia; reflexivity.
  - intros Hs. destruct (RS Hs) as (Hash6 & Hsc & Hkey). split.
    + rewrite Hlow by lia. exact Hsc.
    + intros i Hi. rewrite Hlow by lia. apply Hkey. lia.
  - intros i Hi. fold n in Hi. repeat rd_step; try lia. f_equal. lia.
Qed.

End Codec.

(** *** The two calls *)

Lemma handleDataIndication_delivers params r :
  ready_to_receive r ->
  rx_mLength (rx_build params (sReceivePsdu r)) <= aMaxPHYPacketSize ->
  rx_headerLength (rx_build params (sReceivePsdu r)) +
    ind_MsduLength params <= Z.of_nat IEEE802154_MAX_LENGTH ->
  exists r' frame',
    handleDataIndication params r = Returns 0 r' /\
    trace r' =
      trace r ++
      [otPlatRadioReceiveDone frame'
         (memcpy (rx_psdu (rx_build params (sReceivePsdu r)))
            (rx_headerLength (rx_build params (sReceivePsdu r)))
            (take (Z.to_nat (ind_MsduLength params)) (ind_Msdu params)))
         (sReceiveError r)] /\
    mLength frame' = rx_mLength (rx_build params (sReceivePsdu r)).
Proof.
  intros (Hwf & Hup & Hmx & Hl0) Hfit Hin.
  pose proof (wf_rx_ref _ Hwf) as Href.
  unfold handleDataIndication. rewrite Hup, Hmx, Hl0.
  cbn [negb Z.eqb]. cbv zeta.
  unfold psdu_of, set_psdu_of, PlatformRadioSignal.
  repeat (progress (rewrite ?Href; radio_simpl;
                    cbn [mLength with_mLength with_reception mPsdu])).
  replace (aMaxPHYPacketSize <? _) with false by (symmetry; apply Z.ltb_ge; exact Hfit).
  replace (Z.of_nat IEEE802154_MAX_LENGTH <? _) with false
    by (symmetry; apply Z.ltb_ge; exact Hin).
  eexists _, _. split; [reflexivity |]. radio_simpl.
  split; reflexivity.
Qed.

Lemma ready_to_send_psdu psdu len s :
  ready_to_send psdu len s -> psdu_of s (sTransmitFrame s) = psdu.
Proof.
  intros (Hwf & _ & _ & Hp & _). unfold psdu_of.
  rewrite (wf_tx_ref _ Hwf). exact Hp.
Qed.

(** C1, as amended.  For every well-formed data frame with both addresses
    short or extended, whose security-enabled bit goes with a security level
    other than 0 and whose PAN-compression bit is set exactly when the two
    PANs are the same: [otPlatRadioTransmit] issues an MCPS-DATA request,
    and [handleDataIndication] on the indication that this request becomes
    at the receiver hands the stack a frame of the same length that has the
    frame type, the security-enabled bit, the PAN-compression bit and the
    two addressing modes of the frame control (no other bit of it: sequence
    number, frame-pending, ack-request and frame-version are not carried),
    the destination and source PANs and addresses, the security level and
    key-id mode of the security control, the key source and the key index,
    and the payload of the frame that was sent. *)
Theorem codec_round_trip pib psdu len transmitContext curPacket0 reply lqi
    s r :
  wf_data_frame pib psdu len ->
  wf_curPacket curPacket0 ->
  ready_to_send psdu len s ->
  ready_to_receive r ->
  exists s' req sec r' frame' psdu',
    otPlatRadioTransmit transmitContext curPacket0 reply s =
      Returns kThreadError_None s' /\
    last (trace s') = Some (MCPS_DATA_request req sec) /\
    handleDataIndication (indication_of_request pib lqi req sec) r =
      Returns 0 r' /\
    trace r' =
      trace r ++ [otPlatRadioReceiveDone frame' psdu' (sReceiveError r)] /\
    mLength frame' = len /\
    round_trip_restores psdu len psdu'.
Proof.
  intros Hwf Hc0 Hs Hr.
  pose proof (ready_to_send_psdu _ _ _ Hs) as Hpsdu.
  destruct Hs as (Hwfs & Hst & Hmx & _ & Hml).
  assert (Hft : tx_frameType s = MAC_FC_FT_DATA).
  { unfold tx_frameType. rewrite Hpsdu. exact (wfd_type _ _ _ Hwf). }
  assert (Hok : tx_length_ok s).
  { unfold tx_length_ok. rewrite Hpsdu, tx_parse_eq. cbv zeta.
    cbn [tx_headerLength tx_footerLength]. rewrite Hml.
    exact (wfd_len _ _ _ Hwf). }
  destruct (otPlatRadioTransmit_data transmitContext curPacket0 reply s Hmx
              ltac:(rewrite (wf_handles _ Hwfs); unfold MAX_INTRANSITS; lia)
              Hst Hft)
    as (k & r0 & s' & _ & _ & _ & _ & Htx).
  rewrite (tx_length_ok_inside s Hok) in Htx.
  cbv zeta in Htx. rewrite Hpsdu in Htx.
  set (h := u8 (handle s + 1 + Z.of_nat k)) in Htx.
  set (frame := sTransmitFrame (tx_state h transmitContext s)) in Htx.
  assert (Hlen : mLength frame = len).
  { unfold frame. rewrite tx_state_sTransmitFrame. exact Hml. }
  destruct (codec_restores pib psdu len Hwf frame h curPacket0 lqi
              (sReceivePsdu r) Hlen Hc0
              (wf_rx_psdu _ (proj1 Hr)))
    as (Hrl & Hrin & Hrest).
  set (l := tx_parse frame psdu h curPacket0) in *.
  set (params := indication_of_request pib lqi (tx_curPacket l)
                   (tx_curSecSpec l)) in *.
  destruct (handleDataIndication_delivers params r Hr) as
    (r' & frame' & Hind & Htr & Hfl).
  { rewrite Hrl. exact (proj2 (wfd_len _ _ _ Hwf)). }
  { exact Hrin. }
  eexists _, (tx_curPacket l), (tx_curSecSpec l), r', frame', _.
  split; [exact Htx |]. split.
  { radio_simpl. apply last_snoc. }
  split; [exact Hind |]. split; [exact Htr |].
  split; [rewrite Hfl; exact Hrl |]. exact Hrest.
Qed.

(** C1, the claim as stated fails: the round trip of the frame of
    scenario 1, a well-formed data frame with frame control 0x8861, hands
    the receiving stack a frame with frame control 0x8841; the ack-request
    bit is gone. *)
Lemma codec_loses_ack_request :
  wf_data_frame pib_example scenario1_psdu 14 /\
  exists s' req sec r' frame' psdu',
    otPlatRadioTransmit 0 curPacket_zero (fun _ => 0)
      (sending_radio scenario1_psdu 14) = Returns kThreadError_None s' /\
    last (trace s') = Some (MCPS_DATA_request req sec) /\
    handleDataIndication (indication_of_request pib_example 200 req sec)
      receiving_radio = Returns 0 r' /\
    trace r' = [otPlatRadioReceiveDone frame' psdu' kThreadError_None] /\
    GETLE16 scenario1_psdu = 0x8861 /\
    GETLE16 psdu' = 0x8841.
Proof.
  split.
  - split.
    + split; [reflexivity |]. apply (bool_decide_unpack _). vm_compute.
      exact I.
    + reflexivity.
    + left. reflexivity.
    + left. reflexivity.
    + intros H. vm_compute in H. congruence.
    + vm_compute. split; discriminate.
    + repeat split.
    + reflexivity.
    + intros H. vm_compute in H. discriminate.
    + reflexivity.
  - eexists _, _, _, _, _, _.
    split; [vm_compute; reflexivity |].
    split; [vm_compute; reflexivity |].
    split; [vm_compute; reflexivity |].
    split; [vm_compute; reflexivity |].
    split; vm_compute; reflexivity.
Qed.

(** The round trip of the secured frame of scenario 2. *)
Lemma codec_round_trip_witness :
  wf_data_frame pib_example scenario2_psdu 23 /\
  wf_curPacket curPacket_zero /\
  ready_to_send scenario2_psdu 23 (sending_radio scenario2_psdu 23) /\
  ready_to_receive receiving_radio /\
  exists s' req sec r' frame' psdu',
    otPlatRadioTransmit 7 curPacket_zero (fun _ => 0)
      (sending_radio scenario2_psdu 23) = Returns kThreadError_None s' /\
    last (trace s') = Some (MCPS_DATA_request req sec) /\
    handleDataIndication (indication_of_request pib_example 200 req sec)
      receiving_radio = Returns 0 r' /\
    trace r' =
      trace receiving_radio ++
      [otPlatRadioReceiveDone frame' psdu' (sReceiveError receiving_radio)] /\
    mLength frame' = 23 /\
    round_trip_restores scenario2_psdu 23 psdu'.
Proof.
  assert (Hwf : wf_data_frame pib_example scenario2_psdu 23).
  { split.
    - split; [reflexivity |]. apply (bool_decide_unpack _). vm_compute.
      exact I.
    - reflexivity.
    - left. reflexivity.
    - left. reflexivity.
    - intros _. vm_compute. discriminate.
    - vm_compute. split; discriminate.
    - repeat split.
    - reflexivity.
    - intros H. vm_compute in H. discriminate.
    - reflexivity. }
  assert (Hc : wf_curPacket curPacket_zero) by (split; reflexivity).
  assert (Hs : ready_to_send scenario2_psdu 23
                 (sending_radio scenario2_psdu 23)).
  { split; [| split; [discriminate | repeat split]].
    split; try reflexivity.
    - vm_compute. split; [discriminate | reflexivity].
    - apply (bool_decide_unpack _). vm_compute. exact I. }
  assert (Hr : ready_to_receive receiving_radio).
  { split; [| repeat split].
    split; try reflexivity.
    - vm_compute. split; [discriminate | reflexivity].
    - apply (bool_decide_unpack _). vm_compute. exact I. }
  split; [exact Hwf |]. split; [exact Hc |]. split; [exact Hs |].
  split; [exact Hr |].
  exact (codec_round_trip pib_example scenario2_psdu 23 7 curPacket_zero
           (fun _ => 0) 200 (sending_radio scenario2_psdu 23)
           receiving_radio Hwf Hc Hs Hr).
Defined.

(** * Further properties *)

(** ** X1: [log2_32] on all of [uint32_t] *)

Lemma smeared_start v : 0 < v -> smeared (Z.log2 v) 1 v.
Proof.
  intros Hv. split; [exact Hv |]. split; [reflexivity |].
  intros i Hi Hr. replace i with (Z.log2 v) by lia.
  apply Z.bit_log2. exact Hv.
Qed.

Lemma smeared_step k m x :
  0 < m -> smeared k m x ->
  smeared k (2 * m) (Z.lor x (Z.shiftr x m)).
Proof.
  intros Hm (Hx & Hk & Hbits).
  assert (Hs : 0 <= Z.shiftr x m) by (apply Z.shiftr_nonneg; lia).
  assert (Hl : Z.log2 (Z.shiftr x m) <= Z.log2 x).
  { apply Z.log2_le_mono. rewrite Z.shiftr_div_pow2 by lia.
    apply Z.div_le_upper_bound; [lia |]. nia. }
  split; [| split].
  - assert (H0 : 0 <= Z.lor x (Z.shiftr x m)) by (apply Z.lor_nonneg; lia).
    destruct (Z.eq_dec (Z.lor x (Z.shiftr x m)) 0) as [E | E]; [| lia].
    apply Z.lor_eq_0_iff in E. lia.
  - rewrite Z.log2_lor by lia. lia.
  - intros i Hi Hr. rewrite Z.lor_spec, Z.shiftr_spec by lia.
    destruct (Z_lt_le_dec (k - m) i) as [Hhi | Hlo].
    + rewrite Hbits by lia. reflexivity.
    + rewrite (Hbits (i + m)) by lia. apply orb_true_r.
Qed.

Lemma smeared_ones k x : 0 <= k < 32 -> smeared k 32 x -> x = Z.ones (k + 1).
Proof.
  intros Hk (Hx & Hl & Hbits). apply Z.bits_inj'. intros i Hi.
  destruct (Z_lt_le_dec k i) as [Hhi | Hlo].
  - rewrite Z.bits_above_log2 by lia.
    rewrite Z.ones_spec_high by lia. reflexivity.
  - rewrite Hbits by lia. rewrite Z.ones_spec_low by lia. reflexivity.
Qed.

Lemma tab32_ok_all : all_from tab32_ok 0 32 = true.
Proof. vm_compute. reflexivity. Qed.

(** X1.  [log2_32] is the integer logarithm on every [uint32_t]: the five
    shifts set all bits below the highest one, and the multiplication and
    the table then find the position of that bit; on 0 the result is 0. *)
Theorem log2_32_integer_logarithm v :
  0 <= v < 2 ^ 32 -> log2_32 v = Z.log2 v.
Proof.
  intros Hv. destruct (Z.eq_dec v 0) as [-> | Hne]; [reflexivity |].
  assert (Hk : 0 <= Z.log2 v < 32).
  { split; [apply Z.log2_nonneg |]. apply Z.log2_lt_pow2; lia. }
  pose proof (smeared_start v ltac:(lia)) as H1.
  apply (smeared_step _ 1) in H1; [| lia].
  apply (smeared_step _ 2) in H1; [| lia].
  apply (smeared_step _ 4) in H1; [| lia].
  apply (smeared_step _ 8) in H1; [| lia].
  apply (smeared_step _ 16) in H1; [| lia].
  apply (smeared_ones _ _ Hk) in H1.
  unfold log2_32. cbv zeta.
  change (2 * 1) with 2 in H1. change (2 * 2) with 4 in H1.
  change (2 * 4) with 8 in H1. change (2 * 8) with 16 in H1.
  rewrite H1.
  apply Z.eqb_eq.
  apply (all_from_sound tab32_ok 32 0 (Z.log2 v) tab32_ok_all). lia.
Qed.

Lemma log2_32_integer_logarithm_witness :
  0 <= 0x80000000 < 2 ^ 32 /\ log2_32 0x80000000 = Z.log2 0x80000000.
Proof.
  assert (H : 0 <= 0x80000000 < 2 ^ 32) by lia.
  split; [exact H |]. exact (log2_32_integer_logarithm 0x80000000 H).
Defined.

(** ** X2, X3: frames that are not data frames *)

Lemma poll_loop_spec attempts count reply coord sec s :
  0 <= count <= 10 -> 10 - count < Z.of_nat attempts ->
  exists more : nat,
    count + Z.of_nat more <= 10 /\
    (forall c, count <= c < count + Z.of_nat more -> reply c = 0xFF) /\
    (count + Z.of_nat more < 10 -> reply (count + Z.of_nat more) <> 0xFF) /\
    (poll_loop attempts count reply coord sec s).1 =
      reply (count + Z.of_nat more) /\
    trace (poll_loop attempts count reply coord sec s).2 =
      trace s ++ poll_events coord sec count more /\
    sState (poll_loop attempts count reply coord sec s).2 = sState s.
Proof.
  revert count s. induction attempts as [| a IH]; intros count s H0 Hfuel;
    [lia |].
  cbn [poll_loop].
  destruct (Z.eqb_spec (reply count) 255) as [Hff | Hff]; cbn [andb].
  - destruct (Z.ltb_spec count 10) as [Hlt | Hge].
    + assert (Hu : u8 (count + 1) = count + 1) by (apply u8_small; lia).
      rewrite Hu.
      destruct (IH (count + 1)
                  (emit_if (0 <? count) otPlatLog_Warn
                     (emit (MLME_POLL_request_sync coord sec) s))
                  ltac:(lia) ltac:(lia))
        as (more & Hle & Hall & Hstop & Hret & Htr & Hst).
      exists (S more). split; [lia |]. split.
      { intros c Hc. destruct (Z.eq_dec c count) as [-> | Hne];
          [exact Hff | apply Hall; lia]. }
      split.
      { intros Hlt'. replace (count + Z.of_nat (S more))
          with (count + 1 + Z.of_nat more) by lia. apply Hstop. lia. }
      split.
      { rewrite Hret. f_equal. lia. }
      split; [| rewrite Hst; reflexivity].
      rewrite Htr. radio_simpl. cbn [poll_events].
      rewrite <- !app_assoc. reflexivity.
    + exists 0%nat. cbn [fst snd poll_events]. radio_simpl.
      rewrite Z.add_0_r, app_nil_r, <- app_assoc.
      split; [lia |]. split; [intros c Hc; lia |].
      split; [lia |]. repeat split.
  - exists 0%nat. cbn [fst snd poll_events]. radio_simpl.
    rewrite Z.add_0_r, app_nil_r, <- app_assoc.
    split; [lia |]. split; [intros c Hc; lia |].
    split; [intros _; exact Hff |]. repeat split.
Qed.

Lemma setChannel_sTransmitPsdu c s :
  sTransmitPsdu (setChannel c s) = sTransmitPsdu s.
Proof. unfold setChannel. destruct (sChannel s =? c); reflexivity. Qed.

(** X2.  A MAC command frame in the transmit buffer is not queued.  If it
    is a data request (command identifier 4), [otPlatRadioTransmit] polls
    the parent at once: it repeats the poll while the co-processor answers
    0xFF, at most ten times after the first attempt, logs a warning for
    every repetition, and then calls the transmit-done callback itself,
    with frame-pending set exactly on success and with no-ack unless the
    last answer was success or no-data; no MCPS-DATA request is issued, the
    in-transit table is left alone and the state stays Transmit.  Any other
    command frame fails [assert(false)]. *)
Theorem command_frame_polls (transmitContext : Z)
    (curPacket0 : MCPS_DATA_request_pset) (reply : Z -> Z) (s : radio) :
  intransit_mutex s = false ->
  length (IntransitHandles s) = MAX_INTRANSITS ->
  sState s <> kStateDisabled ->
  tx_frameType s = MAC_FC_FT_COMMAND ->
  let psdu := psdu_of s (sTransmitFrame s) in
  let coord := tx_Dst (GETLE16 psdu) psdu (Dst curPacket0) in
  let sec :=
    (tx_security (GETLE16 psdu) psdu
       (tx_addressFieldLength (GETLE16 psdu))).1 in
  (rd psdu (frame_header_length psdu) <> 0x04 ->
   otPlatRadioTransmit transmitContext curPacket0 reply s = AssertFails) /\
  (rd psdu (frame_header_length psdu) = 0x04 ->
   exists (n : nat) (s' : radio),
     otPlatRadioTransmit transmitContext curPacket0 reply s =
       Returns kThreadError_None s' /\
     (n <= 10)%nat /\
     (forall c, 0 <= c < Z.of_nat n -> reply c = 0xFF) /\
     ((n < 10)%nat -> reply (Z.of_nat n) <> 0xFF) /\
     trace s' =
       trace (setChannel (mChannel (sTransmitFrame s)) s) ++
         poll_events coord sec 0 n ++
         [otPlatRadioTransmitDone (reply (Z.of_nat n) =? MAC_SUCCESS)
            (poll_error (reply (Z.of_nat n))) transmitContext] /\
     data_request_handles (trace s') = data_request_handles (trace s) /\
     IntransitHandles s' = IntransitHandles s /\
     IntransitPackets s' = IntransitPackets s /\
     sState s' = kStateTransmit).
Proof.
  intros Hm Hlen Hst Hft psdu coord sec.
  destruct (otPlatRadioTransmit_pick s Hm
              ltac:(rewrite Hlen; unfold MAX_INTRANSITS; lia))
    as (k & _ & Hr & _ & _).
  set (h := u8 (handle s + 1 + Z.of_nat k)) in *.
  unfold otPlatRadioTransmit. rewrite Hr. cbn [bind].
  rewrite bool_decide_eq_false_2 by exact Hst.
  unfold tx_frameType in Hft.
  change (psdu_of (set_handle h s) (sTransmitFrame (set_handle h s)))
    with psdu.
  fold psdu in Hft. rewrite Hft.
  cbn [Z.eqb MAC_FC_FT_DATA MAC_FC_FT_COMMAND Pos.eqb orb negb]. cbv zeta.
  rewrite tx_parse_eq. cbv zeta.
  cbn [tx_headerLength tx_curPacket tx_curSecSpec Dst].
  fold coord sec.
  set (s0 := setChannel _ _).
  split.
  - intros Hne. apply Z.eqb_neq in Hne. rewrite Hne. reflexivity.
  - intros Heq. rewrite Heq. cbn [Z.eqb Pos.eqb].
    destruct (poll_loop_spec 11 0 reply coord sec s0 ltac:(lia) ltac:(lia))
      as (n & Hn & Hall & Hstop & Hret & Htr & Hs).
    destruct (poll_loop_fields 11 0 reply coord sec s0) as (Hh & Hp & Hd).
    rewrite Z.add_0_l in *.
    assert (Htr0 : trace s0 =
                   trace (setChannel (mChannel (sTransmitFrame s)) s)).
    { unfold s0, setChannel. radio_simpl.
      destruct (sChannel s =? mChannel (sTransmitFrame s)); reflexivity. }
    assert (Hd0 : data_request_handles (trace s0) =
                  data_request_handles (trace s)).
    { rewrite Htr0. apply setChannel_trace_requests. }
    assert (Hs0 : sState s0 = kStateTransmit).
    { unfold s0. rewrite setChannel_sState. reflexivity. }
    assert (Hh0 : IntransitHandles s0 = IntransitHandles s).
    { unfold s0. rewrite setChannel_IntransitHandles. reflexivity. }
    assert (Hp0 : IntransitPackets s0 = IntransitPackets s).
    { unfold s0. rewrite setChannel_IntransitPackets. reflexivity. }
    destruct (poll_loop 11 0 reply coord sec s0) as [ret s1].
    cbn [fst snd] in *. subst ret.
    exists n. unfold poll_error.
    destruct (reply (Z.of_nat n) =? MAC_SUCCESS);
      [| destruct (reply (Z.of_nat n) =? MAC_NO_DATA)];
      cbn [orb]; (eexists; split; [reflexivity |]); radio_simpl;
      (split; [lia |]); (split; [exact Hall |]);
      (split; [intros Hlt; apply Hstop; lia |]);
      (split; [rewrite Htr, Htr0, <- app_assoc; reflexivity |]);
      (split; [unfold data_request_handles in *; rewrite omap_app; cbn;
               rewrite app_nil_r, Hd; exact Hd0 |]);
      rewrite Hh, Hp, Hs; auto.
Qed.

(** A data request whose poll is answered 0xFF twice and then with
    success. *)
Lemma command_frame_polls_witness :
  let s := sending_radio poll_psdu 12 in
  let reply := fun c => if c <? 2 then 0xFF else MAC_SUCCESS in
  intransit_mutex s = false /\
  length (IntransitHandles s) = MAX_INTRANSITS /\
  sState s <> kStateDisabled /\
  tx_frameType s = MAC_FC_FT_COMMAND /\
  rd (psdu_of s (sTransmitFrame s))
    (frame_header_length (psdu_of s (sTransmitFrame s))) = 0x04 /\
  exists (n : nat) (s' : radio),
    otPlatRadioTransmit 7 curPacket_zero reply s =
      Returns kThreadError_None s' /\
    (n <= 10)%nat /\
    sState s' = kStateTransmit.
Proof.
  intros s reply.
  assert (H1 : intransit_mutex s = false) by reflexivity.
  assert (H2 : length (IntransitHandles s) = MAX_INTRANSITS) by reflexivity.
  assert (H3 : sState s <> kStateDisabled) by discriminate.
  assert (H4 : tx_frameType s = MAC_FC_FT_COMMAND) by reflexivity.
  assert (H5 : rd (psdu_of s (sTransmitFrame s))
                 (frame_header_length (psdu_of s (sTransmitFrame s))) = 0x04)
    by (vm_compute; reflexivity).
  split; [exact H1 |]. split; [exact H2 |]. split; [exact H3 |].
  split; [exact H4 |]. split; [exact H5 |].
  destruct (command_frame_polls 7 curPacket_zero reply s H1 H2 H3 H4)
    as [_ H].
  destruct (H H5) as (n & s' & Ht & Hn & _ & _ & _ & _ & _ & _ & Hs).
  exists n, s'. auto.
Defined.

(** X3.  A frame in the transmit buffer that is neither a data frame nor a
    MAC command frame is refused with abort: a warning is logged, nothing
    is sent to the co-processor, and but for the handle counter, which has
    moved on, the radio is as before (state, channel, in-transit table). *)
Theorem unsupported_frame_type_aborts (transmitContext : Z)
    (curPacket0 : MCPS_DATA_request_pset) (reply : Z -> Z) (s : radio) :
  intransit_mutex s = false ->
  length (IntransitHandles s) = MAX_INTRANSITS ->
  sState s <> kStateDisabled ->
  tx_frameType s <> MAC_FC_FT_DATA ->
  tx_frameType s <> MAC_FC_FT_COMMAND ->
  exists h,
    otPlatRadioTransmit transmitContext curPacket0 reply s =
      Returns kThreadError_Abort (emit otPlatLog_Warn (set_handle h s)) /\
    h ∉ IntransitHandles s.
Proof.
  intros Hm Hlen Hst Hd Hc.
  destruct (otPlatRadioTransmit_pick s Hm
              ltac:(rewrite Hlen; unfold MAX_INTRANSITS; lia))
    as (k & _ & Hr & Hfree & _).
  exists (u8 (handle s + 1 + Z.of_nat k)). split; [| exact Hfree].
  unfold otPlatRadioTransmit. rewrite Hr. cbn [bind].
  rewrite bool_decide_eq_false_2 by exact Hst.
  unfold tx_frameType in Hd, Hc.
  change (psdu_of (set_handle _ s) (sTransmitFrame (set_handle _ s)))
    with (psdu_of s (sTransmitFrame s)).
  apply Z.eqb_neq in Hd, Hc. rewrite Hd, Hc. reflexivity.
Qed.

(** A beacon frame (frame type 0) in the transmit buffer. *)
Lemma unsupported_frame_type_aborts_witness :
  let s := sending_radio beacon_psdu 12 in
  intransit_mutex s = false /\
  length (IntransitHandles s) = MAX_INTRANSITS /\
  sState s <> kStateDisabled /\
  tx_frameType s <> MAC_FC_FT_DATA /\
  tx_frameType s <> MAC_FC_FT_COMMAND /\
  exists h,
    otPlatRadioTransmit 7 curPacket_zero (fun _ => 0) s =
      Returns kThreadError_Abort (emit otPlatLog_Warn (set_handle h s)) /\
    h ∉ IntransitHandles s.
Proof.
  intros s.
  assert (H1 : intransit_mutex s = false) by reflexivity.
  assert (H2 : length (IntransitHandles s) = MAX_INTRANSITS) by reflexivity.
  assert (H3 : sState s <> kStateDisabled) by discriminate.
  assert (H4 : tx_frameType s <> MAC_FC_FT_DATA) by (vm_compute; discriminate).
  assert (H5 : tx_frameType s <> MAC_FC_FT_COMMAND)
    by (vm_compute; discriminate).
  split; [exact H1 |]. split; [exact H2 |]. split; [exact H3 |].
  split; [exact H4 |]. split; [exact H5 |].
  exact (unsupported_frame_type_aborts 7 curPacket_zero (fun _ => 0) s
           H1 H2 H3 H4 H5).
Defined.

(** ** X4: a transmission and its confirm *)

Lemma transmit_done_reports_app a b :
  transmit_done_reports (a ++ b) =
    transmit_done_reports a ++ transmit_done_reports b.
Proof. apply omap_app. Qed.

Lemma confirm_report_spec status :
  (if status =? MAC_SUCCESS then kThreadError_None
   else confirm_error status) = confirm_report status.
Proof.
  unfold confirm_error, confirm_report, MAC_SUCCESS,
    MAC_CHANNEL_ACCESS_FAILURE, MAC_NO_ACK, MAC_TRANSACTION_OVERFLOW,
    MAC_TRANSACTION_EXPIRED.
  destruct status as [| p | p]; [reflexivity | | reflexivity].
  do 8 (destruct p as [p | p |]; try reflexivity).
Qed.

(** A confirm for a handle that sits in exactly one slot: the callback,
    and the state it leaves. *)
Lemma handleDataConfirm_found_state params s (i : nat) p :
  ot_InterfaceUp (ot s) = true ->
  intransit_mutex s = false ->
  receiveFrame_mutex s = false ->
  IntransitHandles s !! i = Some (cnf_MsduHandle params) ->
  (forall j : nat,
     IntransitHandles s !! j = Some (cnf_MsduHandle params) -> j = i) ->
  IntransitPackets s !! i = Some p ->
  exists s',
    handleDataConfirm params s = Returns 0 s' /\
    transmit_done_reports (trace s') =
      transmit_done_reports (trace s) ++
        [(false,
          if cnf_Status params =? MAC_SUCCESS then sTransmitError s
          else confirm_error (cnf_Status params),
          mTransmitContext p)] /\
    sTransmitError s' = kThreadError_None /\
    sState s' = kStateReceive /\
    IntransitHandles s' = <[i := 0]> (IntransitHandles s) /\
    IntransitPackets s' = IntransitPackets s /\
    intransit_mutex s' = false /\
    sChannel s' = sChannel s.
Proof.
  intros Hup Hm Hrm Hi Hu Hp.
  unfold handleDataConfirm, intransit_getFrame. rewrite Hup, Hm. cbn [negb].
  rewrite (find_slot_unique _ _ i Hi Hu). cbn [bind]. rewrite Hp.
  destruct (cnf_Status params =? MAC_SUCCESS);
    unfold handleDataConfirm_end, intransit_rmFrame; radio_simpl;
    rewrite Hm, (rm_slots_once _ _ i Hi Hu); radio_simpl;
    unfold PlatformRadioSignal; radio_simpl; rewrite Hrm; radio_simpl;
    (eexists; split; [reflexivity |]); radio_simpl;
    rewrite ?transmit_done_reports_app; cbn [transmit_done_reports omap];
    rewrite ?app_nil_r; repeat split; assumption.
Qed.

(** What [otPlatRadioTransmit] leaves of the transmit error and of the
    callbacks made so far, for a data frame. *)
Lemma otPlatRadioTransmit_data_reports transmitContext curPacket0 reply s s' :
  intransit_mutex s = false ->
  (length (IntransitHandles s) < 256)%nat ->
  sState s <> kStateDisabled ->
  tx_frameType s = MAC_FC_FT_DATA ->
  otPlatRadioTransmit transmitContext curPacket0 reply s =
    Returns kThreadError_None s' ->
  sTransmitError s' = kThreadError_None /\
  transmit_done_reports (trace s') = transmit_done_reports (trace s).
Proof.
  intros Hm Hlen Hst Hft Ht.
  destruct (otPlatRadioTransmit_data transmitContext curPacket0 reply s
              Hm Hlen Hst Hft) as (k & r & s1 & _ & _ & _ & Hp & Ht').
  cbv zeta in Hp, Ht'. rewrite Ht' in Ht.
  destruct (tx_inside s); [| discriminate]. injection Ht as <-.
  set (h := u8 (handle s + 1 + Z.of_nat k)) in *.
  unfold intransit_putFrame, tx_state in Hp. radio_simpl in Hp.
  rewrite setChannel_intransit_mutex in Hp. radio_simpl in Hp.
  rewrite Hm in Hp.
  assert (He : sTransmitError s1 = kThreadError_None /\
               trace s1 =
                 trace (setChannel (mChannel (sTransmitFrame s)) s)).
  { destruct (find_slot 0 _ 0) in Hp; injection Hp as _ <-; radio_simpl;
      unfold setChannel; radio_simpl;
      destruct (sChannel s =? mChannel (sTransmitFrame s)); split;
      reflexivity. }
  destruct He as [He Htr]. radio_simpl. split; [exact He |].
  rewrite transmit_done_reports_app, Htr. cbn. rewrite app_nil_r.
  unfold setChannel. destruct (sChannel s =? _); [reflexivity |].
  radio_simpl. rewrite transmit_done_reports_app. cbn.
  apply app_nil_r.
Qed.

(** X4.  A data frame, of a length that covers its header and footer and
    is at most 127, handed to [otPlatRadioTransmit] while a slot of the
    table is free, followed by the confirm for the handle of its request:
    the stack gets one transmit-done callback, with the context of the
    transmission, frame-pending false, and the error that goes with the
    status (none for success, channel-access-failure for 0xE1, no-ack for
    no-ack, transaction-expired and transaction-overflow, abort for
    anything else); after it the table is as it was before the
    transmission, the state is Receive and the stored transmit error is
    none again. *)
Theorem transmit_and_confirm (transmitContext status : Z)
    (curPacket0 : MCPS_DATA_request_pset) (reply : Z -> Z) (s : radio) :
  intransit_inv s ->
  intransit_mutex s = false ->
  receiveFrame_mutex s = false ->
  ot_InterfaceUp (ot s) = true ->
  sState s <> kStateDisabled ->
  tx_frameType s = MAC_FC_FT_DATA ->
  tx_length_ok s ->
  0 ∈ IntransitHandles s ->
  exists h s1 s2,
    otPlatRadioTransmit transmitContext curPacket0 reply s =
      Returns kThreadError_None s1 /\
    data_request_handles (trace s1) =
      data_request_handles (trace s) ++ [h] /\
    handleDataConfirm (mkDataConfirm h status) s1 = Returns 0 s2 /\
    transmit_done_reports (trace s2) =
      transmit_done_reports (trace s) ++
        [(false, confirm_report status, transmitContext)] /\
    IntransitHandles s2 = IntransitHandles s /\
    sState s2 = kStateReceive /\
    sTransmitError s2 = kThreadError_None.
Proof.
  intros Hinv Hm Hrm Hup Hst Hft Hok H0.
  assert (Hlen : (length (IntransitHandles s) < 256)%nat).
  { rewrite (inv_handles _ Hinv). unfold MAX_INTRANSITS. lia. }
  destruct (otPlatRadioTransmit_data_stores transmitContext curPacket0 reply
              s Hm Hlen Hst Hft (tx_length_ok_inside s Hok) H0)
    as (k & i & s1 & Ht & _ & Hfree & _ & Hne & Hi & _ & Hh & Hp & _ & _
        & Hm1 & Hrm1 & Hot & Hreq & _).
  cbv zeta in *. set (h := u8 (handle s + 1 + Z.of_nat k)) in *.
  destruct (otPlatRadioTransmit_data_reports _ _ _ _ _ Hm Hlen Hst Hft Ht)
    as [He Hrep].
  assert (Hil : (i < length (IntransitHandles s))%nat)
    by (eapply lookup_lt_Some; exact Hi).
  destruct (handleDataConfirm_found_state (mkDataConfirm h status) s1 i
              (with_mTransmitContext transmitContext (sTransmitFrame s)))
    as (s2 & Hc & Hrep2 & He2 & Hs2 & Hh2 & _).
  - rewrite Hot. exact Hup.
  - exact Hm1.
  - rewrite Hrm1. exact Hrm.
  - cbn [cnf_MsduHandle]. rewrite Hh. apply list_lookup_insert_eq. exact Hil.
  - cbn [cnf_MsduHandle]. intros j Hj. rewrite Hh in Hj.
    destruct (decide (j = i)) as [-> | Hji]; [reflexivity |].
    rewrite list_lookup_insert_ne in Hj by congruence.
    exfalso. apply Hfree. eapply list_elem_of_lookup_2. exact Hj.
  - rewrite Hp. apply list_lookup_insert_eq.
    rewrite (inv_packets _ Hinv), <- (inv_handles _ Hinv). exact Hil.
  - exists h, s1, s2. split; [exact Ht |]. split; [exact Hreq |].
    split; [exact Hc |]. split.
    { rewrite Hrep2, Hrep, He. cbn [cnf_Status mTransmitContext
        with_mTransmitContext].
      rewrite confirm_report_spec. reflexivity. }
    split.
    { rewrite Hh2, Hh, list_insert_insert_eq. apply list_insert_id.
      exact Hi. }
    split; [exact Hs2 | exact He2].
Qed.

(** The frame of scenario 1 on a fresh table, not acknowledged. *)
Lemma transmit_and_confirm_witness :
  let s := scenario1_radio kStateReceive in
  intransit_inv s /\
  intransit_mutex s = false /\
  receiveFrame_mutex s = false /\
  ot_InterfaceUp (ot s) = true /\
  sState s <> kStateDisabled /\
  tx_frameType s = MAC_FC_FT_DATA /\
  tx_length_ok s /\
  0 ∈ IntransitHandles s /\
  exists h s1 s2,
    otPlatRadioTransmit 7 curPacket_zero (fun _ => 0) s =
      Returns kThreadError_None s1 /\
    data_request_handles (trace s1) =
      data_request_handles (trace s) ++ [h] /\
    handleDataConfirm (mkDataConfirm h MAC_NO_ACK) s1 = Returns 0 s2 /\
    transmit_done_reports (trace s2) =
      transmit_done_reports (trace s) ++ [(false, kThreadError_NoAck, 7)] /\
    IntransitHandles s2 = IntransitHandles s /\
    sState s2 = kStateReceive /\
    sTransmitError s2 = kThreadError_None.
Proof.
  intros s.
  assert (Hinv : intransit_inv s).
  { split; [reflexivity | reflexivity |]. apply unique_handles_replicate. }
  assert (H0 : 0 ∈ IntransitHandles s) by apply list_elem_of_here.
  assert (Hok : tx_length_ok s)
    by (unfold tx_length_ok; vm_compute; split; discriminate).
  split; [exact Hinv |].
  split; [reflexivity |]. split; [reflexivity |]. split; [reflexivity |].
  split; [discriminate |]. split; [reflexivity |]. split; [exact Hok |].
  split; [exact H0 |].
  exact (transmit_and_confirm 7 MAC_NO_ACK curPacket_zero (fun _ => 0) s Hinv
           eq_refl eq_refl eq_refl ltac:(discriminate) eq_refl Hok H0).
Defined.

(** ** X5, X6: confirms that answer no transmission *)

Lemma rm_slots_second h l : h ∈ l -> rm_slots h l true = None.
Proof.
  induction l as [| x l IH]; intros Hin; [inversion Hin |].
  cbn [rm_slots]. destruct (Z.eqb_spec x h) as [-> | Hne]; [reflexivity |].
  apply elem_of_cons in Hin as [-> | Hin]; [congruence |].
  rewrite IH by exact Hin. reflexivity.
Qed.

Lemma rm_slots_twice h l (i j : nat) :
  l !! i = Some h -> l !! j = Some h -> i <> j ->
  rm_slots h l false = None.
Proof.
  revert i j. induction l as [| x l IH]; intros i j Hi Hj Hij;
    [discriminate |].
  cbn [rm_slots]. destruct (Z.eqb_spec x h) as [-> | Hne].
  - rewrite rm_slots_second; [reflexivity |].
    destruct i as [| i], j as [| j]; try lia.
    + eapply list_elem_of_lookup_2. exact Hj.
    + eapply list_elem_of_lookup_2. exact Hi.
    + eapply list_elem_of_lookup_2. exact Hi.
  - destruct i as [| i]; [cbn in Hi; congruence |].
    destruct j as [| j]; [cbn in Hj; congruence |].
    rewrite (IH i j Hi Hj) by lia. reflexivity.
Qed.

(** X5.  A confirm that arrives while the interface is down is dropped:
    the call returns 1 and changes nothing, so a handle in transit stays in
    the table.  A confirm, with the interface up, for a handle that is not
    in the table fails [assert(sentFrame != NULL)]. *)
Theorem confirm_without_transmission (params : MCPS_DATA_confirm_pset)
    (s : radio) :
  (ot_InterfaceUp (ot s) = false ->
   handleDataConfirm params s = Returns 1 s /\
   live_handles (after (handleDataConfirm params s) s) = live_handles s) /\
  (ot_InterfaceUp (ot s) = true ->
   intransit_mutex s = false ->
   cnf_MsduHandle params ∉ IntransitHandles s ->
   handleDataConfirm params s = AssertFails).
Proof.
  split.
  - intros Hup. unfold handleDataConfirm. rewrite Hup. cbn [negb after].
    split; reflexivity.
  - intros Hup Hm Hin. unfold handleDataConfirm, intransit_getFrame.
    rewrite Hup, Hm. cbn [negb].
    apply (find_slot_None _ _ 0%nat) in Hin. rewrite Hin. reflexivity.
Qed.

Lemma confirm_without_transmission_witness :
  let s := radio_two_in_transit in
  let down := set_ot (mkInstance false kDeviceRoleRouter 0xFACE 1
                        (fun _ => mkChildInfo (replicate 8 0) 0) [] None
                        (fun _ => replicate 16 0)) s in
  ot_InterfaceUp (ot down) = false /\
  ot_InterfaceUp (ot s) = true /\
  intransit_mutex s = false /\
  (7 ∉ IntransitHandles s) /\
  handleDataConfirm (mkDataConfirm 5 MAC_SUCCESS) down = Returns 1 down /\
  handleDataConfirm (mkDataConfirm 7 MAC_SUCCESS) s = AssertFails.
Proof.
  intros s down.
  assert (H1 : ot_InterfaceUp (ot down) = false) by reflexivity.
  assert (H2 : ot_InterfaceUp (ot s) = true) by reflexivity.
  assert (H3 : intransit_mutex s = false) by reflexivity.
  assert (H4 : 7 ∉ IntransitHandles s).
  { apply (bool_decide_unpack _). vm_compute. exact I. }
  split; [exact H1 |]. split; [exact H2 |]. split; [exact H3 |].
  split; [exact H4 |].
  split.
  - exact (proj1 (proj1 (confirm_without_transmission
                           (mkDataConfirm 5 MAC_SUCCESS) down) H1)).
  - exact (proj2 (confirm_without_transmission
                    (mkDataConfirm 7 MAC_SUCCESS) s) H2 H3 H4).
Defined.

(** X6.  Handle 0 marks a free slot, and a confirm that carries handle 0
    is not told apart from one for a transmission: with exactly one free
    slot, the transmit-done callback is called with the context of whatever
    record lies in that slot, and the table stays as it is; with two or
    more free slots the call ends in the failure of
    [assert(found == 0)] of [intransit_rmFrame]. *)
Theorem confirm_with_handle_zero (status : Z) (s : radio) (i : nat)
    (p : RadioPacket) :
  ot_InterfaceUp (ot s) = true ->
  intransit_mutex s = false ->
  receiveFrame_mutex s = false ->
  length (IntransitPackets s) = length (IntransitHandles s) ->
  IntransitHandles s !! i = Some 0 ->
  IntransitPackets s !! i = Some p ->
  ((forall j : nat, IntransitHandles s !! j = Some 0 -> j = i) ->
   exists s',
     handleDataConfirm (mkDataConfirm 0 status) s = Returns 0 s' /\
     transmit_done_contexts (trace s') =
       transmit_done_contexts (trace s) ++ [mTransmitContext p] /\
     IntransitHandles s' = IntransitHandles s) /\
  ((exists j : nat, j <> i /\ IntransitHandles s !! j = Some 0) ->
   handleDataConfirm (mkDataConfirm 0 status) s = AssertFails).
Proof.
  intros Hup Hm Hrm Hlen Hi Hp. split.
  - intros Hu.
    destruct (handleDataConfirm_found (mkDataConfirm 0 status) s i p Hup Hm
                Hrm Hi Hu Hp) as (s' & Hc & _ & Htr & Hh & _).
    exists s'. split; [exact Hc |]. split.
    + rewrite Htr, !transmit_done_contexts_app. cbn [cnf_Status].
      destruct (status =? MAC_SUCCESS); cbn; rewrite ?app_nil_r;
        reflexivity.
    + rewrite Hh. apply list_insert_id. exact Hi.
  - intros (j & Hji & Hj).
    unfold handleDataConfirm, intransit_getFrame. rewrite Hup, Hm.
    cbn [negb cnf_MsduHandle].
    destruct (find_slot_is_Some 0 (IntransitHandles s) 0%nat) as [k Hk].
    { eapply list_elem_of_lookup_2. exact Hi. }
    rewrite Hk. cbn [bind].
    apply find_slot_Some in Hk as (k' & -> & Hk' & _). cbn [Nat.add].
    destruct (lookup_lt_is_Some_2 (IntransitPackets s) k') as [q Hq].
    { rewrite Hlen. eapply lookup_lt_Some. exact Hk'. }
    rewrite Hq.
    destruct (cnf_Status (mkDataConfirm 0 status) =? MAC_SUCCESS);
      unfold handleDataConfirm_end, intransit_rmFrame; radio_simpl;
      rewrite Hm; cbn [cnf_MsduHandle];
      rewrite (rm_slots_twice 0 _ i j Hi Hj) by congruence; reflexivity.
Qed.

Lemma confirm_with_handle_zero_witness :
  (let s := radio_one_slot_free in
   ot_InterfaceUp (ot s) = true /\
   intransit_mutex s = false /\
   receiveFrame_mutex s = false /\
   length (IntransitPackets s) = length (IntransitHandles s) /\
   IntransitHandles s !! 6%nat = Some 0 /\
   (forall j : nat, IntransitHandles s !! j = Some 0 -> j = 6%nat) /\
   exists s',
     handleDataConfirm (mkDataConfirm 0 MAC_SUCCESS) s = Returns 0 s' /\
     transmit_done_contexts (trace s') =
       transmit_done_contexts (trace s) ++ [66] /\
     IntransitHandles s' = IntransitHandles s) /\
  (let s := radio_two_in_transit in
   IntransitHandles s !! 2%nat = Some 0 /\
   IntransitHandles s !! 3%nat = Some 0 /\
   handleDataConfirm (mkDataConfirm 0 MAC_SUCCESS) s = AssertFails).
Proof.
  split.
  - intros s.
    assert (Hu : forall j : nat, IntransitHandles s !! j = Some 0 -> j = 6%nat).
    { intros j Hj. do 7 (destruct j as [| j]; [try discriminate; try reflexivity |]).
      discriminate. }
    split; [reflexivity |]. split; [reflexivity |]. split; [reflexivity |].
    split; [reflexivity |]. split; [reflexivity |]. split; [exact Hu |].
    exact (proj1 (confirm_with_handle_zero MAC_SUCCESS s 6
                    (mkRadioPacket ref_sTransmitPsdu 14 11 0 0 true 66)
                    eq_refl eq_refl eq_refl eq_refl eq_refl eq_refl) Hu).
  - intros s. split; [reflexivity |]. split; [reflexivity |].
    apply (proj2 (confirm_with_handle_zero MAC_SUCCESS s 2
                    (RadioPacket_init ref_sTransmitPsdu)
                    eq_refl eq_refl eq_refl eq_refl eq_refl eq_refl)).
    exists 3%nat. split; [discriminate | reflexivity].
Defined.

(** ** X7: the in-transit table as a store *)

Lemma find_slot_shift h l i :
  find_slot h l (S i) = S <$> find_slot h l i.
Proof.
  revert i. induction l as [| x l IH]; intros i; cbn; [reflexivity |].
  destruct (x =? h); [reflexivity | apply IH].
Qed.

(** Writing [h] over slot [i] leaves the search for any other handle, bar
    the one that was in the slot, as it was. *)
Lemma find_slot_insert_other h' h old l (i : nat) :
  l !! i = Some old -> h' <> h -> h' <> old ->
  find_slot h' (<[i := h]> l) 0 = find_slot h' l 0.
Proof.
  revert i. induction l as [| x l IH]; intros i Hi Hh Ho; [reflexivity |].
  destruct i as [| i].
  - cbn in Hi. injection Hi as ->. cbn.
    destruct (Z.eqb_spec h h'); [congruence |].
    destruct (Z.eqb_spec old h'); [congruence |]. reflexivity.
  - cbn. destruct (x =? h'); [reflexivity |].
    rewrite !find_slot_shift. f_equal. apply (IH i); assumption.
Qed.

Lemma find_slot_insert_same h l (i : nat) :
  l !! i = Some 0 -> h ∉ l -> h <> 0 ->
  find_slot h (<[i := h]> l) 0 = Some i.
Proof.
  intros Hi Hin Hne. apply find_slot_unique.
  - apply list_lookup_insert_eq. eapply lookup_lt_Some. exact Hi.
  - intros j Hj. destruct (decide (j = i)) as [-> | Hji]; [reflexivity |].
    rewrite list_lookup_insert_ne in Hj by congruence.
    exfalso. apply Hin. eapply list_elem_of_lookup_2. exact Hj.
Qed.

(** X7.  The in-transit table behaves as a store keyed by the handle.  For
    a handle other than 0 that is not in the table, and a table with a free
    slot: [intransit_putFrame] returns 0; then [intransit_getFrame] finds
    the record that was put and [intransit_isHandleInUse] answers 1, while
    the look-up of every other handle in transit gives what it gave
    before; [intransit_rmFrame] then returns 0 and the handles are as
    before the put, the handle is no longer in use, and a second
    [intransit_rmFrame] returns 1. *)
Theorem intransit_put_get_rm (h : Z) (f : RadioPacket) (s : radio) :
  intransit_mutex s = false ->
  length (IntransitPackets s) = length (IntransitHandles s) ->
  h <> 0 ->
  h ∉ IntransitHandles s ->
  0 ∈ IntransitHandles s ->
  exists s1 s2,
    intransit_putFrame h f s = Returns 0 s1 /\
    intransit_getFrame h s1 = Returns (Some f) s1 /\
    intransit_isHandleInUse h s1 = Returns true s1 /\
    (forall h', h' <> h -> h' <> 0 ->
       value_of (intransit_getFrame h' s1) =
         value_of (intransit_getFrame h' s)) /\
    intransit_rmFrame h s1 = Returns 0 s2 /\
    IntransitHandles s2 = IntransitHandles s /\
    intransit_isHandleInUse h s2 = Returns false s2 /\
    intransit_rmFrame h s2 = Returns 1 s2.
Proof.
  intros Hm Hlen Hne Hin H0.
  destruct (find_slot_is_Some 0 (IntransitHandles s) 0%nat H0) as [i Hf].
  pose proof Hf as Hf'.
  apply find_slot_Some in Hf' as (k & -> & Hi & _). cbn [Nat.add] in *.
  assert (Hil : (k < length (IntransitHandles s))%nat)
    by (eapply lookup_lt_Some; exact Hi).
  set (s1 := set_IntransitPackets (<[k := f]> (IntransitPackets s))
               (set_IntransitHandles (<[k := h]> (IntransitHandles s)) s)).
  set (s2 := set_IntransitHandles (IntransitHandles s) s1).
  assert (Hfind : find_slot h (IntransitHandles s1) 0 = Some k).
  { unfold s1. radio_simpl. apply find_slot_insert_same; assumption. }
  exists s1, s2.
  split. { unfold intransit_putFrame. rewrite Hm, Hf. reflexivity. }
  split.
  { unfold intransit_getFrame. change (intransit_mutex s1) with
      (intransit_mutex s). rewrite Hm, Hfind. unfold s1. radio_simpl.
    rewrite list_lookup_insert_eq by lia. reflexivity. }
  split.
  { unfold intransit_isHandleInUse. change (intransit_mutex s1) with
      (intransit_mutex s). rewrite Hm, Hfind. reflexivity. }
  split.
  { intros h' Hh' H0'. unfold intransit_getFrame.
    change (intransit_mutex s1) with (intransit_mutex s). rewrite Hm.
    unfold s1 at 1. radio_simpl.
    rewrite (find_slot_insert_other h' h 0 _ k Hi Hh' H0').
    destruct (find_slot h' (IntransitHandles s) 0) as [j |] eqn:Ej;
      [| reflexivity].
    cbn [value_of]. f_equal. unfold s1. radio_simpl.
    apply list_lookup_insert_ne.
    apply find_slot_Some in Ej as (j' & -> & Hj' & _). cbn [Nat.add].
    intros ->. congruence. }
  assert (Hrm : rm_slots h (IntransitHandles s1) false =
                Some (true, IntransitHandles s)).
  { unfold s1. radio_simpl.
    rewrite (rm_slots_once h _ k).
    - rewrite list_insert_insert_eq, list_insert_id by exact Hi.
      reflexivity.
    - apply list_lookup_insert_eq. exact Hil.
    - intros j Hj. destruct (decide (j = k)) as [-> | Hjk]; [reflexivity |].
      rewrite list_lookup_insert_ne in Hj by congruence.
      exfalso. apply Hin. eapply list_elem_of_lookup_2. exact Hj. }
  split.
  { unfold intransit_rmFrame. change (intransit_mutex s1) with
      (intransit_mutex s). rewrite Hm, Hrm. reflexivity. }
  split; [reflexivity |].
  apply (find_slot_None h _ 0%nat) in Hin as Hnone.
  split.
  { unfold intransit_isHandleInUse. change (intransit_mutex s2) with
      (intransit_mutex s). rewrite Hm. unfold s2. radio_simpl.
    rewrite Hnone. reflexivity. }
  unfold intransit_rmFrame. change (intransit_mutex s2) with
    (intransit_mutex s). rewrite Hm. unfold s2 at 1. radio_simpl.
  rewrite rm_slots_absent by exact Hin. unfold s2. radio_simpl.
  reflexivity.
Qed.

Lemma intransit_put_get_rm_witness :
  let s := radio_two_in_transit in
  let f := mkRadioPacket ref_sTransmitPsdu 20 11 0 0 true 70 in
  intransit_mutex s = false /\
  length (IntransitPackets s) = length (IntransitHandles s) /\
  7 <> 0 /\
  (7 ∉ IntransitHandles s) /\
  (0 ∈ IntransitHandles s) /\
  exists s1 s2,
    intransit_putFrame 7 f s = Returns 0 s1 /\
    intransit_getFrame 7 s1 = Returns (Some f) s1 /\
    value_of (intransit_getFrame 9 s1) = value_of (intransit_getFrame 9 s) /\
    intransit_rmFrame 7 s1 = Returns 0 s2 /\
    IntransitHandles s2 = IntransitHandles s.
Proof.
  intros s f.
  assert (H1 : intransit_mutex s = false) by reflexivity.
  assert (H2 : length (IntransitPackets s) = length (IntransitHandles s))
    by reflexivity.
  assert (H3 : 7 <> 0) by discriminate.
  assert (H4 : 7 ∉ IntransitHandles s).
  { apply (bool_decide_unpack _). vm_compute. exact I. }
  assert (H5 : 0 ∈ IntransitHandles s).
  { apply (bool_decide_unpack _). vm_compute. exact I. }
  split; [exact H1 |]. split; [exact H2 |]. split; [exact H3 |].
  split; [exact H4 |]. split; [exact H5 |].
  destruct (intransit_put_get_rm 7 f s H1 H2 H3 H4 H5)
    as (s1 & s2 & Hp & Hg & _ & Ho & Hr & Hh & _).
  exists s1, s2. split; [exact Hp |]. split; [exact Hg |].
  split; [apply Ho; discriminate |]. split; [exact Hr | exact Hh].
Defined.

(** ** X8, X9: one scan at a time *)

(** X8.  With no scan in progress, a scan request that the co-processor
    refuses is answered busy and leaves no scan in progress; one that it
    accepts is answered none and puts that scan, and no other, in progress.
    From then on every request for a scan of either kind is answered busy
    and changes nothing: no request reaches the co-processor and the
    callback and context of the running scan stay. *)
Theorem scan_in_progress_excludes_scans (energy : bool)
    (aScanChannels aScanDuration aCallback aCallbackContext : Z)
    (s : radio) :
  sActiveScanInProgress s = 0 ->
  sEnergyScanInProgress s = 0 ->
  (forall scanRequest,
     scanRequest <> MAC_SUCCESS ->
     exists s',
       start_scan energy aScanChannels aScanDuration aCallback
         aCallbackContext scanRequest s = Returns kThreadError_Busy s' /\
       otPlatRadioIsActiveScanInProgress s' = false /\
       otPlatRadioIsEnergyScanInProgress s' = false) /\
  (exists s1,
     start_scan energy aScanChannels aScanDuration aCallback
       aCallbackContext MAC_SUCCESS s = Returns kThreadError_None s1 /\
     otPlatRadioIsEnergyScanInProgress s1 = energy /\
     otPlatRadioIsActiveScanInProgress s1 = negb energy /\
     forall energy' channels' duration' callback' context' scanRequest',
       start_scan energy' channels' duration' callback' context'
         scanRequest' s1 = Returns kThreadError_Busy s1).
Proof.
  intros Ha He. split.
  - intros scanRequest Hne. apply Z.eqb_neq in Hne.
    unfold start_scan, otPlatRadioEnergyScan, otPlatRadioActiveScan,
      otPlatRadioIsActiveScanInProgress, otPlatRadioIsEnergyScanInProgress.
    rewrite Ha, He, Hne. cbn [Z.eqb negb orb].
    destruct energy; (eexists; split; [reflexivity |]); radio_simpl;
      rewrite ?Ha, ?He; split; reflexivity.
  - unfold start_scan, otPlatRadioEnergyScan, otPlatRadioActiveScan,
      otPlatRadioIsActiveScanInProgress, otPlatRadioIsEnergyScanInProgress.
    rewrite Ha, He. cbn [Z.eqb negb orb MAC_SUCCESS].
    destruct energy; (eexists; split; [reflexivity |]); radio_simpl;
      rewrite ?Ha, ?He; (split; [reflexivity |]); (split; [reflexivity |]);
      intros [] channels' duration' callback' context' scanRequest';
      radio_simpl; rewrite ?Ha, ?He; reflexivity.
Qed.

Lemma scan_in_progress_excludes_scans_witness :
  sActiveScanInProgress receiving_radio = 0 /\
  sEnergyScanInProgress receiving_radio = 0 /\
  MAC_SCAN_IN_PROGRESS <> MAC_SUCCESS /\
  (exists s',
     start_scan true 0 200 1 2 MAC_SCAN_IN_PROGRESS receiving_radio =
       Returns kThreadError_Busy s' /\
     otPlatRadioIsActiveScanInProgress s' = false /\
     otPlatRadioIsEnergyScanInProgress s' = false) /\
  (exists s1,
     start_scan true 0 200 1 2 MAC_SUCCESS receiving_radio =
       Returns kThreadError_None s1 /\
     start_scan false 0 200 3 4 MAC_SUCCESS s1 =
       Returns kThreadError_Busy s1).
Proof.
  assert (H3 : MAC_SCAN_IN_PROGRESS <> MAC_SUCCESS) by discriminate.
  split; [reflexivity |]. split; [reflexivity |]. split; [exact H3 |].
  destruct (scan_in_progress_excludes_scans true 0 200 1 2 receiving_radio
              eq_refl eq_refl) as [Hfail (s1 & Hs1 & _ & _ & Hbusy)].
  split; [exact (Hfail MAC_SCAN_IN_PROGRESS H3) |].
  exists s1. split; [exact Hs1 | apply Hbusy].
Defined.

(** X9.  The end of an active scan.  With the interface up, a scan confirm
    whose status is not scan-in-progress calls the active-scan callback of
    the request once, with its context and a null result, writes the
    radio's channel back to the co-processor and leaves no scan in
    progress, so that the next scan request is accepted; a confirm with the
    status scan-in-progress changes nothing.  With the interface down the
    confirm is dropped and the scan stays in progress. *)
Theorem active_scan_completes
    (aScanChannels aScanDuration aCallback aCallbackContext : Z)
    (confirm : MLME_SCAN_confirm_pset) (s : radio) :
  sActiveScanInProgress s = 0 ->
  sEnergyScanInProgress s = 0 ->
  exists s1,
    otPlatRadioActiveScan aScanChannels aScanDuration aCallback
      aCallbackContext MAC_SUCCESS s = Returns kThreadError_None s1 /\
    (ot_InterfaceUp (ot s) = false ->
     handleScanConfirm confirm s1 = Returns 1 s1) /\
    (ot_InterfaceUp (ot s) = true ->
     scn_Status confirm = MAC_SCAN_IN_PROGRESS ->
     handleScanConfirm confirm s1 = Returns 0 s1) /\
    (ot_InterfaceUp (ot s) = true ->
     scn_Status confirm <> MAC_SCAN_IN_PROGRESS ->
     exists s2,
       handleScanConfirm confirm s1 = Returns 0 s2 /\
       trace s2 =
         trace s1 ++
           [ActiveScanCallback_NULL aCallback aCallbackContext;
            MLME_SET_phyCurrentChannel (sChannel s)] /\
       otPlatRadioIsActiveScanInProgress s2 = false /\
       otPlatRadioIsEnergyScanInProgress s2 = false /\
       forall energy channels duration callback context,
       exists s3,
         start_scan energy channels duration callback context MAC_SUCCESS
           s2 = Returns kThreadError_None s3).
Proof.
  intros Ha He.
  unfold otPlatRadioActiveScan. rewrite Ha, He.
  cbn [Z.eqb negb orb MAC_SUCCESS].
  eexists. split; [reflexivity |].
  unfold handleScanConfirm. radio_simpl.
  split; [intros ->; reflexivity |].
  split.
  { intros -> ->. reflexivity. }
  intros -> Hne. apply Z.eqb_neq in Hne. rewrite Hne.
  cbn [negb Z.eqb].
  eexists. split; [reflexivity |]. radio_simpl.
  unfold otPlatRadioIsActiveScanInProgress,
    otPlatRadioIsEnergyScanInProgress. radio_simpl. rewrite He.
  split; [rewrite <- app_assoc; reflexivity |].
  split; [reflexivity |]. split; [reflexivity |].
  intros energy channels duration callback context.
  unfold start_scan, otPlatRadioEnergyScan, otPlatRadioActiveScan.
  radio_simpl. rewrite He. cbn [Z.eqb negb orb MAC_SUCCESS].
  destruct energy; eexists; reflexivity.
Qed.

Lemma active_scan_completes_witness :
  let s := receiving_radio in
  let confirm := mkScanConfirm MAC_SUCCESS 0 [] in
  sActiveScanInProgress s = 0 /\
  sEnergyScanInProgress s = 0 /\
  ot_InterfaceUp (ot s) = true /\
  scn_Status confirm <> MAC_SCAN_IN_PROGRESS /\
  exists s1 s2,
    otPlatRadioActiveScan 0 200 1 2 MAC_SUCCESS s =
      Returns kThreadError_None s1 /\
    handleScanConfirm confirm s1 = Returns 0 s2 /\
    trace s2 =
      trace s1 ++
        [ActiveScanCallback_NULL 1 2;
         MLME_SET_phyCurrentChannel (sChannel s)] /\
    otPlatRadioIsActiveScanInProgress s2 = false.
Proof.
  intros s confirm.
  assert (H4 : scn_Status confirm <> MAC_SCAN_IN_PROGRESS) by discriminate.
  split; [reflexivity |]. split; [reflexivity |]. split; [reflexivity |].
  split; [exact H4 |].
  destruct (active_scan_completes 0 200 1 2 confirm s eq_refl eq_refl)
    as (s1 & Hs1 & _ & _ & Hdone).
  destruct (Hdone eq_refl H4) as (s2 & Hc & Htr & Hp & _).
  exists s1, s2. auto.
Defined.

(** ** X10: indications one after the other *)

Lemma rssi_ok_all : all_from rssi_ok 0 256 = true.
Proof. vm_compute. reflexivity. Qed.

Lemma length_PUTLE16 x buf : length (PUTLE16 x buf) = length buf.
Proof. unfold PUTLE16. rewrite !length_wr. reflexivity. Qed.

Lemma length_rx_addressing params buf :
  length (rx_addressing params buf).1.1 = length buf.
Proof.
  unfold rx_addressing. cbv zeta.
  destruct (AddressMode (ind_Dst params) =? MAC_MODE_SHORT_ADDR);
    [| destruct (AddressMode (ind_Dst params) =? MAC_MODE_LONG_ADDR)];
    destruct (bool_decide _); cbn [negb];
    destruct (AddressMode (ind_Src params) =? MAC_MODE_SHORT_ADDR);
    try destruct (AddressMode (ind_Src params) =? MAC_MODE_LONG_ADDR);
    cbn [fst]; rewrite ?length_memcpy; reflexivity.
Qed.

Lemma length_rx_security fc sec buf afl :
  length (rx_security fc sec buf afl).1 = length buf.
Proof.
  unfold rx_security. cbv zeta.
  destruct (negb (Z.land fc MAC_FC_SEC_ENA =? 0)); [| reflexivity].
  destruct (KeyIdMode sec =? 2); [| destruct (KeyIdMode sec =? 3)];
    cbn [fst]; rewrite ?length_wr, ?length_memcpy, ?length_wr; reflexivity.
Qed.

Lemma length_rx_build params buf :
  length (rx_psdu (rx_build params buf)) = length buf.
Proof.
  unfold rx_build. cbv zeta.
  pose proof (length_rx_addressing params buf) as Ha.
  destruct (rx_addressing params buf) as [[bufA afl] pc]. cbn [fst] in Ha.
  pose proof (length_rx_security (rx_frameControl_of params pc)
                (ind_Security params)
                (PUTLE16 (rx_frameControl_of params pc) bufA) afl) as Hs.
  destruct (rx_security _ _ _ _) as [bufC hl]. cbn [fst] in Hs.
  cbn [rx_psdu]. rewrite Hs, length_PUTLE16. exact Ha.
Qed.

(** X10.  An indication whose decoded length is at most 127 and whose
    payload, placed after the rebuilt header, ends inside the 127-byte
    receive buffer, handed to a radio whose stack is up and whose receive
    slot is free, whatever state the radio is in: the receive callback is
    called once, with the link
    quality of the indication, the radio's channel, and the power estimate
    [(lqi - 256) / 2], which lies between -128 and 0 and is from then on
    the noise floor that [otPlatRadioGetNoiseFloor] returns; the state is
    Receive; and the receive slot is free again, so that the next
    indication is delivered in the same way. *)
Theorem indication_delivers_and_frees_slot
    (params : MCPS_DATA_indication_pset) (r : radio) :
  ready_to_receive r ->
  0 <= ind_MpduLinkQuality params <= 255 ->
  rx_mLength (rx_build params (sReceivePsdu r)) <= aMaxPHYPacketSize ->
  rx_headerLength (rx_build params (sReceivePsdu r)) +
    ind_MsduLength params <= Z.of_nat IEEE802154_MAX_LENGTH ->
  exists r' frame' psdu',
    handleDataIndication params r = Returns 0 r' /\
    trace r' =
      trace r ++ [otPlatRadioReceiveDone frame' psdu' (sReceiveError r)] /\
    mLength frame' = rx_mLength (rx_build params (sReceivePsdu r)) /\
    mLqi frame' = ind_MpduLinkQuality params /\
    mChannel frame' = sChannel r /\
    mPower frame' = Z.quot (ind_MpduLinkQuality params - 256) 2 /\
    -128 <= mPower frame' <= 0 /\
    otPlatRadioGetNoiseFloor r' = mPower frame' /\
    sState r' = kStateReceive /\
    ready_to_receive r'.
Proof.
  intros (Hwf & Hup & Hmx & Hl0) Hlqi Hfit Hin.
  pose proof (wf_rx_ref _ Hwf) as Href.
  pose proof (all_from_sound rssi_ok 256 0 (ind_MpduLinkQuality params)
                rssi_ok_all ltac:(lia)) as Hrssi.
  unfold rssi_ok in Hrssi.
  apply andb_true_iff in Hrssi as [Hrssi Hhi].
  apply andb_true_iff in Hrssi as [Hi8 Hlo].
  apply Z.eqb_eq in Hi8. apply Z.leb_le in Hlo, Hhi.
  unfold handleDataIndication. rewrite Hup, Hmx, Hl0.
  cbn [negb Z.eqb]. cbv zeta.
  unfold psdu_of, set_psdu_of, PlatformRadioSignal.
  repeat (progress (rewrite ?Href; radio_simpl;
                    cbn [mLength with_mLength with_reception mPsdu])).
  replace (aMaxPHYPacketSize <? _) with false
    by (symmetry; apply Z.ltb_ge; exact Hfit).
  replace (Z.of_nat IEEE802154_MAX_LENGTH <? _) with false
    by (symmetry; apply Z.ltb_ge; exact Hin).
  eexists _, _, _. split; [reflexivity |].
  unfold otPlatRadioGetNoiseFloor, ready_to_receive. radio_simpl.
  cbn [mLength mLqi mChannel mPower with_mLength with_reception].
  rewrite Hi8.
  split; [reflexivity |]. split; [reflexivity |]. split; [reflexivity |].
  split; [reflexivity |]. split; [reflexivity |].
  split; [cbn [mPower with_reception]; lia |].
  split; [reflexivity |]. split; [reflexivity |].
  split; [| repeat split; assumption].
  destruct Hwf as [H1 H2 H3 H4 H5 H6 H7 H8].
  split; radio_simpl; cbn [mPsdu with_mLength with_reception];
    try assumption.
  rewrite length_memcpy, length_rx_build. exact H6.
Qed.

Lemma indication_delivers_and_frees_slot_witness :
  ready_to_receive receiving_radio /\
  0 <= ind_MpduLinkQuality scenario3_indication <= 255 /\
  rx_mLength (rx_build scenario3_indication (sReceivePsdu receiving_radio))
    <= aMaxPHYPacketSize /\
  rx_headerLength (rx_build scenario3_indication
                     (sReceivePsdu receiving_radio)) +
    ind_MsduLength scenario3_indication <= Z.of_nat IEEE802154_MAX_LENGTH /\
  exists r' frame',
    handleDataIndication scenario3_indication receiving_radio =
      Returns 0 r' /\
    mPower frame' = -28 /\
    otPlatRadioGetNoiseFloor r' = mPower frame' /\
    ready_to_receive r'.
Proof.
  assert (H1 : ready_to_receive receiving_radio).
  { split; [| repeat split].
    split; try reflexivity.
    - vm_compute. split; [discriminate | reflexivity].
    - apply (bool_decide_unpack _). vm_compute. exact I. }
  assert (H2 : 0 <= ind_MpduLinkQuality scenario3_indication <= 255)
    by (vm_compute; split; discriminate).
  assert (H3 : rx_mLength (rx_build scenario3_indication
                             (sReceivePsdu receiving_radio))
               <= aMaxPHYPacketSize) by (vm_compute; discriminate).
  assert (H4 : rx_headerLength (rx_build scenario3_indication
                                  (sReceivePsdu receiving_radio)) +
               ind_MsduLength scenario3_indication
               <= Z.of_nat IEEE802154_MAX_LENGTH)
    by (vm_compute; discriminate).
  split; [exact H1 |]. split; [exact H2 |]. split; [exact H3 |].
  split; [exact H4 |].
  destruct (indication_delivers_and_frees_slot scenario3_indication
              receiving_radio H1 H2 H3 H4)
    as (r' & frame' & psdu' & Hr & _ & _ & _ & _ & Hp & _ & Hn & _ & Hrdy).
  exists r', frame'. split; [exact Hr |].
  split; [rewrite Hp; reflexivity |]. split; [exact Hn | exact Hrdy].
Defined.

(** ** X11: the keys written to the key table *)

Lemma key_table_writes_app a b :
  key_table_writes (a ++ b) = key_table_writes a ++ key_table_writes b.
Proof. apply omap_app. Qed.

Lemma sync_children_frame idx count s :
  ot (sync_children idx count s).2 = ot s /\
  key_table_writes (trace (sync_children idx count s).2) =
    key_table_writes (trace s).
Proof.
  revert count s. induction idx as [| i idx IH]; intros count s;
    [split; reflexivity |].
  cbn [sync_children].
  destruct (negb (isValid _)); [apply IH |].
  match goal with
  | |- context [sync_children idx ?c ?s'] => destruct (IH c s') as [H1 H2]
  end.
  rewrite H1, H2. radio_simpl. rewrite key_table_writes_app. cbn.
  rewrite app_nil_r. split; reflexivity.
Qed.

Lemma sync_routers_frame routers count s :
  ot (sync_routers routers count s).2 = ot s /\
  key_table_writes (trace (sync_routers routers count s).2) =
    key_table_writes (trace s).
Proof.
  revert count s. induction routers as [| r routers IH]; intros count s;
    [split; reflexivity |].
  cbn [sync_routers].
  match goal with
  | |- context [sync_routers routers ?c ?s'] => destruct (IH c s') as [H1 H2]
  end.
  rewrite H1, H2. radio_simpl. rewrite key_table_writes_app. cbn.
  rewrite app_nil_r. split; reflexivity.
Qed.

Lemma sync_device_table_frame s :
  ot (sync_device_table s).2 = ot s /\
  key_table_writes (trace (sync_device_table s).2) =
    key_table_writes (trace s).
Proof.
  unfold sync_device_table.
  destruct (negb (bool_decide (ot_DeviceRole (ot s) = kDeviceRoleChild))).
  - destruct (sync_children_frame [0; 1; 2; 3; 4] 0 s) as [H1 H2].
    destruct (sync_children [0; 1; 2; 3; 4] 0 s) as [count s1].
    cbn [snd] in H1, H2. rewrite H1.
    match goal with
    | |- context [sync_routers ?rs ?c s1] =>
        destruct (sync_routers_frame rs c s1) as [H3 H4];
        destruct (sync_routers rs c s1) as [count2 s2]
    end.
    cbn [snd] in *. radio_simpl. rewrite key_table_writes_app, H4, H2, H3, H1.
    cbn. rewrite app_nil_r. split; reflexivity.
  - destruct (ot_ParentInfo (ot s)); cbn [snd]; radio_simpl;
      rewrite !key_table_writes_app; cbn; rewrite !app_nil_r;
      split; reflexivity.
Qed.

Lemma u32_small x : 0 <= x < 2 ^ 32 -> u32 x = x.
Proof. intros H. unfold u32. apply Z.mod_small. lia. Qed.

Lemma u32_range x : 0 <= u32 x < 2 ^ 32.
Proof. unfold u32. apply Z.mod_pos_bound. lia. Qed.

Lemma key_index_byte q : 0 <= q -> u8 (Z.land q 0x7F + 1) = Z.land q 0x7F + 1.
Proof.
  intros Hq. apply u8_small. change 0x7F with (Z.ones 7).
  rewrite Z.land_ones by lia.
  pose proof (Z.mod_pos_bound q (2 ^ 7) ltac:(lia)). lia.
Qed.

(** The loop over the three key generations: the keys of the sequence
    numbers other than 0 go to consecutive slots from [storeCount] on. *)
Lemma sync_keys_writes sz idx tKeySeq count storeCount k s x :
  LookupData k = x :: [0; 0; 0; 0; 0; 0; 0; 0xFF] ->
  0 <= storeCount ->
  storeCount + Z.of_nat (length idx) < 256 ->
  let qs := filter (fun q => 0 < q) (map (fun i => u32 (tKeySeq + i)) idx) in
  (sync_keys sz idx tKeySeq count storeCount k s).1 =
    storeCount + Z.of_nat (length qs) /\
  key_table_writes (trace (sync_keys sz idx tKeySeq count storeCount k s).2) =
    key_table_writes (trace s) ++
      imap (fun j q => (storeCount + Z.of_nat j,
                        take 16 (ot_MacKey (ot s) q), key_lookup_data q)) qs /\
  ot (sync_keys sz idx tKeySeq count storeCount k s).2 = ot s.
Proof.
  revert storeCount k s x. induction idx as [| i idx IH];
    intros storeCount k s x Hl H0 Hlt; cbn zeta.
  - cbn. rewrite Z.add_0_r, app_nil_r. repeat split.
  - cbn [sync_keys map length] in *.
    pose proof (u32_range (tKeySeq + i)) as Hq.
    destruct (Z.ltb_spec 0 (u32 (tKeySeq + i))) as [Hpos | Hzero].
    + rewrite filter_cons_True by exact Hpos.
      match goal with
      | |- context [sync_keys sz idx tKeySeq count ?sc ?k' ?s'] =>
          destruct (IH sc k' s' (u8 (Z.land (u32 (tKeySeq + i)) 0x7F + 1)))
            as (H1 & H2 & H3)
      end.
      { cbn [LookupData]. rewrite Hl. reflexivity. }
      { rewrite u8_small by lia. lia. }
      { rewrite u8_small by lia. lia. }
      rewrite H1, H2, H3. radio_simpl.
      rewrite u8_small by lia. cbn [length imap].
      rewrite key_table_writes_app, <- app_assoc.
      cbn [key_table_writes omap Key LookupData app].
      rewrite Hl, key_index_byte by lia.
      split; [lia |]. split; [| reflexivity].
      f_equal. unfold key_lookup_data. rewrite Z.add_0_r.
      cbn [wr Z.to_nat]. f_equal.
      apply imap_ext. intros j q _. cbn. do 2 f_equal. lia.
    + rewrite filter_cons_False by lia.
      apply (IH storeCount k s x Hl H0). lia.
Qed.

Lemma key_generations_three c :
  2 <= c < 2 ^ 32 - 1 -> key_generations c = [c - 1; c; c + 1].
Proof.
  intros Hc. unfold key_generations. cbn [map].
  rewrite (u32_small (c - 1)) by lia.
  rewrite !u32_small by lia.
  rewrite !filter_cons_True by lia. rewrite filter_nil.
  repeat (f_equal; try lia).
Qed.

(** X11.  On a trigger, [keyChangeCallback] first sets a key sequence
    counter of 0 to 2.  With the counter [c] it then hands the
    co-processor the keys of the sequence numbers [c - 1], [c] and
    [c + 1], leaving out 0 (so two keys when [c] is 1): they go, in this
    order, to the slots 0, 1, .. of macKeyTable, each with the 16 bytes
    that the stack derives for its sequence number and with the look-up
    data that starts with the key index [(q mod 128) + 1] and ends with
    0xFF; the last call sets macKeyTableEntries to their number. *)
Theorem key_table_sync
    (OT_NET_KEY_SEQUENCE OT_THREAD_CHILD_ADDED OT_THREAD_CHILD_REMOVED
       OT_NET_ROLE OT_THREAD_LINK_ACCEPT usage_data usage_data_request
       sizeof_tKeyDescriptor aFlags : Z)
    (k0 : M_KeyDescriptor_thread) (s : radio) :
  Z.land aFlags
    (Z.lor (Z.lor (Z.lor (Z.lor OT_NET_KEY_SEQUENCE OT_THREAD_CHILD_ADDED)
                     OT_THREAD_CHILD_REMOVED) OT_NET_ROLE)
       OT_THREAD_LINK_ACCEPT) <> 0 ->
  let c :=
    if ot_KeySequenceCounter (ot s) =? 0 then 2
    else ot_KeySequenceCounter (ot s) in
  exists s',
    keyChangeCallback OT_NET_KEY_SEQUENCE OT_THREAD_CHILD_ADDED
      OT_THREAD_CHILD_REMOVED OT_NET_ROLE OT_THREAD_LINK_ACCEPT usage_data
      usage_data_request sizeof_tKeyDescriptor aFlags k0 s = Returns tt s' /\
    key_table_writes (trace s') =
      key_table_writes (trace s) ++
        imap (fun j q => (Z.of_nat j, take 16 (ot_MacKey (ot s) q),
                          key_lookup_data q)) (key_generations c) /\
    last (trace s') =
      Some (MLME_SET_macKeyTableEntries
              (Z.of_nat (length (key_generations c)))) /\
    ot_KeySequenceCounter (ot s') = c /\
    (2 <= c < 2 ^ 32 - 1 -> key_generations c = [c - 1; c; c + 1]) /\
    (c = 1 -> key_generations c = [1; 2]).
Proof.
  intros Hflag c. unfold keyChangeCallback.
  destruct (Z.eqb_spec (Z.land aFlags
              (Z.lor (Z.lor (Z.lor (Z.lor OT_NET_KEY_SEQUENCE
                                      OT_THREAD_CHILD_ADDED)
                               OT_THREAD_CHILD_REMOVED) OT_NET_ROLE)
                 OT_THREAD_LINK_ACCEPT)) 0) as [E | _]; [contradiction |].
  cbn [negb]. cbn zeta.
  set (o' := if ot_KeySequenceCounter (ot (emit otPlatLog_Debg s)) =? 0
             then otSetKeySequenceCounter 2 (ot (emit otPlatLog_Debg s))
             else ot (emit otPlatLog_Debg s)).
  assert (Ho : ot_KeySequenceCounter o' = c /\ ot_MacKey o' = ot_MacKey (ot s)).
  { unfold o', c. radio_simpl.
    destruct (ot_KeySequenceCounter (ot s) =? 0); split; reflexivity. }
  destruct Ho as [Hc Hk].
  destruct (sync_device_table_frame (set_ot o' (emit otPlatLog_Debg s)))
    as [H1 H2].
  radio_simpl in H1. radio_simpl in H2.
  rewrite key_table_writes_app in H2. cbn in H2. rewrite app_nil_r in H2.
  radio_simpl. rewrite Hc.
  destruct (sync_device_table (set_ot o' (emit otPlatLog_Debg s)))
    as [count s1].
  cbn [fst snd] in H1, H2.
  match goal with
  | |- context [sync_keys ?sz ?idx ?t ?cnt ?sc ?k ?st] =>
      destruct (sync_keys_writes sz idx t cnt sc k st 0 eq_refl
                  ltac:(lia) ltac:(cbn; lia)) as (H3 & H4 & H5);
      destruct (sync_keys sz idx t cnt sc k st) as [storeCount s2]
  end.
  cbn [fst snd] in H3, H4, H5. radio_simpl in H4. radio_simpl in H5.
  fold (key_generations c) in H3, H4.
  eexists. split; [reflexivity |]. radio_simpl.
  split.
  { rewrite key_table_writes_app.
    change (key_table_writes [MLME_SET_macKeyTableEntries storeCount])
      with (@nil (Z * list Z * list Z)).
    rewrite app_nil_r, H4, H2, H1, Hk.
    reflexivity. }
  split; [rewrite last_snoc, H3; reflexivity |].
  split; [rewrite H5, H1; exact Hc |].
  split; [apply key_generations_three |].
  intros ->. reflexivity.
Qed.

(** A stack whose key sequence counter is 0: the counter becomes 2 and the
    keys 1, 2 and 3 are written. *)
Lemma key_table_sync_witness :
  let s := radio_init ot_fresh_example in
  Z.land 1 (Z.lor (Z.lor (Z.lor (Z.lor 1 2) 4) 8) 16) <> 0 /\
  exists s',
    keyChangeCallback 1 2 4 8 16 100 101 36 1 tKeyDescriptor_zero s =
      Returns tt s' /\
    key_table_writes (trace s') =
      [(0, replicate 16 1, key_lookup_data 1);
       (1, replicate 16 2, key_lookup_data 2);
       (2, replicate 16 3, key_lookup_data 3)] /\
    last (trace s') = Some (MLME_SET_macKeyTableEntries 3) /\
    ot_KeySequenceCounter (ot s') = 2.
Proof.
  intros s.
  assert (H : Z.land 1 (Z.lor (Z.lor (Z.lor (Z.lor 1 2) 4) 8) 16) <> 0)
    by discriminate.
  split; [exact H |].
  destruct (key_table_sync 1 2 4 8 16 100 101 36 1 tKeyDescriptor_zero s H)
    as (s' & Hr & Hw & Hl & Hc & _).
  exists s'. split; [exact Hr |]. split; [exact Hw |].
  split; [exact Hl | exact Hc].
Defined.

(** ** X12, X13: the device table of a crowded node and of a child *)

Lemma sync_keys_size sz idx tKeySeq count storeCount k s :
  sCurDeviceTableSize (sync_keys sz idx tKeySeq count storeCount k s).2 =
    sCurDeviceTableSize s.
Proof.
  revert storeCount k s. induction idx as [| i idx IH];
    intros storeCount k s; [reflexivity |].
  cbn [sync_keys]. destruct (0 <? u32 (tKeySeq + i)); [| apply IH].
  rewrite IH. reflexivity.
Qed.

Lemma length_registered_routers o :
  (length (valid_children o) + length (registered_routers o) <= 5)%nat /\
  (length (valid_children o) + length (registered_routers o))%nat =
    Nat.min 5 (length (valid_children o) + length (ot_NeighborRouters o)).
Proof.
  pose proof (length_valid_children o) as H.
  unfold registered_routers. rewrite length_take. lia.
Qed.

(** The device list of a node that is not a child, however many
    neighbours it has. *)
Lemma sync_device_table_truncates s :
  ot_DeviceRole (ot s) <> kDeviceRoleChild ->
  wf_otInstance (ot s) ->
  let n :=
    Z.of_nat (length (valid_children (ot s)) +
              length (registered_routers (ot s))) in
  (sync_device_table s).1 = n /\
  trace (sync_device_table s).2 =
    trace s ++
      device_table_writes 0
        (map (fun c => spec_descriptor (ot_PanId (ot s)) (ci_mRloc16 c)
                         (ci_mExtAddress c)) (valid_children (ot s)) ++
         map (fun r => spec_descriptor (ot_PanId (ot s)) (ri_mRloc16 r)
                         (ri_mExtAddress r)) (registered_routers (ot s))) ++
      [MLME_SET_macDeviceTableEntries n] /\
  ot (sync_device_table s).2 = ot s.
Proof.
  intros Hrole [Hwc Hwr]. cbn zeta. unfold sync_device_table.
  rewrite bool_decide_eq_false_2 by exact Hrole. cbn [negb].
  pose proof (length_valid_children (ot s)) as Hv.
  pose proof (length_registered_routers (ot s)) as [Hle _].
  destruct (sync_children_spec [0; 1; 2; 3; 4] 0 s) as (H1 & H2 & H3);
    [lia | cbn; lia | exact Hwc |].
  fold (valid_children (ot s)) in H1, H2.
  destruct (sync_children [0; 1; 2; 3; 4] 0 s) as [count s1].
  cbn [fst snd] in H1, H2, H3. rewrite H3, H1.
  rewrite Z.add_0_l in *.
  rewrite u8_small by lia.
  replace (Z.to_nat (5 - Z.of_nat (length (valid_children (ot s)))))
    with (5 - length (valid_children (ot s)))%nat by lia.
  fold (registered_routers (ot s)).
  destruct (sync_routers_spec (registered_routers (ot s))
              (Z.of_nat (length (valid_children (ot s)))) s1)
    as (H4 & H5 & H6); [lia | lia | |].
  { unfold registered_routers. apply Forall_take. exact Hwr. }
  destruct (sync_routers _ _ s1) as [count2 s2].
  cbn [fst snd] in H4, H5, H6. radio_simpl. cbn [fst snd]. radio_simpl.
  rewrite H4, H5, H6, H2, H3.
  rewrite device_table_writes_app, length_map.
  rewrite Z.add_0_l, <- !app_assoc.
  rewrite Nat2Z.inj_add. repeat split.
Qed.

(** X12.  The device table never gets more than five entries.  On a
    trigger in a role other than child, with N valid children among the
    indices 0..4 and any number M of neighbouring routers, the descriptors
    written are those of the children and of the first [5 - N] routers
    only, in the slots 0 to [min 5 (N + M) - 1]; the count written to
    macDeviceTableEntries, and kept as the device-table size, is
    [min 5 (N + M)]. *)
Theorem device_table_is_capped
    (OT_NET_KEY_SEQUENCE OT_THREAD_CHILD_ADDED OT_THREAD_CHILD_REMOVED
       OT_NET_ROLE OT_THREAD_LINK_ACCEPT usage_data usage_data_request
       sizeof_tKeyDescriptor aFlags : Z)
    (k0 : M_KeyDescriptor_thread) (s : radio) :
  Z.land aFlags
    (Z.lor (Z.lor (Z.lor (Z.lor OT_NET_KEY_SEQUENCE OT_THREAD_CHILD_ADDED)
                     OT_THREAD_CHILD_REMOVED) OT_NET_ROLE)
       OT_THREAD_LINK_ACCEPT) <> 0 ->
  ot_DeviceRole (ot s) <> kDeviceRoleChild ->
  wf_otInstance (ot s) ->
  let n :=
    Nat.min 5 (length (valid_children (ot s)) +
               length (ot_NeighborRouters (ot s))) in
  exists s' keys,
    keyChangeCallback OT_NET_KEY_SEQUENCE OT_THREAD_CHILD_ADDED
      OT_THREAD_CHILD_REMOVED OT_NET_ROLE OT_THREAD_LINK_ACCEPT usage_data
      usage_data_request sizeof_tKeyDescriptor aFlags k0 s = Returns tt s' /\
    trace s' =
      trace s ++ [otPlatLog_Debg] ++
        device_table_writes 0
          (map (fun c => spec_descriptor (ot_PanId (ot s)) (ci_mRloc16 c)
                           (ci_mExtAddress c)) (valid_children (ot s)) ++
           map (fun r => spec_descriptor (ot_PanId (ot s)) (ri_mRloc16 r)
                           (ri_mExtAddress r))
             (take (5 - length (valid_children (ot s)))
                (ot_NeighborRouters (ot s)))) ++
        [MLME_SET_macDeviceTableEntries (Z.of_nat n)] ++ keys /\
    Forall is_key_table_write keys /\
    sCurDeviceTableSize s' = Z.of_nat n /\
    (n <= 5)%nat.
Proof.
  intros Hflag Hrole Hwf n. unfold keyChangeCallback.
  destruct (Z.eqb_spec (Z.land aFlags
              (Z.lor (Z.lor (Z.lor (Z.lor OT_NET_KEY_SEQUENCE
                                      OT_THREAD_CHILD_ADDED)
                               OT_THREAD_CHILD_REMOVED) OT_NET_ROLE)
                 OT_THREAD_LINK_ACCEPT)) 0) as [E | _]; [contradiction |].
  cbn [negb]. cbn zeta.
  set (o' := if ot_KeySequenceCounter (ot (emit otPlatLog_Debg s)) =? 0
             then otSetKeySequenceCounter 2 (ot (emit otPlatLog_Debg s))
             else ot (emit otPlatLog_Debg s)).
  assert (Ho : ot_DeviceRole o' = ot_DeviceRole (ot s) /\
               ot_PanId o' = ot_PanId (ot s) /\
               ot_ChildInfoByIndex o' = ot_ChildInfoByIndex (ot s) /\
               ot_NeighborRouters o' = ot_NeighborRouters (ot s)).
  { unfold o'. radio_simpl.
    destruct (ot_KeySequenceCounter (ot s) =? 0); repeat split. }
  destruct Ho as (Ho1 & Ho2 & Ho3 & Ho4).
  assert (Hvc : valid_children o' = valid_children (ot s)).
  { unfold valid_children. rewrite Ho3. reflexivity. }
  assert (Hrr : registered_routers o' = registered_routers (ot s)).
  { unfold registered_routers. rewrite Hvc, Ho4. reflexivity. }
  destruct (sync_device_table_truncates (set_ot o' (emit otPlatLog_Debg s)))
    as (H1 & H2 & H3).
  { radio_simpl. rewrite Ho1. exact Hrole. }
  { radio_simpl. destruct Hwf as [Hwc Hwr]. split.
    - rewrite Ho3. exact Hwc.
    - rewrite Ho4. exact Hwr. }
  radio_simpl in H1. radio_simpl in H2. radio_simpl in H3.
  rewrite Hvc, Hrr in H1. rewrite Hvc, Hrr, Ho2 in H2.
  destruct (length_registered_routers (ot s)) as [_ Hmin]. fold n in Hmin.
  rewrite Hmin in H1, H2.
  destruct (sync_device_table (set_ot o' (emit otPlatLog_Debg s)))
    as [count s1].
  cbn [fst snd] in H1, H2, H3.
  match goal with
  | |- context [sync_keys ?sz ?idx ?t ?c ?sc ?k ?st] =>
      destruct (sync_keys_spec sz idx t c sc k st) as (keys & Hk & Hf);
      pose proof (sync_keys_size sz idx t c sc k st) as Hsz;
      destruct (sync_keys sz idx t c sc k st) as [storeCount s2]
  end.
  cbn [snd] in Hk, Hsz. radio_simpl in Hk. radio_simpl in Hsz.
  eexists _, (keys ++ [MLME_SET_macKeyTableEntries storeCount]).
  split; [reflexivity |]. radio_simpl.
  split; [| split; [| split]].
  - rewrite Hk, H2, <- !app_assoc. reflexivity.
  - apply Forall_app. split; [exact Hf |]. repeat constructor.
  - rewrite Hsz. exact H1.
  - unfold n. lia.
Qed.

(** A router with two valid children and six neighbouring routers: the
    children and the first three routers are written, and the count 5. *)
Lemma device_table_is_capped_witness :
  let s := radio_init ot_crowded_example in
  Z.land 8 (Z.lor (Z.lor (Z.lor (Z.lor 1 2) 4) 8) 16) <> 0 /\
  ot_DeviceRole (ot s) <> kDeviceRoleChild /\
  wf_otInstance (ot s) /\
  length (valid_children (ot s)) = 2%nat /\
  length (ot_NeighborRouters (ot s)) = 6%nat /\
  exists s' keys,
    keyChangeCallback 1 2 4 8 16 100 101 36 8 tKeyDescriptor_zero s =
      Returns tt s' /\
    trace s' =
      trace s ++ [otPlatLog_Debg] ++
        device_table_writes 0
          (map (fun c => spec_descriptor (ot_PanId (ot s)) (ci_mRloc16 c)
                           (ci_mExtAddress c)) (valid_children (ot s)) ++
           map (fun r => spec_descriptor (ot_PanId (ot s)) (ri_mRloc16 r)
                           (ri_mExtAddress r))
             (take 3 (ot_NeighborRouters (ot s)))) ++
        [MLME_SET_macDeviceTableEntries 5] ++ keys /\
    sCurDeviceTableSize s' = 5.
Proof.
  intros s.
  assert (H1 : Z.land 8 (Z.lor (Z.lor (Z.lor (Z.lor 1 2) 4) 8) 16) <> 0)
    by discriminate.
  assert (H2 : ot_DeviceRole (ot s) <> kDeviceRoleChild) by discriminate.
  assert (Hwf : wf_otInstance (ot s)).
  { split.
    - intros i. cbn. destruct (i =? 0); [reflexivity |].
      destruct (i =? 3); reflexivity.
    - repeat constructor. }
  split; [exact H1 |]. split; [exact H2 |]. split; [exact Hwf |].
  split; [reflexivity |]. split; [reflexivity |].
  destruct (device_table_is_capped 1 2 4 8 16 100 101 36 8
              tKeyDescriptor_zero s H1 H2 Hwf)
    as (s' & keys & Hr & Ht & _ & Hsz & _).
  exists s', keys. split; [exact Hr |]. split; [exact Ht | exact Hsz].
Defined.

(** X13.  On a trigger in the role of a child the device table is the
    parent alone: its descriptor is written to slot 0 and the count is 1;
    if the stack has no parent a warning is logged and the count is 0.
    Children and neighbouring routers are not looked at.  Only writes to
    the key table follow. *)
Theorem child_registers_parent
    (OT_NET_KEY_SEQUENCE OT_THREAD_CHILD_ADDED OT_THREAD_CHILD_REMOVED
       OT_NET_ROLE OT_THREAD_LINK_ACCEPT usage_data usage_data_request
       sizeof_tKeyDescriptor aFlags : Z)
    (k0 : M_KeyDescriptor_thread) (s : radio) :
  Z.land aFlags
    (Z.lor (Z.lor (Z.lor (Z.lor OT_NET_KEY_SEQUENCE OT_THREAD_CHILD_ADDED)
                     OT_THREAD_CHILD_REMOVED) OT_NET_ROLE)
       OT_THREAD_LINK_ACCEPT) <> 0 ->
  ot_DeviceRole (ot s) = kDeviceRoleChild ->
  exists s' keys,
    keyChangeCallback OT_NET_KEY_SEQUENCE OT_THREAD_CHILD_ADDED
      OT_THREAD_CHILD_REMOVED OT_NET_ROLE OT_THREAD_LINK_ACCEPT usage_data
      usage_data_request sizeof_tKeyDescriptor aFlags k0 s = Returns tt s' /\
    trace s' =
      trace s ++ [otPlatLog_Debg] ++
        match ot_ParentInfo (ot s) with
        | Some parent =>
            [MLME_SET_macDeviceTable 0
               (device_descriptor (ot_PanId (ot s)) (ri_mRloc16 parent)
                  (ri_mExtAddress parent));
             MLME_SET_macDeviceTableEntries 1]
        | None => [otPlatLog_Warn; MLME_SET_macDeviceTableEntries 0]
        end ++ keys /\
    Forall is_key_table_write keys /\
    sCurDeviceTableSize s' =
      match ot_ParentInfo (ot s) with Some _ => 1 | None => 0 end.
Proof.
  intros Hflag Hrole. unfold keyChangeCallback.
  destruct (Z.eqb_spec (Z.land aFlags
              (Z.lor (Z.lor (Z.lor (Z.lor OT_NET_KEY_SEQUENCE
                                      OT_THREAD_CHILD_ADDED)
                               OT_THREAD_CHILD_REMOVED) OT_NET_ROLE)
                 OT_THREAD_LINK_ACCEPT)) 0) as [E | _]; [contradiction |].
  cbn [negb]. cbn zeta.
  set (o' := if ot_KeySequenceCounter (ot (emit otPlatLog_Debg s)) =? 0
             then otSetKeySequenceCounter 2 (ot (emit otPlatLog_Debg s))
             else ot (emit otPlatLog_Debg s)).
  assert (Ho : ot_DeviceRole o' = ot_DeviceRole (ot s) /\
               ot_PanId o' = ot_PanId (ot s) /\
               ot_ParentInfo o' = ot_ParentInfo (ot s)).
  { unfold o'. radio_simpl.
    destruct (ot_KeySequenceCounter (ot s) =? 0); repeat split. }
  destruct Ho as (Ho1 & Ho2 & Ho3).
  unfold sync_device_table. radio_simpl.
  rewrite Ho1, Hrole, bool_decide_eq_true_2 by reflexivity.
  cbn [negb]. rewrite Ho2, Ho3.
  destruct (ot_ParentInfo (ot s)) as [parent |]; radio_simpl.
  all: match goal with
       | |- context [sync_keys ?sz ?idx ?t ?c ?sc ?k ?st] =>
           destruct (sync_keys_spec sz idx t c sc k st) as (keys & Hk & Hf);
           pose proof (sync_keys_size sz idx t c sc k st) as Hsz;
           destruct (sync_keys sz idx t c sc k st) as [storeCount s2]
       end.
  all: cbn [snd] in Hk, Hsz; radio_simpl in Hk; radio_simpl in Hsz.
  all: eexists _, (keys ++ [MLME_SET_macKeyTableEntries storeCount]).
  all: split; [reflexivity |]; radio_simpl.
  all: split; [rewrite Hk, <- !app_assoc; reflexivity |].
  all: split; [apply Forall_app; split; [exact Hf | repeat constructor] |].
  all: exact Hsz.
Qed.

Lemma child_registers_parent_witness :
  let s := radio_init ot_child_example in
  Z.land 8 (Z.lor (Z.lor (Z.lor (Z.lor 1 2) 4) 8) 16) <> 0 /\
  ot_DeviceRole (ot s) = kDeviceRoleChild /\
  exists s' keys,
    keyChangeCallback 1 2 4 8 16 100 101 36 8 tKeyDescriptor_zero s =
      Returns tt s' /\
    trace s' =
      trace s ++ [otPlatLog_Debg] ++
        [MLME_SET_macDeviceTable 0
           (device_descriptor 0xFACE 0x0800 [8; 7; 6; 5; 4; 3; 2; 1]);
         MLME_SET_macDeviceTableEntries 1] ++ keys /\
    sCurDeviceTableSize s' = 1.
Proof.
  intros s.
  assert (H1 : Z.land 8 (Z.lor (Z.lor (Z.lor (Z.lor 1 2) 4) 8) 16) <> 0)
    by discriminate.
  split; [exact H1 |]. split; [reflexivity |].
  destruct (child_registers_parent 1 2 4 8 16 100 101 36 8
              tKeyDescriptor_zero s H1 eq_refl)
    as (s' & keys & Hr & Ht & _ & Hsz).
  exists s', keys. split; [exact Hr |]. split; [exact Ht | exact Hsz].
Defined.

(** ** X14: the EUI-64 *)

Lemma eui64_ok_all : all_from eui64_ok 0 (Z.to_nat 65536) = true.
Proof. vm_compute. reflexivity. Qed.

Lemma eui64_ok_u16 x : eui64_ok (u16 x) = true.
Proof.
  apply (all_from_sound eui64_ok (Z.to_nat 65536) 0); [exact eui64_ok_all |].
  unfold u16. pose proof (Z.mod_pos_bound x 65536 ltac:(lia)). lia.
Qed.

(** X14.  [otPlatRadioGetIeeeEui64] draws four random numbers and makes
    two bytes of each: the low byte, and the byte from bit 4 on (the shift
    is by 4, not by 8).  So the low nibble of every odd byte repeats the
    high nibble of the even byte before it, and the address depends on the
    12 low bits of each random number only: it carries 48 random bits. *)
Theorem eui64_has_48_random_bits (otPlatRandomGet otPlatRandomGet' : Z -> Z)
    (aIeeeEui64 : list Z) :
  length aIeeeEui64 = 8%nat ->
  let out := otPlatRadioGetIeeeEui64 otPlatRandomGet aIeeeEui64 in
  out =
    flat_map (fun i =>
                [Z.land (u16 (otPlatRandomGet i)) 0xFF;
                 Z.land (Z.shiftr (u16 (otPlatRandomGet i)) 4) 0xFF])
      [0; 1; 2; 3] /\
  (forall i, 0 <= i < 4 ->
     Z.land (rd out (2 * i + 1)) 0x0F = Z.shiftr (rd out (2 * i)) 4) /\
  ((forall i, 0 <= i < 4 ->
      Z.land (u16 (otPlatRandomGet' i)) 0xFFF =
        Z.land (u16 (otPlatRandomGet i)) 0xFFF) ->
   otPlatRadioGetIeeeEui64 otPlatRandomGet' aIeeeEui64 = out).
Proof.
  intros Hlen.
  assert (Hout : forall rnd,
            otPlatRadioGetIeeeEui64 rnd aIeeeEui64 =
              flat_map (fun i =>
                          [Z.land (u16 (rnd i)) 0xFF;
                           Z.land (Z.shiftr (u16 (rnd i)) 4) 0xFF])
                [0; 1; 2; 3]).
  { intros rnd.
    do 9 (destruct aIeeeEui64 as [| ? aIeeeEui64]; try discriminate).
    reflexivity. }
  cbv zeta. rewrite !Hout. split; [reflexivity |]. split.
  - intros i Hi.
    assert (Hc : i = 0 \/ i = 1 \/ i = 2 \/ i = 3) by lia.
    assert (Hn : forall r,
              Z.land (Z.land (Z.shiftr (u16 r) 4) 0xFF) 0x0F =
                Z.shiftr (Z.land (u16 r) 0xFF) 4).
    { intros r. pose proof (eui64_ok_u16 r) as H. unfold eui64_ok in H.
      apply andb_true_iff in H as [H _]. apply andb_true_iff in H as [H _].
      apply Z.eqb_eq in H. exact H. }
    destruct Hc as [-> | [-> | [-> | ->]]];
      [exact (Hn (otPlatRandomGet 0)) | exact (Hn (otPlatRandomGet 1))
      | exact (Hn (otPlatRandomGet 2)) | exact (Hn (otPlatRandomGet 3))].
  - intros Hlow. cbn [flat_map app].
    assert (Hb : forall i, 0 <= i < 4 ->
              Z.land (u16 (otPlatRandomGet' i)) 0xFF =
                Z.land (u16 (otPlatRandomGet i)) 0xFF /\
              Z.land (Z.shiftr (u16 (otPlatRandomGet' i)) 4) 0xFF =
                Z.land (Z.shiftr (u16 (otPlatRandomGet i)) 4) 0xFF).
    { intros i Hi.
      pose proof (eui64_ok_u16 (otPlatRandomGet i)) as H.
      pose proof (eui64_ok_u16 (otPlatRandomGet' i)) as H'.
      unfold eui64_ok in H, H'.
      apply andb_true_iff in H as [H H3]. apply andb_true_iff in H as [_ H2].
      apply andb_true_iff in H' as [H' H3'].
      apply andb_true_iff in H' as [_ H2'].
      apply Z.eqb_eq in H2, H3, H2', H3'.
      rewrite H2, H3, H2', H3', (Hlow i Hi). split; reflexivity. }
    destruct (Hb 0 ltac:(lia)) as [-> ->].
    destruct (Hb 1 ltac:(lia)) as [-> ->].
    destruct (Hb 2 ltac:(lia)) as [-> ->].
    destruct (Hb 3 ltac:(lia)) as [-> ->].
    reflexivity.
Qed.

Lemma eui64_has_48_random_bits_witness :
  let rnd := fun i : Z => 0x1234 + i in
  let rnd' := fun i : Z => 0xF234 + i in
  length (replicate 8 0) = 8%nat /\
  otPlatRadioGetIeeeEui64 rnd (replicate 8 0) =
    [0x34; 0x23; 0x35; 0x23; 0x36; 0x23; 0x37; 0x23] /\
  otPlatRadioGetIeeeEui64 rnd' (replicate 8 0) =
    otPlatRadioGetIeeeEui64 rnd (replicate 8 0).
Proof.
  intros rnd rnd'.
  destruct (eui64_has_48_random_bits rnd rnd' (replicate 8 0) eq_refl)
    as (Hout & _ & Hsame).
  split; [reflexivity |]. split; [exact Hout |].
  apply Hsame. intros i Hi.
  assert (Hc : i = 0 \/ i = 1 \/ i = 2 \/ i = 3) by lia.
  destruct Hc as [-> | [-> | [-> | ->]]]; reflexivity.
Defined.

(** ** X15: the coordinator flag *)

Ltac platform_simpl :=
  cbn [radio_of sIsCoordinator mBeaconPayload sDeviceCache calls
       set_radio_of set_sIsCoordinator set_mBeaconPayload set_sDeviceCache
       set_calls make].

(** X15.  [coordChangeCallback] keeps the coordinator flag in step with
    the role.  On a trigger with the role flag, a router or leader that is
    not yet a coordinator starts as one (one MLME-START with the stack's
    PAN id, the radio's channel and beacon and superframe order 15), and a
    node of another role that is a coordinator resets the MAC (one
    MLME-RESET that keeps the PIB); otherwise nothing is sent.  After it
    the flag is set exactly for routers and leaders, and the same trigger
    once more sends nothing.  A trigger without the role flag does
    nothing. *)
Theorem coordinator_follows_role (OT_NET_ROLE aFlags : Z) (p : platform) :
  let role := ot_DeviceRole (ot (radio_of p)) in
  let routing := role = kDeviceRoleRouter \/ role = kDeviceRoleLeader in
  let p' := coordChangeCallback OT_NET_ROLE aFlags p in
  (Z.land aFlags OT_NET_ROLE = 0 -> p' = p) /\
  (Z.land aFlags OT_NET_ROLE <> 0 ->
   (sIsCoordinator p' <> 0 <-> routing) /\
   (routing -> sIsCoordinator p = 0 ->
    calls p' =
      calls p ++
        [MLME_START_request_sync (ot_PanId (ot (radio_of p)))
           (sChannel (radio_of p)) 15 15 1 0 0]) /\
   (routing -> sIsCoordinator p <> 0 -> calls p' = calls p) /\
   (~ routing -> sIsCoordinator p <> 0 ->
    calls p' = calls p ++ [MLME_RESET_request_sync 0]) /\
   (~ routing -> sIsCoordinator p = 0 -> calls p' = calls p) /\
   radio_of p' = radio_of p /\
   coordChangeCallback OT_NET_ROLE aFlags p' = p').
Proof.
  cbv zeta. unfold coordChangeCallback. split.
  - intros ->. reflexivity.
  - intros Hflag. apply Z.eqb_neq in Hflag. rewrite Hflag. cbn [negb].
    destruct (decide (ot_DeviceRole (ot (radio_of p)) = kDeviceRoleRouter \/
                      ot_DeviceRole (ot (radio_of p)) = kDeviceRoleLeader))
      as [Hr | Hr].
    + rewrite bool_decide_eq_true_2 by exact Hr.
      destruct (Z.eqb_spec (sIsCoordinator p) 0) as [H0 | H0];
        platform_simpl; rewrite ?Hflag; cbn [negb];
        rewrite ?bool_decide_eq_true_2 by exact Hr;
        cbn [Z.eqb]; platform_simpl.
      * repeat split; try tauto; try congruence; try discriminate.
      * apply Z.eqb_neq in H0 as H0'. rewrite ?H0'.
        repeat split; try tauto; try congruence.
    + rewrite bool_decide_eq_false_2 by exact Hr.
      destruct (Z.eqb_spec (sIsCoordinator p) 0) as [H0 | H0];
        cbn [negb]; platform_simpl; rewrite ?Hflag; cbn [negb];
        rewrite ?bool_decide_eq_false_2 by exact Hr;
        cbn [Z.eqb negb]; platform_simpl.
      * rewrite H0. cbn [Z.eqb negb].
        repeat split; try tauto; try congruence.
      * repeat split; try tauto; try congruence.
Qed.

Lemma coordinator_follows_role_witness :
  let p := platform_example in
  Z.land 8 8 <> 0 /\
  sIsCoordinator p = 0 /\
  (ot_DeviceRole (ot (radio_of p)) = kDeviceRoleRouter \/
   ot_DeviceRole (ot (radio_of p)) = kDeviceRoleLeader) /\
  sIsCoordinator (coordChangeCallback 8 8 p) <> 0 /\
  calls (coordChangeCallback 8 8 p) =
    calls p ++ [MLME_START_request_sync 0xFACE 0 15 15 1 0 0] /\
  coordChangeCallback 8 8 (coordChangeCallback 8 8 p) =
    coordChangeCallback 8 8 p.
Proof.
  intros p.
  assert (H1 : Z.land 8 8 <> 0) by discriminate.
  assert (H2 : sIsCoordinator p = 0) by reflexivity.
  assert (H3 : ot_DeviceRole (ot (radio_of p)) = kDeviceRoleRouter \/
               ot_DeviceRole (ot (radio_of p)) = kDeviceRoleLeader)
    by (left; reflexivity).
  split; [exact H1 |]. split; [exact H2 |]. split; [exact H3 |].
  destruct (coordinator_follows_role 8 8 p) as [_ H].
  destruct (H H1) as (Hiff & Hstart & _ & _ & _ & _ & Hidem).
  split; [apply Hiff; exact H3 |]. split; [exact (Hstart H3 H2) |].
  exact Hidem.
Defined.

(** ** X16: the beacon payload *)

Lemma beacon_payload_layout (payload name xpan : list Z) :
  length payload = 32%nat -> length name = 16%nat -> length xpan = 8%nat ->
  memcpy (memcpy payload 2 (take 16 name)) 18 (take 8 xpan) =
    take 2 payload ++ name ++ xpan ++ drop 26 payload /\
  memcpy (memcpy payload 18 (take 8 xpan)) 2 (take 16 name) =
    take 2 payload ++ name ++ xpan ++ drop 26 payload.
Proof.
  intros Hp Hn Hx.
  do 33 (destruct payload as [| ? payload]; try discriminate).
  do 17 (destruct name as [| ? name]; try discriminate).
  do 9 (destruct xpan as [| ? xpan]; try discriminate).
  split; reflexivity.
Qed.

(** X16.  The beacon payload has three fields that the two setters keep
    apart: bytes 0 and 1, which no setter touches (protocol id 3 and 0x91
    from the start); the 16 bytes of the network name from byte 2; the 8
    bytes of the extended PAN id from byte 18.  After both setters, in
    either order, the payload is these fields followed by the six bytes it
    had at the end, and this is the payload the last request hands to the
    co-processor.  A setter returns none exactly when the co-processor
    accepts both its requests; the second request is not made when the
    first is refused, and the stored payload is changed all the same. *)
Theorem beacon_payload_fields (aNetworkName aExtPanId : list Z)
    (status1 status2 status3 status4 : Z) (p : platform) :
  length (mBeaconPayload p) = 32%nat ->
  length aNetworkName = 16%nat ->
  length aExtPanId = 8%nat ->
  let payload :=
    take 2 (mBeaconPayload p) ++ aNetworkName ++ aExtPanId ++
    drop 26 (mBeaconPayload p) in
  let r1 := otPlatRadioSetNetworkName aNetworkName status1 status2 p in
  let r2 := otPlatRadioSetExtendedPanId aExtPanId status3 status4 r1.2 in
  let q1 := otPlatRadioSetExtendedPanId aExtPanId status3 status4 p in
  let q2 := otPlatRadioSetNetworkName aNetworkName status1 status2 q1.2 in
  mBeaconPayload r2.2 = payload /\
  mBeaconPayload q2.2 = payload /\
  (r1.1 = kThreadError_None <->
   status1 = MAC_SUCCESS /\ status2 = MAC_SUCCESS) /\
  (r2.1 = kThreadError_None <->
   status3 = MAC_SUCCESS /\ status4 = MAC_SUCCESS) /\
  calls r1.2 =
    calls p ++
      MLME_SET_macBeaconPayload (mBeaconPayload r1.2) ::
      (if status1 =? MAC_SUCCESS
       then [MLME_SET_macBeaconPayloadLength 32] else []) /\
  calls r2.2 =
    calls r1.2 ++
      MLME_SET_macBeaconPayload payload ::
      (if status3 =? MAC_SUCCESS
       then [MLME_SET_macBeaconPayloadLength 32] else []).
Proof.
  intros Hp Hn Hx. cbv zeta.
  destruct (beacon_payload_layout _ _ _ Hp Hn Hx) as [H1 H2].
  unfold otPlatRadioSetNetworkName, otPlatRadioSetExtendedPanId.
  platform_simpl.
  destruct (Z.eqb_spec status1 MAC_SUCCESS) as [E1 | E1];
    destruct (Z.eqb_spec status2 MAC_SUCCESS) as [E2 | E2];
    destruct (Z.eqb_spec status3 MAC_SUCCESS) as [E3 | E3];
    destruct (Z.eqb_spec status4 MAC_SUCCESS) as [E4 | E4];
    cbn [fst snd]; platform_simpl; rewrite ?H1, ?H2, <- ?app_assoc;
    repeat split; try reflexivity; try tauto; try discriminate;
    intros [? ?]; congruence.
Qed.

Lemma beacon_payload_fields_witness :
  let p := platform_example in
  let name := [0x54; 0x68; 0x72; 0x65; 0x61; 0x64] ++ replicate 10 0 in
  let xpan := [0xDE; 0xAD; 0; 0xBE; 0xEF; 0; 0xCA; 0xFE] in
  length (mBeaconPayload p) = 32%nat /\
  length name = 16%nat /\
  length xpan = 8%nat /\
  mBeaconPayload
    (otPlatRadioSetExtendedPanId xpan 0 0
       (otPlatRadioSetNetworkName name 0 0 p).2).2 =
    [3; 0x91] ++ name ++ xpan ++ replicate 6 0.
Proof.
  intros p name xpan.
  split; [reflexivity |]. split; [reflexivity |]. split; [reflexivity |].
  exact (proj1 (beacon_payload_fields name xpan 0 0 0 0 p
                  eq_refl eq_refl eq_refl)).
Defined.

(** ** X17, X18: beacons *)

Lemma pend_ok_all : all_from pend_ok 0 256 = true.
Proof. vm_compute. reflexivity. Qed.

Lemma pend_ok_byte b :
  0 <= b < 256 ->
  u8 (Z.land b 7) = Z.land b 7 /\
  u8 (Z.shiftr (Z.land b 112) 4) = Z.shiftr (Z.land b 112) 4 /\
  0 <= Z.land b 7 <= 7 /\ 0 <= Z.shiftr (Z.land b 112) 4 <= 7.
Proof.
  intros Hb.
  pose proof (all_from_sound pend_ok 256 0 b pend_ok_all ltac:(lia)) as H.
  unfold pend_ok in H.
  repeat (apply andb_true_iff in H as [H ?]).
  repeat match goal with
         | H : (_ =? _) = true |- _ => apply Z.eqb_eq in H
         | H : (_ <=? _) = true |- _ => apply Z.leb_le in H
         end.
  lia.
Qed.

(** X17.  What [handleBeaconNotify] does with a beacon it does not report.
    With the interface down it returns 1 and changes nothing.  A beacon
    whose coordinator address is not an extended one is logged as invalid
    and answered 1.  Any other beacon is answered 0 and sets the noise
    floor to [(LinkQuality - 256) / 2], also when it is then dropped:
    because it is secured, because its payload is empty, or because the
    payload does not start with the protocol id 3 and version 1.  In none
    of these cases is the active-scan callback called. *)
Theorem beacon_not_reported (sizeof_mNetworkName sizeof_mExtendedPanId : Z)
    (params : MLME_BEACON_NOTIFY_indication_pset) (p : platform) :
  0 <= rd (bn_bytes params) 23 < 256 ->
  let r :=
    handleBeaconNotify sizeof_mNetworkName sizeof_mExtendedPanId params p in
  let pd := PanDescriptor params in
  let Sdu := beacon_sdu_offset (bn_bytes params) in
  (ot_InterfaceUp (ot (radio_of p)) = false -> r = (1, p)) /\
  (ot_InterfaceUp (ot (radio_of p)) = true ->
   AddressMode (pd_Coord pd) <> 3 ->
   r = (1, set_radio_of (emit otPlatLog_Warn (radio_of p)) p)) /\
  (ot_InterfaceUp (ot (radio_of p)) = true ->
   AddressMode (pd_Coord pd) = 3 ->
   SecurityLevel (pd_Security pd) <> 0 \/
   rd (bn_bytes params) (Sdu - 1) <= 0 \/
   rd (bn_bytes params) Sdu <> 3 \/
   Z.land (rd (bn_bytes params) (Sdu + 1)) 15 <> 1 ->
   r = (0, set_radio_of
             (set_noiseFloor (i8 (Z.quot (pd_LinkQuality pd - 256) 2))
                (radio_of p)) p)).
Proof.
  intros Hb. cbv zeta. unfold handleBeaconNotify, beacon_sdu_offset.
  destruct (pend_ok_byte _ Hb) as (-> & -> & Hs & He).
  split; [intros ->; reflexivity |].
  split.
  - intros -> Hm. apply Z.eqb_neq in Hm. rewrite Hm. reflexivity.
  - intros -> -> Hdrop. cbn [negb Z.eqb Pos.eqb].
    destruct (Z.eqb_spec (SecurityLevel (pd_Security (PanDescriptor params)))
                0) as [E0 | E0]; cbn [negb]; [| reflexivity].
    replace (24 + 2 * Z.land (rd (bn_bytes params) 23) 7 +
             8 * Z.shiftr (Z.land (rd (bn_bytes params) 23) 112) 4)
      with (25 + 2 * Z.land (rd (bn_bytes params) 23) 7 +
            8 * Z.shiftr (Z.land (rd (bn_bytes params) 23) 112) 4 - 1)
      by lia.
    set (Sdu := 25 + 2 * Z.land (rd (bn_bytes params) 23) 7 +
                8 * Z.shiftr (Z.land (rd (bn_bytes params) 23) 112) 4) in *.
    destruct (Z.ltb_spec 0 (rd (bn_bytes params) (Sdu - 1))) as [Hl | Hl];
      [| reflexivity].
    destruct (Z.eqb_spec (rd (bn_bytes params) Sdu) 3) as [E3 | E3];
      cbn [andb]; [| reflexivity].
    assert (Hv : u8 (Z.land (rd (bn_bytes params) (Sdu + 1)) 15) <> 1).
    { destruct Hdrop as [H | [H | [H | H]]]; try contradiction; try lia.
      intros Hu. apply H. rewrite u8_small in Hu; [exact Hu |].
      change 15 with (Z.ones 4). rewrite Z.land_ones by lia.
      pose proof (Z.mod_pos_bound (rd (bn_bytes params) (Sdu + 1)) (2 ^ 4)
                    ltac:(lia)). lia. }
    apply Z.eqb_neq in Hv. rewrite Hv. reflexivity.
Qed.

Lemma beacon_not_reported_witness :
  let params := beacon_example [2; 0x91; 0x54] in
  let p := platform_example in
  0 <= rd (bn_bytes params) 23 < 256 /\
  ot_InterfaceUp (ot (radio_of p)) = true /\
  AddressMode (pd_Coord (PanDescriptor params)) = 3 /\
  rd (bn_bytes params) (beacon_sdu_offset (bn_bytes params)) <> 3 /\
  handleBeaconNotify 17 8 params p =
    (0, set_radio_of (set_noiseFloor (-28) (radio_of p)) p).
Proof.
  intros params p.
  assert (H1 : 0 <= rd (bn_bytes params) 23 < 256)
    by (vm_compute; split; [discriminate | reflexivity]).
  assert (H4 : rd (bn_bytes params) (beacon_sdu_offset (bn_bytes params))
               <> 3) by (vm_compute; discriminate).
  split; [exact H1 |]. split; [reflexivity |]. split; [reflexivity |].
  split; [exact H4 |].
  destruct (beacon_not_reported 17 8 params p H1) as (_ & _ & H).
  apply (H eq_refl eq_refl). right. right. left. exact H4.
Defined.

Lemma bytes_at_inside buf off m a n :
  0 <= off -> 0 <= a -> 0 <= n -> a + n <= m ->
  bytes_at buf (off + a) n = take (Z.to_nat n) (drop (Z.to_nat a)
                                                  (bytes_at buf off m)).
Proof.
  intros Hoff Ha Hn Hfit. unfold bytes_at.
  rewrite skipn_firstn_comm, take_take, drop_drop.
  replace (Z.to_nat off + Z.to_nat a)%nat with (Z.to_nat (off + a)) by lia.
  f_equal. lia.
Qed.

Lemma beacon_payload_init (DEVICE_TABLE_SIZE : nat) (s0 : radio)
    (name xpan : list Z) (st1 st2 st3 st4 : Z) :
  length name = 16%nat -> length xpan = 8%nat ->
  mBeaconPayload
    (otPlatRadioSetExtendedPanId xpan st3 st4
       (otPlatRadioSetNetworkName name st1 st2
          (platform_init DEVICE_TABLE_SIZE s0)).2).2 =
    [3; 0x91] ++ name ++ xpan ++ replicate 6 0.
Proof.
  intros Hn Hx.
  destruct (beacon_payload_layout ([3; 0x91] ++ replicate 30 0) name xpan
              eq_refl Hn Hx) as [H _].
  unfold otPlatRadioSetNetworkName, otPlatRadioSetExtendedPanId.
  platform_simpl.
  destruct (st1 =? MAC_SUCCESS); [destruct (st2 =? MAC_SUCCESS) |];
    cbn [fst snd]; platform_simpl;
    (destruct (st3 =? MAC_SUCCESS); [destruct (st4 =? MAC_SUCCESS) |]);
    cbn [fst snd]; platform_simpl; exact H.
Qed.

(** X18.  Network name and extended PAN id make the round trip through a
    beacon.  Let a node set its network name and its extended PAN id, in
    this order, starting from the initial beacon payload; and let another
    node, whose interface is up, get the indication of an unsecured beacon
    from a coordinator with an extended address whose payload is the 32
    bytes of the first node's beacon payload.  Then [handleBeaconNotify]
    calls the active-scan callback once, with the callback context, and the
    result carries the first node's network name (in the first 16 bytes of
    the name field) and extended PAN id, the coordinator's address and PAN
    id, the channel and link quality of the indication, and the power
    [(LinkQuality - 256) / 2], which is also the new noise floor. *)
Theorem beacon_round_trip (sizeof_mNetworkName : Z)
    (DEVICE_TABLE_SIZE : nat) (s0 : radio) (name xpan : list Z)
    (st1 st2 st3 st4 : Z)
    (params : MLME_BEACON_NOTIFY_indication_pset) (p : platform) :
  16 <= sizeof_mNetworkName ->
  length name = 16%nat ->
  length xpan = 8%nat ->
  let sender :=
    (otPlatRadioSetExtendedPanId xpan st3 st4
       (otPlatRadioSetNetworkName name st1 st2
          (platform_init DEVICE_TABLE_SIZE s0)).2).2 in
  let pd := PanDescriptor params in
  let Sdu := beacon_sdu_offset (bn_bytes params) in
  0 <= rd (bn_bytes params) 23 < 256 ->
  ot_InterfaceUp (ot (radio_of p)) = true ->
  AddressMode (pd_Coord pd) = 3 ->
  SecurityLevel (pd_Security pd) = 0 ->
  0 < rd (bn_bytes params) (Sdu - 1) ->
  bytes_at (bn_bytes params) Sdu 32 = mBeaconPayload sender ->
  exists result,
    handleBeaconNotify sizeof_mNetworkName 8 params p =
      (0, make (ActiveScanCallback (sActiveScanCallback (radio_of p))
                  (sActiveScanContext (radio_of p)) result)
            (set_radio_of (set_noiseFloor (as_mRssi result) (radio_of p))
               p)) /\
    take 16 (as_mNetworkName result) = name /\
    as_mExtendedPanId result = xpan /\
    as_mExtAddress result = take 8 (Address (pd_Coord pd)) /\
    as_mPanId result = GETLE16 (PANId (pd_Coord pd)) /\
    as_mChannel result = pd_LogicalChannel pd /\
    as_mLqi result = pd_LinkQuality pd /\
    as_mRssi result = i8 (Z.quot (pd_LinkQuality pd - 256) 2).
Proof.
  intros HsN Hn Hx sender pd Sdu Hb Hup Hm Hsec Hlen Hpay.
  unfold sender in Hpay. rewrite beacon_payload_init in Hpay by assumption.
  destruct (pend_ok_byte _ Hb) as (Hu1 & Hu2 & Hs & He).
  assert (HSdu : 25 <= Sdu) by (unfold Sdu, beacon_sdu_offset; lia).
  assert (Hrd : forall j, 0 <= j < 32 ->
            rd (bn_bytes params) (Sdu + j) =
              rd ([3; 0x91] ++ name ++ xpan ++ replicate 6 0) j).
  { intros j Hj. rewrite <- Hpay, rd_bytes_at by lia.
    rewrite decide_True by lia. reflexivity. }
  pose proof (Hrd 0 ltac:(lia)) as H0. rewrite Z.add_0_r in H0.
  pose proof (Hrd 1 ltac:(lia)) as H1.
  change (rd _ 0) with 3 in H0. change (rd _ 1) with 0x91 in H1.
  assert (Hname : take 16 (bytes_at (bn_bytes params) (Sdu + 2)
                             sizeof_mNetworkName) = name).
  { unfold bytes_at at 1. rewrite take_take.
    replace (16 `min` Z.to_nat sizeof_mNetworkName)%nat with (Z.to_nat 16)
      by lia.
    fold (bytes_at (bn_bytes params) (Sdu + 2) 16).
    rewrite (bytes_at_inside _ Sdu 32) by lia. rewrite Hpay.
    change (drop (Z.to_nat 2) ([3; 145] ++ name ++ xpan ++ replicate 6 0))
      with (name ++ xpan ++ replicate 6 0).
    apply take_app_length'. rewrite Hn. reflexivity. }
  assert (Hxpan : bytes_at (bn_bytes params) (Sdu + 18) 8 = xpan).
  { rewrite (bytes_at_inside _ Sdu 32) by lia. rewrite Hpay.
    change ([3; 145] ++ name ++ xpan ++ replicate 6 0)
      with (3 :: 145 :: name ++ xpan ++ replicate 6 0).
    change (Z.to_nat 18) with (2 + 16)%nat.
    rewrite <- drop_drop. cbn [drop]. rewrite drop_0.
    rewrite drop_app_length' by (rewrite Hn; reflexivity).
    apply take_app_length'. rewrite Hx. reflexivity. }
  exists (mkActiveScanResult
            (take 8 (Address (pd_Coord pd)))
            (bytes_at (bn_bytes params) (Sdu + 2) sizeof_mNetworkName)
            (bytes_at (bn_bytes params) (Sdu + 18) 8)
            (GETLE16 (PANId (pd_Coord pd)))
            (pd_LogicalChannel pd)
            (i8 (Z.quot (pd_LinkQuality pd - 256) 2))
            (pd_LinkQuality pd)).
  split.
  - unfold handleBeaconNotify. rewrite Hup, Hu1, Hu2. cbn [negb].
    fold pd. rewrite Hm, Hsec. cbn [Z.eqb Pos.eqb negb].
    replace (24 + 2 * Z.land (rd (bn_bytes params) 23) 7 +
             8 * Z.shiftr (Z.land (rd (bn_bytes params) 23) 112) 4)
      with (Sdu - 1) by (unfold Sdu, beacon_sdu_offset; lia).
    fold (beacon_sdu_offset (bn_bytes params)). fold Sdu.
    apply Z.ltb_lt in Hlen. rewrite Hlen, H0, H1.
    cbn [Z.eqb Pos.eqb andb].
    change (u8 (Z.land 145 15) =? 1) with true. reflexivity.
  - cbn [as_mNetworkName as_mExtendedPanId as_mExtAddress as_mPanId
         as_mChannel as_mLqi as_mRssi].
    split; [exact Hname |]. split; [exact Hxpan |]. repeat split.
Qed.

Lemma beacon_round_trip_witness :
  let name := [0x54; 0x68; 0x72; 0x65; 0x61; 0x64] ++ replicate 10 0 in
  let xpan := [0xDE; 0xAD; 0; 0xBE; 0xEF; 0; 0xCA; 0xFE] in
  let sender :=
    (otPlatRadioSetExtendedPanId xpan 0 0
       (otPlatRadioSetNetworkName name 0 0
          (platform_init 10 receiving_radio)).2).2 in
  let params := beacon_example (mBeaconPayload sender) in
  let p := platform_example in
  16 <= 17 /\
  length name = 16%nat /\
  length xpan = 8%nat /\
  0 <= rd (bn_bytes params) 23 < 256 /\
  ot_InterfaceUp (ot (radio_of p)) = true /\
  AddressMode (pd_Coord (PanDescriptor params)) = 3 /\
  SecurityLevel (pd_Security (PanDescriptor params)) = 0 /\
  0 < rd (bn_bytes params) (beacon_sdu_offset (bn_bytes params) - 1) /\
  bytes_at (bn_bytes params) (beacon_sdu_offset (bn_bytes params)) 32 =
    mBeaconPayload sender /\
  exists result,
    calls (handleBeaconNotify 17 8 params p).2 =
      [ActiveScanCallback 0 0 result] /\
    take 16 (as_mNetworkName result) = name /\
    as_mExtendedPanId result = xpan.
Proof.
  intros name xpan sender params p.
  assert (H1 : 16 <= 17) by lia.
  assert (H4 : 0 <= rd (bn_bytes params) 23 < 256)
    by (vm_compute; split; [discriminate | reflexivity]).
  assert (H8 : 0 < rd (bn_bytes params)
                     (beacon_sdu_offset (bn_bytes params) - 1))
    by (vm_compute; reflexivity).
  assert (H9 : bytes_at (bn_bytes params)
                 (beacon_sdu_offset (bn_bytes params)) 32 =
               mBeaconPayload sender) by (vm_compute; reflexivity).
  split; [exact H1 |]. split; [reflexivity |]. split; [reflexivity |].
  split; [exact H4 |]. split; [reflexivity |]. split; [reflexivity |].
  split; [reflexivity |]. split; [exact H8 |]. split; [exact H9 |].
  destruct (beacon_round_trip 17 10 receiving_radio name xpan 0 0 0 0 params
              p H1 eq_refl eq_refl H4 eq_refl eq_refl eq_refl H8 H9)
    as (result & Hr & Hname & Hxpan & _).
  exists result. rewrite Hr. split; [reflexivity |].
  split; [exact Hname | exact Hxpan].
Defined.

(** ** The cache of frame counters *)

Lemma getCachedDevice_loop_found a cache :
  forall i fe k e,
    cached a cache = Some (k, e) ->
    (getCachedDevice_loop a cache i fe).1 = Some (i + Z.of_nat k).
Proof.
  unfold cached.
  induction cache as [| d rest IH]; intros i fe k e Hc; [discriminate |].
  cbn [list_find] in Hc. cbn [getCachedDevice_loop].
  destruct (decide (cache_match a d)) as [Hm | Hm].
  - injection Hc as <- <-. destruct Hm as [Ha He].
    apply Z.eqb_neq in Ha. rewrite Ha. cbn [negb].
    rewrite bool_decide_eq_true_2 by exact He.
    cbn [fst]. f_equal. lia.
  - destruct (list_find (cache_match a) rest) as [[k' e'] |] eqn:Hr;
      [| discriminate].
    cbn in Hc. injection Hc as <- <-.
    assert (Hn : (getCachedDevice_loop a rest (i + 1) fe).1 =
                 Some (i + Z.of_nat (S k')) /\
                 (getCachedDevice_loop a rest (i + 1) (u8 i)).1 =
                 Some (i + Z.of_nat (S k'))).
    { split; erewrite IH by reflexivity; f_equal; lia. }
    destruct Hn as [Hn1 Hn2].
    destruct (Z.eqb_spec (isActive d) 0) as [E0 | E0]; cbn [negb].
    + destruct (fe =? 255); assumption.
    + rewrite bool_decide_eq_false_2; [assumption |].
      intros He. apply Hm. split; assumption.
Qed.

Lemma getCachedDevice_loop_free a cache :
  forall i fe,
    0 <= i -> i + Z.of_nat (length cache) <= 255 ->
    cached a cache = None ->
    getCachedDevice_loop a cache i fe =
      (None,
       if fe =? 255 then
         match first_free cache with
         | Some (k, _) => i + Z.of_nat k
         | None => 255
         end
       else fe).
Proof.
  unfold cached, first_free.
  induction cache as [| d rest IH]; intros i fe Hi Hlen Hc.
  - cbn. destruct (Z.eqb_spec fe 255) as [-> | _]; reflexivity.
  - cbn [list_find] in *. cbn [getCachedDevice_loop].
    cbn [length] in Hlen.
    destruct (decide (cache_match a d)) as [Hm | Hm]; [discriminate |].
    destruct (list_find (cache_match a) rest) as [[k' e'] |] eqn:Hr;
      [discriminate |].
    destruct (Z.eqb_spec (isActive d) 0) as [E0 | E0]; cbn [negb].
    + rewrite decide_True by exact E0.
      destruct (Z.eqb_spec fe 255) as [-> | Hfe].
      * rewrite IH by (try reflexivity; lia).
        rewrite u8_small by lia.
        destruct (Z.eqb_spec i 255) as [-> | _]; [lia |].
        f_equal. lia.
      * rewrite IH by (try reflexivity; lia).
        apply Z.eqb_neq in Hfe. rewrite Hfe. reflexivity.
    + rewrite decide_False by exact E0.
      rewrite bool_decide_eq_false_2
        by (intros He; apply Hm; split; assumption).
      rewrite IH by (try reflexivity; lia).
      destruct (fe =? 255); [| reflexivity].
      destruct (list_find (fun d0 => isActive d0 = 0) rest) as [[k e] |];
        cbn; f_equal; lia.
Qed.

Lemma first_free_bound cache k e :
  first_free cache = Some (k, e) ->
  (k < length cache)%nat /\ cache !! k = Some e /\ isActive e = 0.
Proof.
  unfold first_free. intros H. apply list_find_Some in H as (Hl & He & _).
  split; [eapply lookup_lt_Some; exact Hl |]. split; assumption.
Qed.

(** [deviceCache_getCachedDevice] on an array of at most 255 entries: the
    entry of the device, or else the first free entry, made the device's;
    with neither, the pointer it returns is outside the array. *)
Lemma deviceCache_getCachedDevice_spec a cache :
  (length cache <= 255)%nat ->
  deviceCache_getCachedDevice a cache =
    match cached a cache with
    | Some (k, _) => Some (Z.of_nat k, cache)
    | None =>
        match first_free cache with
        | Some (k, _) =>
            Some (Z.of_nat k,
                  <[k := mkDeviceCache 1 (take 8 a) (replicate 4 0)
                           (replicate 4 0)]> cache)
        | None => None
        end
    end.
Proof.
  intros Hlen. unfold deviceCache_getCachedDevice.
  destruct (cached a cache) as [[k e] |] eqn:Hc.
  - pose proof (getCachedDevice_loop_found a cache 0 255 k e Hc) as H.
    destruct (getCachedDevice_loop a cache 0 255) as [o fe].
    cbn [fst] in H. subst o. reflexivity.
  - rewrite getCachedDevice_loop_free by (try assumption; lia).
    cbn [Z.eqb Pos.eqb].
    destruct (first_free cache) as [[k e] |] eqn:Hf.
    + apply first_free_bound in Hf as (Hk & _ & _).
      replace (0 + Z.of_nat k <? Z.of_nat (length cache)) with true
        by (symmetry; apply Z.ltb_lt; lia).
      rewrite Z.add_0_l, Nat2Z.id. reflexivity.
    + replace (255 <? Z.of_nat (length cache)) with false
        by (symmetry; apply Z.ltb_ge; lia).
      reflexivity.
Qed.

Lemma memcpy_whole buf src :
  length src = length buf -> memcpy buf 0 src = src.
Proof.
  intros Hlen. unfold memcpy. apply list_eq. intros j.
  destruct (decide (j < length buf)%nat) as [Hj | Hj].
  - rewrite list_lookup_inserts by (cbn; lia).
    f_equal. cbn. lia.
  - rewrite !lookup_ge_None_2; [reflexivity | lia |].
    rewrite length_inserts. lia.
Qed.

Lemma alter_as_insert {A} (f : A -> A) (l : list A) k x :
  l !! k = Some x -> alter f k l = <[k := f x]> l.
Proof.
  revert k. induction l as [| y l IH]; intros [| k] H; try discriminate.
  - injection H as ->. reflexivity.
  - cbn in *. f_equal. apply IH. exact H.
Qed.

Lemma list_find_insert_neither {A} (P : A -> Prop)
    `{forall x, Decision (P x)} (l : list A) i x :
  (forall z, l !! i = Some z -> ~ P z) -> ~ P x ->
  list_find P (<[i := x]> l) = list_find P l.
Proof.
  revert i. induction l as [| y l IH]; intros i Hz Hx; [reflexivity |].
  destruct i as [| i]; cbn.
  - rewrite decide_False by exact Hx.
    rewrite decide_False by (apply Hz; reflexivity). reflexivity.
  - destruct (decide (P y)); [reflexivity |].
    rewrite IH; [reflexivity | | exact Hx].
    intros z Hl. apply Hz. exact Hl.
Qed.

Lemma list_find_insert_at {A} (P : A -> Prop)
    `{forall x, Decision (P x)} (l : list A) i x y :
  list_find P l = Some (i, y) -> P x ->
  list_find P (<[i := x]> l) = Some (i, x).
Proof.
  intros Hf Hx. apply list_find_Some in Hf as (Hl & _ & Hleast).
  apply list_find_Some. split; [| split; [exact Hx |]].
  - apply list_lookup_insert_eq. eapply lookup_lt_Some. exact Hl.
  - intros j z Hj Hlt. rewrite list_lookup_insert_ne in Hj by lia.
    eapply Hleast; eassumption.
Qed.

Lemma list_find_insert_first {A} (P : A -> Prop)
    `{forall x, Decision (P x)} (l : list A) i x :
  list_find P l = None -> P x -> (i < length l)%nat ->
  list_find P (<[i := x]> l) = Some (i, x).
Proof.
  intros Hf Hx Hi. apply list_find_None in Hf.
  apply list_find_Some. split; [| split; [exact Hx |]].
  - apply list_lookup_insert_eq. exact Hi.
  - intros j z Hj Hlt. rewrite list_lookup_insert_ne in Hj by lia.
    eapply Forall_lookup_1 in Hf; eassumption.
Qed.

Lemma cached_take a b cache :
  take 8 a = take 8 b -> cached a cache = cached b cache.
Proof.
  intros Hab. unfold cached. apply list_find_ext.
  intros d. unfold cache_match. rewrite Hab. reflexivity.
Qed.

(** One round of the first loop writes one entry: the entry of the device,
    or else the first free one. *)
Lemma cache_device_step dd cache cache' :
  (length cache <= 255)%nat ->
  cache_device dd cache = Some cache' ->
  exists k e0,
    cache !! k = Some e0 /\
    ((cached (dd_ExtAddress dd) cache = Some (k, e0) /\
      cache' = <[k := mark_device dd e0]> cache) \/
     (cached (dd_ExtAddress dd) cache = None /\ isActive e0 = 0 /\
      cache' =
        <[k := mark_device dd
                 (mkDeviceCache 1 (take 8 (dd_ExtAddress dd))
                    (replicate 4 0) (replicate 4 0))]> cache)).
Proof.
  intros Hlen. unfold cache_device.
  rewrite deviceCache_getCachedDevice_spec by exact Hlen.
  rewrite (cached_take (take 8 (dd_ExtAddress dd)) (dd_ExtAddress dd))
    by (rewrite take_take; reflexivity).
  rewrite take_take. change (8 `min` 8)%nat with 8%nat.
  destruct (cached (dd_ExtAddress dd) cache) as [[k e] |] eqn:Hc.
  - intros [= <-]. rewrite Nat2Z.id. exists k, e.
    pose proof Hc as Hc'. unfold cached in Hc'.
    apply list_find_Some in Hc' as (Hl & _ & _).
    split; [exact Hl |]. left. split; [reflexivity |].
    apply alter_as_insert. exact Hl.
  - destruct (first_free cache) as [[k e] |] eqn:Hf; [| discriminate].
    intros [= <-]. rewrite Nat2Z.id. exists k, e.
    apply first_free_bound in Hf as (Hk & Hl & H0).
    split; [exact Hl |]. right. split; [reflexivity |].
    split; [exact H0 |].
    erewrite alter_as_insert by (apply list_lookup_insert_eq; exact Hk).
    rewrite list_insert_insert_eq. reflexivity.
Qed.

Lemma cache_device_length dd cache cache' :
  cache_device dd cache = Some cache' -> length cache' = length cache.
Proof.
  unfold cache_device, deviceCache_getCachedDevice.
  destruct (getCachedDevice_loop _ cache 0 255) as [[i |] fe].
  - intros [= <-]. apply length_alter.
  - destruct (fe <? Z.of_nat (length cache)); [| discriminate].
    intros [= <-]. rewrite length_alter. apply length_insert.
Qed.

Lemma cache_match_mark a dd e :
  cache_match a (mark_device dd e) <-> take 8 a = take 8 (mExtAddr e).
Proof.
  unfold cache_match, mark_device. cbn. split; [tauto |].
  intros H. split; [discriminate | exact H].
Qed.

(** A round for another device leaves the entry of the device alone. *)
Lemma cache_device_other a dd cache cache' :
  (length cache <= 255)%nat ->
  take 8 (dd_ExtAddress dd) <> take 8 a ->
  cache_device dd cache = Some cache' ->
  cached a cache' = cached a cache.
Proof.
  intros Hlen Hne H.
  destruct (cache_device_step _ _ _ Hlen H)
    as (k & e0 & Hl & [[Hc ->] | (Hc & H0 & ->)]); unfold cached in *.
  - apply list_find_Some in Hc as (_ & [_ Hm] & _).
    apply list_find_insert_neither.
    + intros z Hz. rewrite Hl in Hz. injection Hz as <-.
      intros [_ Hz]. apply Hne. congruence.
    + rewrite cache_match_mark. intros Hz. apply Hne. congruence.
  - apply list_find_insert_neither.
    + intros z Hz. rewrite Hl in Hz. injection Hz as <-.
      intros [Hz _]. contradiction.
    + rewrite cache_match_mark. cbn. rewrite take_take.
      intros Hz. apply Hne. symmetry. exact Hz.
Qed.

(** A round for the device marks its entry and stores the frame
    counter. *)
Lemma cache_device_same a dd cache cache' :
  (length cache <= 255)%nat ->
  take 8 (dd_ExtAddress dd) = take 8 a ->
  cache_device dd cache = Some cache' ->
  exists k,
    cached a cache' =
      Some (k,
            mark_device dd
              match cached a cache with
              | Some (_, e) => e
              | None =>
                  mkDeviceCache 1 (take 8 (dd_ExtAddress dd))
                    (replicate 4 0) (replicate 4 0)
              end).
Proof.
  intros Hlen Heq H.
  rewrite <- (cached_take _ _ cache Heq), <- (cached_take _ _ cache' Heq).
  destruct (cache_device_step _ _ _ Hlen H)
    as (k & e0 & Hl & [[Hc ->] | (Hc & H0 & ->)]); exists k; rewrite Hc.
  - unfold cached in *. eapply list_find_insert_at; [exact Hc |].
    apply list_find_Some in Hc as (_ & [_ Hm] & _).
    apply cache_match_mark. exact Hm.
  - unfold cached in *. apply list_find_insert_first; [exact Hc | |].
    + apply cache_match_mark. cbn. rewrite take_take. reflexivity.
    + eapply lookup_lt_Some. exact Hl.
Qed.

Lemma cache_devices_app ds dd cache :
  cache_devices (ds ++ [dd]) cache =
    match cache_devices ds cache with
    | Some c => cache_device dd c
    | None => None
    end.
Proof.
  revert cache. induction ds as [| d ds IH]; intros cache; cbn.
  - destruct (cache_device dd cache); reflexivity.
  - destruct (cache_device d cache); [apply IH | reflexivity].
Qed.

Lemma cache_devices_length ds cache cache' :
  cache_devices ds cache = Some cache' -> length cache' = length cache.
Proof.
  revert cache. induction ds as [| d ds IH]; intros cache H; cbn in H.
  - injection H as <-. reflexivity.
  - destruct (cache_device d cache) as [c |] eqn:Hd; [| discriminate].
    rewrite (IH c) by assumption. eapply cache_device_length. exact Hd.
Qed.

Lemma table_counter_app a ds dd :
  table_counter a (ds ++ [dd]) =
    if bool_decide (take 8 (dd_ExtAddress dd) = take 8 a)
    then Some (take 4 (dd_FrameCounter dd)) else table_counter a ds.
Proof. unfold table_counter. rewrite fold_left_app. reflexivity. Qed.

Lemma table_counter_None a ds :
  table_counter a ds = None <->
  Forall (fun dd => take 8 (dd_ExtAddress dd) <> take 8 a) ds.
Proof.
  induction ds as [| dd ds IH] using rev_ind.
  - split; [constructor | reflexivity].
  - rewrite table_counter_app, Forall_app, Forall_singleton.
    case_bool_decide as Hd.
    + split; [discriminate | intros [_ Hn]; contradiction].
    + rewrite IH. tauto.
Qed.

Lemma cache_devices_snoc ds dd cache cache' :
  cache_devices (ds ++ [dd]) cache = Some cache' ->
  exists c, cache_devices ds cache = Some c /\
            cache_device dd c = Some cache'.
Proof.
  rewrite cache_devices_app.
  destruct (cache_devices ds cache) as [c |]; [| discriminate].
  intros H. exists c. split; [reflexivity | exact H].
Qed.

Lemma entry_marked_mono ds dd d :
  entry_marked ds d -> entry_marked (ds ++ [dd]) d.
Proof.
  intros [Hs H]. split; [exact Hs |].
  destruct H as [H | [H | [H He]]]; [tauto | tauto |].
  right. right. split; [exact H |]. apply Exists_app. left. exact He.
Qed.

Lemma entry_sized_mark dd e :
  entry_sized e -> entry_sized (mark_device dd e).
Proof.
  intros (H1 & H2 & H3). unfold entry_sized, mark_device. cbn.
  rewrite length_memcpy. tauto.
Qed.

(** While the first loop runs, every entry is free, in use, or marked for
    a descriptor that the loop has read. *)
Lemma cache_devices_marked ds :
  forall c0 c,
    (length c0 <= 255)%nat -> cache_wf c0 -> Forall descriptor_wf ds ->
    cache_devices ds c0 = Some c -> Forall (entry_marked ds) c.
Proof.
  induction ds as [| dd ds IH] using rev_ind; intros c0 c Hlen Hwf Hds H.
  - injection H as <-. eapply Forall_impl; [exact Hwf |].
    intros d [Hd Hs]. split; [exact Hs | tauto].
  - apply Forall_app in Hds as [Hds Hdd].
    apply Forall_singleton in Hdd as [Hx Hf].
    apply cache_devices_snoc in H as (c1 & H1 & H2).
    pose proof (IH _ _ Hlen Hwf Hds H1) as Hm.
    pose proof (cache_devices_length _ _ _ H1) as Hl1.
    assert (Hm' : Forall (entry_marked (ds ++ [dd])) c1).
    { eapply Forall_impl; [exact Hm |]. intros d. apply entry_marked_mono. }
    destruct (cache_device_step dd c1 c ltac:(lia) H2)
      as (k & e0 & Hl & [[Hc ->] | (Hc & H0 & ->)]);
      apply Forall_insert; try exact Hm'.
    + pose proof (Forall_lookup_1 _ _ _ _ Hm Hl) as [Hs _].
      split; [apply entry_sized_mark; exact Hs |].
      right. right. split; [reflexivity |].
      apply Exists_app. right. apply Exists_cons_hd.
      apply list_find_Some in Hc as (_ & [_ Hc] & _). exact Hc.
    + split.
      * apply entry_sized_mark. unfold entry_sized. cbn.
        rewrite length_take, Hx. repeat split.
      * right. right. split; [reflexivity |].
        apply Exists_app. right. apply Exists_cons_hd.
        cbn. rewrite take_take. reflexivity.
Qed.

(** The entry of a device after the first loop: marked, with the frame
    counter of the table and the frame counter that the last query saw;
    the entry as it was when the table does not have the device. *)
Lemma cache_devices_view a ds :
  forall c0 c,
    (length c0 <= 255)%nat -> cache_wf c0 -> Forall descriptor_wf ds ->
    cache_devices ds c0 = Some c ->
    match table_counter a ds with
    | None => cached a c = cached a c0
    | Some fc =>
        exists k e,
          cached a c = Some (k, e) /\ isActive e = 2 /\
          mFrameCounter e = fc /\
          mTimeoutFrameCounter e = seen_counter a c0
    end.
Proof.
  induction ds as [| dd ds IH] using rev_ind; intros c0 c Hlen Hwf Hds H.
  - injection H as <-. reflexivity.
  - pose proof Hds as Hds'.
    apply Forall_app in Hds as [Hds Hdd].
    apply Forall_singleton in Hdd as [Hx Hf].
    apply cache_devices_snoc in H as (c1 & H1 & H2).
    pose proof (IH _ _ Hlen Hwf Hds H1) as Hv.
    pose proof (cache_devices_marked _ _ _ Hlen Hwf Hds H1) as Hm.
    pose proof (cache_devices_length _ _ _ H1) as Hl1.
    rewrite table_counter_app. case_bool_decide as Hd.
    + destruct (cache_device_same a dd c1 c ltac:(lia) Hd H2) as [k Hk].
      eexists k, _. split; [exact Hk |]. split; [reflexivity |].
      assert (Hfc : forall e, length (mFrameCounter e) = 4%nat ->
                mFrameCounter (mark_device dd e) =
                  take 4 (dd_FrameCounter dd)).
      { intros e He. cbn. apply memcpy_whole.
        rewrite length_take, Hf, He. reflexivity. }
      destruct (cached a c1) as [[k1 e1] |] eqn:Hc1.
      * pose proof Hc1 as Hc1'. unfold cached in Hc1'.
        apply list_find_Some in Hc1' as (Hl & _ & _).
        pose proof (Forall_lookup_1 _ _ _ _ Hm Hl) as [(_ & Hs & _) _].
        split; [apply Hfc; exact Hs |]. cbn.
        destruct (table_counter a ds) as [fc |].
        -- destruct Hv as (k' & e' & Hv & _ & _ & Ht).
           injection Hv as <- <-. exact Ht.
        -- unfold seen_counter. rewrite <- Hv. reflexivity.
      * split; [apply Hfc; reflexivity |]. cbn.
        destruct (table_counter a ds) as [fc |].
        -- destruct Hv as (k' & e' & Hv & _). discriminate.
        -- unfold seen_counter. rewrite <- Hv. reflexivity.
    + rewrite (cache_device_other a dd c1 c ltac:(lia) Hd H2). exact Hv.
Qed.

Lemma map_fmap {A B} (f : A -> B) (l : list A) : map f l = f <$> l.
Proof. induction l as [| x l IH]; cbn; [| rewrite IH]; reflexivity. Qed.

Lemma cache_match_sweep a d :
  cache_match a (cacheDevices_sweep d) -> cache_match a d.
Proof.
  unfold cacheDevices_sweep, cache_match.
  destruct (Z.eqb_spec (isActive d) 1) as [E1 | E1].
  - cbn. intros [H _]. contradiction.
  - destruct (Z.eqb_spec (isActive d) 2) as [E2 | E2]; [| tauto].
    cbn. intros [_ H]. split; [lia | exact H].
Qed.

(** The second loop keeps the marked entry of a device, as an entry in
    use. *)
Lemma cached_sweep_marked a c k e :
  cached a c = Some (k, e) -> isActive e = 2 ->
  cached a (map cacheDevices_sweep c) =
    Some (k, mkDeviceCache 1 (mExtAddr e) (mFrameCounter e)
               (mTimeoutFrameCounter e)).
Proof.
  unfold cached. intros Hc He.
  apply list_find_Some in Hc as (Hl & [_ Hm] & Hleast).
  assert (Hs : cacheDevices_sweep e =
               mkDeviceCache 1 (mExtAddr e) (mFrameCounter e)
                 (mTimeoutFrameCounter e)).
  { unfold cacheDevices_sweep. rewrite He. reflexivity. }
  rewrite <- Hs, map_fmap. apply list_find_Some.
  split; [| split].
  - rewrite list_lookup_fmap, Hl. reflexivity.
  - rewrite Hs. split; [discriminate | exact Hm].
  - intros j y Hj Hlt. rewrite list_lookup_fmap in Hj.
    destruct (c !! j) as [y0 |] eqn:Hy; [| discriminate].
    injection Hj as <-. intros Hy'. apply cache_match_sweep in Hy'.
    eapply Hleast; eassumption.
Qed.

(** The second loop frees the entry of a device that the table does not
    have. *)
Lemma cached_sweep_unmarked a ds c :
  Forall (entry_marked ds) c -> table_counter a ds = None ->
  cached a (map cacheDevices_sweep c) = None.
Proof.
  intros Hm Ht. apply table_counter_None in Ht.
  unfold cached. rewrite map_fmap. apply list_find_None.
  apply Forall_fmap. eapply Forall_impl; [exact Hm |].
  intros d [_ Hd] Hs. cbn in Hs.
  pose proof (cache_match_sweep _ _ Hs) as [Hact Haddr].
  destruct Hd as [H | [H | [H He]]]; [contradiction | |].
  - unfold cacheDevices_sweep, cache_match in Hs. rewrite H in Hs.
    cbn in Hs. destruct Hs as [Hs _]. contradiction.
  - apply Exists_exists in He as (dd & Hin & Hdd).
    eapply Forall_forall in Ht; [| exact Hin].
    apply Ht. congruence.
Qed.

Lemma isDeviceActive_loop_spec a c :
  isDeviceActive_loop a c =
    match cached a c with
    | None => (0, c)
    | Some (k, d) =>
        if bool_decide (take 4 (mFrameCounter d) =
                        take 4 (mTimeoutFrameCounter d))
        then (0, c)
        else
          (1, <[k := mkDeviceCache (isActive d) (mExtAddr d)
                       (mFrameCounter d)
                       (memcpy (mTimeoutFrameCounter d) 0
                          (take 4 (mFrameCounter d)))]> c)
    end.
Proof.
  unfold cached. induction c as [| d rest IH]; [reflexivity |].
  cbn [isDeviceActive_loop list_find].
  destruct (decide (cache_match a d)) as [[Ha He] | Hm].
  - apply Z.eqb_neq in Ha. rewrite Ha. cbn [negb andb].
    rewrite bool_decide_eq_true_2 by exact He.
    case_bool_decide; reflexivity.
  - replace (negb (isActive d =? 0) &&
             bool_decide (take 8 a = take 8 (mExtAddr d))) with false.
    + rewrite IH.
      destruct (list_find (cache_match a) rest) as [[k e] |]; cbn;
        [| reflexivity].
      case_bool_decide; reflexivity.
    + symmetry. apply andb_false_iff.
      destruct (Z.eqb_spec (isActive d) 0) as [E0 | E0]; [left; reflexivity |].
      right. apply bool_decide_eq_false_2. intros He. apply Hm.
      split; assumption.
Qed.

(** The first loop on the platform: the cache goes through
    [cache_devices], and every round asks the co-processor for one
    descriptor. *)
Lemma cacheDevices_loop_spec idx table :
  forall p,
    cacheDevices_loop idx table p =
      match cache_devices (map table idx) (sDeviceCache p) with
      | Some c =>
          Some (mkPlatform (radio_of p) (sIsCoordinator p)
                  (mBeaconPayload p) c
                  (calls p ++ map MLME_GET_macDeviceTable idx))
      | None => None
      end.
Proof.
  induction idx as [| i rest IH]; intros p.
  - cbn. rewrite app_nil_r. destruct p; reflexivity.
  - cbn [cacheDevices_loop map cache_devices]. unfold cache_device.
    platform_simpl.
    destruct (deviceCache_getCachedDevice _ (sDeviceCache p))
      as [[k c] |]; [| reflexivity].
    rewrite IH. platform_simpl.
    change (alter _ (Z.to_nat k) c)
      with (alter (mark_device (table i)) (Z.to_nat k) c).
    destruct (cache_devices (map table rest) _); [| reflexivity].
    rewrite <- app_assoc. reflexivity.
Qed.

Lemma otPlatRadioIsDeviceActive_spec table addr p :
  otPlatRadioIsDeviceActive table addr p =
    match cache_devices (polled_devices table p) (sDeviceCache p) with
    | None => None
    | Some c =>
        if 255 <? Z.of_nat (length c) then None
        else
          let rc :=
            isDeviceActive_loop (flip_endian addr)
              (map cacheDevices_sweep c) in
          Some (rc.1,
                mkPlatform (radio_of p) (sIsCoordinator p)
                  (mBeaconPayload p) rc.2
                  (calls p ++
                   map (fun i => MLME_GET_macDeviceTable (Z.of_nat i))
                     (seq 0 (Z.to_nat (sCurDeviceTableSize (radio_of p))))))
    end.
Proof.
  unfold otPlatRadioIsDeviceActive, deviceCache_cacheDevices,
    polled_devices.
  rewrite cacheDevices_loop_spec, !map_map.
  destruct (cache_devices _ (sDeviceCache p)) as [c |]; [| reflexivity].
  platform_simpl.
  destruct (255 <? Z.of_nat (length c)); [reflexivity |].
  platform_simpl.
  destruct (isDeviceActive_loop _ _) as [r c']. reflexivity.
Qed.

Lemma filter_insert_length {A} (P : A -> Prop)
    `{forall x, Decision (P x)} (l : list A) k e x :
  l !! k = Some e ->
  (length (filter P (<[k := x]> l)) + (if decide (P e) then 1 else 0) =
   length (filter P l) + (if decide (P x) then 1 else 0))%nat.
Proof.
  revert k. induction l as [| y l IH]; intros [| k] Hl; try discriminate.
  - injection Hl as ->. change (<[0%nat := x]> (e :: l)) with (x :: l).
    rewrite !filter_cons. destruct (decide (P e)), (decide (P x)); cbn; lia.
  - change (<[S k := x]> (y :: l)) with (y :: <[k := x]> l).
    rewrite !filter_cons. specialize (IH k Hl).
    destruct (decide (P y)), (decide (P e)), (decide (P x));
      cbn [length] in *; lia.
Qed.

Lemma first_free_None cache :
  first_free cache = None -> active_entries cache = length cache.
Proof.
  unfold first_free, active_entries. intros H.
  apply list_find_None in H. induction H as [| d l Hd _ IH]; [reflexivity |].
  rewrite filter_cons, decide_True by exact Hd. cbn. rewrite IH. reflexivity.
Qed.

(** One round of the first loop takes at most one more entry into use and
    marks at most one more. *)
Lemma cache_device_counts dd cache cache' :
  (length cache <= 255)%nat ->
  cache_device dd cache = Some cache' ->
  (active_entries cache' <= S (active_entries cache))%nat /\
  (marked_entries cache' <=
   S (marked_entries cache))%nat.
Proof.
  intros Hlen H. unfold active_entries, marked_entries.
  destruct (cache_device_step _ _ _ Hlen H)
    as (k & e0 & Hl & [[_ ->] | (_ & _ & ->)]).
  - pose proof (filter_insert_length (fun d => isActive d <> 0) cache k e0
                  (mark_device dd e0) Hl) as H1.
    pose proof (filter_insert_length (fun d => isActive d = 2) cache k e0
                  (mark_device dd e0) Hl) as H2.
    destruct (decide (isActive e0 <> 0)), (decide (isActive e0 = 2)),
      (decide (isActive (mark_device dd e0) <> 0)),
      (decide (isActive (mark_device dd e0) = 2)); lia.
  - set (e := mark_device dd _).
    pose proof (filter_insert_length (fun d => isActive d <> 0) cache k e0
                  e Hl) as H1.
    pose proof (filter_insert_length (fun d => isActive d = 2) cache k e0
                  e Hl) as H2.
    destruct (decide (isActive e0 <> 0)), (decide (isActive e0 = 2)),
      (decide (isActive e <> 0)), (decide (isActive e = 2)); lia.
Qed.

(** With room for all descriptors, the first loop stays inside the
    array. *)
Lemma cache_devices_room ds :
  forall c0,
    (length c0 <= 255)%nat ->
    (active_entries c0 + length ds <= length c0)%nat ->
    exists c,
      cache_devices ds c0 = Some c /\
      (marked_entries c <=
       marked_entries c0 + length ds)%nat.
Proof.
  induction ds as [| dd ds IH]; intros c0 Hlen Hroom.
  - exists c0. split; [reflexivity | cbn; lia].
  - cbn [length] in Hroom. cbn [cache_devices].
    destruct (cache_device dd c0) as [c1 |] eqn:H1.
    + pose proof (cache_device_counts _ _ _ Hlen H1) as [Ha Hm].
      pose proof (cache_device_length _ _ _ H1) as Hl.
      destruct (IH c1) as (c & Hc & Hn); [lia | lia |].
      exists c. split; [exact Hc |]. cbn [length]. lia.
    + exfalso. unfold cache_device in H1.
      rewrite deviceCache_getCachedDevice_spec in H1 by exact Hlen.
      destruct (cached _ c0) as [[k e] |]; [discriminate |].
      destruct (first_free c0) as [[k e] |] eqn:Hf; [discriminate |].
      apply first_free_None in Hf. lia.
Qed.

Lemma cache_wf_unmarked c : cache_wf c -> marked_entries c = 0%nat.
Proof.
  unfold marked_entries.
  intros H. induction H as [| d l [Hd _] _ IH]; [reflexivity |].
  rewrite filter_cons, decide_False by lia. exact IH.
Qed.

(** After the second loop the entries are free or in use again, and those
    in use are the ones that the first loop has marked. *)
Lemma sweep_wf ds c :
  Forall (entry_marked ds) c ->
  cache_wf (map cacheDevices_sweep c) /\
  active_entries (map cacheDevices_sweep c) = marked_entries c.
Proof.
  unfold cache_wf, active_entries, marked_entries.
  intros H. induction H as [| d l [Hs Hd] _ [IH1 IH2]].
  - split; [constructor | reflexivity].
  - cbn [map]. rewrite !filter_cons.
    assert (Hd' :
      (isActive d <> 2 /\ isActive (cacheDevices_sweep d) = 0 /\
       entry_sized (cacheDevices_sweep d)) \/
      (isActive d = 2 /\ isActive (cacheDevices_sweep d) = 1 /\
       entry_sized (cacheDevices_sweep d))).
    { unfold cacheDevices_sweep.
      destruct Hd as [H | [H | [H _]]]; rewrite H; cbn [Z.eqb Pos.eqb].
      - left. split; [lia |]. split; [exact H | exact Hs].
      - left. split; [lia |]. split; [reflexivity |]. repeat split.
      - right. split; [reflexivity |]. split; [reflexivity | exact Hs]. }
    destruct Hd' as [(H2 & H0 & Hz) | (H2 & H1 & Hz)].
    + rewrite decide_False by (rewrite H0; tauto).
      rewrite decide_False by exact H2.
      split; [| exact IH2]. constructor; [| exact IH1]. tauto.
    + rewrite decide_True by (rewrite H1; discriminate).
      rewrite decide_True by exact H2.
      split; [| cbn [length]; rewrite IH2; reflexivity].
      constructor; [| exact IH1]. tauto.
Qed.

(** The last loop changes at most the frame counter that the query has
    seen, in the entry of the device. *)
Lemma isDeviceActive_loop_wf a c :
  cache_wf c ->
  let rc := isDeviceActive_loop a c in
  (rc.1 = 0 \/ rc.1 = 1) /\ cache_wf rc.2 /\
  length rc.2 = length c /\ active_entries rc.2 = active_entries c.
Proof.
  intros Hwf. cbv zeta. rewrite isDeviceActive_loop_spec.
  destruct (cached a c) as [[k d] |] eqn:Hc; [| cbn; tauto].
  case_bool_decide; [cbn; tauto |]. cbn [fst snd].
  unfold cached in Hc. apply list_find_Some in Hc as (Hl & _ & _).
  pose proof (Forall_lookup_1 _ _ _ _ Hwf Hl) as [Hd (H1 & H2 & H3)].
  split; [right; reflexivity |]. split; [| split].
  - apply Forall_insert; [exact Hwf |]. split; [exact Hd |].
    unfold entry_sized. cbn. rewrite length_memcpy. tauto.
  - apply length_insert.
  - unfold active_entries.
    pose proof (filter_insert_length (fun d => isActive d <> 0) c k d
                  (mkDeviceCache (isActive d) (mExtAddr d) (mFrameCounter d)
                     (memcpy (mTimeoutFrameCounter d) 0
                        (take 4 (mFrameCounter d)))) Hl) as Hn.
    cbn [isActive] in Hn. destruct (decide (isActive d <> 0)); lia.
Qed.

(** With a full cache, the first loop leaves the array at the first device
    that has no entry. *)
Lemma cache_devices_full ds :
  forall c0,
    (length c0 <= 255)%nat ->
    Forall (fun d => isActive d <> 0) c0 ->
    Exists (fun dd => cached (dd_ExtAddress dd) c0 = None) ds ->
    cache_devices ds c0 = None.
Proof.
  induction ds as [| dd ds IH]; intros c0 Hlen Hfull Hex.
  - inversion Hex.
  - cbn [cache_devices].
    destruct (cache_device dd c0) as [c1 |] eqn:H1; [| reflexivity].
    pose proof (cache_device_length _ _ _ H1) as Hl1.
    destruct (cache_device_step _ _ _ Hlen H1)
      as (k & e0 & Hl & [[Hc Hc1] | (_ & H0 & _)]).
    + apply IH; [lia | |].
      * subst c1. apply Forall_insert; [exact Hfull |]. discriminate.
      * apply Exists_cons in Hex as [Hex | Hex]; [congruence |].
        eapply Exists_impl; [exact Hex |]. intros dd' Hn. cbn in Hn.
        subst c1. unfold cached in *.
        rewrite list_find_insert_neither; [exact Hn | |].
        -- intros z Hz. rewrite Hl in Hz. injection Hz as <-.
           apply list_find_None in Hn.
           eapply Forall_lookup_1 in Hn; [exact Hn | exact Hl].
        -- rewrite cache_match_mark. intros Hz.
           apply list_find_None in Hn.
           eapply Forall_lookup_1 in Hn; [| exact Hl].
           apply Hn. split; [| exact Hz].
           eapply Forall_lookup_1 in Hfull; [exact Hfull | exact Hl].
    + exfalso. eapply Forall_lookup_1 in Hfull; [| exact Hl].
      contradiction.
Qed.

(** What a query answers and what it leaves in the cache, when it
    returns. *)
Lemma poll_verdict table addr p r p' :
  cache_wf (sDeviceCache p) ->
  Forall descriptor_wf (polled_devices table p) ->
  otPlatRadioIsDeviceActive table addr p = Some (r, p') ->
  cache_wf (sDeviceCache p') /\ radio_of p' = radio_of p /\
  match table_counter (flip_endian addr) (polled_devices table p) with
  | None => r = 0 /\ cached (flip_endian addr) (sDeviceCache p') = None
  | Some fc =>
      (r = 0 \/ r = 1) /\
      (r = 1 <-> fc <> seen_counter (flip_endian addr) (sDeviceCache p)) /\
      seen_counter (flip_endian addr) (sDeviceCache p') = fc
  end.
Proof.
  intros Hwf Hds H. rewrite otPlatRadioIsDeviceActive_spec in H.
  destruct (cache_devices _ (sDeviceCache p)) as [c |] eqn:Hc;
    [| discriminate].
  destruct (Z.ltb_spec 255 (Z.of_nat (length c))) as [| Hlen];
    [discriminate |].
  cbv zeta in H. injection H as <- <-. cbn [sDeviceCache radio_of].
  pose proof (cache_devices_length _ _ _ Hc) as Hl.
  assert (Hlen0 : (length (sDeviceCache p) <= 255)%nat) by lia.
  pose proof (cache_devices_marked _ _ _ Hlen0 Hwf Hds Hc) as Hm.
  pose proof (sweep_wf _ _ Hm) as [Hsw _].
  pose proof (isDeviceActive_loop_wf (flip_endian addr) _ Hsw)
    as (Hr & Hwf' & _).
  cbv zeta in Hr, Hwf'.
  split; [exact Hwf' |]. split; [reflexivity |].
  pose proof (cache_devices_view (flip_endian addr) _ _ _ Hlen0 Hwf Hds Hc)
    as Hv.
  destruct (table_counter (flip_endian addr) (polled_devices table p))
    as [fc |] eqn:Ht.
  - destruct Hv as (k & e & Hk & He & Hfc & Htfc).
    pose proof (cached_sweep_marked _ _ _ _ Hk He) as Hk'.
    pose proof Hk as Hk0. unfold cached in Hk0.
    apply list_find_Some in Hk0 as (Hlk & [_ Haddr] & _).
    pose proof (Forall_lookup_1 _ _ _ _ Hm Hlk) as [(_ & Hs2 & Hs3) _].
    split; [exact Hr |]. clear Hr Hwf'.
    rewrite isDeviceActive_loop_spec, Hk'. cbn [mFrameCounter
      mTimeoutFrameCounter isActive mExtAddr].
    rewrite !take_ge by lia. rewrite <- Htfc. subst fc.
    case_bool_decide as Heq; cbn [fst snd].
    + split; [split; [discriminate | intros Hn; contradiction] |].
      unfold seen_counter. rewrite Hk'. cbn. congruence.
    + split; [split; [intros _; exact Heq | reflexivity] |].
      unfold seen_counter, cached in *.
      erewrite list_find_insert_at;
        [| exact Hk' | split; [discriminate | exact Haddr]].
      cbn. apply memcpy_whole. lia.
  - rewrite isDeviceActive_loop_spec.
    rewrite (cached_sweep_unmarked _ _ _ Hm Ht). cbn [fst snd].
    split; [reflexivity |]. exact (cached_sweep_unmarked _ _ _ Hm Ht).
Qed.

(** X19.  [otPlatRadioIsDeviceActive] with room in the cache.  When the
    cache has at most 255 entries, and the entries in use and the devices
    of the MAC table fit into it together, the query returns 0 or 1.  It
    asks the co-processor for the descriptors 0, 1, ... of the table in
    this order and for nothing else, and changes nothing but the cache,
    which keeps its size, has again only free entries and entries in use,
    and has at most as many in use as the table has devices. *)
Theorem device_poll_returns (table : Z -> M_DeviceDescriptor)
    (addr : list Z) (p : platform) :
  let n := Z.to_nat (sCurDeviceTableSize (radio_of p)) in
  cache_wf (sDeviceCache p) ->
  Forall descriptor_wf (polled_devices table p) ->
  (length (sDeviceCache p) <= 255)%nat ->
  (active_entries (sDeviceCache p) + n <= length (sDeviceCache p))%nat ->
  exists r p',
    otPlatRadioIsDeviceActive table addr p = Some (r, p') /\
    (r = 0 \/ r = 1) /\
    cache_wf (sDeviceCache p') /\
    length (sDeviceCache p') = length (sDeviceCache p) /\
    (active_entries (sDeviceCache p') <= n)%nat /\
    calls p' =
      calls p ++
        map (fun i => MLME_GET_macDeviceTable (Z.of_nat i)) (seq 0 n) /\
    radio_of p' = radio_of p /\
    sIsCoordinator p' = sIsCoordinator p /\
    mBeaconPayload p' = mBeaconPayload p.
Proof.
  intros n Hwf Hds Hlen Hroom.
  assert (Hn : length (polled_devices table p) = n).
  { unfold polled_devices. rewrite length_map, length_seq. reflexivity. }
  destruct (cache_devices_room (polled_devices table p) (sDeviceCache p)
              Hlen ltac:(lia)) as (c & Hc & Hmk).
  rewrite (cache_wf_unmarked _ Hwf), Hn in Hmk.
  pose proof (cache_devices_length _ _ _ Hc) as Hl.
  pose proof (cache_devices_marked _ _ _ Hlen Hwf Hds Hc) as Hm.
  pose proof (sweep_wf _ _ Hm) as [Hsw Hact].
  pose proof (isDeviceActive_loop_wf (flip_endian addr) _ Hsw)
    as (Hr & Hwf' & Hl' & Hact').
  cbv zeta in Hr, Hwf', Hl', Hact'.
  rewrite otPlatRadioIsDeviceActive_spec, Hc.
  replace (255 <? Z.of_nat (length c)) with false
    by (symmetry; apply Z.ltb_ge; lia).
  cbv zeta. eexists _, _. split; [reflexivity |].
  cbn [sDeviceCache calls radio_of sIsCoordinator mBeaconPayload].
  split; [exact Hr |]. split; [exact Hwf' |].
  split; [rewrite Hl', length_map; exact Hl |].
  split; [rewrite Hact', Hact; simpl in Hmk; exact Hmk |].
  repeat split.
Qed.

(** X20.  When [otPlatRadioIsDeviceActive] returns, its answer for a
    device is read off the frame counter.  For a device that is in the MAC
    table the answer is 1 exactly when the frame counter of its (last)
    descriptor differs from the one that the last query for the device has
    seen, which is zero for a device that was not in the cache; the query
    remembers the new counter, so that the same query once more, with the
    table unchanged, answers 0.  For a device that is not in the MAC table
    the answer is 0 and the cache has no entry for it afterwards. *)
Theorem device_active_iff_counter_moved (table : Z -> M_DeviceDescriptor)
    (addr : list Z) (p : platform) (r : Z) (p' : platform) :
  cache_wf (sDeviceCache p) ->
  Forall descriptor_wf (polled_devices table p) ->
  otPlatRadioIsDeviceActive table addr p = Some (r, p') ->
  match table_counter (flip_endian addr) (polled_devices table p) with
  | None => r = 0 /\ cached (flip_endian addr) (sDeviceCache p') = None
  | Some fc =>
      (r = 0 \/ r = 1) /\
      (r = 1 <-> fc <> seen_counter (flip_endian addr) (sDeviceCache p)) /\
      seen_counter (flip_endian addr) (sDeviceCache p') = fc
  end /\
  forall r2 p2,
    otPlatRadioIsDeviceActive table addr p' = Some (r2, p2) -> r2 = 0.
Proof.
  intros Hwf Hds H.
  destruct (poll_verdict _ _ _ _ _ Hwf Hds H) as (Hwf' & Hrad & Hv).
  split; [exact Hv |]. intros r2 p2 H2.
  assert (Hpd : polled_devices table p' = polled_devices table p)
    by (unfold polled_devices; rewrite Hrad; reflexivity).
  rewrite <- Hpd in Hds, Hv.
  destruct (poll_verdict _ _ _ _ _ Hwf' Hds H2) as (_ & _ & Hv2).
  destruct (table_counter (flip_endian addr) (polled_devices table p'))
    as [fc |].
  - destruct Hv as (_ & _ & Hseen).
    destruct Hv2 as ([H0 | H1] & Hiff & _); [exact H0 |].
    apply Hiff in H1. congruence.
  - destruct Hv2 as [H0 _]. exact H0.
Qed.

(** X21.  [otPlatRadioIsDeviceActive] with a full cache.  When every
    entry of a cache of at most 255 entries is in use and the MAC table
    has a device without an entry, [deviceCache_getCachedDevice] finds
    no free entry for it, and the entry it then clears and fills is
    [sDeviceCache[255]], outside the array: the query has no defined
    result. *)
Theorem full_cache_overflows (table : Z -> M_DeviceDescriptor)
    (addr : list Z) (p : platform) (j : Z) :
  (length (sDeviceCache p) <= 255)%nat ->
  Forall (fun d => isActive d <> 0) (sDeviceCache p) ->
  0 <= j < sCurDeviceTableSize (radio_of p) ->
  cached (dd_ExtAddress (table j)) (sDeviceCache p) = None ->
  otPlatRadioIsDeviceActive table addr p = None.
Proof.
  intros Hlen Hfull Hj Hnew.
  rewrite otPlatRadioIsDeviceActive_spec.
  rewrite cache_devices_full; [reflexivity | exact Hlen | exact Hfull |].
  apply Exists_exists. exists (table j). split; [| exact Hnew].
  unfold polled_devices. apply list_elem_of_fmap.
  exists (Z.to_nat j). split; [rewrite Z2Nat.id by lia; reflexivity |].
  apply elem_of_seq. lia.
Qed.

Lemma device_poll_returns_witness :
  cache_wf (sDeviceCache polling_example) /\
  Forall descriptor_wf (polled_devices table_example polling_example) /\
  (length (sDeviceCache polling_example) <= 255)%nat /\
  (active_entries (sDeviceCache polling_example) + 2 <=
   length (sDeviceCache polling_example))%nat /\
  exists r p',
    otPlatRadioIsDeviceActive table_example addr_example polling_example =
      Some (r, p') /\
    calls p' = [MLME_GET_macDeviceTable 0; MLME_GET_macDeviceTable 1].
Proof.
  assert (H1 : cache_wf (sDeviceCache polling_example)).
  { unfold cache_wf, entry_sized. apply (bool_decide_unpack _).
    vm_compute. exact I. }
  assert (H2 : Forall descriptor_wf
                 (polled_devices table_example polling_example)).
  { unfold descriptor_wf. apply (bool_decide_unpack _).
    vm_compute. exact I. }
  assert (H3 : (length (sDeviceCache polling_example) <= 255)%nat)
    by (vm_compute; lia).
  assert (H4 : (active_entries (sDeviceCache polling_example) +
                Z.to_nat (sCurDeviceTableSize (radio_of polling_example)) <=
                length (sDeviceCache polling_example))%nat)
    by (vm_compute; lia).
  split; [exact H1 |]. split; [exact H2 |]. split; [exact H3 |].
  split; [exact H4 |].
  destruct (device_poll_returns table_example addr_example polling_example
              H1 H2 H3 H4)
    as (r & p' & Hr & _ & _ & _ & _ & Hcalls & _).
  exists r, p'. split; [exact Hr | exact Hcalls].
Defined.

Lemma device_active_iff_counter_moved_witness :
  cache_wf (sDeviceCache polling_example) /\
  Forall descriptor_wf (polled_devices table_example polling_example) /\
  otPlatRadioIsDeviceActive table_example addr_example polling_example =
    Some (1, polled_example.2) /\
  forall r2 p2,
    otPlatRadioIsDeviceActive table_example addr_example polled_example.2 =
      Some (r2, p2) ->
    r2 = 0.
Proof.
  assert (H1 : cache_wf (sDeviceCache polling_example)).
  { unfold cache_wf, entry_sized. apply (bool_decide_unpack _).
    vm_compute. exact I. }
  assert (H2 : Forall descriptor_wf
                 (polled_devices table_example polling_example)).
  { unfold descriptor_wf. apply (bool_decide_unpack _).
    vm_compute. exact I. }
  assert (H3 : otPlatRadioIsDeviceActive table_example addr_example
                 polling_example = Some (1, polled_example.2))
    by (vm_compute; reflexivity).
  split; [exact H1 |]. split; [exact H2 |]. split; [exact H3 |].
  exact (proj2 (device_active_iff_counter_moved table_example addr_example
                  polling_example 1 polled_example.2 H1 H2 H3)).
Defined.

Lemma full_cache_overflows_witness :
  (length (sDeviceCache full_example) <= 255)%nat /\
  Forall (fun d => isActive d <> 0) (sDeviceCache full_example) /\
  0 <= 1 < sCurDeviceTableSize (radio_of full_example) /\
  cached (dd_ExtAddress (table_example 1)) (sDeviceCache full_example) =
    None /\
  otPlatRadioIsDeviceActive table_example addr_example full_example = None.
Proof.
  assert (H1 : (length (sDeviceCache full_example) <= 255)%nat)
    by (vm_compute; lia).
  assert (H2 : Forall (fun d => isActive d <> 0)
                 (sDeviceCache full_example)).
  { apply (bool_decide_unpack _). vm_compute. exact I. }
  assert (H3 : 0 <= 1 < sCurDeviceTableSize (radio_of full_example))
    by (vm_compute; split; [discriminate | reflexivity]).
  assert (H4 : cached (dd_ExtAddress (table_example 1))
                 (sDeviceCache full_example) = None)
    by (vm_compute; reflexivity).
  split; [exact H1 |]. split; [exact H2 |]. split; [exact H3 |].
  split; [exact H4 |].
  exact (full_cache_overflows table_example addr_example full_example 1
           H1 H2 H3 H4).
Defined.

(** ** The barrier *)

Ltac barrier_simpl :=
  cbn [mbarrier_waiting barrier_mutex main_at workers_at selfpipe_pushes
       set_mbarrier_waiting set_barrier_mutex set_main_at set_workers_at
       set_worker_at selfpipe_push pthread_cond_broadcast] in *.

Lemma main_ok_wake v o pc : main_ok v o (wake_main pc) = main_ok v o pc.
Proof. destruct pc, o, v; reflexivity. Qed.

Lemma worker_ok_wake v o pc :
  worker_ok v o (wake_worker pc) = worker_ok v o pc.
Proof. destruct pc, o, v; reflexivity. Qed.

Lemma engaged_wake pc : engaged (wake_worker pc) = engaged pc.
Proof. destruct pc; reflexivity. Qed.

(** What a thread that holds the mutex may do to [mbarrier_waiting]
    without harm to the threads that do not hold it. *)
Lemma worker_ok_waiting pc :
  worker_ok NOT_WAITING false pc = true ->
  worker_ok WAITING false pc = true /\ engaged pc = false.
Proof. destruct pc; cbn; intros H; try discriminate; split; reflexivity. Qed.

Lemma main_ok_waiting pc :
  main_ok NOT_WAITING false pc = true -> main_ok WAITING false pc = true.
Proof. destruct pc; cbn; intros H; try discriminate; reflexivity. Qed.

Lemma worker_ok_done pc :
  worker_ok GREENLIGHT false pc = true -> engaged pc = false ->
  worker_ok DONE false pc = true.
Proof. destruct pc; cbn; intros H E; try discriminate; reflexivity. Qed.

Lemma main_ok_done pc :
  main_ok GREENLIGHT false pc = true -> main_ok DONE false pc = true.
Proof. destruct pc; cbn; intros H; try discriminate; reflexivity. Qed.

Lemma worker_ok_greenlight pc :
  worker_ok WAITING false pc = true -> worker_ok GREENLIGHT false pc = true.
Proof. destruct pc; cbn; intros H; try discriminate; reflexivity. Qed.

Lemma worker_ok_reset v pc :
  v = NOT_WAITING \/ v = DONE ->
  worker_ok v false pc = true -> worker_ok NOT_WAITING false pc = true.
Proof.
  intros [-> | ->]; destruct pc; cbn; intros H; try discriminate;
    reflexivity.
Qed.

Lemma barrier_inv_init n : barrier_inv (barrier_init n).
Proof.
  unfold barrier_inv, barrier_init. barrier_simpl.
  split; [reflexivity |]. split.
  - intros j w Hj. apply lookup_replicate in Hj as [-> _]. reflexivity.
  - intros i j wi wj Hi _ Ei. apply lookup_replicate in Hi as [-> _].
    discriminate.
Qed.

Lemma barrier_inv_broadcast s :
  barrier_inv s -> barrier_inv (pthread_cond_broadcast s).
Proof.
  intros (Hm & Hw & Hu). unfold barrier_inv. barrier_simpl.
  split; [rewrite main_ok_wake; exact Hm |]. split.
  - intros j w Hj. rewrite list_lookup_fmap in Hj.
    destruct (workers_at s !! j) as [w0 |] eqn:H0; [| discriminate].
    injection Hj as <-. rewrite worker_ok_wake. apply Hw. exact H0.
  - intros i j wi wj Hi Hj. rewrite list_lookup_fmap in Hi, Hj.
    destruct (workers_at s !! i) as [wi0 |] eqn:Hi0; [| discriminate].
    destruct (workers_at s !! j) as [wj0 |] eqn:Hj0; [| discriminate].
    injection Hi as <-. injection Hj as <-. rewrite !engaged_wake.
    apply Hu; assumption.
Qed.

Lemma barrier_inv_selfpipe_push s :
  barrier_inv s -> barrier_inv (selfpipe_push s).
Proof. intros H. exact H. Qed.

(** The steps of a worker by what they do to the mutex and to
    [mbarrier_waiting]. *)
Lemma engaged_unique_insert (ws : list worker_pc) i w w' :
  (forall i j wi wj,
     ws !! i = Some wi -> ws !! j = Some wj ->
     engaged wi = true -> engaged wj = true -> i = j) ->
  ws !! i = Some w ->
  (engaged w' = true ->
   engaged w = true \/
   forall j wj, j <> i -> ws !! j = Some wj -> engaged wj = false) ->
  forall a b wa wb,
    <[i := w']> ws !! a = Some wa -> <[i := w']> ws !! b = Some wb ->
    engaged wa = true -> engaged wb = true -> a = b.
Proof.
  intros Hu Hi He a b wa wb Ha Hb Ea Eb.
  destruct (decide (a = b)) as [| Hab]; [assumption | exfalso].
  apply list_lookup_insert_Some in Ha, Hb.
  destruct Ha as [(-> & <- & _) | [Hai Ha]],
           Hb as [(-> & <- & _) | [Hbi Hb]].
  - contradiction.
  - destruct (He Ea) as [E | E].
    + apply Hbi. eapply Hu; eassumption.
    + rewrite (E b wb) in Eb by (try assumption; congruence). discriminate.
  - destruct (He Eb) as [E | E].
    + apply Hai. eapply Hu; eassumption.
    + rewrite (E a wa) in Ea by (try assumption; congruence). discriminate.
  - apply Hab. eapply Hu; eassumption.
Qed.

Lemma barrier_inv_worker s i w w' :
  barrier_inv s -> workers_at s !! i = Some w ->
  worker_ok (mbarrier_waiting s)
    (bool_decide (barrier_mutex s = Some (Worker i))) w' = true ->
  (engaged w' = true -> engaged w = true) ->
  barrier_inv (set_worker_at i w' s).
Proof.
  intros (Hm & Hw & Hu) Hi Hok He. unfold barrier_inv. barrier_simpl.
  split; [exact Hm |]. split.
  - intros j wj Hj. apply list_lookup_insert_Some in Hj.
    destruct Hj as [(-> & <- & _) | [_ Hj]]; [exact Hok | apply Hw, Hj].
  - apply (engaged_unique_insert _ _ w); [exact Hu | exact Hi |].
    intros E. left. apply He, E.
Qed.

Lemma barrier_inv_worker_lock s i w w' :
  barrier_inv s -> workers_at s !! i = Some w ->
  barrier_mutex s = None ->
  worker_ok (mbarrier_waiting s) true w' = true ->
  (engaged w' = true -> engaged w = true) ->
  barrier_inv (set_worker_at i w' (set_barrier_mutex (Some (Worker i)) s)).
Proof.
  intros (Hm & Hw & Hu) Hi Hnone Hok He. unfold barrier_inv. barrier_simpl.
  rewrite Hnone in Hm, Hw. split; [exact Hm |]. split.
  - intros j wj Hj. apply list_lookup_insert_Some in Hj.
    destruct Hj as [(-> & <- & _) | [Hne Hj]].
    + rewrite bool_decide_eq_true_2 by reflexivity. exact Hok.
    + rewrite bool_decide_eq_false_2 by congruence. apply (Hw j), Hj.
  - apply (engaged_unique_insert _ _ w); [exact Hu | exact Hi |].
    intros E. left. apply He, E.
Qed.

Lemma barrier_inv_worker_release s i w w' :
  barrier_inv s -> workers_at s !! i = Some w ->
  barrier_mutex s = Some (Worker i) ->
  worker_ok (mbarrier_waiting s) false w' = true ->
  (engaged w' = true -> engaged w = true) ->
  barrier_inv (set_worker_at i w' (set_barrier_mutex None s)).
Proof.
  intros (Hm & Hw & Hu) Hi Hown Hok He. unfold barrier_inv. barrier_simpl.
  rewrite Hown in Hm, Hw. split; [exact Hm |]. split.
  - intros j wj Hj. apply list_lookup_insert_Some in Hj.
    destruct Hj as [(-> & <- & _) | [Hne Hj]]; [exact Hok |].
    specialize (Hw j wj Hj).
    rewrite bool_decide_eq_false_2 in Hw by congruence. exact Hw.
  - apply (engaged_unique_insert _ _ w); [exact Hu | exact Hi |].
    intros E. left. apply He, E.
Qed.

Lemma barrier_inv_worker_waiting s i :
  barrier_inv s -> workers_at s !! i = Some W_waiting ->
  barrier_inv (set_worker_at i W_broadcast1 (set_mbarrier_waiting WAITING s)).
Proof.
  intros (Hm & Hw & Hu) Hi. unfold barrier_inv. barrier_simpl.
  pose proof (Hw i _ Hi) as Hown.
  destruct (mbarrier_waiting s) eqn:Hv;
    destruct (bool_decide (barrier_mutex s = Some (Worker i))) eqn:Ho;
    try discriminate.
  apply bool_decide_eq_true_1 in Ho. rewrite Ho in Hm, Hw |- *.
  assert (Hothers : forall j wj,
            j <> i -> workers_at s !! j = Some wj ->
            worker_ok WAITING false wj = true /\ engaged wj = false).
  { intros j wj Hne Hj. apply worker_ok_waiting.
    specialize (Hw j wj Hj).
    rewrite bool_decide_eq_false_2 in Hw by congruence. exact Hw. }
  split; [apply main_ok_waiting; exact Hm |]. split.
  - intros j wj Hj. apply list_lookup_insert_Some in Hj.
    destruct Hj as [(-> & <- & _) | [Hne Hj]].
    + rewrite bool_decide_eq_true_2 by reflexivity. reflexivity.
    + rewrite bool_decide_eq_false_2 by congruence.
      apply (Hothers j); [congruence | exact Hj].
  - apply (engaged_unique_insert _ _ W_waiting); [exact Hu | exact Hi |].
    intros _. right. intros j wj Hne Hj. apply (Hothers j); assumption.
Qed.

Lemma barrier_inv_worker_done s i :
  barrier_inv s -> workers_at s !! i = Some W_work ->
  barrier_inv (set_worker_at i W_broadcast2 (set_mbarrier_waiting DONE s)).
Proof.
  intros (Hm & Hw & Hu) Hi. unfold barrier_inv. barrier_simpl.
  pose proof (Hw i _ Hi) as Hown.
  destruct (mbarrier_waiting s) eqn:Hv;
    destruct (bool_decide (barrier_mutex s = Some (Worker i))) eqn:Ho;
    try discriminate.
  apply bool_decide_eq_true_1 in Ho. rewrite Ho in Hm, Hw |- *.
  split; [apply main_ok_done; exact Hm |]. split.
  - intros j wj Hj. apply list_lookup_insert_Some in Hj.
    destruct Hj as [(-> & <- & _) | [Hne Hj]].
    + rewrite bool_decide_eq_true_2 by reflexivity. reflexivity.
    + rewrite bool_decide_eq_false_2 by congruence.
      specialize (Hw j wj Hj).
      rewrite bool_decide_eq_false_2 in Hw by congruence.
      apply worker_ok_done; [exact Hw |].
      destruct (engaged wj) eqn:E; [| reflexivity].
      exfalso. apply Hne. symmetry.
      eapply Hu; try eassumption; try reflexivity.
  - apply (engaged_unique_insert _ _ W_work); [exact Hu | exact Hi |].
    intros _. left. reflexivity.
Qed.

(** The steps of the main thread. *)
Lemma barrier_inv_main s pc :
  barrier_inv s ->
  main_ok (mbarrier_waiting s) (bool_decide (barrier_mutex s = Some Main))
    pc = true ->
  barrier_inv (set_main_at pc s).
Proof. intros (_ & Hw & Hu) Hok. split; [exact Hok |]. split; assumption. Qed.

Lemma barrier_inv_main_lock s pc :
  barrier_inv s -> barrier_mutex s = None ->
  main_ok (mbarrier_waiting s) true pc = true ->
  barrier_inv (set_main_at pc (set_barrier_mutex (Some Main) s)).
Proof.
  intros (_ & Hw & Hu) Hnone Hok. unfold barrier_inv. barrier_simpl.
  rewrite Hnone in Hw.
  split; [rewrite bool_decide_eq_true_2 by reflexivity; exact Hok |].
  split; [| exact Hu].
  intros j wj Hj. rewrite bool_decide_eq_false_2 by congruence.
  apply (Hw j), Hj.
Qed.

Lemma barrier_inv_main_release s pc :
  barrier_inv s -> barrier_mutex s = Some Main ->
  main_ok (mbarrier_waiting s) false pc = true ->
  barrier_inv (set_main_at pc (set_barrier_mutex None s)).
Proof.
  intros (_ & Hw & Hu) Hown Hok. unfold barrier_inv. barrier_simpl.
  rewrite Hown in Hw. split; [exact Hok |]. split; [| exact Hu].
  intros j wj Hj. specialize (Hw j wj Hj).
  rewrite bool_decide_eq_false_2 in Hw by congruence. exact Hw.
Qed.

Lemma barrier_inv_main_greenlight s :
  barrier_inv s -> main_at s = M_greenlight ->
  barrier_inv (set_main_at M_broadcast1 (set_mbarrier_waiting GREENLIGHT s)).
Proof.
  intros (Hm & Hw & Hu) Hpc. unfold barrier_inv. barrier_simpl.
  rewrite Hpc in Hm.
  destruct (mbarrier_waiting s) eqn:Hv;
    destruct (bool_decide (barrier_mutex s = Some Main)) eqn:Ho;
    try discriminate.
  apply bool_decide_eq_true_1 in Ho. rewrite Ho in Hw |- *.
  split; [reflexivity |]. split; [| exact Hu].
  intros j wj Hj. specialize (Hw j wj Hj).
  rewrite bool_decide_eq_false_2 in Hw |- * by congruence.
  apply worker_ok_greenlight. exact Hw.
Qed.

Lemma barrier_inv_main_reset s :
  barrier_inv s -> main_at s = M_reset ->
  barrier_inv
    (set_main_at M_broadcast2 (set_mbarrier_waiting NOT_WAITING s)).
Proof.
  intros (Hm & Hw & Hu) Hpc. unfold barrier_inv. barrier_simpl.
  rewrite Hpc in Hm.
  assert (Hv : (mbarrier_waiting s = NOT_WAITING \/
                mbarrier_waiting s = DONE) /\
               barrier_mutex s = Some Main).
  { destruct (decide (barrier_mutex s = Some Main)) as [Ho | Ho];
      [rewrite (bool_decide_eq_true_2 _ Ho) in Hm
      | rewrite (bool_decide_eq_false_2 _ Ho) in Hm];
      destruct (mbarrier_waiting s); try discriminate;
      (split; [tauto | exact Ho]). }
  destruct Hv as [Hv Ho]. rewrite Ho in Hw |- *.
  split; [reflexivity |]. split; [| exact Hu].
  intros j wj Hj. specialize (Hw j wj Hj).
  rewrite bool_decide_eq_false_2 in Hw |- * by congruence.
  eapply worker_ok_reset; eassumption.
Qed.

Ltac split_owner t s :=
  let Ho := fresh "Ho" in
  destruct (decide (barrier_mutex s = Some t)) as [Ho | Ho];
  [rewrite (bool_decide_eq_true_2 _ Ho) in *
  | rewrite (bool_decide_eq_false_2 _ Ho) in *].

Ltac ok_goal :=
  barrier_simpl;
  repeat match goal with
         | H : mbarrier_waiting _ = _ |- _ => rewrite H
         | H : barrier_mutex _ = _ |- _ => rewrite H
         end;
  try (rewrite bool_decide_eq_false_2 by congruence);
  try (rewrite bool_decide_eq_true_2 by congruence);
  first [reflexivity | discriminate | tauto].

(** A step of the main thread keeps the invariant and is defined. *)
Lemma main_step_inv s :
  barrier_inv s ->
  match main_step s with
  | Next s' => barrier_inv s'
  | Blocked => True
  | UndefinedBehaviour => False
  end.
Proof.
  intros Hinv. pose proof Hinv as (Hm & _ & _).
  unfold main_step, pthread_mutex_lock, pthread_mutex_unlock,
    pthread_cond_wait.
  destruct (main_at s) eqn:Hpc; split_owner Main s;
    destruct (mbarrier_waiting s) eqn:Hv; try discriminate Hm;
    cbn [bool_decide decide_rel];
    try match goal with
        | H : barrier_mutex s = Some Main |- _ => rewrite H
        end.
  all: try (apply barrier_inv_main; [exact Hinv | ok_goal]).
  all: try (destruct (barrier_mutex s) eqn:Hmx; [exact I |];
            apply barrier_inv_main_lock; [exact Hinv | exact Hmx | ok_goal]).
  all: try (apply barrier_inv_main_greenlight; [exact Hinv | exact Hpc]).
  all: try (apply barrier_inv_main_reset; [exact Hinv | exact Hpc]).
  all: try (apply barrier_inv_main;
            [apply barrier_inv_broadcast; exact Hinv | ok_goal]).
  all: try (try rewrite bool_decide_eq_true_2 by discriminate;
            apply barrier_inv_main_release;
            [exact Hinv | assumption | ok_goal]).
  all: try exact I.
Qed.

(** A step of a worker keeps the invariant and is defined. *)
Lemma worker_step_inv i s :
  barrier_inv s ->
  match worker_step i s with
  | Next s' => barrier_inv s'
  | Blocked => True
  | UndefinedBehaviour => False
  end.
Proof.
  intros Hinv. pose proof Hinv as (_ & Hw & _).
  unfold worker_step, pthread_mutex_lock, pthread_mutex_unlock,
    pthread_cond_wait.
  destruct (workers_at s !! i) as [w |] eqn:Hi; [| exact I].
  specialize (Hw i w Hi).
  destruct w; split_owner (Worker i) s;
    destruct (mbarrier_waiting s) eqn:Hv; try discriminate Hw;
    cbn [bool_decide decide_rel];
    try match goal with
        | H : barrier_mutex s = Some (Worker i) |- _ => rewrite H
        end.
  all: try exact I.
  all: try (eapply barrier_inv_worker;
            [exact Hinv | exact Hi | ok_goal | ok_goal]).
  all: try (destruct (barrier_mutex s) eqn:Hmx; [exact I |];
            eapply barrier_inv_worker_lock;
            [exact Hinv | exact Hi | exact Hmx | ok_goal | ok_goal]).
  all: try (apply barrier_inv_worker_waiting; [exact Hinv | exact Hi]).
  all: try (apply barrier_inv_worker_done; [exact Hinv | exact Hi]).
  all: try (eapply (barrier_inv_worker (selfpipe_push s));
            [apply barrier_inv_selfpipe_push; exact Hinv | exact Hi
            | ok_goal | ok_goal]).
  all: try (eapply (barrier_inv_worker (pthread_cond_broadcast s));
            [apply barrier_inv_broadcast; exact Hinv
            | barrier_simpl; rewrite list_lookup_fmap, Hi; reflexivity
            | ok_goal | ok_goal]).
  all: try (try rewrite bool_decide_eq_true_2 by discriminate;
            eapply barrier_inv_worker_release;
            [exact Hinv | exact Hi | assumption | ok_goal | ok_goal]).
Qed.

Lemma spurious_wakeup_inv t s :
  barrier_inv s ->
  match spurious_wakeup t s with
  | Next s' => barrier_inv s'
  | Blocked => True
  | UndefinedBehaviour => False
  end.
Proof.
  intros Hinv. pose proof Hinv as (Hm & Hw & _).
  destruct t as [| i]; cbn [spurious_wakeup].
  - destruct (main_at s) eqn:Hpc; try exact I.
    apply barrier_inv_main; [exact Hinv |].
    destruct (mbarrier_waiting s),
      (bool_decide (barrier_mutex s = Some Main));
      try discriminate Hm; reflexivity.
  - destruct (workers_at s !! i) as [w |] eqn:Hi; [| exact I].
    specialize (Hw i w Hi).
    destruct w; try exact I;
      (eapply barrier_inv_worker; [exact Hinv | exact Hi | | tauto]);
      destruct (mbarrier_waiting s),
        (bool_decide (barrier_mutex s = Some (Worker i)));
      try discriminate Hw; reflexivity.
Qed.

Lemma barrier_step_inv a s :
  barrier_inv s ->
  match barrier_step a s with
  | Next s' => barrier_inv s'
  | Blocked => True
  | UndefinedBehaviour => False
  end.
Proof.
  intros Hinv. destruct a as [[| i] | t]; cbn [barrier_step].
  - apply main_step_inv, Hinv.
  - apply worker_step_inv, Hinv.
  - apply spurious_wakeup_inv, Hinv.
Qed.

Lemma barrier_run_inv schedule :
  forall s,
    barrier_inv s ->
    match barrier_run schedule s with
    | Next s' => barrier_inv s'
    | Blocked => True
    | UndefinedBehaviour => False
    end.
Proof.
  induction schedule as [| a rest IH]; intros s Hinv; cbn [barrier_run].
  - exact Hinv.
  - pose proof (barrier_step_inv a s Hinv) as Hstep.
    destruct (barrier_step a s) as [s' | |]; [| exact I | contradiction].
    apply IH, Hstep.
Qed.

(** X22.  The barrier keeps the worker's calls into the stack apart from
    the main thread.  Whatever the number of worker threads and however
    the threads are scheduled, also with spurious wake-ups: while a worker
    is in its work, between [barrier_worker_waitForMain] and
    [barrier_worker_endWork], the main thread is inside
    [barrier_main_letWorkerWork], in the [pthread_cond_wait] of its loop;
    [mbarrier_waiting] is [GREENLIGHT]; the worker holds the mutex; and no
    other worker is in its work. *)
Theorem barrier_mutual_exclusion (n : nat) (schedule : list action)
    (s : barrier) (i : nat) :
  barrier_run schedule (barrier_init n) = Next s ->
  workers_at s !! i = Some W_work ->
  (main_at s = M_blocked \/ main_at s = M_relock) /\
  mbarrier_waiting s = GREENLIGHT /\
  barrier_mutex s = Some (Worker i) /\
  forall j, workers_at s !! j = Some W_work -> j = i.
Proof.
  intros Hrun Hi.
  pose proof (barrier_run_inv schedule _ (barrier_inv_init n)) as Hinv.
  rewrite Hrun in Hinv. destruct Hinv as (Hm & Hw & Hu).
  specialize (Hw i _ Hi).
  destruct (decide (barrier_mutex s = Some (Worker i))) as [Ho | Ho];
    [rewrite (bool_decide_eq_true_2 _ Ho) in Hw
    | rewrite (bool_decide_eq_false_2 _ Ho) in Hw];
    destruct (mbarrier_waiting s) eqn:Hv; try discriminate Hw.
  rewrite Ho in Hm. rewrite bool_decide_eq_false_2 in Hm by discriminate.
  split; [destruct (main_at s); try discriminate Hm; tauto |].
  split; [reflexivity |]. split; [exact Ho |].
  intros j Hj. eapply Hu; try eassumption; reflexivity.
Qed.

Lemma barrier_mutual_exclusion_witness :
  barrier_run schedule_example (barrier_init 2) =
    Next (mkBarrier GREENLIGHT (Some (Worker 0)) M_blocked [W_work; W_idle]
            1) /\
  main_at (mkBarrier GREENLIGHT (Some (Worker 0)) M_blocked
             [W_work; W_idle] 1) = M_blocked.
Proof.
  assert (H : barrier_run schedule_example (barrier_init 2) =
              Next (mkBarrier GREENLIGHT (Some (Worker 0)) M_blocked
                      [W_work; W_idle] 1)) by (vm_compute; reflexivity).
  split; [exact H |].
  destruct (barrier_mutual_exclusion 2 schedule_example _ 0%nat H eq_refl)
    as ([Hm | Hm] & _); [exact Hm | discriminate Hm].
Defined.

(** X23.  The barrier never uses the mutex without holding it.  Whatever
    the number of worker threads and however the threads are scheduled,
    no thread reaches [pthread_mutex_unlock] or [pthread_cond_wait]
    without holding [barrier_mutex]: in particular the unlock of
    [barrier_worker_endWork] always finds the mutex that
    [barrier_worker_waitForMain] has left locked. *)
Theorem barrier_mutex_held (n : nat) (schedule : list action) :
  barrier_run schedule (barrier_init n) <> UndefinedBehaviour.
Proof.
  pose proof (barrier_run_inv schedule _ (barrier_inv_init n)) as Hinv.
  intros H. rewrite H in Hinv. exact Hinv.
Qed.

Lemma wake_worker_awake (ws : list worker_pc) j w :
  (wake_worker <$> ws) !! j = Some w -> w <> W_blocked1 /\ w <> W_blocked2.
Proof.
  rewrite list_lookup_fmap. destruct (ws !! j) as [w0 |]; [| discriminate].
  intros [= <-]. destruct w0; split; discriminate.
Qed.

(** After a broadcast no thread is blocked. *)
Lemma wakeups_ok_broadcast_main v pc' ws :
  pc' <> M_blocked -> wakeups_ok v pc' (wake_worker <$> ws).
Proof.
  intros Hpc. split; [intros H; contradiction |].
  split; intros j Hj; apply wake_worker_awake in Hj as [H1 H2];
    contradiction.
Qed.

Lemma wakeups_ok_broadcast_worker v pc ws i w' :
  w' <> W_blocked1 -> w' <> W_blocked2 ->
  wakeups_ok v (wake_main pc) (<[i := w']> (wake_worker <$> ws)).
Proof.
  intros H1 H2. split; [destruct pc; discriminate |].
  split; intros j Hj; apply list_lookup_insert_Some in Hj;
    destruct Hj as [(_ & Hw & _) | [_ Hj]];
    [contradiction | apply wake_worker_awake in Hj as [H3 H4]; contradiction
    | contradiction
    | apply wake_worker_awake in Hj as [H3 H4]; contradiction].
Qed.

(** A step of a worker that is not a broadcast and leaves
    [mbarrier_waiting] alone. *)
Lemma wakeups_ok_worker v pc ws i w w' :
  wakeups_ok v pc ws -> ws !! i = Some w -> w <> W_broadcast2 ->
  (w' = W_blocked1 -> v <> NOT_WAITING) ->
  (w' = W_blocked2 -> v <> GREENLIGHT) ->
  wakeups_ok v pc (<[i := w']> ws).
Proof.
  intros (Hm & H1 & H2) Hi Hw Hb1 Hb2. split; [| split].
  - intros Hpc Hv. destruct (Hm Hpc Hv) as [k Hk]. exists k.
    rewrite list_lookup_insert_ne; [exact Hk |]. congruence.
  - intros j Hj Hv. apply list_lookup_insert_Some in Hj.
    destruct Hj as [(_ & Hw' & _) | [_ Hj]].
    + exfalso. apply Hb1; [exact Hw' | exact Hv].
    + eapply H1; eassumption.
  - intros j Hj Hv. apply list_lookup_insert_Some in Hj.
    destruct Hj as [(_ & Hw' & _) | [_ Hj]].
    + exfalso. apply Hb2; [exact Hw' | exact Hv].
    + eapply H2; eassumption.
Qed.

Lemma wakeups_ok_worker_waiting pc ws i w :
  ws !! i = Some w ->
  wakeups_ok WAITING pc (<[i := W_broadcast1]> ws).
Proof.
  intros Hi. split; [discriminate |]. split; discriminate.
Qed.

Lemma wakeups_ok_worker_done pc ws i w :
  ws !! i = Some w ->
  wakeups_ok DONE pc (<[i := W_broadcast2]> ws).
Proof.
  intros Hi. split; [| split; discriminate].
  intros _ _. exists i. apply list_lookup_insert_eq.
  eapply lookup_lt_Some. exact Hi.
Qed.

(** A step of the main thread that is not a broadcast and leaves
    [mbarrier_waiting] alone. *)
Lemma wakeups_ok_main v pc pc' ws :
  wakeups_ok v pc ws -> pc <> M_broadcast1 -> pc <> M_broadcast2 ->
  (pc' = M_blocked -> v <> DONE) ->
  wakeups_ok v pc' ws.
Proof.
  intros (Hm & H1 & H2) Hp1 Hp2 Hb. split; [| split].
  - intros Hpc Hv. exfalso. apply Hb; assumption.
  - intros j Hj Hv. exfalso. apply Hp2. eapply H1; eassumption.
  - intros j Hj Hv. exfalso. apply Hp1. eapply H2; eassumption.
Qed.

Lemma wakeups_ok_main_greenlight ws :
  wakeups_ok GREENLIGHT M_broadcast1 ws.
Proof. split; [discriminate |]. split; [discriminate | reflexivity]. Qed.

Lemma wakeups_ok_main_reset ws :
  wakeups_ok NOT_WAITING M_broadcast2 ws.
Proof. split; [discriminate |]. split; [reflexivity | discriminate]. Qed.

Lemma barrier_step_wakeups a s :
  barrier_inv s -> barrier_wakeups s ->
  match barrier_step a s with
  | Next s' => barrier_wakeups s'
  | _ => True
  end.
Proof.
  unfold barrier_wakeups. intros (Hm & Hw & _) Hinv.
  destruct a as [[| i] | [| i]];
    unfold barrier_step, main_step, worker_step, spurious_wakeup,
      pthread_mutex_lock, pthread_mutex_unlock, pthread_cond_wait.
  - destruct (main_at s) eqn:Hpc;
      repeat case_bool_decide;
      try destruct (barrier_mutex s);
      try exact I; barrier_simpl.
    all: try (apply wakeups_ok_broadcast_main; discriminate).
    all: try apply wakeups_ok_main_greenlight.
    all: try apply wakeups_ok_main_reset.
    all: try (eapply wakeups_ok_main; [exact Hinv | discriminate..| ];
              first [discriminate
                    | intros _ Hv; rewrite Hv in Hm; discriminate Hm]).
  - destruct (workers_at s !! i) as [w |] eqn:Hi; [| exact I].
    specialize (Hw i w Hi).
    destruct w;
      repeat case_bool_decide;
      try destruct (barrier_mutex s);
      try exact I; barrier_simpl.
    all: try (apply wakeups_ok_broadcast_worker; discriminate).
    all: try (eapply wakeups_ok_worker_waiting; exact Hi).
    all: try (eapply wakeups_ok_worker_done; exact Hi).
    all: try (eapply wakeups_ok_worker;
              [exact Hinv | exact Hi | discriminate | |];
              first [discriminate
                    | intros _ Hv; rewrite Hv in Hw; discriminate Hw]).
  - destruct (main_at s) eqn:Hpc; try exact I. barrier_simpl.
    eapply wakeups_ok_main; [exact Hinv | discriminate.. ].
  - destruct (workers_at s !! i) as [w |] eqn:Hi; [| exact I].
    destruct w; try exact I; barrier_simpl;
      (eapply wakeups_ok_worker;
       [exact Hinv | exact Hi | discriminate..]).
Qed.

Lemma barrier_run_wakeups schedule :
  forall s,
    barrier_inv s -> barrier_wakeups s ->
    match barrier_run schedule s with
    | Next s' => barrier_wakeups s'
    | _ => True
    end.
Proof.
  induction schedule as [| a rest IH]; intros s Hinv Hwk; cbn [barrier_run].
  - exact Hwk.
  - pose proof (barrier_step_wakeups a s Hinv Hwk) as Hstep.
    pose proof (barrier_step_inv a s Hinv) as Hstep'.
    destruct (barrier_step a s) as [s' | |]; [| exact I | exact I].
    apply IH; assumption.
Qed.

(** X24.  The barrier loses no wake-up.  Whatever the number of worker
    threads and however the threads are scheduled: when the main thread is
    blocked in the [pthread_cond_wait] of its loop although
    [mbarrier_waiting] is [DONE], a worker is about to broadcast, in
    [barrier_worker_endWork]; when a worker is blocked in the first loop of
    [barrier_worker_waitForMain] although [mbarrier_waiting] is
    [NOT_WAITING], or in the second although it is [GREENLIGHT], the main
    thread is about to broadcast, after the assignment of this value. *)
Theorem barrier_no_lost_wakeup (n : nat) (schedule : list action)
    (s : barrier) :
  barrier_run schedule (barrier_init n) = Next s ->
  (main_at s = M_blocked -> mbarrier_waiting s = DONE ->
   exists i, workers_at s !! i = Some W_broadcast2) /\
  (forall j, workers_at s !! j = Some W_blocked1 ->
             mbarrier_waiting s = NOT_WAITING ->
             main_at s = M_broadcast2) /\
  (forall j, workers_at s !! j = Some W_blocked2 ->
             mbarrier_waiting s = GREENLIGHT ->
             main_at s = M_broadcast1).
Proof.
  intros Hrun.
  assert (Hinit : barrier_wakeups (barrier_init n)).
  { split; [discriminate |].
    split; intros j Hj; apply lookup_replicate in Hj as [Hj _];
      discriminate. }
  pose proof (barrier_run_wakeups schedule _ (barrier_inv_init n) Hinit)
    as Hinv.
  rewrite Hrun in Hinv. exact Hinv.
Qed.

Lemma barrier_no_lost_wakeup_witness :
  barrier_run (schedule_example ++ [Step (Worker 0)]) (barrier_init 2) =
    Next (mkBarrier DONE (Some (Worker 0)) M_blocked
            [W_broadcast2; W_idle] 1) /\
  exists i, [W_broadcast2; W_idle] !! i = Some W_broadcast2.
Proof.
  assert (H : barrier_run (schedule_example ++ [Step (Worker 0)])
                (barrier_init 2) =
              Next (mkBarrier DONE (Some (Worker 0)) M_blocked
                      [W_broadcast2; W_idle] 1)) by (vm_compute; reflexivity).
  split; [exact H |].
  exact (proj1 (barrier_no_lost_wakeup 2 _ _ H) eq_refl eq_refl).
Defined.
